(** * news-evaluator-api: orchestration and aggregation pipeline

    A shallow embedding of the Python sources [utils.py], [scraper.py],
    [evaluate.py], [db.py] and [analysis.py], and the properties of the
    pipeline proved or refuted on it.

    Conventions of the embedding:
    - a Python [str] is a [string] (its bytes; ASCII text is what the gate,
      the fences and the JSON syntax look at);
    - a value decoded from JSON is a [json] tree; a [dict] keeps insertion
      order and unique keys, as Python's does;
    - a number written with a fraction or an exponent is carried as its
      decimal literal ([JFloat]): binary64 arithmetic is outside the
      model, and the one place where the code rounds, the percentages of
      the historical statistics, takes the rounding as an input that
      returns a nearest tenth;
    - code that can raise returns a [result]; the libraries the code
      calls (pydantic's validation, tenacity's retry loop, urllib's
      [urlparse], the [json] module) are modelled from their behaviour;
    - the network, the evaluator service, the store and the pool shuffle
      are inputs of a run ([analysis.World]). *)

From Stdlib Require Import String Ascii List ZArith Bool Arith Lia.
From Stdlib Require Import DecimalString.
From Stdlib Require DecimalPos DecimalN DecimalZ DecimalFacts.
Import ListNotations.

Set Warnings "-register-all,-abstract-large-number".
Local Open Scope list_scope.
Local Open Scope string_scope.

(* ===================================================================== *)
(** ** Exceptions and the result monad *)
(* ===================================================================== *)

Module Py.

(** The exception classes the pipeline can raise. [HTTPException] is
    FastAPI's, with its status code and detail text. *)
Inductive exn : Type :=
| HTTPException (status_code : Z) (detail : string)
| AttributeError (msg : string)
| TypeError (msg : string)
| IndexError (msg : string)
| UnboundLocalError (msg : string)
| ValidationError (msg : string)
| JSONDecodeError
| RuntimeError (msg : string).

Inductive result (A : Type) : Type :=
| Ok (a : A)
| Raise (e : exn).
Arguments Ok {A} a.
Arguments Raise {A} e.

Definition bind {A B} (m : result A) (k : A -> result B) : result B :=
  match m with
  | Ok a => k a
  | Raise e => Raise e
  end.

Definition is_ok {A} (m : result A) : bool :=
  match m with Ok _ => true | Raise _ => false end.

(** [try: m except Exception: h] *)
Definition try_except {A} (m : result A) (h : exn -> result A) : result A :=
  match m with
  | Ok a => Ok a
  | Raise e => h e
  end.

End Py.
Import Py.

Declare Scope py_scope.
Delimit Scope py_scope with py.
Notation "x <- m ;; k" := (Py.bind m (fun x => k))
  (at level 100, m at next level, right associativity) : py_scope.
Notation "' pat <- m ;; k" := (Py.bind m (fun x => match x with pat => k end))
  (at level 100, pat pattern, m at next level, right associativity) : py_scope.
Local Open Scope py_scope.

(* ===================================================================== *)
(** ** Python string operations *)
(* ===================================================================== *)

Module Str.

Definition chr (n : nat) : ascii := ascii_of_nat n.
Definition ord (c : ascii) : nat := nat_of_ascii c.

Definition between (lo hi : nat) (c : ascii) : bool :=
  (lo <=? ord c)%nat && (ord c <=? hi)%nat.

(** [str.isspace] on one-byte characters: TAB..CR, FS..US and SPACE.  The
    blanks outside ASCII that Python strips as well are not looked for. *)
Definition isspace (c : ascii) : bool := between 9 13 c || between 28 32 c.

Definition isdigit (c : ascii) : bool := between 48 57 c.

Definition is_char (c d : ascii) : bool := Ascii.eqb c d.

Fixpoint lstrip_by (p : ascii -> bool) (s : string) : string :=
  match s with
  | String c r => if p c then lstrip_by p r else s
  | EmptyString => EmptyString
  end.

Fixpoint rstrip_by (p : ascii -> bool) (s : string) : string :=
  match s with
  | EmptyString => EmptyString
  | String c r =>
      match rstrip_by p r with
      | EmptyString => if p c then EmptyString else String c EmptyString
      | r' => String c r'
      end
  end.

(** [s.strip()] and [s.strip(chars)] for a one-character [chars]. *)
Definition strip_by (p : ascii -> bool) (s : string) : string :=
  rstrip_by p (lstrip_by p s).
Definition strip (s : string) : string := strip_by isspace s.
Definition strip_char (c : ascii) (s : string) : string := strip_by (is_char c) s.

Fixpoint startswith (p s : string) : bool :=
  match p, s with
  | EmptyString, _ => true
  | String a p', String b s' => Ascii.eqb a b && startswith p' s'
  | String _ _, EmptyString => false
  end.

Fixpoint drop (n : nat) (s : string) : string :=
  match n, s with
  | O, _ => s
  | S n', String _ r => drop n' r
  | S _, EmptyString => EmptyString
  end.

Fixpoint take (n : nat) (s : string) : string :=
  match n, s with
  | O, _ => EmptyString
  | S n', String c r => String c (take n' r)
  | S _, EmptyString => EmptyString
  end.

(** [s.endswith(p)]: some suffix of [s] is [p]. *)
Fixpoint endswith (p s : string) : bool :=
  String.eqb s p ||
  match s with
  | EmptyString => false
  | String _ r => endswith p r
  end.

(** [sub in s] *)
Fixpoint contains (sub s : string) : bool :=
  startswith sub s ||
  match s with
  | EmptyString => false
  | String _ r => contains sub r
  end.

Definition lower_char (c : ascii) : ascii :=
  if between 65 90 c then chr (ord c + 32) else c.

Fixpoint lower (s : string) : string :=
  match s with
  | EmptyString => EmptyString
  | String c r => String (lower_char c) (lower r)
  end.

(** [s.replace(a, b)] for one-character [a] and [b]. *)
Fixpoint replace_char (a b : ascii) (s : string) : string :=
  match s with
  | EmptyString => EmptyString
  | String c r => String (if Ascii.eqb c a then b else c) (replace_char a b r)
  end.

(** [s.split(sep)] for a one-character separator: never empty. *)
Fixpoint split_char (sep : ascii) (s : string) : list string :=
  match s with
  | EmptyString => [EmptyString]
  | String c r =>
      if Ascii.eqb c sep then EmptyString :: split_char sep r
      else match split_char sep r with
           | [] => [String c EmptyString]
           | w :: ws => String c w :: ws
           end
  end.

Fixpoint has_char (c : ascii) (s : string) : bool :=
  match s with
  | EmptyString => false
  | String d r => Ascii.eqb c d || has_char c r
  end.

(** The text after a first character [c], when [s] starts with [c]. *)
Definition after_char (c : ascii) (s : string) : option string :=
  match s with
  | String d r => if Ascii.eqb d c then Some r else None
  | EmptyString => None
  end.

(** [str(n)] for an integer. *)
Definition of_Z (z : Z) : string := NilEmpty.string_of_int (Z.to_int z).

End Str.

(* ===================================================================== *)
(** ** JSON values, [json.loads] and [json.dumps] *)
(* ===================================================================== *)

Inductive json : Type :=
| JNull
| JBool (b : bool)
| JInt (z : Z)
| JFloat (literal : string)
| JStr (s : string)
| JArr (items : list json)
| JObj (members : list (string * json)).

Module Dict.

(** A [dict] with [str] keys: insertion-ordered, keys unique. *)
Definition t := list (string * json).

Fixpoint get (k : string) (d : t) : option json :=
  match d with
  | [] => None
  | (k', v) :: r => if String.eqb k k' then Some v else get k r
  end.

(** [d.get(k, default)] *)
Definition get_default (k : string) (default : json) (d : t) : json :=
  match get k d with Some v => v | None => default end.

(** [d[k] = v]: an existing key keeps its place. *)
Fixpoint set (k : string) (v : json) (d : t) : t :=
  match d with
  | [] => [(k, v)]
  | (k', v') :: r =>
      if String.eqb k k' then (k', v) :: r else (k', v') :: set k v r
  end.

(** [dict(pairs)] *)
Definition of_pairs (ps : list (string * json)) : t :=
  fold_left (fun d kv => set (fst kv) (snd kv) d) ps [].

End Dict.

Module Json.

(** *** Decoding: Python's [json.loads] (scanner, [py_scanstring],
    [JSONObject], [JSONArray]) *)

(** Outcome of a scanning function: the value and the text after it, a
    malformed text, or recursion budget used up (see [loads]). *)
Inductive scan (A : Type) : Type :=
| Scanned (a : A) (rest : string)
| Malformed
| Exhausted.
Arguments Scanned {A} a rest.
Arguments Malformed {A}.
Arguments Exhausted {A}.

(** [WHITESPACE = re.compile(r'[ \t\n\r]*')] *)
Definition is_ws (c : ascii) : bool :=
  Str.is_char c " " || Str.is_char c (Str.chr 9) ||
  Str.is_char c (Str.chr 10) || Str.is_char c (Str.chr 13).

Definition skip_ws (s : string) : string := Str.lstrip_by is_ws s.

Definition hex_val (c : ascii) : option N :=
  if Str.between 48 57 c then Some (N_of_ascii c - 48)%N
  else if Str.between 97 102 c then Some (N_of_ascii c - 87)%N
  else if Str.between 65 70 c then Some (N_of_ascii c - 55)%N
  else None.

(** The four hexadecimal digits after [\u]. *)
Definition decode_uXXXX (s : string) : option (N * string) :=
  match s with
  | String a (String b (String c (String d r))) =>
      match hex_val a, hex_val b, hex_val c, hex_val d with
      | Some x, Some y, Some z, Some w =>
          Some (((x * 16 + y) * 16 + z) * 16 + w, r)%N
      | _, _, _, _ => None
      end
  | _ => None
  end.

(** [chr(n)] as the bytes of its UTF-8 encoding. *)
Definition utf8 (n : N) : string :=
  let b (k : N) := String (ascii_of_N k) EmptyString in
  if N.ltb n 128 then b n
  else if N.ltb n 2048 then b (192 + n / 64)%N ++ b (128 + n mod 64)%N
  else if N.ltb n 65536 then
    b (224 + n / 4096)%N ++ b (128 + (n / 64) mod 64)%N ++ b (128 + n mod 64)%N
  else
    b (240 + n / 262144)%N ++ b (128 + (n / 4096) mod 64)%N ++
    b (128 + (n / 64) mod 64)%N ++ b (128 + n mod 64)%N.

(** One escape sequence, [s] starting after the backslash. *)
Definition scan_escape (s : string) : option (string * string) :=
  match s with
  | String c r =>
      if Str.is_char c "034" then Some (String "034" "", r)
      else if Str.is_char c "\" then Some ("\", r)
      else if Str.is_char c "/" then Some ("/", r)
      else if Str.is_char c "b" then Some (String (Str.chr 8) "", r)
      else if Str.is_char c "f" then Some (String (Str.chr 12) "", r)
      else if Str.is_char c "n" then Some (String (Str.chr 10) "", r)
      else if Str.is_char c "r" then Some (String (Str.chr 13) "", r)
      else if Str.is_char c "t" then Some (String (Str.chr 9) "", r)
      else if Str.is_char c "u" then
        match decode_uXXXX r with
        | Some (uni, r1) =>
            if ((55296 <=? uni) && (uni <=? 56319))%N then
              if Str.startswith "\u" r1 then
                match decode_uXXXX (Str.drop 2 r1) with
                | Some (uni2, r3) =>
                    if ((56320 <=? uni2) && (uni2 <=? 57343))%N then
                      Some (utf8 (65536 + (uni - 55296) * 1024
                                  + (uni2 - 56320))%N, r3)
                    else Some (utf8 uni, r1)
                | None => None
                end
              else Some (utf8 uni, r1)
            else Some (utf8 uni, r1)
        | None => None
        end
      else None
  | EmptyString => None
  end.

(** [py_scanstring(s, end, strict=True)], [s] starting after the opening
    quote: the decoded text and what follows the closing quote. *)
Fixpoint scanstring (fuel : nat) (s : string) : scan string :=
  match fuel with
  | O => Exhausted
  | S fuel' =>
      match s with
      | EmptyString => Malformed
      | String c r =>
          if Str.is_char c "034" then Scanned "" r
          else if Str.is_char c "\" then
            match scan_escape r with
            | Some (chunk, rest) =>
                match scanstring fuel' rest with
                | Scanned str rest' => Scanned (chunk ++ str) rest'
                | other => other
                end
            | None => Malformed
            end
          else if (Str.ord c <? 32)%nat then Malformed
          else match scanstring fuel' r with
               | Scanned str rest' => Scanned (String c str) rest'
               | other => other
               end
      end
  end.

(** [NUMBER_RE], matched at the start of [s]: an optional minus sign and
    either 0 or a digit string without leading zero; then optionally a dot
    and digits; then optionally e or E, a sign and digits. *)
Fixpoint span_digits (s : string) : string * string :=
  match s with
  | String c r =>
      if Str.isdigit c then
        let '(ds, rest) := span_digits r in (String c ds, rest)
      else ("", s)
  | EmptyString => ("", "")
  end.

Definition match_integer (s : string) : option (string * string) :=
  let '(sign, body) :=
    match Str.after_char "-" s with
    | Some r => ("-", r)
    | None => ("", s)
    end in
  match Str.after_char "0" body with
  | Some r => Some (sign ++ "0", r)
  | None =>
      match span_digits body with
      | ("", _) => None
      | (ds, rest) => Some (sign ++ ds, rest)
      end
  end.

Definition match_frac (s : string) : string * string :=
  match Str.after_char "." s with
  | Some r =>
      match span_digits r with
      | ("", _) => ("", s)
      | (ds, rest) => (String "." ds, rest)
      end
  | None => ("", s)
  end.

Definition match_exp (s : string) : string * string :=
  match s with
  | String e r =>
      if Str.is_char e "e" || Str.is_char e "E" then
        let '(sign, r1) :=
          match Str.after_char "-" r, Str.after_char "+" r with
          | Some r', _ => ("-", r')
          | None, Some r' => ("+", r')
          | None, None => ("", r)
          end in
        match span_digits r1 with
        | ("", _) => ("", s)
        | (ds, rest) => (String e (sign ++ ds), rest)
        end
      else ("", s)
  | EmptyString => ("", s)
  end.

(** Decimal digits to an integer, [int(integer)]. *)
Fixpoint digits_value (acc : Z) (s : string) : Z :=
  match s with
  | String c r => digits_value (10 * acc + Z.of_nat (Str.ord c - 48)) r
  | EmptyString => acc
  end.

Definition int_of_literal (s : string) : Z :=
  match Str.after_char "-" s with
  | Some r => - digits_value 0 r
  | None => digits_value 0 s
  end.

Definition match_number (s : string) : option (json * string) :=
  match match_integer s with
  | Some (integer, r1) =>
      let '(frac, r2) := match_frac r1 in
      let '(exp, r3) := match_exp r2 in
      match frac, exp with
      | "", "" => Some (JInt (int_of_literal integer), r3)
      | _, _ => Some (JFloat (integer ++ frac ++ exp), r3)
      end
  | None => None
  end.

(** [scan_once], with [JSONObject] and [JSONArray].  [object_pairs] is at
    the opening quote of a key, [array_items] at the start of a value;
    both carry the pairs or items read so far, in reverse.  An object
    whose first character after the brace and the blanks is neither a
    closing brace nor a quote is malformed: [object_pairs] says so. *)
Fixpoint scan_once (fuel : nat) (s : string) : scan json :=
  match fuel with
  | O => Exhausted
  | S fuel' =>
      match s with
      | EmptyString => Malformed
      | String c r =>
          if Str.is_char c "034" then
            match scanstring (String.length s) r with
            | Scanned str rest => Scanned (JStr str) rest
            | Malformed => Malformed
            | Exhausted => Exhausted
            end
          else if Str.is_char c "{" then
            match Str.after_char "}" (skip_ws r) with
            | Some rest => Scanned (JObj []) rest
            | None => object_pairs fuel' [] (skip_ws r)
            end
          else if Str.is_char c "[" then
            match Str.after_char "]" (skip_ws r) with
            | Some rest => Scanned (JArr []) rest
            | None => array_items fuel' [] (skip_ws r)
            end
          else if Str.startswith "null" s then Scanned JNull (Str.drop 4 s)
          else if Str.startswith "true" s then
            Scanned (JBool true) (Str.drop 4 s)
          else if Str.startswith "false" s then
            Scanned (JBool false) (Str.drop 5 s)
          else
            match match_number s with
            | Some (v, rest) => Scanned v rest
            | None =>
                if Str.startswith "NaN" s then
                  Scanned (JFloat "NaN") (Str.drop 3 s)
                else if Str.startswith "Infinity" s then
                  Scanned (JFloat "Infinity") (Str.drop 8 s)
                else if Str.startswith "-Infinity" s then
                  Scanned (JFloat "-Infinity") (Str.drop 9 s)
                else Malformed
            end
      end
  end
with object_pairs (fuel : nat) (acc : list (string * json)) (s : string)
    : scan json :=
  match fuel with
  | O => Exhausted
  | S fuel' =>
      match Str.after_char "034" s with
      | Some r =>
          match scanstring (String.length s) r with
          | Scanned key r1 =>
              match Str.after_char ":" (skip_ws r1) with
              | Some r2 =>
                  match scan_once fuel' (skip_ws r2) with
                  | Scanned v r3 =>
                      match Str.after_char "}" (skip_ws r3),
                            Str.after_char "," (skip_ws r3) with
                      | Some rest, _ =>
                          Scanned (JObj (Dict.of_pairs (rev ((key, v) :: acc))))
                                  rest
                      | None, Some r4 =>
                          object_pairs fuel' ((key, v) :: acc) (skip_ws r4)
                      | None, None => Malformed
                      end
                  | other => other
                  end
              | None => Malformed
              end
          | Malformed => Malformed
          | Exhausted => Exhausted
          end
      | None => Malformed
      end
  end
with array_items (fuel : nat) (acc : list json) (s : string) : scan json :=
  match fuel with
  | O => Exhausted
  | S fuel' =>
      match scan_once fuel' s with
      | Scanned v r1 =>
          match Str.after_char "]" (skip_ws r1),
                Str.after_char "," (skip_ws r1) with
          | Some rest, _ => Scanned (JArr (rev (v :: acc))) rest
          | None, Some r2 => array_items fuel' (v :: acc) (skip_ws r2)
          | None, None => Malformed
          end
      | other => other
      end
  end.

(** [json.loads(s)]: [None] is [JSONDecodeError].  Every nested call has
    read at least one more character after two steps, so twice the length
    of the text is budget enough ([loads_budget] below). *)
Definition budget (s : string) : nat := 2 * String.length s + 2.

Definition loads (s : string) : option json :=
  match scan_once (budget s) (skip_ws s) with
  | Scanned v rest =>
      match skip_ws rest with
      | EmptyString => Some v
      | _ => None
      end
  | _ => None
  end.

(** What a scanning function does within its budget: it never reports
    the budget used up, and it leaves less text than it was given. *)
Definition within_budget (out : scan json) (s : string) : Prop :=
  out <> Exhausted /\
  forall v rest, out = Scanned v rest ->
                 (String.length rest < String.length s)%nat.

(** *** Encoding: [json.dumps] with the default separators *)

Definition hex_digit (n : N) : ascii :=
  if N.ltb n 10 then ascii_of_N (48 + n) else ascii_of_N (87 + n).

(** ['\\u{0:04x}'.format(n)] *)
Definition escape_u (n : N) : string :=
  "\u" ++ String (hex_digit ((n / 4096) mod 16))
          (String (hex_digit ((n / 256) mod 16))
          (String (hex_digit ((n / 16) mod 16))
          (String (hex_digit (n mod 16)) ""))).

(** The code point at the start of a byte string and the bytes after it. *)
Definition continuation (c : ascii) : option N :=
  if Str.between 128 191 c then Some (N_of_ascii c - 128)%N else None.

Definition decode_utf8 (c : ascii) (r : string) : N * string :=
  let n := N_of_ascii c in
  match r with
  | String c1 r1 =>
      match continuation c1 with
      | Some x1 =>
          if Str.between 192 223 c then ((n - 192) * 64 + x1, r1)%N
          else
            match r1 with
            | String c2 r2 =>
                match continuation c2 with
                | Some x2 =>
                    if Str.between 224 239 c then
                      (((n - 224) * 64 + x1) * 64 + x2, r2)%N
                    else
                      match r2 with
                      | String c3 r3 =>
                          match continuation c3 with
                          | Some x3 =>
                              if Str.between 240 247 c then
                                ((((n - 240) * 64 + x1) * 64 + x2) * 64 + x3,
                                 r3)%N
                              else (n, r)
                          | None => (n, r)
                          end
                      | EmptyString => (n, r)
                      end
                | None => (n, r)
                end
            | EmptyString => (n, r)
            end
      | None => (n, r)
      end
  | EmptyString => (n, r)
  end.

Definition escape_named (c : ascii) : option string :=
  if Str.is_char c "\" then Some "\\"
  else if Str.is_char c "034" then Some (String "\" (String "034" ""))
  else if Str.is_char c (Str.chr 8) then Some "\b"
  else if Str.is_char c (Str.chr 12) then Some "\f"
  else if Str.is_char c (Str.chr 10) then Some "\n"
  else if Str.is_char c (Str.chr 13) then Some "\r"
  else if Str.is_char c (Str.chr 9) then Some "\t"
  else None.

(** The body of [py_encode_basestring] ([ensure_ascii=False]) or of
    [py_encode_basestring_ascii] ([ensure_ascii=True]), between the quotes.
    A character outside ASCII is escaped where its first byte stands; its
    continuation bytes then add nothing. *)
Fixpoint escape_body (ensure_ascii : bool) (s : string) : string :=
  match s with
  | EmptyString => ""
  | String c r =>
      match escape_named c with
      | Some e => e ++ escape_body ensure_ascii r
      | None =>
          if (Str.ord c <? 32)%nat then
            escape_u (N_of_ascii c) ++ escape_body ensure_ascii r
          else if negb ensure_ascii || Str.between 32 126 c then
            String c (escape_body ensure_ascii r)
          else if Str.between 128 191 c then escape_body ensure_ascii r
          else
            let n := fst (decode_utf8 c r) in
            (if N.ltb n 65536 then escape_u n
             else escape_u (55296 + (n - 65536) / 1024)%N ++
                  escape_u (56320 + (n - 65536) mod 1024)%N)
            ++ escape_body ensure_ascii r
      end
  end.

Definition encode_basestring (ensure_ascii : bool) (s : string) : string :=
  String "034" (escape_body ensure_ascii s ++ String "034" "").

Fixpoint join (sep : string) (l : list string) : string :=
  match l with
  | [] => ""
  | [x] => x
  | x :: r => x ++ sep ++ join sep r
  end.

(** The encoder, for the separators between items and after a key. *)
Fixpoint encode (item_separator key_separator : string) (ensure_ascii : bool)
    (v : json) : string :=
  match v with
  | JNull => "null"
  | JBool true => "true"
  | JBool false => "false"
  | JInt z => Str.of_Z z
  | JFloat literal => literal
  | JStr s => encode_basestring ensure_ascii s
  | JArr items =>
      "[" ++ join item_separator
               (map (encode item_separator key_separator ensure_ascii) items)
          ++ "]"
  | JObj members =>
      "{" ++ join item_separator
               (map (fun kv =>
                       encode_basestring ensure_ascii (fst kv) ++ key_separator
                       ++ encode item_separator key_separator ensure_ascii
                                 (snd kv))
                    members)
          ++ "}"
  end.

(** [json.dumps(v, ensure_ascii=...)] *)
Definition dumps (ensure_ascii : bool) (v : json) : string :=
  encode ", " ": " ensure_ascii v.

(** The compact text pydantic writes in [model_dump_json]. *)
Definition dumps_compact (v : json) : string := encode "," ":" false v.

(** *** Values that a JSON text can stand for

    A value is well formed when the literal of every number with a
    fraction or an exponent is the text of such a number, and no object
    holds a key twice: the values that [loads] returns, and the only ones
    that [loads] can give back. *)
Definition is_number_literal (literal : string) : bool :=
  match match_number literal with
  | Some (JFloat l, EmptyString) => String.eqb l literal
  | _ => false
  end.

Fixpoint distinct (keys : list string) : bool :=
  match keys with
  | [] => true
  | k :: r => negb (existsb (String.eqb k) r) && distinct r
  end.

Fixpoint well_formed (v : json) : bool :=
  match v with
  | JFloat literal => is_number_literal literal
  | JArr items => forallb well_formed items
  | JObj members =>
      distinct (map fst members) &&
      forallb (fun kv => well_formed (snd kv)) members
  | _ => true
  end.

(** The separators of [json.dumps] and of the compact encoder: a comma or
    a colon, alone or followed by a blank. *)
Definition separator (c : ascii) (sep : string) : Prop :=
  sep = String c "" \/ sep = String c " ".

(** How the text of a value starts: not with a blank and not with a
    closing bracket. *)
Definition starts_value (s : string) : bool :=
  match s with
  | String c _ => negb (is_ws c) && negb (Str.is_char c "]")
  | EmptyString => false
  end.

(** What can follow a value in a JSON text: nothing, a comma, a closing
    bracket or brace, or a blank. *)
Definition ends_value (rest : string) : bool :=
  match rest with
  | EmptyString => true
  | String c _ =>
      Str.is_char c "," || Str.is_char c "]" || Str.is_char c "}" || is_ws c
  end.

End Json.

(** Truth value of a decoded value ([if not text]). *)
Definition float_is_zero (literal : string) : bool :=
  let mantissa :=
    fix go (s : string) : bool :=
      match s with
      | EmptyString => true
      | String c r =>
          if Str.is_char c "e" || Str.is_char c "E" then true
          else if Str.isdigit c then Str.is_char c "0" && go r
          else if Str.is_char c "." || Str.is_char c "-" then go r
          else false
      end in
  mantissa literal.

Definition truthy (v : json) : bool :=
  match v with
  | JNull => false
  | JBool b => b
  | JInt z => negb (Z.eqb z 0)
  | JFloat literal => negb (float_is_zero literal)
  | JStr s => negb (String.eqb s "")
  | JArr items => match items with [] => false | _ => true end
  | JObj members => match members with [] => false | _ => true end
  end.

(* ===================================================================== *)
(** ** utils.py *)
(* ===================================================================== *)

Module utils.

(** [re.sub] of a leading fence, three backticks and optionally [json]. *)
Definition sub_leading_fence (text : string) : string :=
  if Str.startswith "```json" text then Str.drop 7 text
  else if Str.startswith "```" text then Str.drop 3 text
  else text.

(** [re.sub] of a trailing fence; [$] also matches before a final newline. *)
Definition sub_trailing_fence (text : string) : string :=
  let n := String.length text in
  if Str.endswith "```" text then Str.take (n - 3) text
  else if Str.endswith ("```" ++ String (Str.chr 10) "") text then
    Str.take (n - 4) text ++ String (Str.chr 10) ""
  else text.

(** The longest prefix of [s] that ends with [c], if [c] occurs. *)
Fixpoint upto_last (c : ascii) (s : string) : option string :=
  match s with
  | EmptyString => None
  | String d r =>
      match upto_last c r with
      | Some p => Some (String d p)
      | None => if Ascii.eqb d c then Some (String d "") else None
      end
  end.

(** [re.search] of an opening brace up to the last closing brace, or of an
    opening bracket up to the last closing bracket, leftmost first. *)
Fixpoint search_json_span (s : string) : option string :=
  match s with
  | EmptyString => None
  | String c r =>
      if Str.is_char c "{" then
        match upto_last "}" r with
        | Some p => Some (String c p)
        | None => search_json_span r
        end
      else if Str.is_char c "[" then
        match upto_last "]" r with
        | Some p => Some (String c p)
        | None => search_json_span r
        end
      else search_json_span r
  end.

Definition clean_llm_json (text : json) : result json :=
  if negb (truthy text) then Ok (JObj [])
  else
    match text with
    | JStr text =>
        (* Trim whitespace and remove common formatting wrappers *)
        let text := Str.strip text in
        let text := sub_leading_fence text in
        let text := sub_trailing_fence text in
        let text := Str.strip_char "'" (Str.strip_char "034" (Str.strip text)) in
        (* Try parsing directly *)
        match Json.loads text with
        | Some v => Ok v
        | None =>
            (* Try if it's double-encoded *)
            match
              match Json.loads text with
              | Some (JStr inner) => Json.loads inner
              | _ => None
              end
            with
            | Some parsed => Ok parsed
            | None =>
                (* Regex fallback to extract first valid JSON array/object *)
                match search_json_span text with
                | Some candidate =>
                    match Json.loads candidate with
                    | Some v => Ok v
                    | None =>
                        match Json.loads (Str.replace_char "'" "034" candidate) with
                        | Some v => Ok v
                        | None => Ok (JObj [])
                        end
                    end
                | None => Ok (JObj [])
                end
            end
        end
    | _ => Raise (AttributeError "object has no attribute 'strip'")
    end.

(** [norm_field(d, *keys)]: the value under the first of [keys] that [d]
    holds.  [k in d] looks for a key in a dict, for an item in a list and
    for a substring in a text, and fails on anything else; [d[k]] with a
    text [k] is answered by a dict only. *)
Fixpoint norm_field (d : json) (keys : list string) : result json :=
  match keys with
  | [] => Ok JNull
  | k :: rest =>
      match d with
      | JObj members =>
          match Dict.get k members with
          | Some v => Ok v
          | None => norm_field d rest
          end
      | JArr items =>
          if existsb (fun x => match x with
                               | JStr s => String.eqb s k
                               | _ => false
                               end) items
          then Raise (TypeError "list indices must be integers or slices, not str")
          else norm_field d rest
      | JStr s =>
          if Str.contains k s
          then Raise (TypeError "string indices must be integers, not 'str'")
          else norm_field d rest
      | _ => Raise (TypeError "argument is not iterable")
      end
  end.

(** [x or "Unknown"] *)
Definition or_unknown (x : json) : json :=
  if truthy x then x else JStr "Unknown".

(** [article.get("notes")] *)
Definition get_notes (article : json) : result json :=
  match article with
  | JObj a => Ok (Dict.get_default "notes" JNull a)
  | _ => Raise (AttributeError "object has no attribute 'get'")
  end.

Definition normalize_evaluation (parsed : Dict.t) : result Dict.t :=
  let article := Dict.get_default "article" (JObj []) parsed in
  let publication := Dict.get_default "publication" (JObj []) parsed in
  pub_funding <-
    norm_field publication
      ["source_of_funding"; "source of funding"; "funding_source"; "funding";
       "publication_funding"] ;;
  pub_location <-
    norm_field publication ["location"; "country"; "publication_location"] ;;
  pub_ownership <-
    norm_field publication ["ownership"; "owner"; "publication_ownership"] ;;
  perspective <-
    norm_field article ["perspective"; "slant"; "article_perspective"] ;;
  tone_language <-
    norm_field article
      ["tone_language"; "tone and language"; "article_tone_language"] ;;
  fairness <- norm_field article ["fairness"; "article_fairness"] ;;
  headline_article <-
    norm_field article ["headline_article"; "article_headline_article"] ;;
  notes <- get_notes article ;;
  Ok [("article",
       JObj [("perspective", or_unknown perspective);
             ("tone_language", or_unknown tone_language);
             ("fairness", or_unknown fairness);
             ("headline_article", or_unknown headline_article);
             ("notes", notes)]);
      ("publication",
       JObj [("source_of_funding", or_unknown pub_funding);
             ("location", or_unknown pub_location);
             ("ownership", or_unknown pub_ownership)])].

(** The keys of a normalized evaluation, and a dict that holds a value
    with a truth value of true under each of [keys]. *)
Definition article_keys : list string :=
  ["perspective"; "tone_language"; "fairness"; "headline_article"].

Definition publication_keys : list string :=
  ["source_of_funding"; "location"; "ownership"].

Definition filled (keys : list string) (d : Dict.t) : Prop :=
  forall k, In k keys -> exists v, Dict.get k d = Some v /\ truthy v = true.

(** [re.search] of an opening brace up to the last closing brace. *)
Fixpoint search_brace_span (s : string) : option string :=
  match s with
  | EmptyString => None
  | String c r =>
      if Str.is_char c "{" then
        match upto_last "}" r with
        | Some p => Some (String c p)
        | None => search_brace_span r
        end
      else search_brace_span r
  end.

(** [extract_json_from_text(text)]: [None] is Python's [None]. *)
Definition extract_json_from_text (text : string) : option json :=
  match search_brace_span text with
  | None => None
  | Some candidate =>
      match Json.loads candidate with
      | Some v => Some v
      | None => Json.loads (Str.replace_char "'" "034" candidate)
      end
  end.

(** [urlparse(url).path] for the text of an [HttpUrl]: scheme, then the
    network location after two slashes, then the path up to the fragment,
    the query and the parameters of the last segment. *)
Definition is_scheme_char (c : ascii) : bool :=
  Str.between 97 122 c || Str.between 65 90 c || Str.isdigit c ||
  Str.is_char c "+" || Str.is_char c "-" || Str.is_char c ".".

Fixpoint after_scheme (s : string) : option string :=
  match s with
  | EmptyString => None
  | String c r =>
      if Str.is_char c ":" then Some r
      else if is_scheme_char c then after_scheme r
      else None
  end.

Fixpoint take_until (stop : ascii -> bool) (s : string) : string :=
  match s with
  | EmptyString => ""
  | String c r => if stop c then "" else String c (take_until stop r)
  end.

Fixpoint drop_until (stop : ascii -> bool) (s : string) : string :=
  match s with
  | EmptyString => ""
  | String c r => if stop c then s else drop_until stop r
  end.

(** [_splitparams]: cut at the first semicolon of the last segment. *)
Fixpoint split_params (s : string) : string :=
  match s with
  | EmptyString => ""
  | String c r =>
      if Str.has_char "/" r then String c (split_params r)
      else if Str.is_char c "/" then String c (take_until (Str.is_char ";") r)
      else take_until (Str.is_char ";") s
  end.

Definition url_path (url : string) : string :=
  let url :=
    match url with
    | String c _ =>
        if Str.between 97 122 c || Str.between 65 90 c then
          match after_scheme url with
          | Some rest => rest
          | None => url
          end
        else url
    | EmptyString => url
    end in
  let url :=
    if Str.startswith "//" url then
      drop_until (fun c => Str.is_char c "/" || Str.is_char c "?" ||
                           Str.is_char c "#") (Str.drop 2 url)
    else url in
  let url := take_until (Str.is_char "#") url in
  let url := take_until (Str.is_char "?") url in
  split_params url.

(** One or two digits and a slash, as in the date pattern. *)
Definition digits12_slash (s : string) : option string :=
  match s with
  | String a r =>
      if Str.isdigit a then
        match r with
        | String b r' =>
            if Str.is_char b "/" then Some r'
            else if Str.isdigit b then
              match r' with
              | String c r'' => if Str.is_char c "/" then Some r'' else None
              | EmptyString => None
              end
            else None
        | EmptyString => None
        end
      else None
  | EmptyString => None
  end.

(** The date pattern matched at the start of [s]: a slash, four digits, a
    slash, one or two digits, a slash, one or two digits, a slash. *)
Definition date_here (s : string) : bool :=
  match s with
  | String s0 (String y1 (String y2 (String y3 (String y4 (String s1 r))))) =>
      if Str.is_char s0 "/" && Str.isdigit y1 && Str.isdigit y2 &&
         Str.isdigit y3 && Str.isdigit y4 && Str.is_char s1 "/" then
        match digits12_slash r with
        | Some r1 =>
            match digits12_slash r1 with
            | Some _ => true
            | None => false
            end
        | None => false
        end
      else false
  | _ => false
  end.

Fixpoint search_date (s : string) : bool :=
  date_here s ||
  match s with
  | EmptyString => false
  | String _ r => search_date r
  end.

Definition article_words : list string :=
  ["article"; "news"; "story"; "posts"; "politics"; "world"; "economy";
   "health"].

Definition looks_like_article_url (url : string) : bool :=
  let path := Str.lower (url_path url) in
  (* Reject bare domains or short paths *)
  if String.eqb path "" || String.eqb path "/" ||
     (List.length (Str.split_char "/" (Str.strip_char "/" path)) <=? 1)%nat
  then false
  (* Common article URL patterns *)
  else if search_date path then true
  else if existsb (fun seg => Str.contains seg path) article_words then true
  else if Str.endswith ".html" path || Str.endswith ".htm" path then true
  else false.

(** The shapes of a path that the gate looks for, written out. *)
Fixpoint all_digits (s : string) : bool :=
  match s with
  | EmptyString => true
  | String c r => Str.isdigit c && all_digits r
  end.

Definition one_or_two_digits (s : string) : Prop :=
  all_digits s = true /\ (1 <= String.length s <= 2)%nat.

Definition two_segments (path : string) : Prop :=
  exists a b, Str.strip_char "/" path = a ++ "/" ++ b.

Definition dated (path : string) : Prop :=
  exists pre y m d post,
    path = pre ++ "/" ++ y ++ "/" ++ m ++ "/" ++ d ++ "/" ++ post /\
    all_digits y = true /\ String.length y = 4%nat /\
    one_or_two_digits m /\ one_or_two_digits d.

Definition has_article_word (path : string) : Prop :=
  exists w pre post, In w article_words /\ path = pre ++ w ++ post.

Definition html_page (path : string) : Prop :=
  exists pre, path = pre ++ ".html" \/ path = pre ++ ".htm".

(** [sse_event(event, data)]: a [str] goes out as it is, anything else as
    its JSON text.  The [default] hook only serves objects that are not
    JSON values; they are turned into text where a payload is built. *)
Definition sse_event (event : string) (data : json) : string :=
  let data :=
    match data with
    | JStr s => s
    | _ => Json.dumps false data
    end in
  "event: " ++ event ++ String (Str.chr 10) "" ++
  "data: " ++ data ++ String (Str.chr 10) (String (Str.chr 10) "").

(** The wire format as the interface section words it: the line
    [event: <name>], the line [data: <json-payload>], and an empty line. *)
Definition wire_frame (name payload : string) : string :=
  "event: " ++ name ++ String (Str.chr 10) ("data: " ++ payload ++
  String (Str.chr 10) (String (Str.chr 10) "")).

(** A frame of one of the named events that carries the JSON text of a
    dict. *)
Definition is_frame (names : list string) (f : string) : Prop :=
  exists name o,
    In name names /\ f = wire_frame name (Json.dumps false (JObj o)).

End utils.

(* ===================================================================== *)
(** ** The pydantic models of analysis.py and db.py *)
(* ===================================================================== *)

(** Field validation in pydantic's default (lax) mode.  [None] is a
    [ValidationError]; extra keys of the input are ignored; a field without
    a default is required, also when its type is [Optional]. *)
Module Field.

Definition str (v : option json) : option string :=
  match v with
  | Some (JStr s) => Some s
  | _ => None
  end.

Definition opt_str (v : option json) : option (option string) :=
  match v with
  | Some JNull => Some None
  | Some (JStr s) => Some (Some s)
  | _ => None
  end.

Fixpoint strs (items : list json) : option (list string) :=
  match items with
  | [] => Some []
  | JStr s :: r =>
      match strs r with
      | Some l => Some (s :: l)
      | None => None
      end
  | _ :: _ => None
  end.

Definition opt_list_str (v : option json) : option (option (list string)) :=
  match v with
  | Some JNull => Some None
  | Some (JArr items) =>
      match strs items with
      | Some l => Some (Some l)
      | None => None
      end
  | _ => None
  end.

Definition list_str (v : option json) : option (list string) :=
  match v with
  | Some (JArr items) => strs items
  | _ => None
  end.

(** A number written in a string, as the lax mode reads it; the grammar
    is that of JSON numbers. *)
Definition number_of_text (s : string) : option json :=
  match Json.match_number (Str.strip s) with
  | Some (v, EmptyString) => Some v
  | _ => None
  end.

(** [float]: the value as a decimal literal. *)
Definition float (v : option json) : option string :=
  match v with
  | Some (JFloat literal) => Some literal
  | Some (JInt z) => Some (Str.of_Z z ++ ".0")
  | Some (JBool b) => Some (if b then "1.0" else "0.0")
  | Some (JStr s) =>
      match number_of_text s with
      | Some (JFloat literal) => Some literal
      | Some (JInt z) => Some (Str.of_Z z ++ ".0")
      | _ => None
      end
  | _ => None
  end.

(** A literal with a fraction of zeros only is an integer. *)
Definition int_of_float_literal (literal : string) : option Z :=
  match Json.match_integer literal with
  | Some (integer, rest) =>
      match Str.after_char "." rest with
      | Some frac =>
          if String.eqb (Str.lstrip_by (fun c => Str.is_char c "0") frac) ""
          then Some (Json.int_of_literal integer)
          else None
      | None => None
      end
  | None => None
  end.

Definition int (v : option json) : option Z :=
  match v with
  | Some (JInt z) => Some z
  | Some (JBool b) => Some (if b then 1%Z else 0%Z)
  | Some (JFloat literal) => int_of_float_literal literal
  | Some (JStr s) =>
      match number_of_text s with
      | Some (JInt z) => Some z
      | Some (JFloat literal) => int_of_float_literal literal
      | _ => None
      end
  | _ => None
  end.

(** [Dict[str, Any]], optional. *)
Definition opt_dict (v : option json) : option (option Dict.t) :=
  match v with
  | Some JNull => Some None
  | Some (JObj d) => Some (Some d)
  | _ => None
  end.

(** A list of models. *)
Fixpoint models {A} (validate : json -> option A) (items : list json)
    : option (list A) :=
  match items with
  | [] => Some []
  | x :: r =>
      match validate x, models validate r with
      | Some a, Some l => Some (a :: l)
      | _, _ => None
      end
  end.

Definition dump_opt_str (o : option string) : json :=
  match o with Some s => JStr s | None => JNull end.

Definition dump_opt_list_str (o : option (list string)) : json :=
  match o with Some l => JArr (map JStr l) | None => JNull end.

End Field.

Module Article.
Record t : Type := Build {
  perspective : string;
  tone_language : option (list string);
  fairness : string;
  headline_article : string;
  notes : option string }.

Definition model_validate (v : json) : option t :=
  match v with
  | JObj d =>
      match Field.str (Dict.get "perspective" d),
            Field.opt_list_str (Dict.get "tone_language" d),
            Field.str (Dict.get "fairness" d),
            Field.str (Dict.get "headline_article" d),
            match Dict.get "notes" d with
            | None => Some None
            | some => Field.opt_str some
            end
      with
      | Some p, Some tl, Some f, Some h, Some n => Some (Build p tl f h n)
      | _, _, _, _, _ => None
      end
  | _ => None
  end.

Definition model_dump (a : t) : json :=
  JObj [("perspective", JStr (perspective a));
        ("tone_language", Field.dump_opt_list_str (tone_language a));
        ("fairness", JStr (fairness a));
        ("headline_article", JStr (headline_article a));
        ("notes", Field.dump_opt_str (notes a))].
End Article.

Module Publication.
Record t : Type := Build {
  source_of_funding : option (list string);
  location : option string;
  ownership : option string }.

Definition model_validate (v : json) : option t :=
  match v with
  | JObj d =>
      match Field.opt_list_str (Dict.get "source_of_funding" d),
            Field.opt_str (Dict.get "location" d),
            Field.opt_str (Dict.get "ownership" d)
      with
      | Some f, Some l, Some o => Some (Build f l o)
      | _, _, _ => None
      end
  | _ => None
  end.

Definition model_dump (p : t) : json :=
  JObj [("source_of_funding", Field.dump_opt_list_str (source_of_funding p));
        ("location", Field.dump_opt_str (location p));
        ("ownership", Field.dump_opt_str (ownership p))].
End Publication.

Module ModelEvaluation.
Record t : Type := Build {
  model : string;
  article : Article.t;
  publication : Publication.t;
  raw : option Dict.t }.

Definition model_validate (v : json) : option t :=
  match v with
  | JObj d =>
      match Field.str (Dict.get "model" d),
            match Dict.get "article" d with
            | Some a => Article.model_validate a
            | None => None
            end,
            match Dict.get "publication" d with
            | Some p => Publication.model_validate p
            | None => None
            end,
            match Dict.get "raw" d with
            | None => Some None
            | some => Field.opt_dict some
            end
      with
      | Some m, Some a, Some p, Some r => Some (Build m a p r)
      | _, _, _, _ => None
      end
  | _ => None
  end.

Definition model_dump (e : t) : json :=
  JObj [("model", JStr (model e));
        ("article", Article.model_dump (article e));
        ("publication", Publication.model_dump (publication e));
        ("raw", match raw e with Some d => JObj d | None => JNull end)].
End ModelEvaluation.

Module EvaluationDisagreement.
Record t : Type := Build {
  model : option string;
  value : json }.

Definition model_validate (v : json) : option t :=
  match v with
  | JObj d =>
      match Field.opt_str (Dict.get "model" d), Dict.get "value" d with
      | Some m, Some x => Some (Build m x)
      | _, _ => None
      end
  | _ => None
  end.

Definition model_dump (e : t) : json :=
  JObj [("model", Field.dump_opt_str (model e)); ("value", value e)].
End EvaluationDisagreement.

Module Disagreement.
Record t : Type := Build {
  field : option string;
  evaluations : option (list EvaluationDisagreement.t) }.

Definition model_validate (v : json) : option t :=
  match v with
  | JObj d =>
      match Field.opt_str (Dict.get "field" d),
            match Dict.get "evaluations" d with
            | Some JNull => Some None
            | Some (JArr items) =>
                option_map Some
                  (Field.models EvaluationDisagreement.model_validate items)
            | _ => None
            end
      with
      | Some f, Some e => Some (Build f e)
      | _, _ => None
      end
  | _ => None
  end.

Definition model_dump (x : t) : json :=
  JObj [("field", Field.dump_opt_str (field x));
        ("evaluations",
         match evaluations x with
         | Some l => JArr (map EvaluationDisagreement.model_dump l)
         | None => JNull
         end)].

(** [Optional[List[Disagreement]] = []] *)
Definition validate_list (v : option json) : option (option (list t)) :=
  match v with
  | None => Some (Some [])
  | Some JNull => Some None
  | Some (JArr items) => option_map Some (Field.models model_validate items)
  | Some _ => None
  end.

Definition dump_list (o : option (list t)) : json :=
  match o with
  | Some l => JArr (map model_dump l)
  | None => JNull
  end.
End Disagreement.

Module Consensus.
Record t : Type := Build {
  article : Article.t;
  publication : Publication.t;
  confidence : string;
  disagreements : option (list Disagreement.t);
  notes : string }.

Definition model_validate (v : json) : option t :=
  match v with
  | JObj d =>
      match match Dict.get "article" d with
            | Some a => Article.model_validate a
            | None => None
            end,
            match Dict.get "publication" d with
            | Some p => Publication.model_validate p
            | None => None
            end,
            Field.float (Dict.get "confidence" d),
            Disagreement.validate_list (Dict.get "disagreements" d),
            Field.str (Dict.get "notes" d)
      with
      | Some a, Some p, Some c, Some ds, Some n => Some (Build a p c ds n)
      | _, _, _, _, _ => None
      end
  | _ => None
  end.

Definition model_dump (c : t) : Dict.t :=
  [("article", Article.model_dump (article c));
   ("publication", Publication.model_dump (publication c));
   ("confidence", JFloat (confidence c));
   ("disagreements", Disagreement.dump_list (disagreements c));
   ("notes", JStr (notes c))].
End Consensus.

Module ConsensusResponse.
Record t : Type := Build {
  article : Article.t;
  publication : Publication.t;
  confidence : string;
  disagreements : option (list Disagreement.t);
  notes : string;
  model : string }.

Definition model_validate (v : json) : option t :=
  match v with
  | JObj d =>
      match match Dict.get "article" d with
            | Some a => Article.model_validate a
            | None => None
            end,
            match Dict.get "publication" d with
            | Some p => Publication.model_validate p
            | None => None
            end,
            Field.float (Dict.get "confidence" d),
            Disagreement.validate_list (Dict.get "disagreements" d),
            Field.str (Dict.get "notes" d),
            Field.str (Dict.get "model" d)
      with
      | Some a, Some p, Some c, Some ds, Some n, Some m =>
          Some (Build a p c ds n m)
      | _, _, _, _, _, _ => None
      end
  | _ => None
  end.

Definition model_dump (c : t) : json :=
  JObj [("article", Article.model_dump (article c));
        ("publication", Publication.model_dump (publication c));
        ("confidence", JFloat (confidence c));
        ("disagreements", Disagreement.dump_list (disagreements c));
        ("notes", JStr (notes c));
        ("model", JStr (model c))].
End ConsensusResponse.

Module Summary.
Record t : Type := Build {
  summary : string;
  topics : list string;
  type : string }.

Definition model_validate (v : json) : option t :=
  match v with
  | JObj d =>
      match Field.str (Dict.get "summary" d),
            Field.list_str (Dict.get "topics" d),
            Field.str (Dict.get "type" d)
      with
      | Some s, Some ts, Some ty => Some (Build s ts ty)
      | _, _, _ => None
      end
  | _ => None
  end.

(** [model_validate_json]: the argument has to be text, and JSON. *)
Definition model_validate_json (text : json) : option t :=
  match text with
  | JStr s =>
      match Json.loads s with
      | Some v => model_validate v
      | None => None
      end
  | _ => None
  end.

Definition model_dump (x : t) : Dict.t :=
  [("summary", JStr (summary x));
   ("topics", JArr (map JStr (topics x)));
   ("type", JStr (type x))].
End Summary.

Module SummaryResponse.
Record t : Type := Build {
  summary : string;
  topics : list string;
  type : string;
  model : string }.

Definition model_validate (v : json) : option t :=
  match v with
  | JObj d =>
      match Field.str (Dict.get "summary" d),
            Field.list_str (Dict.get "topics" d),
            Field.str (Dict.get "type" d),
            Field.str (Dict.get "model" d)
      with
      | Some s, Some ts, Some ty, Some m => Some (Build s ts ty m)
      | _, _, _, _ => None
      end
  | _ => None
  end.

Definition model_dump (x : t) : json :=
  JObj [("summary", JStr (summary x));
        ("topics", JArr (map JStr (topics x)));
        ("type", JStr (type x));
        ("model", JStr (model x))].
End SummaryResponse.

Module AnalyzeResponse.
Record t : Type := Build {
  url : string;
  title : option string;
  authors : option (list string);
  publication : option string;
  published_at : option string;
  summary : SummaryResponse.t;
  evaluations : list ModelEvaluation.t;
  consensus : ConsensusResponse.t;
  history : option Dict.t }.

(** [model_dump()], with the [HttpUrl] as the text [sse_event] makes of it. *)
Definition model_dump (x : t) : json :=
  JObj [("url", JStr (url x));
        ("title", Field.dump_opt_str (title x));
        ("authors", Field.dump_opt_list_str (authors x));
        ("publication", Field.dump_opt_str (publication x));
        ("published_at", Field.dump_opt_str (published_at x));
        ("summary", SummaryResponse.model_dump (summary x));
        ("evaluations", JArr (map ModelEvaluation.model_dump (evaluations x)));
        ("consensus", ConsensusResponse.model_dump (consensus x));
        ("history", match history x with Some d => JObj d | None => JNull end)].

Definition model_dump_json (x : t) : string :=
  Json.dumps_compact (model_dump x).
End AnalyzeResponse.

(* ===================================================================== *)
(** ** models.py: the evaluator service *)
(* ===================================================================== *)

Module models.

(** What [call_openrouter] returns: the dict it builds from the service's
    answer, or, when anything in the call raised, the pair of the text
    [Error:] and the exception. *)
Inductive response : Type :=
| Answer (model : json) (text : json) (raw : json)
| ErrorTuple (e : string).

(** [resp.get("text", "")] and [resp.get("model")] *)
Definition get (key : string) (resp : response) : result json :=
  match resp with
  | Answer model text raw =>
      Ok (if String.eqb key "model" then model
          else if String.eqb key "text" then text
          else if String.eqb key "raw" then raw
          else JNull)
  | ErrorTuple _ => Raise (AttributeError "'tuple' object has no attribute 'get'")
  end.

(** [resp["text"]] and [resp["model"]] *)
Definition getitem (key : string) (resp : response) : result json :=
  match resp with
  | Answer model text raw =>
      Ok (if String.eqb key "model" then model
          else if String.eqb key "text" then text
          else raw)
  | ErrorTuple _ =>
      Raise (TypeError "tuple indices must be integers or slices, not str")
  end.

(** [obj[key]] for a text [key], on a decoded value: the value, or the
    text of the exception ([KeyError], [TypeError]). *)
Definition subscript (key : string) (obj : json) : string + json :=
  match obj with
  | JObj d =>
      match Dict.get key d with
      | Some v => inr v
      | None => inl ("'" ++ key ++ "'")
      end
  | JArr _ => inl "list indices must be integers or slices, not str"
  | JStr _ => inl "string indices must be integers, not 'str'"
  | _ => inl "object is not subscriptable"
  end.

(** [choices[0]["text"]]: the first item of a list answers, when it is
    a dict; the first character of a text has no such entry, and a dict
    has no key [0]. *)
Definition first_text (choices : json) : string + json :=
  match choices with
  | JArr (x :: _) => subscript "text" x
  | JArr [] => inl "list index out of range"
  | JStr EmptyString => inl "string index out of range"
  | JStr _ => inl "string indices must be integers, not 'str'"
  | JObj _ => inl "0"
  | _ => inl "object is not subscriptable"
  end.

(** [call_openrouter(prompt, format, model)].  [body] is what
    [requests.post(...)] and [response.json()] gave for the request: the
    decoded body of the answer, or the text of the exception one of them
    raised.  Every exception is caught and returned in the pair. *)
Definition call_openrouter (body : string + json) : response :=
  match body with
  | inl e => ErrorTuple e
  | inr b =>
      match subscript "choices" b with
      | inl e => ErrorTuple e
      | inr choices =>
          match first_text choices with
          | inl e => ErrorTuple e
          | inr text =>
              match subscript "model" b with
              | inl e => ErrorTuple e
              | inr model => Answer model text b
              end
          end
      end
  end.

End models.

(* ===================================================================== *)
(** ** scraper.py *)
(* ===================================================================== *)

(** The [tenacity] decorator that wraps [fetch_with_retries]. *)
Module tenacity.

Inductive event : Type :=
| Attempt (attempt_number : nat)
| Sleep (seconds : Z).

(** [stop_after_attempt(max_attempt_number)] *)
Definition stop_after_attempt (max_attempt_number attempt_number : nat) : bool :=
  (max_attempt_number <=? attempt_number)%nat.

(** [wait_exponential(multiplier, min, max)], in seconds *)
Definition wait_exponential (multiplier min max : Z) (attempt_number : nat) : Z :=
  let exp := (2 ^ Z.of_nat (attempt_number - 1))%Z in
  let result := (multiplier * exp)%Z in
  Z.max (Z.max 0 min) (Z.min result max).

(** The outcome of the decorated call: the value, or [RetryError] around
    the exception of the last attempt. *)
Inductive outcome (A E : Type) : Type :=
| Returned (a : A)
| RetryError (last_attempt : E).
Arguments Returned {A E} a.
Arguments RetryError {A E} last_attempt.

(** The retry loop: [fn attempt_number] is what the wrapped function does
    at that attempt; [togo] counts the attempts the stop rule still allows
    after this one. *)
Fixpoint retrying {A E} (stop : nat -> bool) (wait : nat -> Z)
    (fn : nat -> A + E) (togo attempt_number : nat)
    : list event * outcome A E :=
  match fn attempt_number with
  | inl a => ([Attempt attempt_number], Returned a)
  | inr e =>
      if stop attempt_number then ([Attempt attempt_number], RetryError e)
      else
        match togo with
        | O => ([Attempt attempt_number], RetryError e)
        | S togo' =>
            let '(trace, out) :=
              retrying stop wait fn togo' (S attempt_number) in
            (Attempt attempt_number :: Sleep (wait attempt_number) :: trace,
             out)
        end
  end.

(** The attempts made and the pauses taken, read off a trace. *)
Definition attempt_count (trace : list event) : nat :=
  List.length (filter (fun e => match e with Attempt _ => true | Sleep _ => false end)
                      trace).

Fixpoint sleeps (trace : list event) : list Z :=
  match trace with
  | [] => []
  | Sleep s :: r => s :: sleeps r
  | Attempt _ :: r => sleeps r
  end.

Definition retry {A E} (max_attempt_number : nat) (wait : nat -> Z)
    (fn : nat -> A + E) : list event * outcome A E :=
  retrying (stop_after_attempt max_attempt_number) wait fn
           (max_attempt_number - 1) 1.

End tenacity.

Module scraper.

Inductive exc : Type :=
| HTTPStatusError (status_code : Z) (message : string)
| OtherError (class_name : string) (message : string).

(** What [client.get] does at one attempt. *)
Inductive get_outcome : Type :=
| Response (status_code : Z) (text : string)
| GetRaised (class_name : string) (message : string).

Record ScraperResponse : Type := {
  title : option string;
  authors : option (list string);
  publication : option string;
  published_at : option string;
  text : option string }.

Definition model_dump (r : ScraperResponse) : Dict.t :=
  [("title", Field.dump_opt_str (title r));
   ("authors", Field.dump_opt_list_str (authors r));
   ("publication", Field.dump_opt_str (publication r));
   ("published_at", Field.dump_opt_str (published_at r));
   ("text", Field.dump_opt_str (text r))].

(** The network and the extractor, as one run meets them. *)
Record Net : Type := {
  client_get : nat -> get_outcome;
  playwright : string + string;
  newspaper : string -> result ScraperResponse }.

Inductive event : Type :=
| Retry (e : tenacity.event)
| PlaywrightFallback.

(** The body of [fetch_with_retries], at one attempt. *)
Definition fetch_once (o : get_outcome) : string + exc :=
  match o with
  | Response status_code text =>
      if (400 <=? status_code)%Z then
        inr (HTTPStatusError status_code ("HTTP " ++ Str.of_Z status_code))
      else inl text
  | GetRaised class_name message => inr (OtherError class_name message)
  end.

Definition fetch_with_retries (net : Net)
    : list tenacity.event * tenacity.outcome string exc :=
  tenacity.retry 3 (tenacity.wait_exponential 1 1 8)
                 (fun n => fetch_once (client_get net n)).

(** [fetch_with_playwright]: every failure becomes a [RuntimeError]. *)
Definition fetch_with_playwright (net : Net) : string + string :=
  match playwright net with
  | inl html => inl html
  | inr e => inr ("Playwright fallback failed: " ++ e)
  end.

Definition type_name (e : exc) : string :=
  match e with
  | HTTPStatusError _ _ => "HTTPStatusError"
  | OtherError class_name _ => class_name
  end.

Definition exc_str (e : exc) : string :=
  match e with
  | HTTPStatusError _ message => message
  | OtherError _ message => message
  end.

Definition error_dict (error url : string) : Dict.t :=
  [("error", JStr error); ("url", JStr url)].

Definition parse_html (net : Net) (html : string) : result Dict.t :=
  r <- newspaper net html ;;
  Ok (model_dump r).

(** [isinstance(last_exc, httpx.HTTPStatusError) and
    last_exc.response.status_code == 403] *)
Definition is_forbidden (last_exc : exc) : bool :=
  match last_exc with
  | HTTPStatusError status_code _ => Z.eqb status_code 403
  | OtherError _ _ => false
  end.

(** [scrape_article]: the events of the fetch and what is returned.  The
    decorated call raises nothing but [RetryError], so the two other
    handlers of the source are never entered. *)
Definition scrape_article (net : Net) (url : string)
    : list event * result Dict.t :=
  let '(trace, fetched) := fetch_with_retries net in
  let trace := map Retry trace in
  match fetched with
  | tenacity.Returned html => (trace, parse_html net html)
  | tenacity.RetryError last_exc =>
      (* Extract the final inner exception (e.g. HTTPStatusError) *)
      if is_forbidden last_exc then
        match fetch_with_playwright net with
        | inl html => (trace ++ [PlaywrightFallback], parse_html net html)%list
        | inr e2 =>
            ((trace ++ [PlaywrightFallback])%list,
             Ok (error_dict ("Playwright fallback failed: " ++ e2) url))
        end
      else
        (trace,
         Ok (error_dict ("Fetch failed after retries: " ++ type_name last_exc
                         ++ ": " ++ exc_str last_exc) url))
  end.

End scraper.

(* ===================================================================== *)
(** ** evaluate.py *)
(* ===================================================================== *)

Module evaluate.

(** [str(e)] of pydantic's [ValidationError]; its wording plays no part. *)
Definition validation_error_text : string :=
  "validation errors for Consensus".

(** The dict the [except] branch validates in place of the response. *)
Definition fallback_input (e : string) : json :=
  JObj [("summary", JStr "");
        ("conclusion", JStr "Validation failed");
        ("notes", JStr e)].

(** [parsed_json], from what the normalizer returned. *)
Definition parsed_json_of (cleaned_text : json) : json :=
  match cleaned_text with
  | JObj _ | JArr _ => cleaned_text
  | JStr s =>
      (* Try one more time if it's still a string *)
      match Json.loads s with
      | Some v => v
      | None => JObj []
      end
  | _ => JObj []
  end.

(** [aggregate_evaluations(evals, metadata)]; [resp] is what the call to
    the aggregator returned for the prompt built from [evals]. *)
Definition aggregate_evaluations (resp : models.response) (evals : list json)
    : result ConsensusResponse.t :=
  raw_text <- models.get "text" resp ;;
  cleaned_text <- utils.clean_llm_json raw_text ;;
  let parsed_json := parsed_json_of cleaned_text in
  text <-
    match Consensus.model_validate parsed_json with
    | Some c => Ok c
    | None =>
        match Consensus.model_validate (fallback_input validation_error_text) with
        | Some c => Ok c
        | None => Raise (ValidationError validation_error_text)
        end
    end ;;
  let parsed := Consensus.model_dump text in
  model <- models.getitem "model" resp ;;
  match
    ConsensusResponse.model_validate
      (JObj [("article", Dict.get_default "article" (JObj []) parsed);
             ("publication", Dict.get_default "publication" (JObj []) parsed);
             ("confidence", Dict.get_default "confidence" (JObj []) parsed);
             ("notes", Dict.get_default "notes" (JObj []) parsed);
             ("disagreements", Dict.get_default "disagreements" (JObj []) parsed);
             ("model", model)])
  with
  | Some consensus => Ok consensus
  | None => Raise (ValidationError "validation error for ConsensusResponse")
  end.

End evaluate.

(* ===================================================================== *)
(** ** db.py *)
(* ===================================================================== *)

Module db.

Module StatsAnswer.
Record t : Type := Build {
  answer : string;
  count : Z }.

Definition model_validate (v : json) : option t :=
  match v with
  | JObj d =>
      match Field.str (Dict.get "answer" d), Field.int (Dict.get "count" d) with
      | Some a, Some c => Some (Build a c)
      | _, _ => None
      end
  | _ => None
  end.
End StatsAnswer.

(** [FieldStats = RootModel[Dict[str, List[StatsAnswer]]]] *)
Module FieldStats.
Definition t : Type := list (string * list StatsAnswer.t).

Fixpoint validate_members (members : list (string * json)) : option t :=
  match members with
  | [] => Some []
  | (k, JArr items) :: r =>
      match Field.models StatsAnswer.model_validate items, validate_members r with
      | Some l, Some m => Some ((k, l) :: m)
      | _, _ => None
      end
  | _ :: _ => None
  end.

Definition model_validate (v : json) : option t :=
  match v with
  | JObj d => validate_members d
  | _ => None
  end.
End FieldStats.

Module Deduplication.
Record t : Type := Build { stats : list FieldStats.t }.

Definition model_validate (v : json) : option t :=
  match v with
  | JObj d =>
      match Dict.get "stats" d with
      | Some (JArr items) =>
          option_map Build (Field.models FieldStats.model_validate items)
      | _ => None
      end
  | _ => None
  end.

Definition model_validate_json (text : json) : option t :=
  match text with
  | JStr s =>
      match Json.loads s with
      | Some v => model_validate v
      | None => None
      end
  | _ => None
  end.
End Deduplication.

Definition CONSENSUS_FIELDS : list string :=
  ["perspective"; "tone_language"; "fairness"; "headline_article";
   "source_of_funding"; "ownership"; "location"].

(** [field_values] and [field_answers]: a list per monitored field. *)
Definition fields : Type := list (string * list json).

Definition empty_fields : fields := map (fun f => (f, [])) CONSENSUS_FIELDS.

Fixpoint lookup {V} (k : string) (d : list (string * V)) : option V :=
  match d with
  | [] => None
  | (k', v) :: r => if String.eqb k k' then Some v else lookup k r
  end.

(** [acc[field].extend(items)] *)
Fixpoint extend (field : string) (items : list json) (acc : fields) : fields :=
  match acc with
  | [] => []
  | (k, l) :: r =>
      if String.eqb field k then (k, (l ++ items)%list) :: r
      else (k, l) :: extend field items r
  end.

Definition py_get (v : json) : result Dict.t :=
  match v with
  | JObj d => Ok d
  | _ => Raise (AttributeError "object has no attribute 'get'")
  end.

(** The [mapping] built from an [article] and a [publication] dict. *)
Definition mapping (article publication : Dict.t) : list (string * json) :=
  [("perspective", Dict.get_default "perspective" JNull article);
   ("tone_language", Dict.get_default "tone_language" JNull article);
   ("fairness", Dict.get_default "fairness" JNull article);
   ("headline_article", Dict.get_default "headline_article" JNull article);
   ("source_of_funding", Dict.get_default "source_of_funding" JNull publication);
   ("ownership", Dict.get_default "ownership" JNull publication);
   ("location", Dict.get_default "location" JNull publication)].

Definition mapping_of (holder : Dict.t) : result (list (string * json)) :=
  article <- py_get (Dict.get_default "article" (JObj []) holder) ;;
  publication <- py_get (Dict.get_default "publication" (JObj []) holder) ;;
  Ok (mapping article publication).

(** Track consensus values *)
Definition track_values (m : list (string * json)) (field_values : fields) : fields :=
  fold_left
    (fun acc fv =>
       match snd fv with
       | JNull => acc
       | value => extend (fst fv) [value] acc
       end)
    m field_values.

Definition track_answers (m : list (string * json)) (field_answers : fields) : fields :=
  fold_left
    (fun acc fa =>
       match snd fa with
       | JNull => acc
       | JArr answer => extend (fst fa) answer acc
       | answer => extend (fst fa) [answer] acc
       end)
    m field_answers.

(** [for ev in ...]: what a decoded value yields when iterated. *)
Definition py_iter (v : json) : result (list json) :=
  match v with
  | JArr items => Ok items
  | JObj d => Ok (map (fun kv => JStr (fst kv)) d)
  | JStr s => Ok (map (fun c => JStr (String c "")) (list_ascii_of_string s))
  | _ => Raise (TypeError "object is not iterable")
  end.

(** The loop over the evaluations of one row.  An exception leaves the
    loop; the answers appended before it stay. *)
Fixpoint record_evaluations (evs : list json) (field_answers : fields) : fields :=
  match evs with
  | [] => field_answers
  | ev :: r =>
      match (d <- py_get ev ;; mapping_of d) with
      | Ok m => record_evaluations r (track_answers m field_answers)
      | Raise _ => field_answers
      end
  end.

(** The body of the loop over the rows; the [except] keeps what was
    appended before the exception. *)
Definition record_row (acc : fields * fields) (result_json : string)
    : fields * fields :=
  let '(field_values, field_answers) := acc in
  match Json.loads result_json with
  | None => acc
  | Some data =>
      match (d <- py_get data ;;
             consensus <- py_get (Dict.get_default "consensus" (JObj []) d) ;;
             m <- mapping_of consensus ;;
             Ok (d, m)) with
      | Raise _ => acc
      | Ok (d, m) =>
          let field_values := track_values m field_values in
          match py_iter (Dict.get_default "evaluations" (JArr []) d) with
          | Ok evs => (field_values, record_evaluations evs field_answers)
          | Raise _ => (field_values, field_answers)
          end
      end
  end.

(** Keys of a [Counter]: equality and hashing of decoded scalars.  [True]
    and [1] are one key, as are [False] and [0]; two numbers with a
    fraction are one key when their literals are the same. *)
Definition py_eq (a b : json) : bool :=
  match a, b with
  | JNull, JNull => true
  | JBool x, JBool y => Bool.eqb x y
  | JBool x, JInt z | JInt z, JBool x => Z.eqb z (if x then 1 else 0)
  | JInt x, JInt y => Z.eqb x y
  | JFloat x, JFloat y => String.eqb x y
  | JStr x, JStr y => String.eqb x y
  | _, _ => false
  end.

Definition hashable (v : json) : bool :=
  match v with
  | JArr _ | JObj _ => false
  | _ => true
  end.

Fixpoint counter_add (k : json) (c : list (json * Z)) : list (json * Z) :=
  match c with
  | [] => [(k, 1%Z)]
  | (k', n) :: r =>
      if py_eq k k' then (k', (n + 1)%Z) :: r else (k', n) :: counter_add k r
  end.

(** [Counter(items)] *)
Definition Counter (items : list json) : result (list (json * Z)) :=
  if forallb hashable items then
    Ok (fold_left (fun c k => counter_add k c) items [])
  else Raise (TypeError "unhashable type").

(** ["no" if str(v).lower() == "no consensus" else "yes"] *)
Definition is_no_consensus (v : json) : bool :=
  match v with
  | JStr s => String.eqb (Str.lower s) "no consensus"
  | _ => false
  end.

(** [round((count / total) * 100, 1)], in tenths of a percent, is an
    input of the statistics: which tenth binary64 arithmetic picks when
    the exact percentage lies halfway between two depends on the digits of
    the operands.  [nearest_tenth] is what every such rounding satisfies:
    the result is a tenth nearest to the exact percentage. *)
Definition rounding : Type := Z -> Z -> Z.

Definition nearest_tenth (round_pct : rounding) : Prop :=
  forall count total : Z,
    (0 < total)%Z -> (0 <= count <= total)%Z ->
    (2 * Z.abs (total * round_pct count total - 1000 * count) <= total)%Z.

(** The rounding that breaks ties to the even tenth. *)
Definition round_half_even (num den : Z) : Z :=
  let q := (num / den)%Z in
  let r := (num mod den)%Z in
  if (2 * r <? den)%Z then q
  else if (den <? 2 * r)%Z then (q + 1)%Z
  else if Z.even q then q else (q + 1)%Z.

Definition ratio_pct : rounding :=
  fun count total => round_half_even (1000 * count) total.

(** One entry of [stats]; the two ratios are in tenths of a percent. *)
Record FieldStat : Type := {
  no_consensus : Z;
  consensus : Z;
  total : Z;
  answers : list (json * Z) }.

Definition stats_map : Type := list (string * FieldStat).

(** The entry of a field, from its consensus values and the counts of its
    answers. *)
Definition stat_of (round_pct : rounding) (values : list json)
    (answer_counts : list (json * Z)) : FieldStat :=
  let no := Z.of_nat (List.length (filter is_no_consensus values)) in
  let yes :=
    Z.of_nat (List.length (filter (fun v => negb (is_no_consensus v)) values)) in
  let total := (no + yes)%Z in
  {| no_consensus := round_pct no total;
     consensus := round_pct yes total;
     total := total;
     answers := answer_counts |}.

(** ---- Compute stats *)
Fixpoint compute_stats (round_pct : rounding)
    (field_values field_answers : fields) : result stats_map :=
  match field_values with
  | [] => Ok []
  | (field, values) :: r =>
      match values with
      | [] => compute_stats round_pct r field_answers
      | _ :: _ =>
          answer_counts <-
            Counter (match lookup field field_answers with
                     | Some l => l
                     | None => []
                     end) ;;
          rest <- compute_stats round_pct r field_answers ;;
          Ok ((field, stat_of round_pct values answer_counts) :: rest)
      end
  end.

(** [deduped_map]: the field objects flattened into one dict. *)
Fixpoint dict_set {V} (k : string) (v : V) (d : list (string * V))
    : list (string * V) :=
  match d with
  | [] => [(k, v)]
  | (k', v') :: r =>
      if String.eqb k k' then (k', v) :: r else (k', v') :: dict_set k v r
  end.

Definition deduped_map (stats_data : list FieldStats.t) : FieldStats.t :=
  fold_left (fun d kv => dict_set (fst kv) (snd kv) d)
            (concat stats_data) [].

Definition sum_counts (deduped_answers : list StatsAnswer.t) : Z :=
  fold_left (fun acc a => (acc + StatsAnswer.count a)%Z) deduped_answers 0%Z.

(** [stats[field].update(...)] with the new total and answers. *)
Definition updated (st : FieldStat) (deduped_answers : list StatsAnswer.t)
    : FieldStat :=
  {| no_consensus := no_consensus st;
     consensus := consensus st;
     total := sum_counts deduped_answers;
     answers := map (fun a => (JStr (StatsAnswer.answer a), StatsAnswer.count a))
                    deduped_answers |}.

Fixpoint update_field (field : string) (deduped_answers : list StatsAnswer.t)
    (stats : stats_map) : stats_map :=
  match stats with
  | [] => []
  | (k, st) :: r =>
      if String.eqb field k then (k, updated st deduped_answers) :: r
      else (k, st) :: update_field field deduped_answers r
  end.

(** ---- Merge deduplicated answers back *)
Definition merge (deduped : FieldStats.t) (stats : stats_map) : stats_map :=
  fold_left (fun st kv => update_field (fst kv) (snd kv) st) deduped stats.

(** Two entries of a field, or two absences, with the same ratios. *)
Definition same_ratios (a b : option FieldStat) : Prop :=
  match a, b with
  | Some x, Some y =>
      no_consensus x = no_consensus y /\ consensus x = consensus y
  | None, None => True
  | _, _ => False
  end.

(** What [get_consensus_stats_for_url] returns. *)
Record Stats : Type := {
  url : string;
  stats : stats_map;
  model : option json }.

(** The deterministic phase: the tallies of the rows and their ratios. *)
Definition tally (rows : list string) : fields * fields :=
  fold_left record_row rows (empty_fields, empty_fields).

Definition raw_stats (round_pct : rounding) (rows : list string)
    : result stats_map :=
  let '(field_values, field_answers) := tally rows in
  compute_stats round_pct field_values field_answers.

(** [get_consensus_stats_for_url(url)]: [rows] is what the store holds for
    [url], [dedup] what the deduplication call returns. *)
Definition get_consensus_stats_for_url (round_pct : rounding)
    (rows : list string) (dedup : models.response) (url : string)
    : result Stats :=
  match rows with
  | [] => Ok {| url := url; stats := []; model := None |}
  | _ :: _ =>
      stats <- raw_stats round_pct rows ;;
      (* ---- Deduplication step (single LLM call) *)
      text <- models.getitem "text" dedup ;;
      match Deduplication.model_validate_json text with
      | None => Raise (ValidationError "validation error for Deduplication")
      | Some parsed =>
          let stats := merge (deduped_map (Deduplication.stats parsed)) stats in
          model <- models.getitem "model" dedup ;;
          Ok {| url := url; stats := stats; model := Some model |}
      end
  end.

(** The statistics as the JSON value that goes into the response. *)
Definition tenths_literal (t : Z) : string :=
  Str.of_Z (t / 10) ++ "." ++ Str.of_Z (t mod 10).

Definition stat_json (st : FieldStat) : json :=
  JObj [("no_consensus", JFloat (tenths_literal (no_consensus st)));
        ("consensus", JFloat (tenths_literal (consensus st)));
        ("total", JInt (total st));
        ("answers",
         JArr (map (fun a => JObj [("answer", fst a); ("count", JInt (snd a))])
                   (answers st)))].

Definition to_dict (h : Stats) : Dict.t :=
  ([("url", JStr (url h));
    ("stats", JObj (map (fun kv => (fst kv, stat_json (snd kv))) (stats h)))]
   ++ match model h with
      | Some m => [("model", m)]
      | None => []
      end)%list.

(** *** The charts: [transform_for_chart] *)

(** What [transform_for_chart] can raise: [row[x]] on a row without the
    column ([KeyError]), and [setdefault] on a value that has no hash
    ([TypeError]). *)
Inductive chart_exn : Type :=
| KeyError (key : string)
| Unhashable.

(** [next((k for k in sample.keys() if k not in {"key", "count"}), None)] *)
Definition x_field_of (sample : Dict.t) : option string :=
  find (fun k => negb (String.eqb k "key" || String.eqb k "count"))
       (map fst sample).

Definition chart_item (key count : json) : json :=
  JObj [("key", key); ("count", count)].

(** [grouped.setdefault(x_value, []).append(item)] *)
Fixpoint setdefault_append (x_value item : json)
    (grouped : list (json * list json)) : list (json * list json) :=
  match grouped with
  | [] => [(x_value, [item])]
  | (x, ylist) :: r =>
      if py_eq x_value x then (x, (ylist ++ [item])%list) :: r
      else (x, ylist) :: setdefault_append x_value item r
  end.

(** The loop over the rows. *)
Fixpoint group_rows (x_field : string) (rows : list Dict.t)
    (grouped : list (json * list json))
    : chart_exn + list (json * list json) :=
  match rows with
  | [] => inr grouped
  | row :: rest =>
      match Dict.get x_field row with
      | None => inl (KeyError x_field)
      | Some x_value =>
          match Dict.get "key" row with
          | None => inl (KeyError "key")
          | Some key =>
              match Dict.get "count" row with
              | None => inl (KeyError "count")
              | Some count =>
                  if hashable x_value then
                    group_rows x_field rest
                      (setdefault_append x_value (chart_item key count) grouped)
                  else inl Unhashable
              end
          end
      end
  end.

Definition chart_group (g : json * list json) : json :=
  JObj [("x", fst g); ("y", JArr (snd g))].

Definition transform_for_chart (rows : list Dict.t)
    : chart_exn + list json :=
  match rows with
  | [] => inr []
  | sample :: _ =>
      (* Detect the x-axis field (first key not named 'key' or 'count') *)
      match x_field_of sample with
      | None => inr []
      | Some x_field =>
          if String.eqb x_field "" then inr []
          else
            match group_rows x_field rows [] with
            | inl e => inl e
            | inr grouped => inr (map chart_group grouped)
            end
      end
  end.

(** The x value of a row and the item made of it, for a row that holds
    the three columns. *)
Definition x_of (x_field : string) (row : Dict.t) : json :=
  Dict.get_default x_field JNull row.

Definition item_of (row : Dict.t) : json :=
  chart_item (Dict.get_default "key" JNull row)
             (Dict.get_default "count" JNull row).

(** The items of the rows whose x value is [x], in the order of the
    rows. *)
Definition items_at (x_field : string) (x : json) (rows : list Dict.t)
    : list json :=
  map item_of (filter (fun row => py_eq (x_of x_field row) x) rows).

End db.

(* ===================================================================== *)
(** ** analysis.py *)
(* ===================================================================== *)

Module analysis.

Record AnalyzeRequest : Type := {
  url : string;
  max_summary_chars : option Z }.

(** One entry of [raw_results]: [gather(..., return_exceptions=True)] hands
    back the exception a call raised, or what the call returned.  The
    loops test [isinstance(r, Exception)], and [Raised] is what that test
    accepts; [call_openrouter] itself catches every exception and returns
    the error pair, a [Result]. *)
Inductive gathered : Type :=
| Raised (e : string)
| Result (r : models.response).

(** Everything outside the code that one request meets: the network and
    the extractor, the evaluator service at each call, the pool as
    [random.shuffle] left it, the rows stored for the URL, and the
    rounding of the percentages.  The environment variables that name the
    models are taken as set and decodable. *)
Record World : Type := {
  net : scraper.Net;
  summary_call : models.response;
  model_list : list json;
  evaluator_call : nat -> gathered;
  consensus_call : models.response;
  rows : list string;
  dedup_call : models.response;
  round_pct : db.rounding }.

Definition exn_str (e : exn) : string :=
  match e with
  | HTTPException _ detail => detail
  | AttributeError m | TypeError m | IndexError m | UnboundLocalError m
  | ValidationError m | RuntimeError m => m
  | JSONDecodeError => "Expecting value"
  end.

(** [isinstance(e, HTTPException)]: what FastAPI answers with the status
    code of the exception; any other exception is an internal error. *)
Definition is_http (e : exn) : bool :=
  match e with
  | HTTPException _ _ => true
  | _ => false
  end.

(** [x or y] *)
Definition py_or (x y : json) : json := if truthy x then x else y.

(** [len(x.strip())] *)
Definition len_strip (x : json) : result nat :=
  match x with
  | JStr s => Ok (String.length (Str.strip s))
  | _ => Raise (AttributeError "object has no attribute 'strip'")
  end.

(** [text[:n]] *)
Definition slice_to (n : option Z) (text : json) : result json :=
  match text with
  | JStr s =>
      Ok (JStr match n with
               | Some n =>
                   if (0 <=? n)%Z then Str.take (Z.to_nat n) s
                   else Str.take (String.length s - Z.to_nat (- n)) s
               | None => s
               end)
  | _ => Raise (TypeError "object is not subscriptable")
  end.

(** [str(x)] of what the scraper put under [published_at]. *)
Definition py_str (v : json) : string :=
  match v with
  | JNull => "None"
  | JStr s => s
  | other => Json.dumps false other
  end.

Definition metadata (title publication content : json) (url : string)
    (scraped : Dict.t) : Dict.t :=
  [("title", title);
   ("authors", Dict.get_default "authors" JNull scraped);
   ("publication", publication);
   ("published_at", Dict.get_default "published_at" JNull scraped);
   ("url", JStr url);
   ("content", content)].

(** [range(0, stop, 2)] *)
Definition range2 (stop : nat) : list nat :=
  map (fun k => 2 * k)%nat (seq 0 (Nat.div2 (stop + 1))).

Fixpoint traverse {A B} (f : A -> result B) (l : list A) : result (list B) :=
  match l with
  | [] => Ok []
  | x :: r =>
      y <- f x ;;
      ys <- traverse f r ;;
      Ok (y :: ys)
  end.

(** [model_list[i]] *)
Definition getitem (l : list json) (i : nat) : result json :=
  match nth_error l i with
  | Some x => Ok x
  | None => Raise (IndexError "list index out of range")
  end.

(** The pairs dispatched for a shuffled pool. *)
Definition make_pairs (model_list : list json) : result (list (json * json)) :=
  pairs <-
    traverse (fun i =>
                a <- getitem model_list i ;;
                b <- getitem model_list (i + 1) ;;
                Ok (a, b))
             (range2 (Nat.min (List.length model_list) 6)) ;;
  Ok (firstn 3 pairs).

(** The record put in place of a call that raised. *)
Definition sentinel (r : string) : json :=
  JObj [("model", JStr "error");
        ("article",
         JObj [("bias", JStr "Unknown");
               ("credibility", JStr "Unknown");
               ("notes", JStr ("Model call failed: " ++ r))]);
        ("publication", JObj [("source_of_funding", JNull); ("location", JNull)]);
        ("raw", JNull)].

(** [parsed], from the [text] of a call's answer. *)
Definition parse_text (text : json) : json :=
  match text with
  | JObj _ => text
  | JStr s =>
      match Json.loads s with
      | Some v => v
      | None => JObj []
      end
  | _ => JObj []
  end.

Definition evaluation_of (model : json) (parsed : Dict.t) : json :=
  JObj [("model", model);
        ("article", Dict.get_default "article" (JObj []) parsed);
        ("publication", Dict.get_default "publication" (JObj []) parsed);
        ("raw", JObj [("text", JObj parsed); ("normalized", JObj parsed)])].

(** The record of a call that returned, in the non-streaming branch. *)
Definition evaluate_result (r : models.response) : result json :=
  text <- models.get "text" r ;;
  let parsed := parse_text text in
  model <- models.get "model" r ;;
  parsed <- db.py_get parsed ;;
  Ok (evaluation_of model parsed).

(** The same in the streaming branch, which first passes a [parsed] that
    is no dict through [json.dumps] and [json.loads]. *)
Definition evaluate_result_stream (r : models.response) : result json :=
  text <- models.get "text" r ;;
  let parsed := parse_text text in
  parsed <-
    match parsed with
    | JObj _ => Ok parsed
    | _ =>
        match Json.loads (Json.dumps true parsed) with
        | Some v => Ok v
        | None => Raise JSONDecodeError
        end
    end ;;
  model <- models.get "model" r ;;
  parsed <- db.py_get parsed ;;
  Ok (evaluation_of model parsed).

(** The loop of the non-streaming branch over [raw_results]. *)
Fixpoint collect (raw_results : list gathered) (evaluations : list json)
    : result (list json) :=
  match raw_results with
  | [] => Ok evaluations
  | Raised r :: rest => collect rest (evaluations ++ [sentinel r])%list
  | Result r :: rest =>
      evaluation <- evaluate_result r ;;
      collect rest (evaluations ++ [evaluation])%list
  end.

(** The loop of [event_stream] over [raw_results]: the frames it yields
    and the list it has built, or the exception that ends the generator.
    [evaluation] is the local variable of that name, unbound until a call
    that returned has been handled. *)
Fixpoint stream_loop (raw_results : list gathered) (evaluations : list json)
    (evaluation : option json) : list string * result (list json) :=
  match raw_results with
  | [] => ([], Ok evaluations)
  | Raised r :: rest =>
      let ev := sentinel r in
      let evaluations := (evaluations ++ [ev])%list in
      match evaluation with
      | None =>
          ([], Raise (UnboundLocalError
                        "cannot access local variable 'evaluation'"))
      | Some bound =>
          let '(frames, out) := stream_loop rest evaluations evaluation in
          (utils.sse_event "evaluation" bound :: frames, out)
      end
  | Result r :: rest =>
      match evaluate_result_stream r with
      | Raise e => ([], Raise e)
      | Ok ev =>
          let '(frames, out) :=
            stream_loop rest (evaluations ++ [ev])%list (Some ev) in
          (utils.sse_event "evaluation" ev :: frames, out)
      end
  end.

(** [ev] is the record the streaming branch builds for a call that
    returned. *)
Definition record_of (g : gathered) (ev : json) : Prop :=
  exists r, g = Result r /\ evaluate_result_stream r = Ok ev.

Definition status (message : string) : string :=
  utils.sse_event "status" (JObj [("message", JStr message)]).

(** What the steps before the evaluations leave behind. *)
Record Prepared : Type := {
  p_url : string;
  p_metadata : Dict.t;
  p_summary : SummaryResponse.t;
  p_pairs : list (json * json) }.

(** [AnalyzeResponse(...)]: the evaluations are validated as
    [ModelEvaluation]s, the metadata against the optional fields. *)
Definition final_result (p : Prepared) (evaluations : list json)
    (consensus : ConsensusResponse.t) (history : db.Stats)
    : result AnalyzeResponse.t :=
  let m := p_metadata p in
  match Field.opt_str (Dict.get "title" m),
        Field.opt_list_str (Dict.get "authors" m),
        Field.opt_str (Dict.get "publication" m),
        Field.models ModelEvaluation.model_validate evaluations
  with
  | Some title, Some authors, Some publication, Some evs =>
      Ok {| AnalyzeResponse.url := p_url p;
            AnalyzeResponse.title := title;
            AnalyzeResponse.authors := authors;
            AnalyzeResponse.publication := publication;
            AnalyzeResponse.published_at :=
              Some (py_str (Dict.get_default "published_at" JNull m));
            AnalyzeResponse.summary := p_summary p;
            AnalyzeResponse.evaluations := evs;
            AnalyzeResponse.consensus := consensus;
            AnalyzeResponse.history := Some (db.to_dict history) |}
  | _, _, _, _ => Raise (ValidationError "validation error for AnalyzeResponse")
  end.

(** A finished run: the response and the row appended to the store. *)
Record Finished : Type := {
  response : AnalyzeResponse.t;
  inserted : string }.

Definition finish (r : AnalyzeResponse.t) : Finished :=
  {| response := r; inserted := AnalyzeResponse.model_dump_json r |}.

(** Steps 1 and 2 and the summary: up to the dispatch of the calls. *)
Definition prepare (w : World) (req : AnalyzeRequest) : result Prepared :=
  let url := url req in
  (* --- 1. Quick pre-check --- *)
  if negb (utils.looks_like_article_url url) then
    Raise (HTTPException 400
             "This link doesn't appear to be a news article URL.")
  else
    (* --- 2. Scrape article --- *)
    scraped <-
      try_except (snd (scraper.scrape_article (net w) url))
        (fun e => Raise (HTTPException 400
                           ("Failed to scrape URL: " ++ exn_str e))) ;;
    let text := py_or (Dict.get_default "text" JNull scraped) (JStr "") in
    let title := py_or (Dict.get_default "title" JNull scraped) (JStr "") in
    let publication :=
      py_or (Dict.get_default "publication" JNull scraped) (JStr "") in
    n <- len_strip text ;;
    if (n <? 500)%nat then
      Raise (HTTPException 400
               "Extracted content is too short — likely not a full article.")
    else
      short_title <-
        (if truthy title then
           n <- len_strip title ;; Ok (n <? 5)%nat
         else Ok true) ;;
      if (short_title : bool) then
        Raise (HTTPException 400
                 "No valid title detected — likely not a news article.")
      else
      content <- slice_to (max_summary_chars req) text ;;
      let metadata := metadata title publication content url scraped in
      let result := summary_call w in
      text <- models.getitem "text" result ;;
      match Summary.model_validate_json text with
      | None => Raise (ValidationError "validation error for Summary")
      | Some summary =>
          let parsed := Summary.model_dump summary in
          model <- models.getitem "model" result ;;
          match
            SummaryResponse.model_validate
              (JObj [("summary", Dict.get_default "summary" (JObj []) parsed);
                     ("topics", Dict.get_default "topics" (JObj []) parsed);
                     ("type", Dict.get_default "type" (JObj []) parsed);
                     ("model", model)])
          with
          | None =>
              Raise (ValidationError "validation error for SummaryResponse")
          | Some summary_response =>
              (* --- 3. Make evaluations --- *)
              pairs <- make_pairs (model_list w) ;;
              Ok {| p_url := url;
                    p_metadata := metadata;
                    p_summary := summary_response;
                    p_pairs := pairs |}
          end
      end.

(** [raw_results]: one entry per dispatched call, in dispatch order. *)
Definition raw_results (w : World) (p : Prepared) : list gathered :=
  map (evaluator_call w) (seq 0 (List.length (p_pairs p))).

(** The steps after the evaluations, shared by both branches. *)
Definition conclude (w : World) (p : Prepared) (evaluations : list json)
    (consensus : ConsensusResponse.t) : result Finished :=
  history <-
    db.get_consensus_stats_for_url (round_pct w) (rows w) (dedup_call w)
                                   (p_url p) ;;
  r <- final_result p evaluations consensus history ;;
  Ok (finish r).

(** --- Streaming branch ---: the frames yielded, in order, and how the
    generator ends. *)
Definition event_stream (w : World) (p : Prepared)
    : list string * result Finished :=
  let f0 := [status "Evaluating article..."] in
  let '(f1, looped) := stream_loop (raw_results w p) [] None in
  match looped with
  | Raise e => ((f0 ++ f1)%list, Raise e)
  | Ok evaluations =>
      let f2 := [status "Finding consensus..."] in
      match evaluate.aggregate_evaluations (consensus_call w) evaluations with
      | Raise e => ((f0 ++ f1 ++ f2)%list, Raise e)
      | Ok consensus =>
          let f3 := [status "Getting historical data..."] in
          match conclude w p evaluations consensus with
          | Raise e => ((f0 ++ f1 ++ f2 ++ f3)%list, Raise e)
          | Ok fin =>
              ((f0 ++ f1 ++ f2 ++ f3 ++
                [utils.sse_event "done"
                   (AnalyzeResponse.model_dump (response fin))])%list,
               Ok fin)
          end
      end
  end.

(** --- Non-streaming branch --- *)
Definition run_to_completion (w : World) (p : Prepared) : result Finished :=
  evaluations <- collect (raw_results w p) [] ;;
  consensus <- evaluate.aggregate_evaluations (consensus_call w) evaluations ;;
  conclude w p evaluations consensus.

Inductive output : Type :=
| Response (fin : Finished)
| EventStream (frames : list string) (ended : result Finished).

Definition run_analysis (w : World) (req : AnalyzeRequest) (stream : bool)
    : result output :=
  p <- prepare w req ;;
  if stream then
    let '(frames, ended) := event_stream w p in
    Ok (EventStream frames ended)
  else
    fin <- run_to_completion w p ;;
    Ok (Response fin).

End analysis.

(* ===================================================================== *)
(** ** Sample inputs *)
(* ===================================================================== *)

Module Sample.

(** A pool of three evaluators, and one of four. *)
Definition pool3 : list json := [JStr "model-a"; JStr "model-b"; JStr "model-c"].
Definition pool4 : list json := (pool3 ++ [JStr "model-d"])%list.

(** The wrappings an evaluator's text arrives in: the JSON text of an
    object encoded once more as a JSON string, and a text between code
    fences. *)
Definition double_encoded (o : json) : string :=
  Json.dumps true (JStr (Json.dumps true o)).

Definition fenced (s : string) : string :=
  "```json" ++ String (Str.chr 10) "" ++ s ++ String (Str.chr 10) "" ++ "```".

Definition object1 : json := JObj [("a", JInt 1)].

(** The text of a JSON string whose content opens with a brace and an
    escaped quote and closes with a brace: what double encoding makes of
    every object that has a key. *)
Definition quoted (s : string) : string := String "034" (s ++ String "034" "").
Definition escaped_object (body : string) : string :=
  String "{" (String "\" (String "034" (body ++ "}"))).

(** [s * n] *)
Fixpoint times (s : string) (n : nat) : string :=
  match n with
  | O => ""
  | S k => s ++ times s k
  end.

(** An evaluator's answer, an aggregator's answer and a summary, as the
    decoded objects; the service sends their JSON text. *)
Definition article : json :=
  JObj [("perspective", JStr "Neutral");
        ("tone_language", JArr [JStr "Restrained"]);
        ("fairness", JStr "High");
        ("headline_article", JStr "Small");
        ("notes", JStr "Balanced sourcing.")].

Definition publication : json :=
  JObj [("source_of_funding", JArr [JStr "Advertising"]);
        ("location", JStr "Canada");
        ("ownership", JStr "Example Media")].

Definition evaluation : json :=
  JObj [("article", article); ("publication", publication)].

Definition consensus : json :=
  JObj [("article", article);
        ("publication", publication);
        ("confidence", JFloat "0.86");
        ("disagreements", JArr []);
        ("notes", JStr "Mean of the field ratios.")].

Definition summary : json :=
  JObj [("summary", JStr "A short summary.");
        ("topics", JArr [JStr "Elections"]);
        ("type", JStr "Reporting")].

Definition answer (v : json) : models.response :=
  models.Answer (JStr "provider/model") (JStr (Json.dumps true v)) JNull.

(** The aggregator answers with text that is not JSON. *)
Definition unparseable : models.response :=
  models.Answer (JStr "provider/model") (JStr "I could not decide.") JNull.

(** A site that serves the page at the first attempt, and an extractor
    that finds a title and 504 characters of text in it. *)
Definition scraped : scraper.ScraperResponse :=
  {| scraper.title := Some "City council votes on budget";
     scraper.authors := Some ["A. Writer"];
     scraper.publication := Some "https://example.com";
     scraper.published_at := None;
     scraper.text := Some (times "word " 101) |}.

Definition site_up : scraper.Net :=
  {| scraper.client_get := fun _ => scraper.Response 200 "<html></html>";
     scraper.playwright := inr "browser not installed";
     scraper.newspaper := fun _ => Ok scraped |}.

(** A site that answers every attempt with status [code]. *)
Definition site_status (code : Z) : scraper.Net :=
  {| scraper.client_get := fun _ => scraper.Response code "";
     scraper.playwright := inr "browser not installed";
     scraper.newspaper := fun _ => Ok scraped |}.

(** A site that answers 503 at the first attempt and serves the page at
    the second. *)
Definition site_busy_once : scraper.Net :=
  {| scraper.client_get := fun n =>
       match n with
       | 1%nat => scraper.Response 503 ""
       | _ => scraper.Response 200 "<html></html>"
       end;
     scraper.playwright := inr "browser not installed";
     scraper.newspaper := fun _ => Ok scraped |}.

(** A site whose page holds only a few words. *)
Definition site_stub : scraper.Net :=
  {| scraper.client_get := fun _ => scraper.Response 200 "<html></html>";
     scraper.playwright := inr "browser not installed";
     scraper.newspaper := fun _ =>
       Ok {| scraper.title := Some "City council votes on budget";
             scraper.authors := Some [];
             scraper.publication := None;
             scraper.published_at := None;
             scraper.text := Some "Subscribe to read." |} |}.

Definition request : analysis.AnalyzeRequest :=
  {| analysis.url := "https://example.com/news/council-budget";
     analysis.max_summary_chars := Some 10000%Z |}.

(** A first submission of the URL in which every call answers well. *)
Definition world : analysis.World :=
  {| analysis.net := site_up;
     analysis.summary_call := answer summary;
     analysis.model_list := pool4;
     analysis.evaluator_call := fun _ => analysis.Result (answer evaluation);
     analysis.consensus_call := answer consensus;
     analysis.rows := [];
     analysis.dedup_call := models.ErrorTuple "not called";
     analysis.round_pct := db.ratio_pct |}.

Definition with_net (net : scraper.Net) (w : analysis.World) : analysis.World :=
  {| analysis.net := net;
     analysis.summary_call := analysis.summary_call w;
     analysis.model_list := analysis.model_list w;
     analysis.evaluator_call := analysis.evaluator_call w;
     analysis.consensus_call := analysis.consensus_call w;
     analysis.rows := analysis.rows w;
     analysis.dedup_call := analysis.dedup_call w;
     analysis.round_pct := analysis.round_pct w |}.

Definition with_evaluators (calls : nat -> analysis.gathered)
    (w : analysis.World) : analysis.World :=
  {| analysis.net := analysis.net w;
     analysis.summary_call := analysis.summary_call w;
     analysis.model_list := analysis.model_list w;
     analysis.evaluator_call := calls;
     analysis.consensus_call := analysis.consensus_call w;
     analysis.rows := analysis.rows w;
     analysis.dedup_call := analysis.dedup_call w;
     analysis.round_pct := analysis.round_pct w |}.

Definition with_summary (resp : models.response) (w : analysis.World)
    : analysis.World :=
  {| analysis.net := analysis.net w;
     analysis.summary_call := resp;
     analysis.model_list := analysis.model_list w;
     analysis.evaluator_call := analysis.evaluator_call w;
     analysis.consensus_call := analysis.consensus_call w;
     analysis.rows := analysis.rows w;
     analysis.dedup_call := analysis.dedup_call w;
     analysis.round_pct := analysis.round_pct w |}.

Definition with_consensus (resp : models.response) (w : analysis.World)
    : analysis.World :=
  {| analysis.net := analysis.net w;
     analysis.summary_call := analysis.summary_call w;
     analysis.model_list := analysis.model_list w;
     analysis.evaluator_call := analysis.evaluator_call w;
     analysis.consensus_call := resp;
     analysis.rows := analysis.rows w;
     analysis.dedup_call := analysis.dedup_call w;
     analysis.round_pct := analysis.round_pct w |}.

Definition with_store (rows : list string) (dedup : models.response)
    (w : analysis.World) : analysis.World :=
  {| analysis.net := analysis.net w;
     analysis.summary_call := analysis.summary_call w;
     analysis.model_list := analysis.model_list w;
     analysis.evaluator_call := analysis.evaluator_call w;
     analysis.consensus_call := analysis.consensus_call w;
     analysis.rows := rows;
     analysis.dedup_call := dedup;
     analysis.round_pct := analysis.round_pct w |}.

(** A stored row, as [insert_result] receives it: the full result of an
    earlier analysis of the URL by two evaluators, whose consensus gives
    [fairness] for the field of that name; and five such rows, four with
    a consensus and one without. *)
Definition article_record (fairness : string) : Article.t :=
  {| Article.perspective := "Neutral";
     Article.tone_language := Some ["Restrained"];
     Article.fairness := fairness;
     Article.headline_article := "Small";
     Article.notes := Some "Balanced sourcing." |}.

Definition publication_record : Publication.t :=
  {| Publication.source_of_funding := Some ["Advertising"];
     Publication.location := Some "Canada";
     Publication.ownership := Some "Example Media" |}.

Definition evaluation_by (model fairness : string) : ModelEvaluation.t :=
  {| ModelEvaluation.model := model;
     ModelEvaluation.article := article_record fairness;
     ModelEvaluation.publication := publication_record;
     ModelEvaluation.raw := None |}.

Definition stored_response (fairness : string) : AnalyzeResponse.t :=
  {| AnalyzeResponse.url := "https://example.com/news/council-budget";
     AnalyzeResponse.title := Some "City council votes on budget";
     AnalyzeResponse.authors := Some ["A. Writer"];
     AnalyzeResponse.publication := Some "https://example.com";
     AnalyzeResponse.published_at := Some "None";
     AnalyzeResponse.summary :=
       {| SummaryResponse.summary := "A short summary.";
          SummaryResponse.topics := ["Elections"];
          SummaryResponse.type := "Reporting";
          SummaryResponse.model := "provider/model" |};
     AnalyzeResponse.evaluations :=
       [evaluation_by "provider/model" "High";
        evaluation_by "provider/other" "Medium"];
     AnalyzeResponse.consensus :=
       {| ConsensusResponse.article := article_record fairness;
          ConsensusResponse.publication := publication_record;
          ConsensusResponse.confidence := "0.86";
          ConsensusResponse.disagreements := Some [];
          ConsensusResponse.notes := "Mean of the field ratios.";
          ConsensusResponse.model := "provider/model" |};
     AnalyzeResponse.history :=
       Some [("url", JStr "https://example.com/news/council-budget");
             ("stats", JObj [])] |}.

Definition stored_row (fairness : string) : string :=
  AnalyzeResponse.model_dump_json (stored_response fairness).

Definition five_rows : list string :=
  [stored_row "High"; stored_row "High"; stored_row "No Consensus";
   stored_row "High"; stored_row "Medium"].

(** A deduplication answer that names every field of the raw tables and
    merges nothing. *)
Definition echo (stats : db.stats_map) : json :=
  JObj [("stats",
         JArr (map (fun kv =>
                      JObj [(fst kv,
                             JArr (map (fun a => JObj [("answer", fst a);
                                                       ("count", JInt (snd a))])
                                       (db.answers (snd kv))))])
                   stats))].

Definition five_rows_stats : db.stats_map :=
  match db.raw_stats db.ratio_pct five_rows with
  | Ok stats => stats
  | Raise _ => []
  end.

Definition deduplicated : json := echo five_rows_stats.

(** The record the pipeline builds from an evaluator's answer. *)
Definition evaluation_record : json :=
  analysis.evaluation_of (JStr "provider/model")
    [("article", article); ("publication", publication)].

(** The body the service sends when it turns a request down, and the
    body of an answer. *)
Definition error_body : json :=
  JObj [("error", JObj [("code", JInt 429); ("message", JStr "Rate limited")])].

Definition answer_body (text : string) : json :=
  JObj [("id", JStr "gen-1");
        ("model", JStr "provider/model");
        ("choices", JArr [JObj [("text", JStr text);
                                ("finish_reason", JStr "stop")]])].

(** The first dispatched call comes back with the body of an error. *)
Definition first_call_turned_down (i : nat) : analysis.gathered :=
  match i with
  | O => analysis.Result (models.call_openrouter (inr error_body))
  | S _ => analysis.Result (answer evaluation)
  end.

(** The second dispatched call comes back with the body of an error. *)
Definition second_call_turned_down (i : nat) : analysis.gathered :=
  match i with
  | S O => analysis.Result (models.call_openrouter (inr error_body))
  | _ => analysis.Result (answer evaluation)
  end.

(** The second dispatched call is answered with the JSON text of a list. *)
Definition second_call_answers_a_list (i : nat) : analysis.gathered :=
  match i with
  | S O => analysis.Result (models.call_openrouter (inr (answer_body "[1,2]")))
  | _ => analysis.Result (answer evaluation)
  end.

(** Rows as the chart query returns them: the metric, the key it is
    grouped by, and the count. *)
Definition chart_row (metric key : string) (count : Z) : Dict.t :=
  [("metric", JStr metric); ("key", JStr key); ("count", JInt count)].

Definition chart_rows : list Dict.t :=
  [chart_row "Low" "provider/model" 2; chart_row "Low" "provider/other" 1;
   chart_row "High" "provider/model" 4].

(** What the steps before the dispatch leave behind in [world]. *)
Definition prepared : analysis.Prepared :=
  match analysis.prepare world request with
  | Ok p => p
  | Raise _ =>
      {| analysis.p_url := "";
         analysis.p_metadata := [];
         analysis.p_summary :=
           {| SummaryResponse.summary := "";
              SummaryResponse.topics := [];
              SummaryResponse.type := "";
              SummaryResponse.model := "" |};
         analysis.p_pairs := [] |}
  end.

(** The URL has been analysed five times before, and the deduplication
    call fails. *)
Definition world_dedup_down : analysis.World :=
  with_store five_rows (models.ErrorTuple "ConnectTimeout") world.

End Sample.

(* ===================================================================== *)
(** * Properties *)
(* ===================================================================== *)

(** ** The recursion budget of [json.loads] *)

Lemma lstrip_by_length (p : ascii -> bool) (s : string) :
  (String.length (Str.lstrip_by p s) <= String.length s)%nat.
Proof.
  induction s as [| c r IH]; simpl; [lia |].
  destruct (p c); simpl; lia.
Qed.

Lemma skip_ws_length (s : string) :
  (String.length (Json.skip_ws s) <= String.length s)%nat.
Proof. apply lstrip_by_length. Qed.

Lemma after_char_length (c : ascii) (s r : string) :
  Str.after_char c s = Some r -> String.length s = S (String.length r).
Proof.
  destruct s as [| d s]; simpl; [discriminate |].
  destruct (Ascii.eqb d c); [| discriminate].
  intros H. inversion H. reflexivity.
Qed.

Lemma drop_length (n : nat) :
  forall s, String.length (Str.drop n s) = (String.length s - n)%nat.
Proof.
  induction n as [| n IH]; intros s; simpl; [lia |].
  destruct s; simpl; [reflexivity | apply IH].
Qed.

Lemma span_digits_length (s : string) :
  String.length s =
    (String.length (fst (Json.span_digits s))
     + String.length (snd (Json.span_digits s)))%nat.
Proof.
  induction s as [| c r IH]; simpl; [reflexivity |].
  destruct (Str.isdigit c); simpl; [| reflexivity].
  destruct (Json.span_digits r). simpl in *. lia.
Qed.

Lemma decode_uXXXX_length (s r : string) (n : N) :
  Json.decode_uXXXX s = Some (n, r) ->
  String.length s = (4 + String.length r)%nat.
Proof.
  unfold Json.decode_uXXXX.
  destruct s as [| a [| b [| c [| d s]]]]; try discriminate.
  destruct (Json.hex_val a), (Json.hex_val b), (Json.hex_val c),
    (Json.hex_val d); try discriminate.
  intros H. inversion H. reflexivity.
Qed.

Lemma scan_escape_shorter (s chunk rest : string) :
  Json.scan_escape s = Some (chunk, rest) ->
  (String.length rest < String.length s)%nat.
Proof.
  unfold Json.scan_escape. destruct s as [| c r]; [discriminate |].
  repeat match goal with
         | |- (if ?b then _ else _) = _ -> _ => destruct b
         | |- Some (_, _) = Some (_, _) -> _ =>
             let H := fresh in intros H; inversion H; subst; simpl; lia
         end; try discriminate.
  destruct (Json.decode_uXXXX r) as [[uni r1] |] eqn:H1; [| discriminate].
  apply decode_uXXXX_length in H1.
  destruct ((55296 <=? uni)%N && (uni <=? 56319)%N).
  2:{ intros H. inversion H; subst. simpl. lia. }
  destruct (Str.startswith "\u" r1).
  2:{ intros H. inversion H; subst. simpl. lia. }
  destruct (Json.decode_uXXXX (Str.drop 2 r1)) as [[uni2 r3] |] eqn:H3;
    [| discriminate].
  apply decode_uXXXX_length in H3. rewrite drop_length in H3.
  destruct ((56320 <=? uni2)%N && (uni2 <=? 57343)%N);
    intros H; inversion H; subst; simpl; lia.
Qed.

Lemma scanstring_budget :
  forall fuel s,
    (String.length s < fuel)%nat ->
    Json.scanstring fuel s <> Json.Exhausted /\
    forall str rest,
      Json.scanstring fuel s = Json.Scanned str rest ->
      (String.length rest < String.length s)%nat.
Proof.
  induction fuel as [| fuel IH]; intros s Hf; [lia |].
  destruct s as [| c r]; simpl.
  - split; [discriminate | intros; discriminate].
  - simpl in Hf. destruct (Str.is_char c "034").
    { split; [discriminate |]. intros str rest H. inversion H; subst. lia. }
    destruct (Str.is_char c "\").
    + destruct (Json.scan_escape r) as [[chunk rest] |] eqn:He.
      2:{ split; [discriminate | intros; discriminate]. }
      apply scan_escape_shorter in He.
      destruct (IH rest ltac:(lia)) as [Hx Hs].
      destruct (Json.scanstring fuel rest) as [str rest' | |];
        [| split; [discriminate | intros; discriminate] | congruence].
      split; [discriminate |]. intros str0 rest0 H. inversion H; subst.
      specialize (Hs _ _ eq_refl). lia.
    + destruct (Str.ord c <? 32)%nat.
      { split; [discriminate | intros; discriminate]. }
      destruct (IH r ltac:(lia)) as [Hx Hs].
      destruct (Json.scanstring fuel r) as [str rest' | |];
        [| split; [discriminate | intros; discriminate] | congruence].
      split; [discriminate |]. intros str0 rest0 H. inversion H; subst.
      specialize (Hs _ _ eq_refl). lia.
Qed.

Lemma match_integer_shorter (s integer rest : string) :
  Json.match_integer s = Some (integer, rest) ->
  (String.length rest < String.length s)%nat.
Proof.
  unfold Json.match_integer.
  assert (Hbody : forall body sign,
            match Str.after_char "0" body with
            | Some r => Some (sign ++ "0", r)
            | None =>
                match Json.span_digits body with
                | ("", _) => None
                | (ds, rest0) => Some (sign ++ ds, rest0)
                end
            end = Some (integer, rest) ->
            (String.length rest < String.length body)%nat).
  { intros body sign.
    destruct (Str.after_char "0" body) as [r |] eqn:H0.
    - apply after_char_length in H0. intros H. inversion H; subst. lia.
    - pose proof (span_digits_length body) as Hl.
      destruct (Json.span_digits body) as [ds rest0]. simpl in Hl.
      destruct ds; [discriminate |].
      intros H. inversion H; subst. simpl in Hl. lia. }
  destruct (Str.after_char "-" s) as [r |] eqn:Hm.
  - apply after_char_length in Hm. intros H. apply Hbody in H. lia.
  - apply Hbody.
Qed.

Lemma match_frac_length (s : string) :
  (String.length (snd (Json.match_frac s)) <= String.length s)%nat.
Proof.
  unfold Json.match_frac.
  destruct (Str.after_char "." s) as [r |] eqn:Hd; [| simpl; lia].
  apply after_char_length in Hd. pose proof (span_digits_length r) as Hl.
  destruct (Json.span_digits r) as [ds rest]. simpl in Hl.
  destruct ds; simpl; lia.
Qed.

Lemma match_exp_length (s : string) :
  (String.length (snd (Json.match_exp s)) <= String.length s)%nat.
Proof.
  unfold Json.match_exp. destruct s as [| e r]; [simpl; lia |].
  destruct (Str.is_char e "e" || Str.is_char e "E"); [| simpl; lia].
  assert (Hsign : forall sign r1,
            (String.length r1 <= String.length r)%nat ->
            (String.length
               (snd (match Json.span_digits r1 with
                     | ("", _) => ("", String e r)
                     | (ds, rest) => (String e (sign ++ ds), rest)
                     end)) <= String.length (String e r))%nat).
  { intros sign r1 Hr. pose proof (span_digits_length r1) as Hl.
    destruct (Json.span_digits r1) as [ds rest]. simpl in Hl.
    destruct ds; simpl; lia. }
  destruct (Str.after_char "-" r) as [r' |] eqn:Hm.
  - apply after_char_length in Hm. apply Hsign. lia.
  - destruct (Str.after_char "+" r) as [r' |] eqn:Hp.
    + apply after_char_length in Hp. apply Hsign. lia.
    + apply Hsign. lia.
Qed.

Lemma match_number_shorter (s : string) (v : json) (rest : string) :
  Json.match_number s = Some (v, rest) ->
  (String.length rest < String.length s)%nat.
Proof.
  unfold Json.match_number.
  destruct (Json.match_integer s) as [[integer r1] |] eqn:Hi; [| discriminate].
  apply match_integer_shorter in Hi.
  pose proof (match_frac_length r1) as Hf.
  destruct (Json.match_frac r1) as [frac r2]. simpl in Hf.
  pose proof (match_exp_length r2) as He.
  destruct (Json.match_exp r2) as [exp r3]. simpl in He.
  destruct frac; [destruct exp |]; intros H; inversion H; subst; lia.
Qed.

Lemma within_budget_malformed (s : string) : Json.within_budget Json.Malformed s.
Proof. split; [discriminate | intros; discriminate]. Qed.

Lemma within_budget_scanned (v : json) (rest s : string) :
  (String.length rest < String.length s)%nat ->
  Json.within_budget (Json.Scanned v rest) s.
Proof.
  intros H. split; [discriminate |]. intros v' rest' E. inversion E; subst.
  exact H.
Qed.

Lemma within_budget_longer (out : Json.scan json) (s s' : string) :
  Json.within_budget out s -> (String.length s <= String.length s')%nat ->
  Json.within_budget out s'.
Proof.
  intros [Hx Hs] Hl. split; [exact Hx |]. intros v rest E.
  specialize (Hs v rest E). lia.
Qed.

Lemma scan_budget :
  forall fuel,
    (forall s, (2 * String.length s + 1 <= fuel)%nat ->
               Json.within_budget (Json.scan_once fuel s) s) /\
    (forall acc s, (2 * String.length s + 1 <= fuel)%nat ->
                   Json.within_budget (Json.object_pairs fuel acc s) s) /\
    (forall acc s, (2 * String.length s + 2 <= fuel)%nat ->
                   Json.within_budget (Json.array_items fuel acc s) s).
Proof.
  induction fuel as [| fuel [IHs [IHo IHa]]].
  { repeat split; intros; lia. }
  split; [| split].
  - (* scan_once *)
    intros s Hf. destruct s as [| c r]; [apply within_budget_malformed |].
    cbn [Json.scan_once]. cbn [String.length] in Hf.
    destruct (Str.is_char c "034").
    { destruct (scanstring_budget (String.length (String c r)) r)
        as [Hx Hs]; [simpl; lia |].
      destruct (Json.scanstring _ r) as [str rest | |];
        [| apply within_budget_malformed | congruence].
      apply within_budget_scanned. specialize (Hs _ _ eq_refl). simpl. lia. }
    pose proof (skip_ws_length r) as Hws.
    destruct (Str.is_char c "{").
    { destruct (Str.after_char "}" (Json.skip_ws r)) as [rest |] eqn:Hb.
      - apply after_char_length in Hb. apply within_budget_scanned. simpl. lia.
      - eapply within_budget_longer; [apply IHo; lia | simpl; lia]. }
    destruct (Str.is_char c "[").
    { destruct (Str.after_char "]" (Json.skip_ws r)) as [rest |] eqn:Hb.
      - apply after_char_length in Hb. apply within_budget_scanned. simpl. lia.
      - eapply within_budget_longer; [apply IHa; lia | simpl; lia]. }
    assert (Hdrop : forall n v, (1 <= n)%nat ->
              Json.within_budget (Json.Scanned v (Str.drop n (String c r)))
                            (String c r)).
    { intros n v Hn. apply within_budget_scanned. rewrite drop_length.
      cbn [String.length]. lia. }
    destruct (Str.startswith "null" (String c r)); [apply Hdrop; lia |].
    destruct (Str.startswith "true" (String c r)); [apply Hdrop; lia |].
    destruct (Str.startswith "false" (String c r)); [apply Hdrop; lia |].
    destruct (Json.match_number (String c r)) as [[v rest] |] eqn:Hn.
    { apply match_number_shorter in Hn. apply within_budget_scanned.
      exact Hn. }
    destruct (Str.startswith "NaN" (String c r)); [apply Hdrop; lia |].
    destruct (Str.startswith "Infinity" (String c r)); [apply Hdrop; lia |].
    destruct (Str.startswith "-Infinity" (String c r)); [apply Hdrop; lia |].
    apply within_budget_malformed.
  - (* object_pairs *)
    intros acc s Hf. cbn [Json.object_pairs].
    destruct (Str.after_char "034" s) as [r |] eqn:Hq;
      [| apply within_budget_malformed].
    apply after_char_length in Hq.
    destruct (scanstring_budget (String.length s) r) as [Hx Hs]; [lia |].
    destruct (Json.scanstring _ r) as [key r1 | |];
      [| apply within_budget_malformed | congruence].
    specialize (Hs _ _ eq_refl).
    pose proof (skip_ws_length r1) as Hw1.
    destruct (Str.after_char ":" (Json.skip_ws r1)) as [r2 |] eqn:Hc;
      [| apply within_budget_malformed].
    apply after_char_length in Hc.
    pose proof (skip_ws_length r2) as Hw2.
    destruct (IHs (Json.skip_ws r2) ltac:(lia)) as [Hx2 Hs2].
    destruct (Json.scan_once fuel (Json.skip_ws r2)) as [v r3 | |];
      [| apply within_budget_malformed | congruence].
    specialize (Hs2 _ _ eq_refl).
    pose proof (skip_ws_length r3) as Hw3.
    destruct (Str.after_char "}" (Json.skip_ws r3)) as [rest |] eqn:Hb.
    { apply after_char_length in Hb. apply within_budget_scanned. lia. }
    destruct (Str.after_char "," (Json.skip_ws r3)) as [r4 |] eqn:Hm;
      [| apply within_budget_malformed].
    apply after_char_length in Hm.
    pose proof (skip_ws_length r4) as Hw4.
    eapply within_budget_longer; [apply IHo; lia | lia].
  - (* array_items *)
    intros acc s Hf. cbn [Json.array_items].
    destruct (IHs s ltac:(lia)) as [Hx Hs].
    destruct (Json.scan_once fuel s) as [v r1 | |];
      [| apply within_budget_malformed | congruence].
    specialize (Hs _ _ eq_refl).
    pose proof (skip_ws_length r1) as Hw1.
    destruct (Str.after_char "]" (Json.skip_ws r1)) as [rest |] eqn:Hb.
    { apply after_char_length in Hb. apply within_budget_scanned. lia. }
    destruct (Str.after_char "," (Json.skip_ws r1)) as [r2 |] eqn:Hm;
      [| apply within_budget_malformed].
    apply after_char_length in Hm.
    pose proof (skip_ws_length r2) as Hw2.
    eapply within_budget_longer; [apply IHa; lia | lia].
Qed.

(** [loads] never runs out of budget: its [None] is a malformed text. *)
Lemma loads_budget (s : string) :
  Json.scan_once (Json.budget s) (Json.skip_ws s) <> Json.Exhausted.
Proof.
  pose proof (skip_ws_length s) as Hw.
  destruct (scan_budget (Json.budget s)) as [Hs _].
  apply Hs. unfold Json.budget. lia.
Qed.

(** The decoder reads back what the encoder wrote, at the samples. *)
Lemma loads_dumps_samples :
  Json.loads (Json.dumps true Sample.consensus) = Some Sample.consensus /\
  Json.loads (Json.dumps false Sample.evaluation) = Some Sample.evaluation /\
  Json.loads (Sample.stored_row "High") =
    Some (AnalyzeResponse.model_dump (Sample.stored_response "High")).
Proof. repeat split; vm_compute; reflexivity. Qed.

(** ** Fan-out: the pairs of a shuffled pool (analysis.py, step 3) *)

Lemma make_pairs_cases (l : list json) :
  analysis.make_pairs l =
  match l with
  | [] => Ok []
  | [a; b] => Ok [(a, b)]
  | [a; b; c; d] => Ok [(a, b); (c, d)]
  | a :: b :: c :: d :: e :: f :: _ => Ok [(a, b); (c, d); (e, f)]
  | _ => Raise (IndexError "list index out of range")
  end.
Proof.
  destruct l as [|a [|b [|c [|d [|e [|f rest]]]]]]; try reflexivity.
  unfold analysis.make_pairs.
  replace (Nat.min (List.length (a :: b :: c :: d :: e :: f :: rest)) 6)
    with 6%nat by (simpl; rewrite Nat.min_0_r; reflexivity).
  reflexivity.
Qed.

(** No pool gives more than three pairs. *)
Lemma make_pairs_at_most_three (l : list json) (pairs : list (json * json)) :
  analysis.make_pairs l = Ok pairs -> (List.length pairs <= 3)%nat.
Proof.
  rewrite make_pairs_cases.
  destruct l as [|a [|b [|c [|d [|e [|f rest]]]]]];
    intros H; inversion H; subst; simpl; lia.
Qed.

(** A pool of even size, or of six and more, is paired without error. *)
Lemma make_pairs_even_or_large (l : list json) :
  Nat.even (List.length l) = true \/ (6 <= List.length l)%nat ->
  exists pairs, analysis.make_pairs l = Ok pairs.
Proof.
  rewrite make_pairs_cases.
  destruct l as [|a [|b [|c [|d [|e [|f rest]]]]]]; simpl;
    intros [H | H]; try discriminate; try lia; eauto.
Qed.

(** C9: the claim says that a pool of any size, even or odd, is split into
    pairs without an out-of-bounds access.  For a pool of three evaluators
    the comprehension reads [model_list[3]] and raises [IndexError]; the
    same happens for one and for five. *)
Theorem make_pairs_pool_of_three_raises :
  analysis.make_pairs Sample.pool3 = Raise (IndexError "list index out of range").
Proof. reflexivity. Qed.

(** Every pool of odd size below six raises. *)
Lemma make_pairs_odd_small_raises (l : list json) :
  Nat.odd (List.length l) = true -> (List.length l < 6)%nat ->
  analysis.make_pairs l = Raise (IndexError "list index out of range").
Proof.
  rewrite make_pairs_cases.
  destruct l as [|a [|b [|c [|d [|e [|f rest]]]]]]; simpl;
    intros Ho Hl; try discriminate; try reflexivity; lia.
Qed.

(** ** Fetcher: retries, backoff and the render fallback (scraper.py) *)

(** The pause after attempt [n] is [2^(n-1)] seconds, capped at eight. *)
Lemma wait_exponential_value (n : nat) :
  (1 <= n)%nat ->
  tenacity.wait_exponential 1 1 8 n = Z.min (2 ^ Z.of_nat (n - 1)) 8.
Proof.
  intros Hn. unfold tenacity.wait_exponential.
  assert (1 <= 2 ^ Z.of_nat (n - 1))%Z
    by (change 1%Z with (2 ^ 0)%Z at 1; apply Z.pow_le_mono_r; lia).
  lia.
Qed.

Lemma wait_exponential_capped (n : nat) :
  (tenacity.wait_exponential 1 1 8 n <= 8)%Z.
Proof. unfold tenacity.wait_exponential. lia. Qed.

(** The trace of a fetch that ends in [RetryError]. *)
Lemma fetch_with_retries_failure (net : scraper.Net) (e : scraper.exc) :
  snd (scraper.fetch_with_retries net) = tenacity.RetryError e ->
  fst (scraper.fetch_with_retries net) =
    [tenacity.Attempt 1; tenacity.Sleep 1; tenacity.Attempt 2;
     tenacity.Sleep 2; tenacity.Attempt 3] /\
  scraper.fetch_once (scraper.client_get net 3) = inr e.
Proof.
  unfold scraper.fetch_with_retries, tenacity.retry. simpl.
  destruct (scraper.fetch_once (scraper.client_get net 1)) as [h1 | e1];
    simpl; [discriminate |].
  destruct (scraper.fetch_once (scraper.client_get net 2)) as [h2 | e2];
    simpl; [discriminate |].
  destruct (scraper.fetch_once (scraper.client_get net 3)) as [h3 | e3];
    simpl; [discriminate |].
  intros H. inversion H. subst. split; reflexivity.
Qed.

Lemma fetch_with_retries_attempts (net : scraper.Net) :
  (1 <= tenacity.attempt_count (fst (scraper.fetch_with_retries net)) <= 3)%nat.
Proof.
  unfold scraper.fetch_with_retries, tenacity.retry, tenacity.attempt_count.
  simpl.
  destruct (scraper.fetch_once (scraper.client_get net 1)); simpl; [lia |].
  destruct (scraper.fetch_once (scraper.client_get net 2)); simpl; [lia |].
  destruct (scraper.fetch_once (scraper.client_get net 3)); simpl; lia.
Qed.

(** The fallback runs exactly when the last attempt ended in a 403. *)
Lemma playwright_iff_forbidden (net : scraper.Net) (url : string) :
  In scraper.PlaywrightFallback (fst (scraper.scrape_article net url)) <->
  exists e, snd (scraper.fetch_with_retries net) = tenacity.RetryError e /\
            scraper.is_forbidden e = true.
Proof.
  unfold scraper.scrape_article.
  destruct (scraper.fetch_with_retries net) as [trace out] eqn:Hf. simpl.
  assert (Hno : ~ In scraper.PlaywrightFallback (map scraper.Retry trace)).
  { intros Hin. apply in_map_iff in Hin. destruct Hin as [x [Hx _]].
    discriminate. }
  destruct out as [html | last_exc].
  - simpl. split; [tauto |]. intros [e [He _]]. discriminate.
  - destruct (scraper.is_forbidden last_exc) eqn:H403.
    + split.
      * intros _. exists last_exc. split; [reflexivity | assumption].
      * intros _. destruct (scraper.fetch_with_playwright net); simpl;
          apply in_or_app; right; left; reflexivity.
    + simpl. split; [tauto |]. intros [e [He Hb]]. inversion He. subst.
      congruence.
Qed.

(** C5: a fetch that is declared failed has made exactly three attempts,
    with pauses of 1 and 2 seconds between them: strictly increasing, each
    the power of two of its attempt and none above the cap of 8 seconds;
    no fetch makes more than three attempts.  The full-render fallback is
    invoked if and only if the exception of the last attempt is an HTTP
    status error with status 403. *)
Theorem fetcher_retries_then_falls_back_on_403 (net : scraper.Net) (url : string) :
  (tenacity.attempt_count (fst (scraper.fetch_with_retries net)) <= 3)%nat /\
  ((exists e, snd (scraper.fetch_with_retries net) = tenacity.RetryError e) ->
     tenacity.attempt_count (fst (scraper.fetch_with_retries net)) = 3%nat /\
     tenacity.sleeps (fst (scraper.fetch_with_retries net)) =
       [tenacity.wait_exponential 1 1 8 1; tenacity.wait_exponential 1 1 8 2] /\
     tenacity.sleeps (fst (scraper.fetch_with_retries net)) = [1; 2]%Z /\
     Forall (fun s => s <= 8)%Z
            (tenacity.sleeps (fst (scraper.fetch_with_retries net)))) /\
  (In scraper.PlaywrightFallback (fst (scraper.scrape_article net url)) <->
   exists m, snd (scraper.fetch_with_retries net) =
               tenacity.RetryError (scraper.HTTPStatusError 403 m)).
Proof.
  split; [apply fetch_with_retries_attempts |]. split.
  - intros [e He].
    destruct (fetch_with_retries_failure net e He) as [Ht _]. rewrite Ht.
    repeat split; try reflexivity.
    repeat constructor; lia.
  - rewrite playwright_iff_forbidden. split.
    + intros [e [He Hb]]. destruct e as [status m | c m]; [| discriminate].
      simpl in Hb. apply Z.eqb_eq in Hb. subst. exists m. assumption.
    + intros [m Hm]. exists (scraper.HTTPStatusError 403 m). split;
        [assumption | reflexivity].
Qed.

(** A site that answers 403 three times: three attempts, pauses of 1 and
    2 seconds, then the fallback. *)
Lemma fetcher_retries_then_falls_back_on_403_witness :
  tenacity.attempt_count
    (fst (scraper.fetch_with_retries (Sample.site_status 403))) = 3%nat /\
  tenacity.sleeps (fst (scraper.fetch_with_retries (Sample.site_status 403)))
    = [1; 2]%Z /\
  In scraper.PlaywrightFallback
     (fst (scraper.scrape_article (Sample.site_status 403) "u")).
Proof.
  destruct (fetcher_retries_then_falls_back_on_403 (Sample.site_status 403) "u")
    as [_ [Hfail Hfb]].
  destruct Hfail as (Hn & _ & Hs & _).
  { eexists. vm_compute. reflexivity. }
  split; [exact Hn |]. split; [exact Hs |].
  apply Hfb. eexists. vm_compute. reflexivity.
Defined.

(** ** Consensus Requestor: the validation fallback (evaluate.py) *)

(** The dict validated in the [except] branch has none of the required
    fields [article], [publication] and [confidence]. *)
Lemma fallback_input_invalid (e : string) :
  Consensus.model_validate (evaluate.fallback_input e) = None.
Proof. reflexivity. Qed.

(** Whenever [aggregate_evaluations] returns, the response itself passed
    validation: no degraded result is ever returned. *)
Lemma aggregate_evaluations_returns_only_valid
    (resp : models.response) (evals : list json) (c : ConsensusResponse.t) :
  evaluate.aggregate_evaluations resp evals = Ok c ->
  exists raw_text cleaned_text v,
    models.get "text" resp = Ok raw_text /\
    utils.clean_llm_json raw_text = Ok cleaned_text /\
    Consensus.model_validate (evaluate.parsed_json_of cleaned_text) = Some v.
Proof.
  unfold evaluate.aggregate_evaluations.
  destruct (models.get "text" resp) as [raw_text |] eqn:Hg; cbn [Py.bind];
    [| discriminate].
  destruct (utils.clean_llm_json raw_text) as [cleaned_text |] eqn:Hc;
    cbn [Py.bind]; [| discriminate].
  destruct (Consensus.model_validate (evaluate.parsed_json_of cleaned_text))
    as [v |] eqn:Hv.
  - intros _. exists raw_text, cleaned_text, v. auto.
  - discriminate.
Qed.

(** A response that fails validation makes the call raise. *)
Lemma aggregate_evaluations_invalid_raises
    (model text raw : json) (evals : list json) (cleaned_text : json) :
  utils.clean_llm_json text = Ok cleaned_text ->
  Consensus.model_validate (evaluate.parsed_json_of cleaned_text) = None ->
  evaluate.aggregate_evaluations (models.Answer model text raw) evals =
    Raise (ValidationError evaluate.validation_error_text).
Proof.
  intros Hc Hv. unfold evaluate.aggregate_evaluations. simpl.
  rewrite Hc. cbn [Py.bind]. rewrite Hv. reflexivity.
Qed.

(** C1: the claim says that a response failing validation yields a degraded
    ConsensusResult and never an exception.  For an aggregator answer that
    is not JSON the normalizer returns the empty dict, validation fails,
    and the dict validated in its place fails too: the call raises
    [ValidationError]. *)
Theorem aggregate_evaluations_unparseable_raises :
  evaluate.aggregate_evaluations Sample.unparseable [] =
    Raise (ValidationError evaluate.validation_error_text).
Proof. reflexivity. Qed.

(** When the call to the aggregator itself failed, the pair it returns
    has no [get]: the call raises as well. *)
Lemma aggregate_evaluations_failed_call_raises (e : string) (evals : list json) :
  evaluate.aggregate_evaluations (models.ErrorTuple e) evals =
    Raise (AttributeError "'tuple' object has no attribute 'get'").
Proof. reflexivity. Qed.

(** ** Fan-out: a call that raised (analysis.py) *)

(** What the non-streaming loop builds when it finishes: one record per
    entry of [raw_results], the sentinel at the place of each exception. *)
Lemma collect_shape (raw : list analysis.gathered) :
  forall (acc evs : list json),
    analysis.collect raw acc = Ok evs ->
    List.length evs = (List.length acc + List.length raw)%nat /\
    (forall i x, nth_error acc i = Some x -> nth_error evs i = Some x) /\
    (forall i e, nth_error raw i = Some (analysis.Raised e) ->
       nth_error evs (List.length acc + i) = Some (analysis.sentinel e)).
Proof.
  induction raw as [| r rest IH]; intros acc evs H; simpl in H.
  - inversion H; subst. repeat split.
    + simpl. lia.
    + auto.
    + intros i e Hi. destruct i; discriminate.
  - assert (Hstep : exists ev, analysis.collect rest (acc ++ [ev]) = Ok evs /\
                      forall e, r = analysis.Raised e -> ev = analysis.sentinel e).
    { destruct r as [e | resp].
      - exists (analysis.sentinel e). split; [assumption |].
        intros e' He'. inversion He'. reflexivity.
      - destruct (analysis.evaluate_result resp) as [ev |]; simpl in H;
          [| discriminate].
        exists ev. split; [assumption |]. intros e' He'. discriminate. }
    destruct Hstep as [ev [Hc Hev]].
    destruct (IH _ _ Hc) as [Hlen [Hacc Hraw]].
    rewrite length_app in Hlen. simpl in Hlen.
    repeat split.
    + simpl. lia.
    + intros i x Hi. apply Hacc. rewrite nth_error_app1; [assumption |].
      apply nth_error_Some. congruence.
    + intros i e Hi. destruct i as [| i]; simpl in Hi.
      * inversion Hi; subst. rewrite Nat.add_0_r.
        rewrite <- (Hev e eq_refl). apply Hacc.
        rewrite nth_error_app2 by lia. rewrite Nat.sub_diag. reflexivity.
      * specialize (Hraw i e Hi). rewrite length_app in Hraw. simpl in Hraw.
        replace (List.length acc + S i)%nat
          with (List.length acc + 1 + i)%nat by lia.
        assumption.
Qed.

(** The sentinel is no [ModelEvaluation]: its [article] has none of the
    required fields. *)
Lemma sentinel_invalid (e : string) :
  ModelEvaluation.model_validate (analysis.sentinel e) = None.
Proof. reflexivity. Qed.

Lemma models_all_valid {A} (validate : json -> option A) (items : list json)
    (l : list A) (x : json) :
  Field.models validate items = Some l -> In x items -> validate x <> None.
Proof.
  revert l. induction items as [| y r IH]; intros l H Hin; [contradiction |].
  simpl in H. destruct (validate y) eqn:Hy; [| discriminate].
  destruct (Field.models validate r) eqn:Hr; [| discriminate].
  destruct Hin as [-> | Hin]; [congruence | eauto].
Qed.

(** A list that holds a sentinel never becomes a response. *)
Lemma final_result_rejects_sentinel (p : analysis.Prepared)
    (evaluations : list json) (c : ConsensusResponse.t) (h : db.Stats)
    (e : string) :
  In (analysis.sentinel e) evaluations ->
  analysis.final_result p evaluations c h =
    Raise (ValidationError "validation error for AnalyzeResponse").
Proof.
  intros Hin. unfold analysis.final_result.
  destruct (Field.models ModelEvaluation.model_validate evaluations) eqn:Hm.
  - exfalso. apply (models_all_valid _ _ _ _ Hm Hin). apply sentinel_invalid.
  - destruct (Field.opt_str (Dict.get "title" (analysis.p_metadata p)));
      [| reflexivity].
    destruct (Field.opt_list_str (Dict.get "authors" (analysis.p_metadata p)));
      [| reflexivity].
    destruct (Field.opt_str (Dict.get "publication" (analysis.p_metadata p)));
      reflexivity.
Qed.

(** The non-streaming branch returns no response once a call has raised. *)
Lemma run_to_completion_fails_after_raised (w : analysis.World)
    (p : analysis.Prepared) (i : nat) (e : string) :
  nth_error (analysis.raw_results w p) i = Some (analysis.Raised e) ->
  is_ok (analysis.run_to_completion w p) = false.
Proof.
  intros Hi. unfold analysis.run_to_completion.
  destruct (analysis.collect (analysis.raw_results w p) []) as [evs |] eqn:Hc;
    [| reflexivity].
  cbn [Py.bind].
  destruct (evaluate.aggregate_evaluations _ evs) as [c |]; [| reflexivity].
  cbn [Py.bind]. unfold analysis.conclude.
  destruct (db.get_consensus_stats_for_url _ _ _ _) as [h |]; [| reflexivity].
  cbn [Py.bind].
  destruct (collect_shape _ _ _ Hc) as [_ [_ Hraw]].
  rewrite (final_result_rejects_sentinel p evs c h e); [reflexivity |].
  eapply nth_error_In. apply (Hraw i e Hi).
Qed.

(** In the streaming loop an exception met before any call has returned
    reads the unbound variable [evaluation]. *)
Lemma stream_loop_unbound (e : string) (rest : list analysis.gathered)
    (evaluations : list json) :
  analysis.stream_loop (analysis.Raised e :: rest) evaluations None =
    ([], Raise (UnboundLocalError "cannot access local variable 'evaluation'")).
Proof. reflexivity. Qed.

(** When the streaming loop finishes, the sentinel of every exception is
    in the list it built. *)
Lemma stream_loop_keeps_sentinels (raw : list analysis.gathered) :
  forall (acc : list json) (bound : option json) (frames : list string)
         (evs : list json),
    analysis.stream_loop raw acc bound = (frames, Ok evs) ->
    (forall x, In x acc -> In x evs) /\
    (forall e, In (analysis.Raised e) raw -> In (analysis.sentinel e) evs).
Proof.
  induction raw as [| r rest IH]; intros acc bound frames evs H; simpl in H.
  - inversion H; subst. split; [auto | intros e []].
  - destruct r as [e | resp].
    + destruct bound as [b |]; [| discriminate].
      destruct (analysis.stream_loop rest _ _) as [fs out] eqn:Hl.
      inversion H; subst. destruct (IH _ _ _ _ Hl) as [Hacc Hraw]. split.
      * intros x Hx. apply Hacc. apply in_or_app. auto.
      * intros e' [He' | He'].
        -- inversion He'; subst. apply Hacc. apply in_or_app. right. left.
           reflexivity.
        -- auto.
    + destruct (analysis.evaluate_result_stream resp) as [ev |];
        [| discriminate].
      destruct (analysis.stream_loop rest _ _) as [fs out] eqn:Hl.
      inversion H; subst. destruct (IH _ _ _ _ Hl) as [Hacc Hraw]. split.
      * intros x Hx. apply Hacc. apply in_or_app. auto.
      * intros e' [He' | He']; [discriminate | auto].
Qed.

(** The stream never reaches its end once a call has raised. *)
Lemma event_stream_fails_after_raised (w : analysis.World)
    (p : analysis.Prepared) (e : string) :
  In (analysis.Raised e) (analysis.raw_results w p) ->
  is_ok (snd (analysis.event_stream w p)) = false.
Proof.
  intros Hin. unfold analysis.event_stream.
  destruct (analysis.stream_loop (analysis.raw_results w p) [] None)
    as [f1 looped] eqn:Hl.
  destruct looped as [evs |]; [| reflexivity].
  destruct (evaluate.aggregate_evaluations _ evs) as [c |]; [| reflexivity].
  unfold analysis.conclude.
  destruct (db.get_consensus_stats_for_url _ _ _ _) as [h |]; [| reflexivity].
  cbn [Py.bind].
  destruct (stream_loop_keeps_sentinels _ _ _ _ _ Hl) as [_ Hraw].
  rewrite (final_result_rejects_sentinel p evs c h e (Hraw e Hin)).
  reflexivity.
Qed.

(** C2: the claim says that both pipelines produce an array of N records
    with a sentinel at the place of each of the k calls that failed, and
    that no failure aborts the run.  [call_openrouter] catches every
    exception and returns the pair of [Error:] and the exception, so a
    failed call reaches the loops as that pair, which has no [get].  With
    two calls dispatched and the service turning the first one down, the
    stream ends after its first frame with [AttributeError] and the
    non-streaming run raises [AttributeError]; with the second one turned
    down the stream carries the record of the first call and ends
    likewise.  No array is produced and no sentinel is recorded. *)
Theorem failed_call_aborts_both_pipelines :
  models.call_openrouter (inr Sample.error_body) =
    models.ErrorTuple "'choices'" /\
  analysis.run_analysis
    (Sample.with_evaluators Sample.first_call_turned_down Sample.world)
    Sample.request true =
    Ok (analysis.EventStream
          [analysis.status "Evaluating article..."]
          (Raise (AttributeError "'tuple' object has no attribute 'get'"))) /\
  analysis.run_analysis
    (Sample.with_evaluators Sample.first_call_turned_down Sample.world)
    Sample.request false =
    Raise (AttributeError "'tuple' object has no attribute 'get'") /\
  analysis.run_analysis
    (Sample.with_evaluators Sample.second_call_turned_down Sample.world)
    Sample.request true =
    Ok (analysis.EventStream
          [analysis.status "Evaluating article...";
           utils.sse_event "evaluation" Sample.evaluation_record]
          (Raise (AttributeError "'tuple' object has no attribute 'get'"))) /\
  analysis.run_analysis
    (Sample.with_evaluators Sample.second_call_turned_down Sample.world)
    Sample.request false =
    Raise (AttributeError "'tuple' object has no attribute 'get'").
Proof. repeat split; vm_compute; reflexivity. Qed.

(** ** Fetch failures at the boundary (scraper.py, analysis.py) *)

(** A fetch that fails for good makes [scrape_article] return a dict with
    an [error] text, and raise nothing. *)
Lemma scrape_article_terminal_failure (net : scraper.Net) (url : string)
    (e : scraper.exc) :
  snd (scraper.fetch_with_retries net) = tenacity.RetryError e ->
  (scraper.is_forbidden e = true -> exists m, scraper.playwright net = inr m) ->
  exists error,
    snd (scraper.scrape_article net url) = Ok (scraper.error_dict error url).
Proof.
  intros Hf Hpw. unfold scraper.scrape_article.
  destruct (scraper.fetch_with_retries net) as [trace out]. simpl in Hf.
  subst out. destruct (scraper.is_forbidden e) eqn:Hb.
  - destruct (Hpw eq_refl) as [m Hm]. unfold scraper.fetch_with_playwright.
    rewrite Hm. eexists. reflexivity.
  - eexists. reflexivity.
Qed.

(** Such a dict has no [text]: the run ends with the error of a page that
    is too short, whatever the [error] text says. *)
Lemma prepare_reports_fetch_failure_as_short (w : analysis.World)
    (req : analysis.AnalyzeRequest) (error : string) :
  utils.looks_like_article_url (analysis.url req) = true ->
  snd (scraper.scrape_article (analysis.net w) (analysis.url req)) =
    Ok (scraper.error_dict error (analysis.url req)) ->
  analysis.prepare w req =
    Raise (HTTPException 400
             "Extracted content is too short — likely not a full article.").
Proof.
  intros Hgate Hs. unfold analysis.prepare. rewrite Hgate, Hs. reflexivity.
Qed.

(** Every fetch that fails for good, the fallback included, ends the run
    with the error of a page that is too short. *)
Lemma fetch_failure_always_short (w : analysis.World)
    (req : analysis.AnalyzeRequest) (e : scraper.exc) :
  utils.looks_like_article_url (analysis.url req) = true ->
  snd (scraper.fetch_with_retries (analysis.net w)) = tenacity.RetryError e ->
  (scraper.is_forbidden e = true ->
   exists m, scraper.playwright (analysis.net w) = inr m) ->
  analysis.prepare w req =
    Raise (HTTPException 400
             "Extracted content is too short — likely not a full article.").
Proof.
  intros Hgate Hf Hpw.
  destruct (scrape_article_terminal_failure _ (analysis.url req) e Hf Hpw)
    as [error He].
  apply (prepare_reports_fetch_failure_as_short w req error Hgate He).
Qed.

(** C6: the claim says that a fetch failing for good surfaces as a client
    error that reports the HTTP status or the exception class, distinct
    from the content-validation errors.  For a site answering 500 at all
    three attempts the run raises the 400 of a page that is too short,
    the same exception as for a page that was fetched and holds only a
    few words; the text built by the scraper, with the status in it, is
    never read. *)
Theorem fetch_failure_reported_as_short_content :
  snd (scraper.scrape_article (Sample.site_status 500)
         (analysis.url Sample.request)) =
    Ok (scraper.error_dict
          "Fetch failed after retries: HTTPStatusError: HTTP 500"
          (analysis.url Sample.request)) /\
  analysis.run_analysis
    (Sample.with_net (Sample.site_status 500) Sample.world)
    Sample.request false =
    Raise (HTTPException 400
             "Extracted content is too short — likely not a full article.") /\
  analysis.run_analysis
    (Sample.with_net (Sample.site_status 500) Sample.world)
    Sample.request false =
  analysis.run_analysis
    (Sample.with_net Sample.site_stub Sample.world) Sample.request false.
Proof. repeat split; vm_compute; reflexivity. Qed.

(** ** Result Normalizer: fences and double encoding (utils.py) *)

Lemma rstrip_by_app (p : ascii -> bool) (c : ascii) (t : string) :
  p c = false ->
  forall s, Str.rstrip_by p (s ++ String c t) = s ++ String c (Str.rstrip_by p t).
Proof.
  intros Hc. assert (Hhead : Str.rstrip_by p (String c t) = String c (Str.rstrip_by p t)).
  { simpl. destruct (Str.rstrip_by p t); [rewrite Hc |]; reflexivity. }
  induction s as [| a s IH]; [exact Hhead |].
  simpl. rewrite IH. destruct s; reflexivity.
Qed.

Lemma string_last_neq (c d : ascii) (s p : string) :
  c <> d -> s ++ String c "" <> p ++ String d "".
Proof.
  intros Hcd. revert p. induction s as [| a s IH]; intros p H.
  - destruct p as [| b p]; simpl in H; inversion H; [congruence |].
    destruct p; discriminate.
  - destruct p as [| b p]; simpl in H; inversion H.
    + destruct s; discriminate.
    + eapply IH. eassumption.
Qed.

Lemma endswith_suffix (p : string) :
  forall s, Str.endswith p s = true -> exists pre, s = pre ++ p.
Proof.
  induction s as [| a s IH]; cbn [Str.endswith]; intros H;
    apply orb_true_iff in H; destruct H as [H | H].
  - apply String.eqb_eq in H. exists "". exact H.
  - discriminate.
  - apply String.eqb_eq in H. exists "". exact H.
  - destruct (IH H) as [pre Hpre]. exists (String a pre). simpl.
    rewrite Hpre. reflexivity.
Qed.

Lemma append_assoc (a b c : string) : (a ++ b) ++ c = a ++ (b ++ c).
Proof. induction a as [| x a IH]; simpl; [| rewrite IH]; reflexivity. Qed.

Lemma endswith_last_neq (c d : ascii) (p s : string) :
  c <> d -> Str.endswith (p ++ String d "") (s ++ String c "") = false.
Proof.
  intros Hcd. destruct (Str.endswith _ _) eqn:H; [| reflexivity].
  exfalso. apply endswith_suffix in H. destruct H as [pre H].
  rewrite <- append_assoc in H.
  apply (string_last_neq c d s (pre ++ p) Hcd H).
Qed.

Lemma upto_last_whole (c : ascii) :
  forall s, utils.upto_last c (s ++ String c "") = Some (s ++ String c "").
Proof.
  induction s as [| a s IH]; simpl.
  - rewrite Ascii.eqb_refl. reflexivity.
  - rewrite IH. reflexivity.
Qed.

(** An opening brace followed by a backslash is no JSON text. *)
Lemma loads_brace_backslash (r : string) :
  Json.loads (String "{" (String "\" r)) = None.
Proof. reflexivity. Qed.

Lemma escaped_object_last (body : string) :
  Sample.escaped_object body =
    String "{" (String "\" (String "034" body)) ++ String "}" "".
Proof. reflexivity. Qed.

Lemma quoted_strip (body : string) :
  Str.strip (Sample.quoted (Sample.escaped_object body)) =
    Sample.quoted (Sample.escaped_object body).
Proof.
  unfold Str.strip, Str.strip_by.
  change (Str.lstrip_by Str.isspace
            (Sample.quoted (Sample.escaped_object body)))
    with (String "034" (Sample.escaped_object body) ++ String "034" "").
  rewrite rstrip_by_app by reflexivity. reflexivity.
Qed.

Lemma quoted_no_fence (body : string) :
  utils.sub_trailing_fence
    (utils.sub_leading_fence (Sample.quoted (Sample.escaped_object body))) =
    Sample.quoted (Sample.escaped_object body).
Proof.
  change (utils.sub_leading_fence (Sample.quoted (Sample.escaped_object body)))
    with (String "034" (Sample.escaped_object body) ++ String "034" "").
  unfold utils.sub_trailing_fence.
  change "```" with ("``" ++ String "`" "") at 1.
  rewrite endswith_last_neq by discriminate.
  rewrite endswith_last_neq by discriminate.
  reflexivity.
Qed.

Lemma quoted_strip_quotes (body : string) :
  Str.strip_char "034" (Sample.quoted (Sample.escaped_object body)) =
    Sample.escaped_object body.
Proof.
  unfold Str.strip_char, Str.strip_by.
  change (Str.lstrip_by (Str.is_char "034")
            (Sample.quoted (Sample.escaped_object body)))
    with (Sample.escaped_object body ++ String "034" "").
  rewrite escaped_object_last, append_assoc.
  rewrite (rstrip_by_app _ "}" (String "034" "")) by reflexivity.
  reflexivity.
Qed.

Lemma escaped_object_strip_apostrophes (body : string) :
  Str.strip_char "'" (Sample.escaped_object body) = Sample.escaped_object body.
Proof.
  unfold Str.strip_char, Str.strip_by.
  change (Str.lstrip_by (Str.is_char "'") (Sample.escaped_object body))
    with (Sample.escaped_object body).
  rewrite escaped_object_last. rewrite rstrip_by_app by reflexivity.
  reflexivity.
Qed.

Lemma escaped_object_span (body : string) :
  utils.search_json_span (Sample.escaped_object body) =
    Some (Sample.escaped_object body).
Proof.
  unfold Sample.escaped_object. cbn [utils.search_json_span].
  change (Str.is_char "{" "{") with true. cbv iota.
  change (String "\" (String "034" (body ++ "}")))
    with (String "\" (String "034" body) ++ String "}" "").
  rewrite upto_last_whole. reflexivity.
Qed.

(** The text of a JSON string that holds an escaped object: the quotes
    around it are stripped, what is left is no JSON, and the brace span
    found in it is no JSON either. *)
Lemma clean_llm_json_quoted_escaped_object (body : string) :
  utils.clean_llm_json (JStr (Sample.quoted (Sample.escaped_object body))) =
    Ok (JObj []).
Proof.
  unfold utils.clean_llm_json.
  change (negb (truthy (JStr (Sample.quoted (Sample.escaped_object body)))))
    with false.
  cbv iota zeta.
  rewrite quoted_strip, quoted_no_fence, quoted_strip, quoted_strip_quotes,
    escaped_object_strip_apostrophes.
  change (Json.loads (Sample.escaped_object body)) with (@None json).
  cbv iota. rewrite escaped_object_span.
  change (Json.loads (Sample.escaped_object body)) with (@None json).
  cbv iota. reflexivity.
Qed.

Lemma escape_body_closing (ensure_ascii : bool) :
  forall y, exists z,
    Json.escape_body ensure_ascii (y ++ "}") = z ++ "}".
Proof.
  induction y as [| c y [z Hz]].
  - exists "". destruct ensure_ascii; reflexivity.
  - cbn [append Json.escape_body]. rewrite Hz.
    destruct (Json.escape_named c) as [e |].
    + exists (e ++ z). symmetry. apply append_assoc.
    + destruct (Str.ord c <? 32)%nat.
      * eexists. symmetry. apply append_assoc.
      * destruct (negb ensure_ascii || Str.between 32 126 c).
        -- exists (String c z). reflexivity.
        -- destruct (Str.between 128 191 c).
           ++ exists z. reflexivity.
           ++ eexists. symmetry. apply append_assoc.
Qed.

(** The JSON text of an object that has a key opens with a brace and a
    quote and closes with a brace. *)
Lemma dumps_object_shape (ensure_ascii : bool) (k : string) (v : json)
    (rest : list (string * json)) :
  exists y,
    Json.dumps ensure_ascii (JObj ((k, v) :: rest)) =
      String "{" (String "034" (y ++ "}")).
Proof.
  unfold Json.dumps. cbn [Json.encode map fst snd].
  unfold Json.encode_basestring at 1.
  set (a := Json.escape_body ensure_ascii k ++ String "034" "").
  set (b := ": " ++ Json.encode ", " ": " ensure_ascii v).
  destruct (map _ rest) as [| x xs]; cbn [Json.join].
  - exists (a ++ b). reflexivity.
  - exists (a ++ b ++ ", " ++ Json.join ", " (x :: xs)).
    cbn [append]. rewrite !append_assoc. reflexivity.
Qed.

(** Double encoding an object that has a key gives the text of a JSON
    string that holds an escaped object. *)
Lemma double_encoded_shape (k : string) (v : json) (rest : list (string * json)) :
  exists body,
    Sample.double_encoded (JObj ((k, v) :: rest)) =
      Sample.quoted (Sample.escaped_object body).
Proof.
  unfold Sample.double_encoded.
  destruct (dumps_object_shape true k v rest) as [y Hy]. rewrite Hy.
  destruct (escape_body_closing true y) as [z Hz].
  exists z. unfold Json.dumps. cbn [Json.encode].
  unfold Json.encode_basestring, Sample.quoted.
  f_equal. f_equal. unfold Sample.escaped_object.
  change (Json.escape_body true (String "{" (String "034" (y ++ "}"))))
    with (String "{" (String "\" (String "034"
            (Json.escape_body true (y ++ "}"))))).
  rewrite Hz. reflexivity.
Qed.

(** Every double-encoded object that has a key comes out as the empty
    dict. *)
Lemma clean_llm_json_double_encoded (k : string) (v : json)
    (rest : list (string * json)) :
  utils.clean_llm_json (JStr (Sample.double_encoded (JObj ((k, v) :: rest)))) =
    Ok (JObj []).
Proof.
  destruct (double_encoded_shape k v rest) as [body H]. rewrite H.
  apply clean_llm_json_quoted_escaped_object.
Qed.

(** C4: the claim says that the normalizer gives back every object from
    its double-encoded text, fenced or not.  For the object with the one
    member [a] = 1 the normalizer returns the empty dict from the
    double-encoded text and from the fenced double-encoded text: it
    strips the outer quotes before decoding, and what is left, with its
    escaped quotes, is no JSON.  From the fenced text alone the object is
    recovered. *)
Theorem clean_llm_json_loses_double_encoded :
  utils.clean_llm_json (JStr (Sample.double_encoded Sample.object1)) =
    Ok (JObj []) /\
  utils.clean_llm_json
    (JStr (Sample.fenced (Sample.double_encoded Sample.object1))) =
    Ok (JObj []) /\
  utils.clean_llm_json (JStr (Sample.fenced (Json.dumps true Sample.object1))) =
    Ok Sample.object1 /\
  JObj [] <> Sample.object1.
Proof. repeat split; try (vm_compute; reflexivity). discriminate. Qed.

(** ** Historical statistics (db.py) *)

Lemma extend_keys (field : string) (items : list json) (acc : db.fields) :
  map fst (db.extend field items acc) = map fst acc.
Proof.
  induction acc as [| [k l] r IH]; simpl; [reflexivity |].
  destruct (String.eqb field k); simpl; [| rewrite IH]; reflexivity.
Qed.

Lemma track_values_keys (m : list (string * json)) :
  forall acc, map fst (db.track_values m acc) = map fst acc.
Proof.
  unfold db.track_values. induction m as [| [f v] m IH]; intros acc; simpl;
    [reflexivity |].
  rewrite IH. destruct v; try apply extend_keys. reflexivity.
Qed.

Lemma record_row_keys (acc : db.fields * db.fields) (row : string) :
  map fst (fst (db.record_row acc row)) = map fst (fst acc).
Proof.
  unfold db.record_row. destruct acc as [fv fa].
  destruct (Json.loads row) as [data |]; [| reflexivity].
  destruct (d <- db.py_get data;; _) as [[d m] |]; [| reflexivity].
  destruct (db.py_iter _); simpl; apply track_values_keys.
Qed.

Lemma tally_keys (rows : list string) :
  map fst (fst (db.tally rows)) = db.CONSENSUS_FIELDS.
Proof.
  unfold db.tally.
  assert (H : forall acc, map fst (fst (fold_left db.record_row rows acc)) =
                          map fst (fst acc)).
  { induction rows as [| row rows IH]; intros acc; simpl; [reflexivity |].
    rewrite IH. apply record_row_keys. }
  rewrite H. reflexivity.
Qed.

Lemma consensus_fields_nodup : NoDup db.CONSENSUS_FIELDS.
Proof.
  unfold db.CONSENSUS_FIELDS.
  repeat (constructor; [simpl; intuition discriminate |]). constructor.
Qed.

Lemma lookup_not_in {V} (k : string) (d : list (string * V)) :
  ~ In k (map fst d) -> db.lookup k d = None.
Proof.
  induction d as [| [k' v] r IH]; simpl; intros H; [reflexivity |].
  destruct (String.eqb_spec k k') as [-> | Hne]; [exfalso; auto |].
  apply IH. intros Hin. apply H. auto.
Qed.

Lemma lookup_in_keys {V} (k : string) (d : list (string * V)) (v : V) :
  db.lookup k d = Some v -> In k (map fst d).
Proof.
  induction d as [| [k' v'] r IH]; simpl; [discriminate |].
  destruct (String.eqb_spec k k') as [-> | Hne]; auto.
Qed.

Lemma compute_stats_keys (round_pct : db.rounding) (fa : db.fields) :
  forall fv stats,
    db.compute_stats round_pct fv fa = Ok stats ->
    forall k, In k (map fst stats) -> In k (map fst fv).
Proof.
  induction fv as [| [field values] r IH]; intros stats H k Hk; simpl in H.
  - inversion H; subst. contradiction.
  - destruct values as [| v vs]; [right; eauto |].
    destruct (db.Counter _) as [answers |]; [| discriminate].
    cbn [Py.bind] in H.
    destruct (db.compute_stats round_pct r fa) as [rest |] eqn:Hr;
      [| discriminate].
    cbn [Py.bind] in H. inversion H; subst. simpl in Hk.
    destruct Hk as [<- | Hk]; [left; reflexivity | right; eauto].
Qed.

(** What the deterministic phase holds for a field: nothing when the
    field has no observation, else the entry of its tally. *)
Lemma compute_stats_lookup (round_pct : db.rounding) (fa : db.fields) :
  forall fv stats,
    NoDup (map fst fv) ->
    db.compute_stats round_pct fv fa = Ok stats ->
    forall field,
      match db.lookup field fv with
      | Some (v :: vs) =>
          exists answers,
            db.lookup field stats = Some (db.stat_of round_pct (v :: vs) answers)
      | _ => db.lookup field stats = None
      end.
Proof.
  induction fv as [| [k values] r IH]; intros stats Hnd H field; simpl in H.
  - inversion H; subst. reflexivity.
  - inversion Hnd as [| ? ? Hk Hr]; subst.
    cbn [db.lookup].
    destruct values as [| v vs].
    + destruct (String.eqb_spec field k) as [-> | Hne].
      * apply lookup_not_in. intros Hin. apply Hk.
        eapply compute_stats_keys; eassumption.
      * apply IH; assumption.
    + destruct (db.Counter _) as [answers |]; [| discriminate].
      cbn [Py.bind] in H.
      destruct (db.compute_stats round_pct r fa) as [rest |] eqn:Hrest;
        [| discriminate].
      cbn [Py.bind] in H. inversion H; subst. cbn [db.lookup].
      destruct (String.eqb_spec field k) as [-> | Hne].
      * exists answers. reflexivity.
      * apply IH; [assumption | reflexivity].
Qed.

(** Complementary percentages rounded to a nearest tenth differ from one
    hundred by a tenth at most. *)
Lemma nearest_tenth_complement (round_pct : db.rounding) (no yes : Z) :
  db.nearest_tenth round_pct ->
  (0 <= no)%Z -> (0 <= yes)%Z -> (0 < no + yes)%Z ->
  (Z.abs (round_pct yes (no + yes) + round_pct no (no + yes) - 1000) <= 1)%Z.
Proof.
  intros Hnear Hno Hyes Hpos.
  pose proof (Hnear yes (no + yes)%Z Hpos ltac:(lia)) as Hy.
  pose proof (Hnear no (no + yes)%Z Hpos ltac:(lia)) as Hn.
  nia.
Qed.

(** Ties to even is such a rounding. *)
Lemma ratio_pct_nearest : db.nearest_tenth db.ratio_pct.
Proof.
  intros count total Hpos Hc. unfold db.ratio_pct, db.round_half_even.
  pose proof (Z.div_mod (1000 * count) total ltac:(lia)) as Hdm.
  pose proof (Z.mod_pos_bound (1000 * count) total Hpos) as Hm.
  set (q := (1000 * count / total)%Z) in *.
  set (r := ((1000 * count) mod total)%Z) in *.
  destruct (2 * r <? total)%Z eqn:H1; [apply Z.ltb_lt in H1; nia |].
  apply Z.ltb_ge in H1.
  destruct (total <? 2 * r)%Z eqn:H2; [apply Z.ltb_lt in H2; nia |].
  apply Z.ltb_ge in H2.
  destruct (Z.even q); nia.
Qed.

Lemma update_field_lookup (field : string) (answers : list db.StatsAnswer.t)
    (stats : db.stats_map) (g : string) :
  db.lookup g (db.update_field field answers stats) =
    if String.eqb g field
    then option_map (fun st => db.updated st answers) (db.lookup g stats)
    else db.lookup g stats.
Proof.
  induction stats as [| [k st] r IH]; simpl.
  - destruct (String.eqb g field); reflexivity.
  - destruct (String.eqb field k) eqn:Hfk; simpl.
    + apply String.eqb_eq in Hfk. subst k.
      destruct (String.eqb g field); reflexivity.
    + destruct (String.eqb g k) eqn:Hgk.
      * apply String.eqb_eq in Hgk. subst k.
        rewrite String.eqb_sym, Hfk. reflexivity.
      * exact IH.
Qed.

(** A field the response does not name keeps its entry. *)
Lemma merge_untouched (deduped : db.FieldStats.t) (g : string) :
  ~ In g (map fst deduped) ->
  forall stats, db.lookup g (db.merge deduped stats) = db.lookup g stats.
Proof.
  unfold db.merge. induction deduped as [| [f a] r IH]; intros Hg stats;
    simpl; [reflexivity |].
  rewrite IH by (intros H; apply Hg; right; exact H).
  rewrite update_field_lookup.
  destruct (String.eqb g f) eqn:Hgf; [| reflexivity].
  exfalso. apply Hg. left. apply String.eqb_eq in Hgf. auto.
Qed.

(** Merging changes no ratio and no key. *)
Lemma merge_same_ratios (deduped : db.FieldStats.t) (g : string) :
  forall stats,
    db.same_ratios (db.lookup g (db.merge deduped stats)) (db.lookup g stats).
Proof.
  unfold db.merge. induction deduped as [| [f a] r IH]; intros stats; simpl.
  - destruct (db.lookup g stats); simpl; auto.
  - specialize (IH (db.update_field f a stats)).
    rewrite update_field_lookup in IH.
    simpl in IH |- *.
    match goal with
    | |- db.same_ratios ?l _ => destruct l as [x |]
    end;
      destruct (String.eqb g f); destruct (db.lookup g stats) as [y |];
      simpl in *; auto.
Qed.

(** A field the response names gets the sum of the counts of one of the
    answer lists given for it as its total. *)
Lemma merge_named (deduped : db.FieldStats.t) (g : string) :
  In g (map fst deduped) ->
  forall stats st,
    db.lookup g (db.merge deduped stats) = Some st ->
    exists answers,
      In (g, answers) deduped /\ db.total st = db.sum_counts answers.
Proof.
  unfold db.merge. induction deduped as [| [f a] r IH]; intros Hg stats st H;
    simpl in *; [contradiction |].
  destruct (in_dec string_dec g (map fst r)) as [Hr | Hr].
  - destruct (IH Hr _ _ H) as [answers [Hin Ht]]. exists answers. auto.
  - change (fold_left _ r ?s) with (db.merge r s) in H.
    rewrite merge_untouched in H by assumption.
    rewrite update_field_lookup in H.
    destruct Hg as [Hfg | Hg]; [subst f | contradiction].
    rewrite String.eqb_refl in H.
    destruct (db.lookup g stats); simpl in H; inversion H; subst.
    exists a. split; [left; reflexivity | reflexivity].
Qed.

Lemma filter_complement_length {A} (p : A -> bool) (l : list A) :
  (List.length (filter p l) + List.length (filter (fun x => negb (p x)) l)
   = List.length l)%nat.
Proof.
  induction l as [| x l IH]; simpl; [reflexivity |].
  destruct (p x); simpl; lia.
Qed.

Lemma stat_of_total (round_pct : db.rounding) (values : list json)
    (answers : list (json * Z)) :
  db.total (db.stat_of round_pct values answers) = Z.of_nat (List.length values).
Proof.
  unfold db.stat_of. simpl.
  pose proof (filter_complement_length db.is_no_consensus values). lia.
Qed.

Lemma stat_of_complement (round_pct : db.rounding) (values : list json)
    (answers : list (json * Z)) :
  db.nearest_tenth round_pct -> values <> [] ->
  (Z.abs (db.consensus (db.stat_of round_pct values answers)
          + db.no_consensus (db.stat_of round_pct values answers) - 1000) <= 1)%Z.
Proof.
  intros Hnear Hne. unfold db.stat_of. simpl.
  apply nearest_tenth_complement; try assumption; try lia.
  pose proof (filter_complement_length db.is_no_consensus values).
  destruct values; [congruence | simpl in *; lia].
Qed.

(** The entries of the deterministic phase, field by field. *)
Lemma raw_stats_lookup (round_pct : db.rounding) (rows : list string)
    (stats : db.stats_map) (field : string) :
  db.raw_stats round_pct rows = Ok stats ->
  match db.lookup field (fst (db.tally rows)) with
  | Some (v :: vs) =>
      exists answers,
        db.lookup field stats = Some (db.stat_of round_pct (v :: vs) answers)
  | _ => db.lookup field stats = None
  end.
Proof.
  unfold db.raw_stats. pose proof (tally_keys rows) as Hk.
  destruct (db.tally rows) as [fv fa]. simpl in *. intros H.
  apply (compute_stats_lookup round_pct fa fv stats); [| assumption].
  rewrite Hk. apply consensus_fields_nodup.
Qed.

(** What a returned result is made of, for a URL with stored rows. *)
Lemma get_consensus_stats_returned (round_pct : db.rounding)
    (rows : list string) (dedup : models.response) (url : string)
    (h : db.Stats) :
  rows <> [] ->
  db.get_consensus_stats_for_url round_pct rows dedup url = Ok h ->
  exists raw model text rawj parsed,
    db.raw_stats round_pct rows = Ok raw /\
    dedup = models.Answer model text rawj /\
    db.Deduplication.model_validate_json text = Some parsed /\
    db.stats h = db.merge (db.deduped_map (db.Deduplication.stats parsed)) raw.
Proof.
  intros Hrows H. unfold db.get_consensus_stats_for_url in H.
  destruct rows as [| row rows]; [congruence |].
  destruct (db.raw_stats round_pct (row :: rows)) as [raw |]; [| discriminate].
  cbn [Py.bind] in H.
  destruct dedup as [model text rawj | e]; [| discriminate].
  cbn [Py.bind models.getitem String.eqb Ascii.eqb Bool.eqb] in H.
  destruct (db.Deduplication.model_validate_json text) as [parsed |] eqn:Hv;
    [| discriminate].
  inversion H; subst. simpl.
  exists raw, model, text, rawj, parsed. auto.
Qed.

(** C3 (as amended): for a URL with stored rows, the request raises when
    the canonicalization call failed or its response does not validate;
    there is no fallback to the raw table.  When the request returns, the
    response validated, and every field it does not name keeps its raw
    answer-frequency table and total; the ratios of all fields are those
    of the deterministic phase.  For a URL without stored rows the result
    is the empty stats map, whatever the canonicalization call would
    give: the call is not made, and the result names no model. *)
Theorem canonicalization_failure_raises (round_pct : db.rounding)
    (rows : list string) (dedup : models.response) (url : string) :
  (rows <> [] ->
   (forall model text rawj,
      dedup = models.Answer model text rawj ->
      db.Deduplication.model_validate_json text = None) ->
   is_ok (db.get_consensus_stats_for_url round_pct rows dedup url) = false) /\
  (rows <> [] ->
   forall h,
     db.get_consensus_stats_for_url round_pct rows dedup url = Ok h ->
     exists raw model text rawj parsed,
       db.raw_stats round_pct rows = Ok raw /\
       dedup = models.Answer model text rawj /\
       db.Deduplication.model_validate_json text = Some parsed /\
       (forall field,
          ~ In field (map fst (db.deduped_map (db.Deduplication.stats parsed))) ->
          db.lookup field (db.stats h) = db.lookup field raw) /\
       (forall field,
          db.same_ratios (db.lookup field (db.stats h)) (db.lookup field raw))) /\
  (rows = [] ->
   db.get_consensus_stats_for_url round_pct rows dedup url =
     Ok {| db.url := url; db.stats := []; db.model := None |}).
Proof.
  split; [| split].
  - intros Hrows Hbad.
    destruct (db.get_consensus_stats_for_url round_pct rows dedup url) as [h |]
      eqn:H; [| reflexivity].
    destruct (get_consensus_stats_returned _ _ _ _ _ Hrows H)
      as (raw & model & text & rawj & parsed & _ & Hd & Hv & _).
    rewrite (Hbad _ _ _ Hd) in Hv. discriminate.
  - intros Hrows h H.
    destruct (get_consensus_stats_returned _ _ _ _ _ Hrows H)
      as (raw & model & text & rawj & parsed & Hraw & Hd & Hv & Hs).
    exists raw, model, text, rawj, parsed. repeat split; try assumption.
    + intros field Hf. rewrite Hs. apply merge_untouched. assumption.
    + intros field. rewrite Hs. apply merge_same_ratios.
  - intros ->. reflexivity.
Qed.

Lemma canonicalization_failure_raises_witness :
  Sample.five_rows <> [] /\
  is_ok (db.get_consensus_stats_for_url db.ratio_pct Sample.five_rows
           (models.ErrorTuple "ConnectTimeout")
           "https://example.com/news/council-budget") = false /\
  db.get_consensus_stats_for_url db.ratio_pct []
    (models.ErrorTuple "ConnectTimeout")
    "https://example.com/news/council-budget" =
    Ok {| db.url := "https://example.com/news/council-budget";
          db.stats := []; db.model := None |}.
Proof.
  split; [discriminate |]. split.
  - destruct (canonicalization_failure_raises db.ratio_pct Sample.five_rows
                (models.ErrorTuple "ConnectTimeout")
                "https://example.com/news/council-budget") as (H & _ & _).
    apply H; [discriminate |]. intros model text rawj Hd. discriminate.
  - destruct (canonicalization_failure_raises db.ratio_pct []
                (models.ErrorTuple "ConnectTimeout")
                "https://example.com/news/council-budget") as (_ & _ & H).
    apply H. reflexivity.
Defined.

(** C3, as stated, fails: with five rows stored for the URL, a failed
    canonicalization call makes the request raise [TypeError] (the pair
    returned by the call is indexed with a string), and a response that is
    no JSON makes it raise [ValidationError]; the raw tables are not
    returned. *)
Lemma canonicalization_failure_not_absorbed :
  db.get_consensus_stats_for_url db.ratio_pct Sample.five_rows
    (models.ErrorTuple "ConnectTimeout")
    "https://example.com/news/council-budget" =
    Raise (TypeError "tuple indices must be integers or slices, not str") /\
  db.get_consensus_stats_for_url db.ratio_pct Sample.five_rows
    Sample.unparseable "https://example.com/news/council-budget" =
    Raise (ValidationError "validation error for Deduplication").
Proof. split; vm_compute; reflexivity. Qed.

(** The flattened response holds every field once. *)
Lemma dict_set_in_keys {V} (k : string) (v : V) (d : list (string * V))
    (x : string) :
  In x (map fst (db.dict_set k v d)) -> x = k \/ In x (map fst d).
Proof.
  induction d as [| [k' v'] r IH]; simpl.
  - intros [H | []]. left. auto.
  - destruct (String.eqb k k'); simpl; intros [H | H]; auto.
    destruct (IH H); auto.
Qed.

Lemma dict_set_nodup {V} (k : string) (v : V) (d : list (string * V)) :
  NoDup (map fst d) -> NoDup (map fst (db.dict_set k v d)).
Proof.
  induction d as [| [k' v'] r IH]; simpl; intros H.
  - constructor; [intros [] | constructor].
  - inversion H as [| ? ? Hk Hr]; subst.
    destruct (String.eqb_spec k k') as [-> | Hne]; simpl.
    + constructor; assumption.
    + constructor; [| apply IH; assumption].
      intros Hin. destruct (dict_set_in_keys _ _ _ _ Hin); [congruence | auto].
Qed.

Lemma deduped_map_nodup (stats_data : list db.FieldStats.t) :
  NoDup (map fst (db.deduped_map stats_data)).
Proof.
  unfold db.deduped_map.
  assert (H : forall l (d : db.FieldStats.t),
            NoDup (map fst d) ->
            NoDup (map fst (fold_left
                              (fun d kv => db.dict_set (fst kv) (snd kv) d)
                              l d))).
  { induction l as [| kv l IH]; intros d Hd; simpl; [exact Hd |].
    apply IH. apply dict_set_nodup. exact Hd. }
  apply H. constructor.
Qed.

(** What merging makes of a field: the entry of the deterministic phase,
    with the total and the answers of the response when the response
    names the field. *)
Lemma merge_lookup (deduped : db.FieldStats.t) (g : string) :
  NoDup (map fst deduped) ->
  forall stats,
    db.lookup g (db.merge deduped stats) =
    match db.lookup g deduped with
    | Some answers =>
        option_map (fun st => db.updated st answers) (db.lookup g stats)
    | None => db.lookup g stats
    end.
Proof.
  unfold db.merge. induction deduped as [| [f a] r IH]; intros Hnd stats;
    simpl; [reflexivity |].
  inversion Hnd as [| ? ? Hf Hr]; subst.
  rewrite (IH Hr). rewrite update_field_lookup.
  destruct (String.eqb_spec g f) as [-> | Hne]; [| reflexivity].
  rewrite (lookup_not_in f r Hf). reflexivity.
Qed.

(** C7 (as amended): with a rounding to a nearest tenth, every field in
    the stats map of the deterministic phase has observations, and its
    two percentages add up to 100 within a tenth; a field whose tally has
    five consensus values of which one is the no-consensus mark gets 80.0,
    20.0 and a total of 5; a field without consensus values is not in the
    map.  The returned stats hold the same fields with the same ratios.
    An entry of the returned stats is the entry of the deterministic
    phase, total included, when the validated canonicalization response
    does not name the field; when it names the field, the entry has the
    answers the response gives for it, and its total is the sum of their
    counts. *)
Theorem historical_ratios (round_pct : db.rounding) (rows : list string)
    (stats : db.stats_map) :
  db.nearest_tenth round_pct ->
  db.raw_stats round_pct rows = Ok stats ->
  (forall field st,
     db.lookup field stats = Some st ->
     (0 < db.total st)%Z /\
     (Z.abs (db.consensus st + db.no_consensus st - 1000) <= 1)%Z) /\
  (forall values,
     db.lookup "fairness" (fst (db.tally rows)) = Some values ->
     List.length values = 5%nat ->
     List.length (filter db.is_no_consensus values) = 1%nat ->
     exists st,
       db.lookup "fairness" stats = Some st /\
       db.consensus st = 800%Z /\ db.no_consensus st = 200%Z /\
       db.total st = 5%Z) /\
  (forall field,
     db.lookup field (fst (db.tally rows)) = Some [] ->
     db.lookup field stats = None) /\
  (forall dedup url h,
     db.get_consensus_stats_for_url round_pct rows dedup url = Ok h ->
     forall field,
       db.same_ratios (db.lookup field (db.stats h)) (db.lookup field stats) /\
       forall st,
         db.lookup field (db.stats h) = Some st ->
         (Z.abs (db.consensus st + db.no_consensus st - 1000) <= 1)%Z /\
         exists model text rawj parsed raw_st,
           dedup = models.Answer model text rawj /\
           db.Deduplication.model_validate_json text = Some parsed /\
           db.lookup field stats = Some raw_st /\
           match
             db.lookup field (db.deduped_map (db.Deduplication.stats parsed))
           with
           | None => st = raw_st
           | Some answers =>
               st = db.updated raw_st answers /\
               db.total st = db.sum_counts answers
           end).
Proof.
  intros Hnear Hraw.
  assert (Hpos : forall field st,
            db.lookup field stats = Some st ->
            (0 < db.total st)%Z /\
            (Z.abs (db.consensus st + db.no_consensus st - 1000) <= 1)%Z).
  { intros field st Hst. pose proof (raw_stats_lookup _ _ _ field Hraw) as H.
    destruct (db.lookup field (fst (db.tally rows))) as [[| v vs] |];
      try congruence.
    destruct H as [answers H]. rewrite H in Hst. inversion Hst; subst. split.
    - rewrite stat_of_total. simpl. lia.
    - apply stat_of_complement; [assumption | discriminate]. }
  split; [exact Hpos |]. split; [| split].
  - intros values Hv Hlen Hno.
    pose proof (raw_stats_lookup _ _ _ "fairness" Hraw) as H. rewrite Hv in H.
    destruct values as [| v vs]; [discriminate |].
    destruct H as [answers H]. eexists. split; [exact H |].
    pose proof (filter_complement_length db.is_no_consensus (v :: vs)) as Hc.
    rewrite Hno, Hlen in Hc.
    assert (Hyes : List.length
                     (filter (fun x => negb (db.is_no_consensus x)) (v :: vs))
                   = 4%nat) by lia.
    unfold db.stat_of. cbn [db.consensus db.no_consensus db.total].
    rewrite Hno, Hyes. cbn [Z.of_nat Pos.of_succ_nat Pos.succ Z.add Pos.add].
    pose proof (Hnear 4 5 ltac:(lia) ltac:(lia))%Z.
    pose proof (Hnear 1 5 ltac:(lia) ltac:(lia))%Z.
    repeat split; lia.
  - intros field Hf. pose proof (raw_stats_lookup _ _ _ field Hraw) as H.
    rewrite Hf in H. exact H.
  - intros dedup url h Hh field.
    destruct rows as [| row rows'].
    { unfold db.raw_stats in Hraw. simpl in Hraw. inversion Hraw; subst.
      simpl in Hh. inversion Hh; subst. simpl.
      split; [exact I | intros st Hst; discriminate]. }
    assert (Hne : row :: rows' <> []) by discriminate.
    destruct (get_consensus_stats_returned _ _ _ _ _ Hne Hh)
      as (raw & model & text & rawj & parsed & Hraw' & Hd & Hv & Hs).
    rewrite Hraw in Hraw'. inversion Hraw'; subst raw.
    pose proof (merge_same_ratios
                  (db.deduped_map (db.Deduplication.stats parsed)) field stats)
      as Hsame.
    rewrite <- Hs in Hsame. split; [exact Hsame |].
    intros st Hst. rewrite Hst in Hsame. unfold db.same_ratios in Hsame.
    destruct (db.lookup field stats) as [raw_st |] eqn:Hrs; [| contradiction].
    destruct Hsame as [Hn Hc]. split.
    + rewrite Hn, Hc. apply (Hpos field raw_st Hrs).
    + exists model, text, rawj, parsed, raw_st.
      split; [exact Hd |]. split; [exact Hv |]. split; [reflexivity |].
      rewrite Hs in Hst.
      rewrite (merge_lookup _ field (deduped_map_nodup _)) in Hst.
      rewrite Hrs in Hst.
      destruct (db.lookup field
                  (db.deduped_map (db.Deduplication.stats parsed)))
        as [answers |]; simpl in Hst; inversion Hst; subst.
      * split; reflexivity.
      * reflexivity.
Qed.

Lemma historical_ratios_witness :
  db.nearest_tenth db.ratio_pct /\
  db.raw_stats db.ratio_pct Sample.five_rows = Ok Sample.five_rows_stats /\
  (exists st,
     db.lookup "fairness" Sample.five_rows_stats = Some st /\
     db.consensus st = 800%Z /\ db.no_consensus st = 200%Z /\
     db.total st = 5%Z) /\
  match
    db.get_consensus_stats_for_url db.ratio_pct Sample.five_rows
      (Sample.answer Sample.deduplicated)
      "https://example.com/news/council-budget"
  with
  | Ok h =>
      match db.lookup "fairness" (db.stats h) with
      | Some st => db.total st = 10%Z
      | None => False
      end
  | Raise _ => False
  end.
Proof.
  assert (Hraw : db.raw_stats db.ratio_pct Sample.five_rows =
                 Ok Sample.five_rows_stats) by (vm_compute; reflexivity).
  split; [exact ratio_pct_nearest |]. split; [exact Hraw |].
  destruct (historical_ratios db.ratio_pct Sample.five_rows _
              ratio_pct_nearest Hraw) as (_ & Hfive & _ & Hret).
  split.
  - apply (Hfive [JStr "High"; JStr "High"; JStr "No Consensus"; JStr "High";
                  JStr "Medium"]).
    + vm_compute. reflexivity.
    + reflexivity.
    + reflexivity.
  - destruct (db.get_consensus_stats_for_url db.ratio_pct Sample.five_rows
                (Sample.answer Sample.deduplicated)
                "https://example.com/news/council-budget") as [h | e] eqn:Hh;
      [| vm_compute in Hh; discriminate].
    destruct (db.lookup "fairness" (db.stats h)) as [st |] eqn:Hst;
      [| vm_compute in Hh; inversion Hh; subst h; vm_compute in Hst;
         discriminate].
    destruct (Hret _ _ _ Hh "fairness") as [_ Hin].
    destruct (Hin st Hst)
      as (_ & model & text & rawj & parsed & raw_st & Hd & Hv & _ & Hm).
    inversion Hd; subst model text rawj.
    vm_compute in Hv. inversion Hv; subst parsed.
    vm_compute in Hm. destruct Hm as [_ Ht]. exact Ht.
Defined.

(** C7, as stated, fails for the returned stats: for five stored records
    whose consensus for [fairness] is reached in four and not reached in
    one, each with the answers of two evaluators, and a canonicalization
    that names every field and merges nothing, the returned entry of
    [fairness] has the ratios 80.0 and 20.0 and a total of 10, the sum of
    the canonical counts, not 5. *)
Lemma returned_total_is_sum_of_counts :
  db.lookup "fairness" (fst (db.tally Sample.five_rows)) =
    Some [JStr "High"; JStr "High"; JStr "No Consensus"; JStr "High";
          JStr "Medium"] /\
  match
    db.get_consensus_stats_for_url db.ratio_pct Sample.five_rows
      (Sample.answer Sample.deduplicated)
      "https://example.com/news/council-budget"
  with
  | Ok h =>
      db.lookup "fairness" (db.stats h) =
        Some {| db.no_consensus := 200; db.consensus := 800; db.total := 10;
                db.answers := [(JStr "High", 5%Z); (JStr "Medium", 5%Z)] |}
  | Raise _ => False
  end.
Proof. split; vm_compute; reflexivity. Qed.

(** ** The pre-fetch URL gate (utils.py) *)

Lemma split_char_two (sep : ascii) :
  forall s, (2 <= List.length (Str.split_char sep s))%nat ->
            exists a b, s = a ++ String sep b.
Proof.
  induction s as [| c r IH]; simpl; intros H; [lia |].
  destruct (Ascii.eqb_spec c sep) as [-> | Hne].
  - exists "", r. reflexivity.
  - destruct (Str.split_char sep r) as [| w ws] eqn:Hs; simpl in H; [lia |].
    destruct (IH H) as [a [b Hab]]. exists (String c a), b. simpl.
    rewrite Hab. reflexivity.
Qed.

Lemma startswith_prefix (p : string) :
  forall s, Str.startswith p s = true -> exists post, s = p ++ post.
Proof.
  induction p as [| a p IH]; intros s H.
  - exists s. reflexivity.
  - destruct s as [| b s]; simpl in H; [discriminate |].
    apply andb_true_iff in H. destruct H as [Hab Hp].
    apply Ascii.eqb_eq in Hab. subst b.
    destruct (IH s Hp) as [post Hpost]. exists post. simpl. rewrite Hpost.
    reflexivity.
Qed.

Lemma contains_infix (w : string) :
  forall s, Str.contains w s = true -> exists pre post, s = pre ++ w ++ post.
Proof.
  induction s as [| c r IH]; intros H.
  - cbn [Str.contains] in H. rewrite orb_false_r in H.
    destruct (startswith_prefix _ _ H) as [post Hp]. exists "", post. exact Hp.
  - cbn [Str.contains] in H. apply orb_true_iff in H. destruct H as [H | H].
    + destruct (startswith_prefix _ _ H) as [post Hp]. exists "", post.
      exact Hp.
    + destruct (IH H) as [pre [post Hp]]. exists (String c pre), post.
      simpl. rewrite Hp. reflexivity.
Qed.

Lemma digits12_slash_shape (s r : string) :
  utils.digits12_slash s = Some r ->
  exists m, s = m ++ "/" ++ r /\ utils.one_or_two_digits m.
Proof.
  unfold utils.digits12_slash, utils.one_or_two_digits.
  destruct s as [| a s]; [discriminate |].
  destruct (Str.isdigit a) eqn:Ha; [| discriminate].
  destruct s as [| b s]; [discriminate |].
  destruct (Str.is_char b "/") eqn:Hb.
  - intros H. inversion H; subst. apply Ascii.eqb_eq in Hb. subst b.
    exists (String a ""). simpl. rewrite Ha. repeat split; lia.
  - destruct (Str.isdigit b) eqn:Hb'; [| discriminate].
    destruct s as [| c s]; [discriminate |].
    destruct (Str.is_char c "/") eqn:Hc; [| discriminate].
    intros H. inversion H; subst. apply Ascii.eqb_eq in Hc. subst c.
    exists (String a (String b "")). simpl. rewrite Ha, Hb'.
    repeat split; lia.
Qed.

Lemma date_here_shape (s : string) :
  utils.date_here s = true ->
  exists y m d post,
    s = "/" ++ y ++ "/" ++ m ++ "/" ++ d ++ "/" ++ post /\
    utils.all_digits y = true /\ String.length y = 4%nat /\
    utils.one_or_two_digits m /\ utils.one_or_two_digits d.
Proof.
  unfold utils.date_here.
  destruct s as [| s0 [| y1 [| y2 [| y3 [| y4 [| s1 r]]]]]]; try discriminate.
  destruct (Str.is_char s0 "/" && Str.isdigit y1 && Str.isdigit y2 &&
            Str.isdigit y3 && Str.isdigit y4 && Str.is_char s1 "/") eqn:Hc;
    [| discriminate].
  repeat (apply andb_true_iff in Hc; destruct Hc as [Hc ?]).
  destruct (utils.digits12_slash r) as [r1 |] eqn:Hmonth; [| discriminate].
  destruct (utils.digits12_slash r1) as [r2 |] eqn:Hday; [| discriminate].
  intros _.
  destruct (digits12_slash_shape _ _ Hmonth) as [m [Hm Hmd]].
  destruct (digits12_slash_shape _ _ Hday) as [d [Hd Hdd]].
  match goal with H : Str.is_char s0 _ = true |- _ =>
    apply Ascii.eqb_eq in H; subst s0 end.
  match goal with H : Str.is_char s1 _ = true |- _ =>
    apply Ascii.eqb_eq in H; subst s1 end.
  exists (String y1 (String y2 (String y3 (String y4 "")))), m, d, r2.
  repeat split; try assumption; try apply Hmd; try apply Hdd.
  - simpl. rewrite Hm, Hd. reflexivity.
  - simpl. repeat match goal with H : Str.isdigit _ = true |- _ =>
                      rewrite H; clear H end.
    reflexivity.
Qed.

Lemma search_date_dated :
  forall s, utils.search_date s = true -> utils.dated s.
Proof.
  induction s as [| c r IH]; intros H; cbn [utils.search_date] in H;
    apply orb_true_iff in H; destruct H as [H | H]; try discriminate.
  - destruct (date_here_shape _ H) as (y & m & d & post & Hs & Hy).
    exists "", y, m, d, post. split; [exact Hs | exact Hy].
  - destruct (IH H) as (pre & y & m & d & post & Hs & Hy).
    exists (String c pre), y, m, d, post. split; [| exact Hy].
    simpl. rewrite Hs. reflexivity.
Qed.

(** What the gate asks of a URL it accepts. *)
Lemma gate_accepts_only_article_like_paths (url : string) :
  utils.looks_like_article_url url = true ->
  utils.two_segments (Str.lower (utils.url_path url)) /\
  (utils.dated (Str.lower (utils.url_path url)) \/
   utils.has_article_word (Str.lower (utils.url_path url)) \/
   utils.html_page (Str.lower (utils.url_path url))).
Proof.
  unfold utils.looks_like_article_url.
  set (path := Str.lower (utils.url_path url)). cbv zeta. intros H.
  destruct (String.eqb path "" || String.eqb path "/" ||
            (List.length (Str.split_char "/" (Str.strip_char "/" path)) <=? 1)%nat)
    eqn:Hshort; [discriminate |].
  apply orb_false_iff in Hshort. destruct Hshort as [_ Hseg].
  apply Nat.leb_gt in Hseg. split.
  - destruct (split_char_two "/" _ Hseg) as [a [b Hab]]. exists a, b. exact Hab.
  - destruct (utils.search_date path) eqn:Hd.
    + left. apply search_date_dated. exact Hd.
    + destruct (existsb _ utils.article_words) eqn:Hw.
      * right. left. apply existsb_exists in Hw. destruct Hw as [w [Hin Hc]].
        destruct (contains_infix _ _ Hc) as [pre [post Hp]].
        exists w, pre, post. auto.
      * right. right.
        destruct (Str.endswith ".html" path) eqn:Hh.
        -- destruct (endswith_suffix _ _ Hh) as [pre Hp]. exists pre. auto.
        -- simpl in H. destruct (Str.endswith ".htm" path) eqn:Hm;
             [| discriminate].
           destruct (endswith_suffix _ _ Hm) as [pre Hp]. exists pre. auto.
Qed.


Lemma gate_accepts_sample :
  utils.looks_like_article_url (analysis.url Sample.request) = true.
Proof. reflexivity. Qed.

(** The article words are looked for anywhere in the path, not as whole
    segments. *)
Lemma gate_accepts_word_inside_segment :
  utils.looks_like_article_url "https://example.com/a/renewsx" = true.
Proof. reflexivity. Qed.


(** ** Streaming Emitter (utils.py, analysis.py) *)

(** A payload that is a dict goes out in the wire format, as its JSON
    text. *)
Lemma sse_event_wire (name : string) (o : Dict.t) :
  utils.sse_event name (JObj o) =
    utils.wire_frame name (Json.dumps false (JObj o)).
Proof.
  unfold utils.sse_event, utils.wire_frame. reflexivity.
Qed.

Lemma evaluate_result_stream_dict (r : models.response) (ev : json) :
  analysis.evaluate_result_stream r = Ok ev -> exists o, ev = JObj o.
Proof.
  unfold analysis.evaluate_result_stream.
  destruct (models.get "text" r) as [text |]; cbn [Py.bind]; [| discriminate].
  match goal with
  | |- Py.bind ?m _ = _ -> _ => destruct m as [parsed |]
  end; cbn [Py.bind]; [| discriminate].
  destruct (models.get "model" r) as [model |]; cbn [Py.bind];
    [| discriminate].
  destruct (db.py_get parsed) as [d |]; cbn [Py.bind]; [| discriminate].
  intros H. inversion H. eexists. reflexivity.
Qed.

Lemma status_is_frame (names : list string) (message : string) :
  In "status" names -> utils.is_frame names (analysis.status message).
Proof.
  intros Hin. exists "status". eexists. split; [exact Hin |].
  unfold analysis.status. apply sse_event_wire.
Qed.

(** Every frame of the loop is an evaluation frame. *)
Lemma stream_loop_frames (names : list string) (raw : list analysis.gathered) :
  In "evaluation" names ->
  forall acc bound frames out,
    (forall b, bound = Some b -> exists o, b = JObj o) ->
    analysis.stream_loop raw acc bound = (frames, out) ->
    Forall (utils.is_frame names) frames.
Proof.
  intros Hin. induction raw as [| g rest IH]; intros acc bound frames out Hb H;
    simpl in H.
  - inversion H; subst. constructor.
  - destruct g as [e | r].
    + destruct bound as [b |]; [| inversion H; subst; constructor].
      destruct (analysis.stream_loop rest _ _) as [fs o] eqn:Hl.
      inversion H; subst. constructor; [| eapply IH; eassumption].
      destruct (Hb b eq_refl) as [d ->]. exists "evaluation", d.
      split; [exact Hin | apply sse_event_wire].
    + destruct (analysis.evaluate_result_stream r) as [ev |] eqn:He;
        [| inversion H; subst; constructor].
      destruct (analysis.stream_loop rest _ _) as [fs o] eqn:Hl.
      inversion H; subst.
      destruct (evaluate_result_stream_dict _ _ He) as [d ->].
      constructor.
      * exists "evaluation", d. split; [exact Hin | apply sse_event_wire].
      * eapply IH; [| exact Hl]. intros b Hbd. inversion Hbd. eauto.
Qed.

(** When no call raised and the loop finishes, it has built one record per
    call, in the order of the calls, and yielded one frame per record. *)
Lemma stream_loop_all_returned (raw : list analysis.gathered) :
  forall acc bound frames evs,
    analysis.stream_loop raw acc bound = (frames, Ok evs) ->
    (forall e, ~ In (analysis.Raised e) raw) ->
    exists news,
      evs = (acc ++ news)%list /\
      Forall2 analysis.record_of raw news /\
      frames = map (utils.sse_event "evaluation") news.
Proof.
  induction raw as [| g rest IH]; intros acc bound frames evs H Hno;
    simpl in H.
  - inversion H; subst. exists []. rewrite app_nil_r.
    repeat split. constructor.
  - destruct g as [e | r]; [exfalso; apply (Hno e); left; reflexivity |].
    destruct (analysis.evaluate_result_stream r) as [ev |] eqn:He;
      [| discriminate].
    destruct (analysis.stream_loop rest _ _) as [fs o] eqn:Hl.
    inversion H; subst.
    destruct (IH _ _ _ _ Hl) as (news & Hevs & Hrec & Hfs).
    { intros e Hin. apply (Hno e). right. exact Hin. }
    exists (ev :: news). repeat split.
    + rewrite Hevs, <- app_assoc. reflexivity.
    + constructor; [| exact Hrec]. exists r. auto.
    + simpl. rewrite Hfs. reflexivity.
Qed.

(** The frames of a stream, and how they depend on its end. *)
Lemma event_stream_frames (w : analysis.World) (p : analysis.Prepared) :
  Forall (utils.is_frame ["status"; "evaluation"; "done"])
         (fst (analysis.event_stream w p)) /\
  (forall fin,
     snd (analysis.event_stream w p) = Ok fin ->
     exists evaluations,
       Forall2 analysis.record_of (analysis.raw_results w p) evaluations /\
       List.length evaluations = List.length (analysis.p_pairs p) /\
       fst (analysis.event_stream w p) =
         ([analysis.status "Evaluating article..."] ++
          map (utils.sse_event "evaluation") evaluations ++
          [analysis.status "Finding consensus...";
           analysis.status "Getting historical data...";
           utils.sse_event "done"
             (AnalyzeResponse.model_dump (analysis.response fin))])%list) /\
  (forall e,
     snd (analysis.event_stream w p) = Raise e ->
     Forall (utils.is_frame ["status"; "evaluation"])
            (fst (analysis.event_stream w p))).
Proof.
  pose proof (event_stream_fails_after_raised w p) as Hfail.
  unfold analysis.event_stream in *.
  destruct (analysis.stream_loop (analysis.raw_results w p) [] None)
    as [f1 looped] eqn:Hl.
  assert (Hf1 : forall names, In "evaluation" names ->
                  Forall (utils.is_frame names) f1).
  { intros names Hn. eapply stream_loop_frames; [exact Hn | | exact Hl].
    intros b Hb. discriminate. }
  assert (Hst : forall names m, In "status" names ->
                  utils.is_frame names (analysis.status m))
    by (intros; apply status_is_frame; assumption).
  destruct looped as [evs | e0].
  2:{ simpl. repeat split.
      - constructor; [apply Hst; simpl; auto |]. apply Hf1. simpl. auto.
      - intros fin H. discriminate.
      - intros e _. constructor; [apply Hst; simpl; auto |]. apply Hf1.
        simpl. auto. }
  destruct (evaluate.aggregate_evaluations _ evs) as [c | e0].
  2:{ simpl. repeat split.
      - constructor; [apply Hst; simpl; auto |]. apply Forall_app. split.
        + apply Hf1. simpl. auto.
        + constructor; [apply Hst; simpl; auto | constructor].
      - intros fin H. discriminate.
      - intros e _. constructor; [apply Hst; simpl; auto |].
        apply Forall_app. split.
        + apply Hf1. simpl. auto.
        + constructor; [apply Hst; simpl; auto | constructor]. }
  destruct (analysis.conclude w p evs c) as [fin | e0].
  2:{ simpl. repeat split.
      - constructor; [apply Hst; simpl; auto |]. apply Forall_app. split.
        + apply Hf1. simpl. auto.
        + repeat (constructor; [apply Hst; simpl; auto |]). constructor.
      - intros fin H. discriminate.
      - intros e _. constructor; [apply Hst; simpl; auto |].
        apply Forall_app. split.
        + apply Hf1. simpl. auto.
        + repeat (constructor; [apply Hst; simpl; auto |]). constructor. }
  simpl. repeat split.
  - constructor; [apply Hst; simpl; auto |]. apply Forall_app. split.
    + apply Hf1. simpl. auto.
    + repeat (constructor; [apply Hst; simpl; auto |]).
      constructor; [| constructor].
      exists "done". eexists. split; [simpl; auto |].
      unfold AnalyzeResponse.model_dump. apply sse_event_wire.
  - intros fin' Hfin. inversion Hfin; subst fin'.
    assert (Hno : forall e, ~ In (analysis.Raised e) (analysis.raw_results w p)).
    { intros e Hin. specialize (Hfail e Hin). simpl in Hfail. discriminate. }
    destruct (stream_loop_all_returned _ _ _ _ _ Hl Hno)
      as (news & Hevs & Hrec & Hfs).
    exists news. repeat split.
    + exact Hrec.
    + apply Forall2_length in Hrec. rewrite <- Hrec.
      unfold analysis.raw_results. rewrite length_map, length_seq.
      reflexivity.
    + rewrite Hfs. reflexivity.
  - intros e H. discriminate.
Qed.

(** C8 (as amended): the streaming entry point, once the steps before the
    dispatch have passed, yields frames in the wire format only, each a
    status, evaluation or done event with the JSON text of its payload.
    When the stream runs to its end the frames are exactly: one status,
    one evaluation per dispatched call in dispatch order (yielded after
    the whole batch has resolved), two status, and one done carrying the
    complete result.  When a step raises (for a URL seen before: a failed
    or invalid canonicalization) the stream stops at that step, without a
    done event. *)
Theorem stream_order_until_a_step_raises (w : analysis.World)
    (req : analysis.AnalyzeRequest) (p : analysis.Prepared) :
  analysis.prepare w req = Ok p ->
  analysis.run_analysis w req true =
    Ok (analysis.EventStream (fst (analysis.event_stream w p))
                             (snd (analysis.event_stream w p))) /\
  Forall (utils.is_frame ["status"; "evaluation"; "done"])
         (fst (analysis.event_stream w p)) /\
  (forall fin,
     snd (analysis.event_stream w p) = Ok fin ->
     exists evaluations,
       Forall2 analysis.record_of (analysis.raw_results w p) evaluations /\
       List.length evaluations = List.length (analysis.p_pairs p) /\
       fst (analysis.event_stream w p) =
         ([analysis.status "Evaluating article..."] ++
          map (utils.sse_event "evaluation") evaluations ++
          [analysis.status "Finding consensus...";
           analysis.status "Getting historical data...";
           utils.sse_event "done"
             (AnalyzeResponse.model_dump (analysis.response fin))])%list) /\
  (forall e,
     snd (analysis.event_stream w p) = Raise e ->
     Forall (utils.is_frame ["status"; "evaluation"])
            (fst (analysis.event_stream w p))).
Proof.
  intros Hp. split.
  - unfold analysis.run_analysis. rewrite Hp. cbn [Py.bind].
    destruct (analysis.event_stream w p). reflexivity.
  - apply event_stream_frames.
Qed.

(** A first submission in which every call answers well: six frames, the
    last one the done event. *)
Lemma stream_order_until_a_step_raises_witness :
  analysis.prepare Sample.world Sample.request = Ok Sample.prepared /\
  is_ok (snd (analysis.event_stream Sample.world Sample.prepared)) = true /\
  fst (analysis.event_stream Sample.world Sample.prepared) =
    [analysis.status "Evaluating article...";
     utils.sse_event "evaluation" Sample.evaluation_record;
     utils.sse_event "evaluation" Sample.evaluation_record;
     analysis.status "Finding consensus...";
     analysis.status "Getting historical data...";
     nth 5 (fst (analysis.event_stream Sample.world Sample.prepared)) ""] /\
  Forall (utils.is_frame ["status"; "evaluation"; "done"])
         (fst (analysis.event_stream Sample.world Sample.prepared)).
Proof.
  assert (Hp : analysis.prepare Sample.world Sample.request = Ok Sample.prepared)
    by (vm_compute; reflexivity).
  split; [exact Hp |].
  split; [vm_compute; reflexivity |].
  split; [vm_compute; reflexivity |].
  apply (stream_order_until_a_step_raises Sample.world Sample.request
           Sample.prepared Hp).
Defined.

(** C8, as stated, fails: for a URL analysed five times before, with the
    deduplication call failing, the stream yields the first status, the
    two evaluations and the two further status events and then ends with
    [TypeError]; no done event is sent. *)
Lemma stream_without_done :
  analysis.run_analysis Sample.world_dedup_down Sample.request true =
    Ok (analysis.EventStream
          [analysis.status "Evaluating article...";
           utils.sse_event "evaluation" Sample.evaluation_record;
           utils.sse_event "evaluation" Sample.evaluation_record;
           analysis.status "Finding consensus...";
           analysis.status "Getting historical data..."]
          (Raise (TypeError
                    "tuple indices must be integers or slices, not str"))).
Proof. vm_compute. reflexivity. Qed.

(* ===================================================================== *)
(** * Further properties of the code *)
(* ===================================================================== *)

(** ** Normalizing an evaluation (utils.py) *)

(** Asked of a dict, [norm_field] never raises. *)
Lemma norm_field_dict (d : Dict.t) (keys : list string) :
  exists v, utils.norm_field (JObj d) keys = Ok v.
Proof.
  induction keys as [| k rest IH]; simpl.
  - exists JNull. reflexivity.
  - destruct (Dict.get k d) as [v |]; [exists v; reflexivity | exact IH].
Qed.

(** The first of the keys decides, when the dict holds it. *)
Lemma norm_field_first (d : Dict.t) (k : string) (rest : list string) (v : json) :
  Dict.get k d = Some v -> utils.norm_field (JObj d) (k :: rest) = Ok v.
Proof. intros H. simpl. rewrite H. reflexivity. Qed.

Lemma norm_field_skip (d : Dict.t) (k : string) (rest : list string) :
  Dict.get k d = None ->
  utils.norm_field (JObj d) (k :: rest) = utils.norm_field (JObj d) rest.
Proof. intros H. simpl. rewrite H. reflexivity. Qed.

Lemma or_unknown_truthy (x : json) : truthy (utils.or_unknown x) = true.
Proof.
  unfold utils.or_unknown. destruct (truthy x) eqn:H; [exact H | reflexivity].
Qed.

Lemma or_unknown_fixed (x : json) :
  truthy x = true -> utils.or_unknown x = x.
Proof. unfold utils.or_unknown. intros H. rewrite H. reflexivity. Qed.

(** What [normalize_evaluation] returns when the article and the
    publication are dicts. *)
Lemma normalize_evaluation_dicts (parsed a p : Dict.t) :
  Dict.get_default "article" (JObj []) parsed = JObj a ->
  Dict.get_default "publication" (JObj []) parsed = JObj p ->
  exists f l o pe t fa h,
    utils.normalize_evaluation parsed =
      Ok [("article",
           JObj [("perspective", utils.or_unknown pe);
                 ("tone_language", utils.or_unknown t);
                 ("fairness", utils.or_unknown fa);
                 ("headline_article", utils.or_unknown h);
                 ("notes", Dict.get_default "notes" JNull a)]);
          ("publication",
           JObj [("source_of_funding", utils.or_unknown f);
                 ("location", utils.or_unknown l);
                 ("ownership", utils.or_unknown o)])] /\
    utils.norm_field (JObj a) ["perspective"; "slant"; "article_perspective"]
      = Ok pe.
Proof.
  intros Ha Hp. unfold utils.normalize_evaluation. rewrite Ha, Hp.
  destruct (norm_field_dict p ["source_of_funding"; "source of funding";
                               "funding_source"; "funding";
                               "publication_funding"]) as [f Hf].
  destruct (norm_field_dict p ["location"; "country"; "publication_location"])
    as [l Hl].
  destruct (norm_field_dict p ["ownership"; "owner"; "publication_ownership"])
    as [o Ho].
  destruct (norm_field_dict a ["perspective"; "slant"; "article_perspective"])
    as [pe Hpe].
  destruct (norm_field_dict a ["tone_language"; "tone and language";
                               "article_tone_language"]) as [t Ht].
  destruct (norm_field_dict a ["fairness"; "article_fairness"]) as [fa Hfa].
  destruct (norm_field_dict a ["headline_article"; "article_headline_article"])
    as [h Hh].
  exists f, l, o, pe, t, fa, h.
  rewrite Hf, Hl, Ho, Hpe, Ht, Hfa, Hh. split; reflexivity.
Qed.

(** A missing entry stands for the empty dict. *)
Lemma get_default_dict (k : string) (parsed : Dict.t) :
  (forall v, Dict.get k parsed = Some v -> exists d, v = JObj d) ->
  exists d, Dict.get_default k (JObj []) parsed = JObj d.
Proof.
  intros H. unfold Dict.get_default.
  destruct (Dict.get k parsed) as [v |]; [apply H; reflexivity |].
  exists []. reflexivity.
Qed.

(** X1: for every parsed dict whose article and publication, where given,
    are dicts, [normalize_evaluation] returns: the result holds an article
    with the keys perspective, tone_language, fairness, headline_article
    and notes and a publication with the keys source_of_funding, location
    and ownership, in that order, and under each of the seven keys other
    than notes a value whose truth value is true (never [None], an empty
    text or an empty list). *)
Theorem normalize_evaluation_fills_every_field (parsed : Dict.t) :
  (forall v, Dict.get "article" parsed = Some v -> exists d, v = JObj d) ->
  (forall v, Dict.get "publication" parsed = Some v -> exists d, v = JObj d) ->
  exists a p,
    utils.normalize_evaluation parsed =
      Ok [("article", JObj a); ("publication", JObj p)] /\
    map fst a = (utils.article_keys ++ ["notes"])%list /\
    map fst p = utils.publication_keys /\
    utils.filled utils.article_keys a /\
    utils.filled utils.publication_keys p.
Proof.
  intros Ha Hp.
  destruct (get_default_dict _ _ Ha) as [a Ea].
  destruct (get_default_dict _ _ Hp) as [p Ep].
  destruct (normalize_evaluation_dicts parsed a p Ea Ep)
    as (f & l & o & pe & t & fa & h & Hn & _).
  eexists. eexists. split; [exact Hn |].
  split; [reflexivity |]. split; [reflexivity |].
  split; intros k Hk; simpl in Hk;
    repeat (destruct Hk as [Hk | Hk];
            [subst k; eexists; split; [reflexivity | apply or_unknown_truthy] |]);
    contradiction.
Qed.

Lemma normalize_evaluation_fills_every_field_witness :
  exists a p,
    utils.normalize_evaluation
      [("article", JObj [("slant", JStr "Left"); ("fairness", JStr "")])] =
      Ok [("article", JObj a); ("publication", JObj p)] /\
    map fst a = (utils.article_keys ++ ["notes"])%list /\
    map fst p = utils.publication_keys /\
    utils.filled utils.article_keys a /\
    utils.filled utils.publication_keys p.
Proof.
  apply normalize_evaluation_fills_every_field.
  - intros v H. vm_compute in H. inversion H. eexists. reflexivity.
  - intros v H. vm_compute in H. discriminate.
Defined.

(** X2: [normalize_evaluation] is idempotent: whatever it returns, it
    returns unchanged when applied to it again. *)
Theorem normalize_evaluation_idempotent (parsed n : Dict.t) :
  utils.normalize_evaluation parsed = Ok n ->
  utils.normalize_evaluation n = Ok n.
Proof.
  unfold utils.normalize_evaluation at 1.
  destruct (utils.norm_field _ _) as [f |]; [| discriminate]. cbn [Py.bind].
  destruct (utils.norm_field _ _) as [l |]; [| discriminate]. cbn [Py.bind].
  destruct (utils.norm_field _ _) as [o |]; [| discriminate]. cbn [Py.bind].
  destruct (utils.norm_field _ _) as [pe |]; [| discriminate]. cbn [Py.bind].
  destruct (utils.norm_field _ _) as [t |]; [| discriminate]. cbn [Py.bind].
  destruct (utils.norm_field _ _) as [fa |]; [| discriminate]. cbn [Py.bind].
  destruct (utils.norm_field _ _) as [h |]; [| discriminate]. cbn [Py.bind].
  destruct (utils.get_notes _) as [notes |]; [| discriminate]. cbn [Py.bind].
  intros H. inversion H. subst n. clear H.
  unfold utils.normalize_evaluation. simpl.
  rewrite !(or_unknown_fixed (utils.or_unknown _))
    by apply or_unknown_truthy.
  reflexivity.
Qed.

Lemma normalize_evaluation_idempotent_witness :
  utils.normalize_evaluation
    [("article", JObj [("perspective", JStr "Unknown");
                       ("tone_language", JArr [JStr "Restrained"]);
                       ("fairness", JStr "High");
                       ("headline_article", JStr "Unknown");
                       ("notes", JNull)]);
     ("publication", JObj [("source_of_funding", JStr "Unknown");
                           ("location", JStr "Canada");
                           ("ownership", JStr "Unknown")])] =
  Ok [("article", JObj [("perspective", JStr "Unknown");
                        ("tone_language", JArr [JStr "Restrained"]);
                        ("fairness", JStr "High");
                        ("headline_article", JStr "Unknown");
                        ("notes", JNull)]);
      ("publication", JObj [("source_of_funding", JStr "Unknown");
                            ("location", JStr "Canada");
                            ("ownership", JStr "Unknown")])].
Proof.
  apply (normalize_evaluation_idempotent
           [("article", JObj [("tone and language", JArr [JStr "Restrained"]);
                              ("article_fairness", JStr "High")]);
            ("publication", JObj [("country", JStr "Canada")])]).
  vm_compute. reflexivity.
Defined.

(** X3: the first key that is present decides, also when its value is
    empty.  When the article holds the key perspective with a value whose
    truth value is false (null, an empty text), the normalized perspective
    is the text Unknown whatever the aliases slant and article_perspective
    hold; the alias slant is read only when the key perspective is
    absent. *)
Theorem normalize_evaluation_first_present_key_wins (parsed a p : Dict.t) :
  Dict.get_default "article" (JObj []) parsed = JObj a ->
  Dict.get_default "publication" (JObj []) parsed = JObj p ->
  exists art pub,
    utils.normalize_evaluation parsed =
      Ok [("article", JObj art); ("publication", JObj pub)] /\
    (forall v, Dict.get "perspective" a = Some v -> truthy v = false ->
               Dict.get "perspective" art = Some (JStr "Unknown")) /\
    (forall v, Dict.get "perspective" a = None ->
               Dict.get "slant" a = Some v -> truthy v = true ->
               Dict.get "perspective" art = Some v).
Proof.
  intros Ha Hp.
  destruct (normalize_evaluation_dicts parsed a p Ha Hp)
    as (f & l & o & pe & t & fa & h & Hn & Hpe).
  eexists. eexists. split; [exact Hn |]. split.
  - intros v Hv Hfalse. rewrite (norm_field_first _ _ _ _ Hv) in Hpe.
    inversion Hpe. subst pe. simpl. unfold utils.or_unknown.
    rewrite Hfalse. reflexivity.
  - intros v Hnone Hv Htrue. rewrite (norm_field_skip _ _ _ Hnone) in Hpe.
    rewrite (norm_field_first _ _ _ _ Hv) in Hpe.
    inversion Hpe. subst pe. simpl. rewrite (or_unknown_fixed _ Htrue).
    reflexivity.
Qed.

Lemma normalize_evaluation_first_present_key_wins_witness :
  exists art pub,
    utils.normalize_evaluation
      [("article", JObj [("perspective", JStr ""); ("slant", JStr "Left")])] =
      Ok [("article", JObj art); ("publication", JObj pub)] /\
    Dict.get "perspective" art = Some (JStr "Unknown").
Proof.
  destruct (normalize_evaluation_first_present_key_wins
              [("article", JObj [("perspective", JStr ""); ("slant", JStr "Left")])]
              [("perspective", JStr ""); ("slant", JStr "Left")] []
              eq_refl eq_refl) as (art & pub & Hn & Hempty & _).
  exists art, pub. split; [exact Hn |].
  apply (Hempty (JStr "")); reflexivity.
Defined.

(** X4: an article that is no dict makes [normalize_evaluation] raise,
    whatever else the parsed dict holds: a number or [None] fails at the
    first membership test, a text or a list at the latest where its notes
    are asked for. *)
Theorem normalize_evaluation_article_must_be_dict (parsed : Dict.t) (v : json) :
  Dict.get "article" parsed = Some v ->
  (forall d, v <> JObj d) ->
  exists e, utils.normalize_evaluation parsed = Raise e.
Proof.
  intros Hv Hnd. unfold utils.normalize_evaluation, Dict.get_default.
  rewrite Hv.
  repeat (destruct (utils.norm_field _ _); cbn [Py.bind];
          [| eexists; reflexivity]).
  destruct v; simpl; try (eexists; reflexivity).
  exfalso. eapply Hnd. reflexivity.
Qed.

Lemma normalize_evaluation_article_must_be_dict_witness :
  exists e,
    utils.normalize_evaluation [("article", JStr "Neutral and fair.")] = Raise e.
Proof.
  apply (normalize_evaluation_article_must_be_dict _ (JStr "Neutral and fair.")).
  - reflexivity.
  - intros d H. discriminate.
Defined.

(** ** Extracting an object from prose (utils.py) *)

(** A document that opens with a brace decodes to a dict, or not at all. *)
Lemma object_pairs_dict :
  forall fuel acc s v rest,
    Json.object_pairs fuel acc s = Json.Scanned v rest ->
    exists members, v = JObj members.
Proof.
  induction fuel as [| fuel IH]; intros acc s v rest; [discriminate |].
  cbn [Json.object_pairs].
  destruct (Str.after_char "034" s) as [r |]; [| discriminate].
  destruct (Json.scanstring _ r) as [key r1 | |]; try discriminate.
  destruct (Str.after_char ":" (Json.skip_ws r1)) as [r2 |]; [| discriminate].
  destruct (Json.scan_once fuel (Json.skip_ws r2)) as [x r3 | |];
    try discriminate.
  destruct (Str.after_char "}" (Json.skip_ws r3)) as [rest' |].
  { intros H. inversion H. eexists. reflexivity. }
  destruct (Str.after_char "," (Json.skip_ws r3)) as [r4 |]; [| discriminate].
  apply IH.
Qed.

Lemma loads_brace_dict (r : string) (v : json) :
  Json.loads (String "{" r) = Some v -> exists members, v = JObj members.
Proof.
  unfold Json.loads.
  change (Json.skip_ws (String "{" r)) with (String "{" r).
  unfold Json.budget. cbn [String.length Nat.mul Nat.add].
  rewrite Nat.add_comm. cbn [Nat.add Json.scan_once].
  change (Str.is_char "{" "034") with false.
  change (Str.is_char "{" "{") with true. cbv iota.
  destruct (Str.after_char "}" (Json.skip_ws r)) as [rest |].
  - destruct (Json.skip_ws rest); [| discriminate].
    intros H. inversion H. exists []. reflexivity.
  - destruct (Json.object_pairs _ _ _) as [x rest | |] eqn:Ho; try discriminate.
    destruct (Json.skip_ws rest); [| discriminate].
    intros H. inversion H. subst x. eapply object_pairs_dict. exact Ho.
Qed.

Lemma search_brace_span_brace :
  forall s candidate,
    utils.search_brace_span s = Some candidate ->
    exists r, candidate = String "{" r.
Proof.
  induction s as [| c s IH]; intros candidate; simpl; [discriminate |].
  destruct (Str.is_char c "{") eqn:Hc; [| apply IH].
  destruct (utils.upto_last "}" s) as [p |]; [| apply IH].
  intros H. inversion H. apply Ascii.eqb_eq in Hc. subst c.
  exists p. reflexivity.
Qed.

Lemma upto_last_absent (c : ascii) :
  forall s, Str.has_char c s = false -> utils.upto_last c s = None.
Proof.
  induction s as [| d s IH]; cbn [Str.has_char utils.upto_last]; intros H;
    [reflexivity |].
  apply orb_false_iff in H. destruct H as [Hd Hs].
  rewrite (IH Hs). rewrite Ascii.eqb_sym. rewrite Hd. reflexivity.
Qed.

Lemma search_brace_span_no_opening :
  forall s, Str.has_char "{" s = false -> utils.search_brace_span s = None.
Proof.
  induction s as [| c s IH]; cbn [Str.has_char utils.search_brace_span];
    intros H; [reflexivity |].
  apply orb_false_iff in H. destruct H as [Hc Hs].
  unfold Str.is_char. rewrite Ascii.eqb_sym. rewrite Hc. apply IH. exact Hs.
Qed.

Lemma search_brace_span_no_closing :
  forall s, Str.has_char "}" s = false -> utils.search_brace_span s = None.
Proof.
  induction s as [| c s IH]; cbn [Str.has_char utils.search_brace_span];
    intros H; [reflexivity |].
  apply orb_false_iff in H. destruct H as [Hc Hs].
  rewrite (upto_last_absent _ _ Hs). rewrite (IH Hs).
  destruct (Str.is_char c "{"); reflexivity.
Qed.

(** X5: [extract_json_from_text] returns [None] or a dict, never a list, a
    text, a number or a truth value; and it returns [None] for every text
    that lacks an opening or a closing brace. *)
Theorem extract_json_from_text_none_or_dict :
  (forall text v,
     utils.extract_json_from_text text = Some v ->
     exists members, v = JObj members) /\
  (forall text,
     Str.has_char "{" text = false \/ Str.has_char "}" text = false ->
     utils.extract_json_from_text text = None).
Proof.
  split.
  - intros text v. unfold utils.extract_json_from_text.
    destruct (utils.search_brace_span text) as [candidate |] eqn:Hs;
      [| discriminate].
    destruct (search_brace_span_brace _ _ Hs) as [r Hr]. subst candidate.
    destruct (Json.loads (String "{" r)) as [x |] eqn:Hl.
    + intros H. inversion H. subst x. apply (loads_brace_dict _ _ Hl).
    + cbn [Str.replace_char]. change (Ascii.eqb "{" "'") with false.
      cbv iota. apply loads_brace_dict.
  - intros text [H | H]; unfold utils.extract_json_from_text.
    + rewrite (search_brace_span_no_opening _ H). reflexivity.
    + rewrite (search_brace_span_no_closing _ H). reflexivity.
Qed.

(** ** The URL gate, both ways (utils.py) *)

Lemma split_char_nonempty (sep : ascii) (s : string) :
  Str.split_char sep s <> [].
Proof.
  destruct s as [| c r]; cbn [Str.split_char]; [discriminate |].
  destruct (Ascii.eqb c sep); [discriminate |].
  destruct (Str.split_char sep r); discriminate.
Qed.

Lemma split_char_separated (sep : ascii) (b : string) :
  forall a, (2 <= List.length (Str.split_char sep (a ++ String sep b)))%nat.
Proof.
  assert (Hone : forall s, (1 <= List.length (Str.split_char sep s))%nat).
  { intros s. pose proof (split_char_nonempty sep s).
    destruct (Str.split_char sep s); [congruence | simpl; lia]. }
  induction a as [| c a IH]; cbn [append Str.split_char].
  - rewrite Ascii.eqb_refl. specialize (Hone b). simpl. lia.
  - destruct (Ascii.eqb c sep).
    + specialize (Hone (a ++ String sep b)). simpl. lia.
    + destruct (Str.split_char sep (a ++ String sep b)); simpl in *; lia.
Qed.

Lemma startswith_app (p post : string) : Str.startswith p (p ++ post) = true.
Proof.
  induction p as [| c p IH]; cbn [append Str.startswith]; [reflexivity |].
  rewrite Ascii.eqb_refl. exact IH.
Qed.

Lemma contains_app (w post : string) :
  forall pre, Str.contains w (pre ++ w ++ post) = true.
Proof.
  induction pre as [| c pre IH].
  - cbn [append]. destruct (w ++ post) eqn:E; cbn [Str.contains];
      rewrite <- E; rewrite startswith_app; reflexivity.
  - cbn [append Str.contains]. rewrite IH. apply orb_true_r.
Qed.

Lemma endswith_app (p : string) :
  forall pre, Str.endswith p (pre ++ p) = true.
Proof.
  induction pre as [| c pre IH].
  - cbn [append]. destruct p; cbn [Str.endswith]; rewrite String.eqb_refl;
      reflexivity.
  - cbn [append Str.endswith]. rewrite IH. apply orb_true_r.
Qed.

Lemma digit_is_no_slash (c : ascii) :
  Str.isdigit c = true -> Str.is_char c "/" = false.
Proof.
  intros H. destruct (Str.is_char c "/") eqn:E; [| reflexivity].
  apply Ascii.eqb_eq in E. subst c. discriminate.
Qed.

Lemma digits12_slash_app (m r : string) :
  utils.one_or_two_digits m -> utils.digits12_slash (m ++ "/" ++ r) = Some r.
Proof.
  intros [Hd Hl]. destruct m as [| a [| b [| c m]]]; simpl in Hl; try lia.
  - cbn [utils.all_digits] in Hd. rewrite andb_true_r in Hd.
    cbn [append utils.digits12_slash]. rewrite Hd. reflexivity.
  - cbn [utils.all_digits] in Hd. rewrite andb_true_r in Hd.
    apply andb_true_iff in Hd. destruct Hd as [Ha Hb].
    cbn [append utils.digits12_slash]. rewrite Ha, Hb.
    rewrite (digit_is_no_slash _ Hb). reflexivity.
Qed.

Lemma date_here_app (y m d post : string) :
  utils.all_digits y = true -> String.length y = 4%nat ->
  utils.one_or_two_digits m -> utils.one_or_two_digits d ->
  utils.date_here ("/" ++ y ++ "/" ++ m ++ "/" ++ d ++ "/" ++ post) = true.
Proof.
  intros Hy Hl Hm Hd.
  destruct y as [| y1 [| y2 [| y3 [| y4 [| y5 y]]]]]; simpl in Hl; try lia.
  cbn [utils.all_digits] in Hy. rewrite andb_true_r in Hy.
  apply andb_true_iff in Hy. destruct Hy as [H1 Hy].
  apply andb_true_iff in Hy. destruct Hy as [H2 Hy].
  apply andb_true_iff in Hy. destruct Hy as [H3 H4].
  cbn [append]. unfold utils.date_here. rewrite H1, H2, H3, H4.
  change (Str.is_char "/" "/") with true. cbn [andb].
  change (m ++ String "/" (d ++ String "/" post))
    with (m ++ "/" ++ (d ++ "/" ++ post)).
  rewrite (digits12_slash_app _ _ Hm). rewrite (digits12_slash_app _ _ Hd).
  reflexivity.
Qed.

Lemma search_date_app (s : string) :
  utils.date_here s = true -> forall pre, utils.search_date (pre ++ s) = true.
Proof.
  intros H. induction pre as [| c pre IH].
  - cbn [append]. destruct s; cbn [utils.search_date]; rewrite H; reflexivity.
  - cbn [append utils.search_date]. rewrite IH. apply orb_true_r.
Qed.

(** X6: the gate accepts a URL if and only if its lowercased path, stripped
    of slashes at both ends, still holds a slash, and the path shows a date
    of the form /YYYY/M/D/, holds one of the eight article words, or ends
    in .html or .htm. *)
Theorem gate_accepts_exactly_the_marked_paths (url : string) :
  utils.looks_like_article_url url = true <->
  utils.two_segments (Str.lower (utils.url_path url)) /\
  (utils.dated (Str.lower (utils.url_path url)) \/
   utils.has_article_word (Str.lower (utils.url_path url)) \/
   utils.html_page (Str.lower (utils.url_path url))).
Proof.
  split; [apply gate_accepts_only_article_like_paths |].
  unfold utils.looks_like_article_url.
  set (path := Str.lower (utils.url_path url)). cbv zeta.
  intros [[a [b Hab]] Hmark].
  assert (Hshort :
            String.eqb path "" || String.eqb path "/" ||
            (List.length (Str.split_char "/" (Str.strip_char "/" path)) <=? 1)%nat
            = false).
  { apply orb_false_iff. split; [apply orb_false_iff; split |].
    - destruct (String.eqb_spec path "") as [E |]; [| reflexivity].
      rewrite E in Hab. destruct a; discriminate.
    - destruct (String.eqb_spec path "/") as [E |]; [| reflexivity].
      rewrite E in Hab. destruct a; discriminate.
    - apply Nat.leb_gt. rewrite Hab.
      pose proof (split_char_separated "/" b a). simpl in *. lia. }
  rewrite Hshort.
  destruct Hmark as [Hd | [Hw | Hh]].
  - destruct Hd as (pre & y & m & d & post & Hp & Hy & Hl & Hm & Hd).
    rewrite Hp. rewrite search_date_app; [reflexivity |].
    apply date_here_app; assumption.
  - destruct (utils.search_date path); [reflexivity |].
    destruct Hw as (w & pre & post & Hin & Hp).
    assert (He : existsb (fun seg => Str.contains seg path) utils.article_words
                 = true).
    { apply existsb_exists. exists w. split; [exact Hin |].
      rewrite Hp. apply contains_app. }
    rewrite He. reflexivity.
  - destruct (utils.search_date path); [reflexivity |].
    destruct (existsb _ utils.article_words); [reflexivity |].
    destruct Hh as [pre [Hp | Hp]]; rewrite Hp; rewrite endswith_app.
    + reflexivity.
    + rewrite orb_true_r. reflexivity.
Qed.

(** The path of a URL does not change when a query or a fragment is put
    after it. *)
Lemma after_scheme_app (d : ascii) (q : string) :
  utils.is_scheme_char d = false -> Str.is_char d ":" = false ->
  forall url,
    utils.after_scheme (url ++ String d q) =
    option_map (fun r => r ++ String d q) (utils.after_scheme url).
Proof.
  intros Hs Hc. induction url as [| c url IH]; cbn [append utils.after_scheme].
  - rewrite Hc, Hs. reflexivity.
  - destruct (Str.is_char c ":"); [reflexivity |].
    destruct (utils.is_scheme_char c); [exact IH | reflexivity].
Qed.

Lemma after_scheme_has_char (c : ascii) :
  forall url rest,
    utils.after_scheme url = Some rest ->
    Str.has_char c url = false -> Str.has_char c rest = false.
Proof.
  induction url as [| a url IH]; intros rest; cbn [utils.after_scheme];
    [discriminate |].
  cbn [Str.has_char]. intros H Hc. apply orb_false_iff in Hc.
  destruct Hc as [_ Hc].
  destruct (Str.is_char a ":").
  - inversion H. subst rest. exact Hc.
  - destruct (utils.is_scheme_char a); [| discriminate].
    apply (IH _ H Hc).
Qed.

Lemma drop_has_char (c : ascii) :
  forall n s, Str.has_char c s = false -> Str.has_char c (Str.drop n s) = false.
Proof.
  induction n as [| n IH]; intros s H; [exact H |].
  destruct s as [| a s]; [reflexivity |].
  cbn [Str.drop]. apply IH. cbn [Str.has_char] in H.
  apply orb_false_iff in H. apply H.
Qed.

Lemma drop_until_has_char (c : ascii) (stop : ascii -> bool) :
  forall s, Str.has_char c s = false ->
            Str.has_char c (utils.drop_until stop s) = false.
Proof.
  induction s as [| a s IH]; intros H; [reflexivity |].
  cbn [utils.drop_until]. destruct (stop a); [exact H |].
  apply IH. cbn [Str.has_char] in H. apply orb_false_iff in H. apply H.
Qed.

Lemma drop_until_app (stop : ascii -> bool) (d : ascii) (q : string) :
  stop d = true ->
  forall s, utils.drop_until stop (s ++ String d q) =
            utils.drop_until stop s ++ String d q.
Proof.
  intros Hd. induction s as [| a s IH]; cbn [append utils.drop_until].
  - rewrite Hd. reflexivity.
  - destruct (stop a); [reflexivity | exact IH].
Qed.

Lemma take_until_absent (d : ascii) :
  forall s, Str.has_char d s = false -> utils.take_until (Str.is_char d) s = s.
Proof.
  induction s as [| a s IH]; intros H; [reflexivity |].
  cbn [Str.has_char] in H. apply orb_false_iff in H. destruct H as [Ha Hs].
  cbn [utils.take_until]. unfold Str.is_char at 1. rewrite Ha.
  rewrite (IH Hs). reflexivity.
Qed.

Lemma take_until_app_stop (d : ascii) (q : string) :
  forall s, Str.has_char d s = false ->
            utils.take_until (Str.is_char d) (s ++ String d q) = s.
Proof.
  induction s as [| a s IH]; intros H; cbn [append utils.take_until].
  - unfold Str.is_char. rewrite Ascii.eqb_refl. reflexivity.
  - cbn [Str.has_char] in H. apply orb_false_iff in H. destruct H as [Ha Hs].
    unfold Str.is_char at 1. rewrite Ha. rewrite (IH Hs). reflexivity.
Qed.

Lemma take_until_app_other (e d : ascii) (q : string) :
  Ascii.eqb e d = false ->
  forall s, Str.has_char e s = false ->
            utils.take_until (Str.is_char e) (s ++ String d q) =
            s ++ String d (utils.take_until (Str.is_char e) q).
Proof.
  intros Hed. induction s as [| a s IH]; intros H; cbn [append utils.take_until].
  - unfold Str.is_char at 1. rewrite Hed. reflexivity.
  - cbn [Str.has_char] in H. apply orb_false_iff in H. destruct H as [Ha Hs].
    unfold Str.is_char at 1. rewrite Ha. rewrite (IH Hs). reflexivity.
Qed.

Lemma startswith_slashes_app (d : ascii) (q s : string) :
  Ascii.eqb "/" d = false ->
  Str.startswith "//" (s ++ String d q) = Str.startswith "//" s.
Proof.
  intros Hd. destruct s as [| a [| b s]]; cbn [append Str.startswith].
  - rewrite Hd. reflexivity.
  - rewrite Hd. cbn [andb]. rewrite !andb_false_r. reflexivity.
  - reflexivity.
Qed.

Lemma url_path_app (d : ascii) (q url : string) :
  d = "?"%char \/ d = "#"%char ->
  Str.has_char "?" url = false -> Str.has_char "#" url = false ->
  utils.url_path (url ++ String d q) = utils.url_path url.
Proof.
  intros Hd Hq Hf. unfold utils.url_path.
  set (u1 := match url with
             | String c _ =>
                 if Str.between 97 122 c || Str.between 65 90 c then
                   match utils.after_scheme url with
                   | Some rest => rest
                   | None => url
                   end
                 else url
             | EmptyString => url
             end).
  set (u1' := match url ++ String d q with
              | String c _ =>
                  if Str.between 97 122 c || Str.between 65 90 c then
                    match utils.after_scheme (url ++ String d q) with
                    | Some rest => rest
                    | None => url ++ String d q
                    end
                  else url ++ String d q
              | EmptyString => url ++ String d q
              end).
  assert (Hs : utils.is_scheme_char d = false /\ Str.is_char d ":" = false /\
               Ascii.eqb "/" d = false)
    by (destruct Hd; subst d; repeat split; reflexivity).
  destruct Hs as (Hs & Hc & Hsl).
  assert (H1 : u1' = u1 ++ String d q /\ Str.has_char "?" u1 = false /\
               Str.has_char "#" u1 = false).
  { subst u1 u1'. destruct url as [| c r].
    - cbn [append]. split; [| split; reflexivity].
      destruct Hd; subst d; reflexivity.
    - change (String c r ++ String d q) with (String c (r ++ String d q)).
      cbv iota. change (String c (r ++ String d q)) with (String c r ++ String d q).
      destruct (Str.between 97 122 c || Str.between 65 90 c);
        [| split; [reflexivity | split; assumption]].
      rewrite (after_scheme_app d q Hs Hc).
      destruct (utils.after_scheme (String c r)) as [rest |] eqn:Ha; simpl.
      + split; [reflexivity |].
        split; apply (after_scheme_has_char _ _ _ Ha); assumption.
      + split; [reflexivity | split; assumption]. }
  destruct H1 as (E1 & Hq1 & Hf1). rewrite E1. clearbody u1. clear u1' E1.
  rewrite (startswith_slashes_app d q u1 Hsl).
  set (stop := fun c => Str.is_char c "/" || Str.is_char c "?" || Str.is_char c "#").
  set (u2 := if Str.startswith "//" u1
             then utils.drop_until stop (Str.drop 2 u1) else u1).
  assert (H2 : (if Str.startswith "//" u1
                then utils.drop_until stop (Str.drop 2 (u1 ++ String d q))
                else u1 ++ String d q) = u2 ++ String d q /\
               Str.has_char "?" u2 = false /\ Str.has_char "#" u2 = false).
  { subst u2. destruct (Str.startswith "//" u1) eqn:Hst.
    - destruct u1 as [| a [| b u1]]; [discriminate | |].
      { cbn [Str.startswith] in Hst. rewrite andb_false_r in Hst.
        discriminate. }
      cbn [append Str.drop]. split.
      + apply drop_until_app. subst stop. destruct Hd; subst d; reflexivity.
      + split; apply drop_until_has_char;
          [apply (drop_has_char _ 2 _ Hq1) | apply (drop_has_char _ 2 _ Hf1)].
    - split; [reflexivity | split; assumption]. }
  destruct H2 as (E2 & Hq2 & Hf2). rewrite E2. clearbody u2.
  rewrite (take_until_absent "#" u2 Hf2). rewrite (take_until_absent "?" u2 Hq2).
  destruct Hd; subst d.
  - rewrite (take_until_app_other "#" "?" q eq_refl u2 Hf2).
    rewrite (take_until_app_stop "?" _ u2 Hq2). reflexivity.
  - rewrite (take_until_app_stop "#" q u2 Hf2).
    rewrite (take_until_absent "?" u2 Hq2). reflexivity.
Qed.

(** X7: the gate looks at the path only.  For every URL without a query
    and a fragment, putting a query or a fragment after it does not change
    the verdict of the gate: an article word or a date in the query string
    does not open the gate, and a query string does not close it. *)
Theorem gate_ignores_query_and_fragment (url q : string) (d : ascii) :
  d = "?"%char \/ d = "#"%char ->
  Str.has_char "?" url = false -> Str.has_char "#" url = false ->
  utils.looks_like_article_url (url ++ String d q) =
  utils.looks_like_article_url url.
Proof.
  intros Hd Hq Hf. unfold utils.looks_like_article_url.
  rewrite (url_path_app d q url Hd Hq Hf). reflexivity.
Qed.

Lemma gate_ignores_query_and_fragment_witness :
  utils.looks_like_article_url
    "https://example.com/about/team?ref=/news/2024/05/17/story.html" =
  utils.looks_like_article_url "https://example.com/about/team".
Proof.
  apply (gate_ignores_query_and_fragment "https://example.com/about/team"
           "ref=/news/2024/05/17/story.html" "?").
  - left. reflexivity.
  - reflexivity.
  - reflexivity.
Defined.

(** A URL with one path segment. *)
Lemma drop_until_app_free (stop : ascii -> bool) (rest : string) :
  forall host,
    (forall c, stop c = true -> Str.has_char c host = false) ->
    utils.drop_until stop (host ++ rest) = utils.drop_until stop rest.
Proof.
  induction host as [| a host IH]; intros H; [reflexivity |].
  cbn [append utils.drop_until].
  destruct (stop a) eqn:Ha.
  - specialize (H a Ha). cbn [Str.has_char] in H.
    rewrite Ascii.eqb_refl in H. discriminate.
  - apply IH. intros c Hc. specialize (H c Hc). cbn [Str.has_char] in H.
    apply orb_false_iff in H. apply H.
Qed.

Lemma take_until_has_char (c : ascii) (stop : ascii -> bool) :
  forall s, Str.has_char c s = false ->
            Str.has_char c (utils.take_until stop s) = false.
Proof.
  induction s as [| a s IH]; intros H; [reflexivity |].
  cbn [utils.take_until]. destruct (stop a); [reflexivity |].
  cbn [Str.has_char] in *. apply orb_false_iff in H. destruct H as [Ha Hs].
  rewrite Ha. apply IH. exact Hs.
Qed.

Lemma lower_char_slash (a : ascii) :
  Ascii.eqb "/" (Str.lower_char a) = Ascii.eqb "/" a.
Proof.
  unfold Str.lower_char. destruct (Str.between 65 90 a) eqn:Hb; [| reflexivity].
  destruct (Ascii.eqb_spec "/" a) as [E | _].
  - subst a. discriminate.
  - apply Ascii.eqb_neq. intros E.
    assert (Ho : Str.ord (Str.chr (Str.ord a + 32)) = 47%nat)
      by (rewrite <- E; reflexivity).
    unfold Str.ord, Str.chr in Ho.
    unfold Str.between in Hb. apply andb_true_iff in Hb. destruct Hb as [Hlo Hhi].
    apply Nat.leb_le in Hlo, Hhi.
    rewrite nat_ascii_embedding in Ho by (unfold Str.ord in *; lia).
    unfold Str.ord in *. lia.
Qed.

Lemma lower_has_slash :
  forall s, Str.has_char "/" (Str.lower s) = Str.has_char "/" s.
Proof.
  induction s as [| a s IH]; [reflexivity |].
  cbn [Str.lower Str.has_char]. rewrite lower_char_slash, IH. reflexivity.
Qed.

Lemma lstrip_by_has_char (c : ascii) (p : ascii -> bool) :
  forall s, Str.has_char c s = false ->
            Str.has_char c (Str.lstrip_by p s) = false.
Proof.
  induction s as [| a s IH]; intros H; [reflexivity |].
  cbn [Str.lstrip_by]. destruct (p a); [| exact H].
  apply IH. cbn [Str.has_char] in H. apply orb_false_iff in H. apply H.
Qed.

Lemma rstrip_by_has_char (c : ascii) (p : ascii -> bool) :
  forall s, Str.has_char c s = false ->
            Str.has_char c (Str.rstrip_by p s) = false.
Proof.
  induction s as [| a s IH]; intros H; [reflexivity |].
  cbn [Str.has_char] in H. apply orb_false_iff in H. destruct H as [Ha Hs].
  specialize (IH Hs). cbn [Str.rstrip_by].
  destruct (Str.rstrip_by p s) as [| b r].
  - destruct (p a); [reflexivity |]. cbn [Str.has_char]. rewrite Ha.
    reflexivity.
  - cbn [Str.has_char] in *. rewrite Ha. exact IH.
Qed.

Lemma split_char_one (sep : ascii) :
  forall s, Str.has_char sep s = false -> Str.split_char sep s = [s].
Proof.
  induction s as [| a s IH]; intros H; [reflexivity |].
  cbn [Str.has_char] in H. apply orb_false_iff in H. destruct H as [Ha Hs].
  cbn [Str.split_char]. rewrite Ascii.eqb_sym, Ha. rewrite (IH Hs).
  reflexivity.
Qed.

Lemma url_path_one_segment (scheme host seg : string) :
  scheme = "http" \/ scheme = "https" ->
  Str.has_char "/" host = false -> Str.has_char "?" host = false ->
  Str.has_char "#" host = false ->
  Str.has_char "/" seg = false -> Str.has_char "?" seg = false ->
  Str.has_char "#" seg = false ->
  utils.url_path (scheme ++ "://" ++ host ++ "/" ++ seg) =
  String "/" (utils.take_until (Str.is_char ";") seg).
Proof.
  intros Hsch Hh1 Hh2 Hh3 Hs1 Hs2 Hs3.
  assert (E : utils.url_path (scheme ++ "://" ++ host ++ "/" ++ seg) =
              utils.split_params
                (utils.take_until (Str.is_char "?")
                   (utils.take_until (Str.is_char "#")
                      (utils.drop_until
                         (fun c => Str.is_char c "/" || Str.is_char c "?" ||
                                   Str.is_char c "#")
                         (host ++ "/" ++ seg))))).
  { destruct Hsch; subst scheme; reflexivity. }
  rewrite E. clear E.
  rewrite drop_until_app_free.
  2:{ intros c Hc. apply orb_true_iff in Hc. destruct Hc as [Hc | Hc];
        [apply orb_true_iff in Hc; destruct Hc as [Hc | Hc] |];
        apply Ascii.eqb_eq in Hc; subst c; assumption. }
  cbn [append utils.drop_until]. change (Str.is_char "/" "/") with true.
  cbn [orb].
  rewrite (take_until_absent "#" (String "/" seg)) by exact Hs3.
  rewrite (take_until_absent "?" (String "/" seg)) by exact Hs2.
  cbn [utils.split_params]. rewrite Hs1. reflexivity.
Qed.

(** X8: a URL of one path segment never passes the gate, whatever the
    segment says: for every http or https URL made of a host and a single
    segment after it (the segment may be empty, hold an article word such
    as news, or end in .html), [looks_like_article_url] is false. *)
Theorem gate_rejects_every_single_segment (scheme host seg : string) :
  scheme = "http" \/ scheme = "https" ->
  Str.has_char "/" host = false -> Str.has_char "?" host = false ->
  Str.has_char "#" host = false ->
  Str.has_char "/" seg = false -> Str.has_char "?" seg = false ->
  Str.has_char "#" seg = false ->
  utils.looks_like_article_url (scheme ++ "://" ++ host ++ "/" ++ seg) = false.
Proof.
  intros Hsch Hh1 Hh2 Hh3 Hs1 Hs2 Hs3. unfold utils.looks_like_article_url.
  rewrite (url_path_one_segment scheme host seg Hsch Hh1 Hh2 Hh3 Hs1 Hs2 Hs3).
  set (path := Str.lower (String "/" (utils.take_until (Str.is_char ";") seg))).
  cbv zeta.
  assert (Hone : Str.split_char "/" (Str.strip_char "/" path) =
                 [Str.strip_char "/" path]).
  { apply split_char_one. unfold Str.strip_char, Str.strip_by.
    apply rstrip_by_has_char. subst path. cbn [Str.lower Str.lstrip_by].
    change (Str.is_char "/" (Str.lower_char "/")) with true. cbv iota.
    apply lstrip_by_has_char. rewrite lower_has_slash.
    apply take_until_has_char. exact Hs1. }
  rewrite Hone. cbn [List.length Nat.leb]. rewrite !orb_true_r. reflexivity.
Qed.

Lemma gate_rejects_every_single_segment_witness :
  utils.looks_like_article_url "https://example.com/news.html" = false.
Proof.
  apply (gate_rejects_every_single_segment "https" "example.com" "news.html");
    solve [right; reflexivity | reflexivity].
Defined.

(** ** The fetcher when an attempt succeeds (scraper.py) *)

(** X9: the fetch returns the text of the first attempt that succeeds.
    When attempt k of the three is the first whose status is below 400,
    the fetch has made exactly k attempts, paused 1 second after the first
    and 2 seconds after the second failed attempt and no more, and
    [scrape_article] hands the text of that attempt to the extractor
    without starting the browser fallback. *)
Theorem fetch_returns_first_success (net : scraper.Net) (k : nat)
    (html : string) :
  (1 <= k <= 3)%nat ->
  (forall j, (1 <= j < k)%nat ->
             exists e, scraper.fetch_once (scraper.client_get net j) = inr e) ->
  scraper.fetch_once (scraper.client_get net k) = inl html ->
  snd (scraper.fetch_with_retries net) = tenacity.Returned html /\
  tenacity.attempt_count (fst (scraper.fetch_with_retries net)) = k /\
  tenacity.sleeps (fst (scraper.fetch_with_retries net)) =
    firstn (k - 1) [1; 2]%Z /\
  forall url,
    snd (scraper.scrape_article net url) = scraper.parse_html net html /\
    ~ In scraper.PlaywrightFallback (fst (scraper.scrape_article net url)).
Proof.
  intros Hk Hfail Hok.
  assert (Hscrape : forall trace,
            scraper.fetch_with_retries net = (trace, tenacity.Returned html) ->
            forall url,
              snd (scraper.scrape_article net url) = scraper.parse_html net html /\
              ~ In scraper.PlaywrightFallback
                   (fst (scraper.scrape_article net url))).
  { intros trace Hf url. unfold scraper.scrape_article. rewrite Hf. simpl.
    split; [reflexivity |]. intros Hin. apply in_map_iff in Hin.
    destruct Hin as [x [Hx _]]. discriminate. }
  assert (Hcases : (k = 1 \/ k = 2 \/ k = 3)%nat) by lia.
  destruct Hcases as [-> | [-> | ->]].
  - assert (Hf : scraper.fetch_with_retries net =
                 ([tenacity.Attempt 1], tenacity.Returned html)).
    { unfold scraper.fetch_with_retries, tenacity.retry. simpl.
      rewrite Hok. reflexivity. }
    rewrite Hf. repeat split; try reflexivity; apply (Hscrape _ Hf).
  - destruct (Hfail 1%nat ltac:(lia)) as [e1 H1].
    assert (Hf : scraper.fetch_with_retries net =
                 ([tenacity.Attempt 1; tenacity.Sleep 1; tenacity.Attempt 2],
                  tenacity.Returned html)).
    { unfold scraper.fetch_with_retries, tenacity.retry. simpl.
      rewrite H1. simpl. rewrite Hok. reflexivity. }
    rewrite Hf. repeat split; try reflexivity; apply (Hscrape _ Hf).
  - destruct (Hfail 1%nat ltac:(lia)) as [e1 H1].
    destruct (Hfail 2%nat ltac:(lia)) as [e2 H2].
    assert (Hf : scraper.fetch_with_retries net =
                 ([tenacity.Attempt 1; tenacity.Sleep 1; tenacity.Attempt 2;
                   tenacity.Sleep 2; tenacity.Attempt 3],
                  tenacity.Returned html)).
    { unfold scraper.fetch_with_retries, tenacity.retry. simpl.
      rewrite H1. simpl. rewrite H2. simpl. rewrite Hok. reflexivity. }
    rewrite Hf. repeat split; try reflexivity; apply (Hscrape _ Hf).
Qed.

Lemma fetch_returns_first_success_witness :
  snd (scraper.fetch_with_retries Sample.site_busy_once) =
    tenacity.Returned "<html></html>" /\
  tenacity.attempt_count (fst (scraper.fetch_with_retries Sample.site_busy_once))
    = 2%nat /\
  tenacity.sleeps (fst (scraper.fetch_with_retries Sample.site_busy_once))
    = [1%Z].
Proof.
  destruct (fetch_returns_first_success Sample.site_busy_once 2 "<html></html>")
    as (Hr & Hn & Hs & _).
  - lia.
  - intros j Hj. assert (j = 1%nat) by lia. subst j. eexists. reflexivity.
  - reflexivity.
  - split; [exact Hr |]. split; [exact Hn | exact Hs].
Defined.

(** X10: [scrape_article] raises only what the extractor raises, and what
    it returns has one of two shapes: the dump of what the extractor found
    in a page, or a dict with an error text and the URL.  No failure of
    the fetch or of the browser fallback leaves the function as an
    exception. *)
Theorem scrape_article_raises_only_from_the_extractor (net : scraper.Net)
    (url : string) :
  (forall e,
     snd (scraper.scrape_article net url) = Raise e ->
     exists html, scraper.newspaper net html = Raise e) /\
  (forall d,
     snd (scraper.scrape_article net url) = Ok d ->
     (exists html r, scraper.newspaper net html = Ok r /\
                     d = scraper.model_dump r) \/
     (exists error, d = scraper.error_dict error url)).
Proof.
  assert (Hparse : forall html,
            (forall e, scraper.parse_html net html = Raise e ->
                       exists html, scraper.newspaper net html = Raise e) /\
            (forall d, scraper.parse_html net html = Ok d ->
                       (exists html r, scraper.newspaper net html = Ok r /\
                                       d = scraper.model_dump r) \/
                       (exists error, d = scraper.error_dict error url))).
  { intros html. unfold scraper.parse_html.
    destruct (scraper.newspaper net html) as [r | e0] eqn:Hn; cbn [Py.bind];
      split.
    - intros e H. discriminate.
    - intros d H. inversion H. left. exists html, r. auto.
    - intros e H. inversion H. subst e0. exists html. exact Hn.
    - intros d H. discriminate. }
  unfold scraper.scrape_article.
  destruct (scraper.fetch_with_retries net) as [trace fetched].
  destruct fetched as [html | last_exc]; [apply Hparse |].
  destruct (scraper.is_forbidden last_exc).
  - destruct (scraper.fetch_with_playwright net) as [html | e2];
      [apply Hparse |].
    cbn [snd]. split.
    + intros e H. discriminate.
    + intros d H. inversion H. right. eexists. reflexivity.
  - cbn [snd]. split.
    + intros e H. discriminate.
    + intros d H. inversion H. right. eexists. reflexivity.
Qed.

(** X11: after a last attempt that ended in status 403 the result depends
    on the browser alone: its page goes to the extractor, and its failure
    comes back as an error dict whose text carries the prefix of the
    fallback twice, once from [fetch_with_playwright] and once from
    [scrape_article]. *)
Theorem scrape_article_after_403 (net : scraper.Net) (url message : string) :
  snd (scraper.fetch_with_retries net) =
    tenacity.RetryError (scraper.HTTPStatusError 403 message) ->
  snd (scraper.scrape_article net url) =
    match scraper.playwright net with
    | inl html => scraper.parse_html net html
    | inr e =>
        Ok (scraper.error_dict
              ("Playwright fallback failed: Playwright fallback failed: " ++ e)
              url)
    end.
Proof.
  intros Hf. unfold scraper.scrape_article.
  destruct (scraper.fetch_with_retries net) as [trace fetched].
  simpl in Hf. subst fetched. cbn [scraper.is_forbidden].
  change (403 =? 403)%Z with true. cbv iota.
  unfold scraper.fetch_with_playwright.
  destruct (scraper.playwright net) as [html | e]; reflexivity.
Qed.

Lemma scrape_article_after_403_witness :
  snd (scraper.scrape_article (Sample.site_status 403) "u") =
    Ok (scraper.error_dict
          ("Playwright fallback failed: Playwright fallback failed: "
           ++ "browser not installed") "u").
Proof.
  apply (scrape_article_after_403 (Sample.site_status 403) "u" "HTTP 403").
  reflexivity.
Defined.

(** ** The pairs of a pool, and the two branches side by side (analysis.py) *)

(** X12: when the pairing returns, pair number k is made of the models at
    places 2k and 2k+1 of the shuffled pool, for k below three; so the
    number of calls is half the pool size and at most three, no model is
    dispatched twice, and the models from the seventh on are never
    called. *)
Theorem make_pairs_takes_consecutive_models (l : list json)
    (pairs : list (json * json)) :
  analysis.make_pairs l = Ok pairs ->
  List.length pairs = Nat.min (Nat.div2 (List.length l)) 3 /\
  forall k a b,
    nth_error pairs k = Some (a, b) <->
    (k < 3)%nat /\ nth_error l (2 * k) = Some a /\
    nth_error l (2 * k + 1) = Some b.
Proof.
  rewrite make_pairs_cases.
  assert (Hmin : forall n, Nat.min (S (S (S n))) 3 = 3%nat) by (intros; lia).
  destruct l as [| x0 [| x1 [| x2 [| x3 [| x4 [| x5 rest]]]]]];
    intros H; inversion H; subst; clear H;
    (split; [cbn [List.length Nat.div2]; try rewrite Hmin; reflexivity |]);
    intros k a b; destruct k as [| [| [| k]]]; simpl;
    (split;
     [ intros H; try (destruct k; discriminate); inversion H; subst;
       repeat split; lia
     | intros (Hk & Ha & Hb); try lia; congruence ]).
Qed.

Lemma make_pairs_takes_consecutive_models_witness :
  List.length
    [(JStr "model-a", JStr "model-b"); (JStr "model-c", JStr "model-d")] =
    Nat.min (Nat.div2 (List.length Sample.pool4)) 3.
Proof.
  apply (make_pairs_takes_consecutive_models Sample.pool4
           [(JStr "model-a", JStr "model-b"); (JStr "model-c", JStr "model-d")]).
  reflexivity.
Defined.

(** A record that the non-streaming branch builds is built by the
    streaming branch as well. *)
Lemma evaluate_result_stream_agrees (r : models.response) (ev : json) :
  analysis.evaluate_result r = Ok ev ->
  analysis.evaluate_result_stream r = Ok ev.
Proof.
  unfold analysis.evaluate_result, analysis.evaluate_result_stream.
  destruct (models.get "text" r) as [text |]; cbn [Py.bind]; [| discriminate].
  destruct (models.get "model" r) as [model |]; cbn [Py.bind];
    [| discriminate].
  destruct (analysis.parse_text text) as [| | | | | | d]; simpl;
    try discriminate.
  intros H. exact H.
Qed.

Lemma stream_loop_agrees (raw : list analysis.gathered) :
  forall acc bound evs,
    analysis.collect raw acc = Ok evs ->
    (forall e, ~ In (analysis.Raised e) raw) ->
    snd (analysis.stream_loop raw acc bound) = Ok evs.
Proof.
  induction raw as [| g rest IH]; intros acc bound evs H Hno; simpl in H.
  - exact H.
  - destruct g as [e | r]; [exfalso; apply (Hno e); left; reflexivity |].
    destruct (analysis.evaluate_result r) as [ev |] eqn:He; cbn [Py.bind] in H;
      [| discriminate].
    cbn [analysis.stream_loop]. rewrite (evaluate_result_stream_agrees _ _ He).
    specialize (IH (acc ++ [ev])%list (Some ev) evs H).
    destruct (analysis.stream_loop rest (acc ++ [ev]) (Some ev)) as [frames out].
    simpl in *. apply IH. intros e Hin. apply (Hno e). right. exact Hin.
Qed.

(** X13: whenever the non-streaming run of a request returns a response,
    the streaming run of the same request in the same world ends with the
    same response and stores the same row; its last frame is the done
    event that carries this response. *)
Theorem streaming_ends_as_non_streaming_returns (w : analysis.World)
    (req : analysis.AnalyzeRequest) (fin : analysis.Finished) :
  analysis.run_analysis w req false = Ok (analysis.Response fin) ->
  exists frames,
    analysis.run_analysis w req true =
      Ok (analysis.EventStream
            (frames ++
             [utils.sse_event "done"
                (AnalyzeResponse.model_dump (analysis.response fin))])
            (Ok fin)).
Proof.
  unfold analysis.run_analysis.
  destruct (analysis.prepare w req) as [p |]; cbn [Py.bind]; [| discriminate].
  destruct (analysis.run_to_completion w p) as [fin' |] eqn:Hrun;
    cbn [Py.bind]; [| discriminate].
  intros H. inversion H. subst fin'. clear H.
  assert (Hno : forall e, ~ In (analysis.Raised e) (analysis.raw_results w p)).
  { intros e Hin. apply In_nth_error in Hin. destruct Hin as [i Hi].
    pose proof (run_to_completion_fails_after_raised w p i e Hi) as Hf.
    rewrite Hrun in Hf. discriminate. }
  unfold analysis.run_to_completion in Hrun.
  destruct (analysis.collect (analysis.raw_results w p) []) as [evs |] eqn:Hc;
    cbn [Py.bind] in Hrun; [| discriminate].
  destruct (evaluate.aggregate_evaluations (analysis.consensus_call w) evs)
    as [c |] eqn:Ha; cbn [Py.bind] in Hrun; [| discriminate].
  pose proof (stream_loop_agrees _ [] None evs Hc Hno) as Hl.
  unfold analysis.event_stream.
  destruct (analysis.stream_loop (analysis.raw_results w p) [] None)
    as [f1 looped].
  simpl in Hl. subst looped. rewrite Ha, Hrun.
  exists ([analysis.status "Evaluating article..."] ++ f1 ++
          [analysis.status "Finding consensus...";
           analysis.status "Getting historical data..."])%list.
  rewrite <- !app_assoc. reflexivity.
Qed.

Lemma streaming_ends_as_non_streaming_returns_witness :
  exists fin frames,
    analysis.run_analysis Sample.world Sample.request false =
      Ok (analysis.Response fin) /\
    analysis.run_analysis Sample.world Sample.request true =
      Ok (analysis.EventStream
            (frames ++
             [utils.sse_event "done"
                (AnalyzeResponse.model_dump (analysis.response fin))])
            (Ok fin)).
Proof.
  destruct (analysis.run_analysis Sample.world Sample.request false)
    as [[fin | frames ended] | e] eqn:H.
  - destruct (streaming_ends_as_non_streaming_returns _ _ _ H) as [frames Hs].
    exists fin, frames. split; [reflexivity | exact Hs].
  - exfalso. vm_compute in H. discriminate.
  - exfalso. vm_compute in H. discriminate.
Defined.

(** ** The evaluator service (models.py) and its callers *)

(** X14: [call_openrouter] returns the dict of an answer exactly when the
    decoded body is a dict with a key model and a key choices whose value
    is a list that starts with a dict holding a key text; the dict then
    carries that model, that text and the whole body.  In every other
    case, also when the request or the decoding raised, it returns the
    pair that starts with the text Error: and raises nothing. *)
Theorem call_openrouter_answers_only_well_shaped_bodies (body : string + json)
    (model text raw : json) :
  models.call_openrouter body = models.Answer model text raw <->
  exists d c0 rest,
    body = inr (JObj d) /\ raw = JObj d /\
    Dict.get "choices" d = Some (JArr (JObj c0 :: rest)) /\
    Dict.get "text" c0 = Some text /\
    Dict.get "model" d = Some model.
Proof.
  split.
  - unfold models.call_openrouter.
    destruct body as [e | b]; [discriminate |].
    destruct b as [| | | | | | d]; try discriminate.
    cbn [models.subscript].
    destruct (Dict.get "choices" d) as [choices |] eqn:Hc; [| discriminate].
    destruct choices as [| | | | s | items | o]; try discriminate.
    + destruct s; discriminate.
    + destruct items as [| x items]; [discriminate |].
      cbn [models.first_text].
      destruct x as [| | | | | | c0]; try discriminate.
      cbn [models.subscript].
      destruct (Dict.get "text" c0) as [t |] eqn:Ht; [| discriminate].
      destruct (Dict.get "model" d) as [m |] eqn:Hm; [| discriminate].
      intros H. inversion H. subst. exists d, c0, items. auto.
  - intros (d & c0 & rest & Hb & Hr & Hc & Ht & Hm). subst body raw.
    unfold models.call_openrouter. cbn [models.subscript]. rewrite Hc.
    cbn [models.first_text models.subscript]. rewrite Ht, Hm. reflexivity.
Qed.

(** What is not an answer is the pair. *)
Lemma call_openrouter_cases (body : string + json) :
  (exists model text raw, models.call_openrouter body = models.Answer model text raw)
  \/ (exists e, models.call_openrouter body = models.ErrorTuple e).
Proof.
  destruct (models.call_openrouter body) as [m t r | e]; [left | right]; eauto.
Qed.

(** X15: a summary call that comes back as the error pair makes the
    request fail with [TypeError] (an internal error, not one of the 400
    answers): for every request that passes the page checks when the
    summary service answers, the same request in the same world raises
    [TypeError] when the body of the summary answer is not well shaped. *)
Theorem failed_summary_call_raises_type_error (w : analysis.World)
    (req : analysis.AnalyzeRequest) (p : analysis.Prepared)
    (body : string + json) :
  analysis.prepare w req = Ok p ->
  (forall model text raw,
     models.call_openrouter body <> models.Answer model text raw) ->
  analysis.prepare (Sample.with_summary (models.call_openrouter body) w) req =
    Raise (TypeError "tuple indices must be integers or slices, not str").
Proof.
  intros Hp Hbad.
  destruct (call_openrouter_cases body) as [(m & t & r & Ha) | [e He]];
    [exfalso; apply (Hbad _ _ _ Ha) |].
  rewrite He. clear He Hbad. revert Hp. unfold analysis.prepare.
  cbn [Sample.with_summary analysis.net analysis.summary_call].
  destruct (negb (utils.looks_like_article_url (analysis.url req)));
    [discriminate |].
  destruct (try_except _ _) as [scraped |]; cbn [Py.bind]; [| discriminate].
  destruct (analysis.len_strip _) as [n |]; cbn [Py.bind]; [| discriminate].
  destruct (n <? 500)%nat; [discriminate |].
  match goal with
  | |- Py.bind ?m _ = _ -> _ => destruct m as [short_title |]
  end; cbn [Py.bind]; [| discriminate].
  destruct short_title; [discriminate |].
  destruct (analysis.slice_to _ _) as [content |]; cbn [Py.bind];
    [| discriminate].
  intros _. reflexivity.
Qed.

Lemma failed_summary_call_raises_type_error_witness :
  analysis.prepare
    (Sample.with_summary (models.call_openrouter (inr Sample.error_body))
                         Sample.world)
    Sample.request =
    Raise (TypeError "tuple indices must be integers or slices, not str").
Proof.
  apply (failed_summary_call_raises_type_error Sample.world Sample.request
           Sample.prepared (inr Sample.error_body)).
  - vm_compute. reflexivity.
  - intros model text raw H. vm_compute in H. discriminate.
Defined.

(** The record of a call that came back as the pair cannot be built. *)
Lemma evaluate_result_error_pair (e : string) :
  analysis.evaluate_result (models.ErrorTuple e) =
    Raise (AttributeError "'tuple' object has no attribute 'get'") /\
  analysis.evaluate_result_stream (models.ErrorTuple e) =
    Raise (AttributeError "'tuple' object has no attribute 'get'").
Proof. split; reflexivity. Qed.

Lemma collect_error_pair (raw : list analysis.gathered) (e : string) :
  In (analysis.Result (models.ErrorTuple e)) raw ->
  (forall x, ~ In (analysis.Raised x) raw) ->
  forall acc, exists ex, analysis.collect raw acc = Raise ex.
Proof.
  induction raw as [| g rest IH]; intros Hin Hno acc; [contradiction |].
  destruct g as [x | r]; [exfalso; apply (Hno x); left; reflexivity |].
  cbn [analysis.collect].
  destruct (analysis.evaluate_result r) as [ev |] eqn:Hev; cbn [Py.bind];
    [| eexists; reflexivity].
  destruct Hin as [Hin | Hin].
  - inversion Hin. subst r. discriminate.
  - apply IH; [exact Hin |]. intros x Hx. apply (Hno x). right. exact Hx.
Qed.

Lemma stream_loop_error_pair (raw : list analysis.gathered) (e : string) :
  In (analysis.Result (models.ErrorTuple e)) raw ->
  (forall x, ~ In (analysis.Raised x) raw) ->
  forall acc bound,
    exists ex, snd (analysis.stream_loop raw acc bound) = Raise ex.
Proof.
  induction raw as [| g rest IH]; intros Hin Hno acc bound; [contradiction |].
  destruct g as [x | r]; [exfalso; apply (Hno x); left; reflexivity |].
  cbn [analysis.stream_loop].
  destruct (analysis.evaluate_result_stream r) as [ev |] eqn:Hev;
    [| eexists; reflexivity].
  destruct Hin as [Hin | Hin].
  - inversion Hin. subst r. discriminate.
  - destruct (IH Hin (fun x Hx => Hno x (or_intror Hx))
                 (acc ++ [ev])%list (Some ev)) as [ex Hex].
    destruct (analysis.stream_loop rest (acc ++ [ev]) (Some ev)) as [fs out].
    exists ex. exact Hex.
Qed.

Lemma raised_or_not (raw : list analysis.gathered) :
  (exists x, In (analysis.Raised x) raw) \/
  (forall x, ~ In (analysis.Raised x) raw).
Proof.
  induction raw as [| g rest [[x Hx] | Hno]].
  - right. intros x [].
  - left. exists x. right. exact Hx.
  - destruct g as [x | r].
    + left. exists x. left. reflexivity.
    + right. intros x [Hx | Hx]; [discriminate | apply (Hno x Hx)].
Qed.

(** X16: [call_openrouter] catches every exception, so a dispatched call
    that fails comes back as the error pair, not as an exception; the loop
    over the results then asks the pair for its text.  Whenever one of the
    dispatched calls came back as the pair, neither the non-streaming nor
    the streaming run returns a response, and the stream carries status
    and evaluation frames only, no done event. *)
Theorem failed_evaluator_call_ends_both_runs (w : analysis.World)
    (p : analysis.Prepared) (e : string) :
  In (analysis.Result (models.ErrorTuple e)) (analysis.raw_results w p) ->
  is_ok (analysis.run_to_completion w p) = false /\
  is_ok (snd (analysis.event_stream w p)) = false /\
  Forall (utils.is_frame ["status"; "evaluation"])
         (fst (analysis.event_stream w p)).
Proof.
  intros Hin.
  assert (Hboth : is_ok (analysis.run_to_completion w p) = false /\
                  is_ok (snd (analysis.event_stream w p)) = false).
  { destruct (raised_or_not (analysis.raw_results w p)) as [[x Hx] | Hno].
    - split; [| apply (event_stream_fails_after_raised w p x Hx)].
      apply In_nth_error in Hx. destruct Hx as [i Hi].
      apply (run_to_completion_fails_after_raised w p i x Hi).
    - split.
      + unfold analysis.run_to_completion.
        destruct (collect_error_pair _ e Hin Hno []) as [ex Hex].
        rewrite Hex. reflexivity.
      + unfold analysis.event_stream.
        destruct (stream_loop_error_pair _ e Hin Hno [] None) as [ex Hex].
        destruct (analysis.stream_loop (analysis.raw_results w p) [] None)
          as [f1 looped].
        simpl in Hex. subst looped. reflexivity. }
  destruct Hboth as [Hrun Hstream]. split; [exact Hrun |].
  split; [exact Hstream |].
  destruct (event_stream_frames w p) as (_ & _ & Hraise).
  destruct (snd (analysis.event_stream w p)) as [fin | ex] eqn:Hs;
    [discriminate |].
  apply (Hraise ex). reflexivity.
Qed.

Lemma failed_evaluator_call_ends_both_runs_witness :
  is_ok (analysis.run_to_completion
           (Sample.with_evaluators Sample.second_call_turned_down Sample.world)
           Sample.prepared) = false /\
  is_ok (snd (analysis.event_stream
                (Sample.with_evaluators Sample.second_call_turned_down
                                        Sample.world)
                Sample.prepared)) = false.
Proof.
  destruct (failed_evaluator_call_ends_both_runs
              (Sample.with_evaluators Sample.second_call_turned_down Sample.world)
              Sample.prepared "'choices'") as (Hrun & Hstream & _).
  - vm_compute. right. left. reflexivity.
  - split; [exact Hrun | exact Hstream].
Defined.

(** ** The charts (db.py) *)

(** Equality of keys is an equivalence on the values that have a hash. *)
Lemma py_eq_sym (a b : json) : db.py_eq a b = db.py_eq b a.
Proof.
  destruct a, b; simpl; try reflexivity;
    try apply Z.eqb_sym; try apply String.eqb_sym.
  destruct b, b0; reflexivity.
Qed.

Lemma py_eq_trans (a b c : json) :
  db.py_eq a b = true -> db.py_eq b c = true -> db.py_eq a c = true.
Proof.
  destruct a, b; simpl; try discriminate; destruct c; simpl; try discriminate;
    intros H1 H2;
    repeat match goal with x : bool |- _ => destruct x end;
    simpl in *; try discriminate; try reflexivity;
    rewrite ?Z.eqb_eq, ?String.eqb_eq in *; try congruence.
Qed.

Lemma py_eq_refl (a : json) : db.hashable a = true -> db.py_eq a a = true.
Proof.
  destruct a; simpl; try discriminate; intros _;
    try reflexivity; try apply Z.eqb_refl; try apply String.eqb_refl.
  destruct b; reflexivity.
Qed.

(** [setdefault] on a dict whose keys are pairwise different: the group
    of the key grows by the item, or a new group is put at the end. *)
Lemma setdefault_append_spec (v item : json) :
  forall grouped,
    ForallOrdPairs (fun a b => db.py_eq a b = false) (map fst grouped) ->
    db.setdefault_append v item grouped =
    if existsb (fun g => db.py_eq v (fst g)) grouped
    then map (fun g => if db.py_eq v (fst g)
                       then (fst g, (snd g ++ [item])%list) else g) grouped
    else (grouped ++ [(v, [item])])%list.
Proof.
  induction grouped as [| [x ys] r IH]; intros Hd; [reflexivity |].
  cbn [db.setdefault_append existsb map fst snd].
  inversion Hd as [| a l Hx Hr]; subst.
  destruct (db.py_eq v x) eqn:Hvx.
  - cbn [orb]. f_equal.
    assert (Hid : forall l0 : list (json * list json),
              Forall (fun b => db.py_eq x b = false) (map fst l0) ->
              map (fun g => if db.py_eq v (fst g)
                            then (fst g, (snd g ++ [item])%list) else g) l0 = l0).
    { induction l0 as [| g l0 IHl]; intros Hf; [reflexivity |].
      inversion Hf; subst. cbn [map]. rewrite IHl by assumption.
      destruct (db.py_eq v (fst g)) eqn:Hg; [| reflexivity].
      assert (db.py_eq x (fst g) = true).
      { apply (py_eq_trans x v); [rewrite py_eq_sym; exact Hvx | exact Hg]. }
      congruence. }
    symmetry. apply Hid. exact Hx.
  - cbn [orb]. rewrite (IH Hr).
    destruct (existsb (fun g => db.py_eq v (fst g)) r); reflexivity.
Qed.

Lemma setdefault_append_keys (v item : json) :
  forall grouped,
    map fst (db.setdefault_append v item grouped) =
    if existsb (fun g => db.py_eq v (fst g)) grouped
    then map fst grouped else (map fst grouped ++ [v])%list.
Proof.
  induction grouped as [| [x ys] r IH]; [reflexivity |].
  cbn [db.setdefault_append existsb map fst].
  destruct (db.py_eq v x); [reflexivity |].
  cbn [orb map fst]. rewrite IH.
  destruct (existsb (fun g => db.py_eq v (fst g)) r); reflexivity.
Qed.

Lemma setdefault_append_count (v item : json) :
  forall grouped,
    List.length (concat (map snd (db.setdefault_append v item grouped))) =
    S (List.length (concat (map snd grouped))).
Proof.
  induction grouped as [| [x ys] r IH]; [reflexivity |].
  cbn [db.setdefault_append]. destruct (db.py_eq v x).
  - cbn [map concat snd]. rewrite !length_app. simpl. lia.
  - cbn [map concat snd]. rewrite !length_app. rewrite IH. lia.
Qed.

Lemma ordpairs_snoc (keys : list json) (v : json) :
  ForallOrdPairs (fun a b => db.py_eq a b = false) keys ->
  Forall (fun k => db.py_eq v k = false) keys ->
  ForallOrdPairs (fun a b => db.py_eq a b = false) (keys ++ [v]).
Proof.
  induction keys as [| k keys IH]; intros Hd Hv.
  - repeat constructor.
  - inversion Hd; subst. inversion Hv; subst. cbn [app]. constructor.
    + apply Forall_app. split; [assumption |].
      constructor; [| constructor]. rewrite py_eq_sym. assumption.
    + apply IH; assumption.
Qed.

Lemma existsb_false_forall (v : json) (grouped : list (json * list json)) :
  existsb (fun g => db.py_eq v (fst g)) grouped = false ->
  Forall (fun k => db.py_eq v k = false) (map fst grouped).
Proof.
  induction grouped as [| g r IH]; intros H; [constructor |].
  cbn [existsb] in H. apply orb_false_iff in H. destruct H as [Hg Hr].
  constructor; [exact Hg | apply IH; exact Hr].
Qed.

Lemma items_at_snoc (x_field : string) (x : json) (rows : list Dict.t)
    (row : Dict.t) :
  db.items_at x_field x (rows ++ [row]) =
  (db.items_at x_field x rows ++
   if db.py_eq (db.x_of x_field row) x then [db.item_of row] else [])%list.
Proof.
  unfold db.items_at. rewrite filter_app, map_app. cbn [filter].
  destruct (db.py_eq (db.x_of x_field row) x); reflexivity.
Qed.

(** One turn of the loop keeps what the groups are: the keys pairwise
    different, each group the items of its rows in order and not empty,
    every row seen in a group. *)
Lemma setdefault_append_step (x_field : string) (seen : list Dict.t)
    (row : Dict.t) (grouped : list (json * list json)) :
  db.hashable (db.x_of x_field row) = true ->
  ForallOrdPairs (fun a b => db.py_eq a b = false) (map fst grouped) ->
  Forall (fun g => snd g <> [] /\
                   snd g = db.items_at x_field (fst g) seen) grouped ->
  Forall (fun r => exists g, In g grouped /\
                             db.py_eq (db.x_of x_field r) (fst g) = true) seen ->
  let grouped' :=
    db.setdefault_append (db.x_of x_field row) (db.item_of row) grouped in
  ForallOrdPairs (fun a b => db.py_eq a b = false) (map fst grouped') /\
  Forall (fun g => snd g <> [] /\
                   snd g = db.items_at x_field (fst g) (seen ++ [row]))
         grouped' /\
  Forall (fun r => exists g, In g grouped' /\
                             db.py_eq (db.x_of x_field r) (fst g) = true)
         (seen ++ [row]).
Proof.
  intros Hh Hd Hg Hc. cbv zeta.
  set (v := db.x_of x_field row) in *. set (item := db.item_of row).
  pose proof (py_eq_refl v Hh) as Hvv.
  split; [| split].
  - rewrite setdefault_append_keys.
    destruct (existsb (fun g => db.py_eq v (fst g)) grouped) eqn:He;
      [exact Hd |].
    apply ordpairs_snoc; [exact Hd | apply existsb_false_forall; exact He].
  - rewrite (setdefault_append_spec v item grouped Hd).
    destruct (existsb (fun g => db.py_eq v (fst g)) grouped) eqn:He.
    + apply Forall_map. eapply Forall_impl; [| exact Hg].
      intros [x ys] [Hne Hys]. cbn [fst snd] in *.
      destruct (db.py_eq v x) eqn:Hvx; cbn [fst snd];
        rewrite items_at_snoc; fold v; rewrite Hvx.
      * split; [destruct ys; discriminate |]. fold item. rewrite Hys.
        reflexivity.
      * split; [exact Hne |]. rewrite app_nil_r. exact Hys.
    + apply Forall_app. split.
      * pose proof (existsb_false_forall _ _ He) as Hall.
        rewrite Forall_forall in Hall, Hg. apply Forall_forall.
        intros g Hin. destruct (Hg g Hin) as [Hne Hys].
        split; [exact Hne |]. rewrite items_at_snoc. fold v.
        rewrite (Hall (fst g) (in_map fst _ _ Hin)). rewrite app_nil_r.
        exact Hys.
      * constructor; [| constructor]. cbn [fst snd].
        split; [discriminate |].
        rewrite items_at_snoc. fold v. rewrite Hvv. fold item.
        assert (Hnone : db.items_at x_field v seen = []).
        { unfold db.items_at.
          assert (Hf : filter (fun r => db.py_eq (db.x_of x_field r) v) seen = []).
          { clear Hg. induction seen as [| r seen IHs]; [reflexivity |].
            inversion Hc as [| r0 l0 [g [Hin Hrg]] Hrest]; subst.
            cbn [filter].
            destruct (db.py_eq (db.x_of x_field r) v) eqn:Hrv.
            - exfalso.
              assert (Hvg : db.py_eq v (fst g) = true).
              { apply (py_eq_trans v (db.x_of x_field r));
                  [rewrite py_eq_sym; exact Hrv | exact Hrg]. }
              pose proof (existsb_false_forall _ _ He) as Hall.
              rewrite Forall_forall in Hall.
              specialize (Hall (fst g) (in_map fst _ _ Hin)). congruence.
            - apply IHs. exact Hrest. }
          rewrite Hf. reflexivity. }
        rewrite Hnone. reflexivity.
  - apply Forall_app. split.
    + eapply Forall_impl; [| exact Hc].
      intros r [g [Hin Hrg]].
      rewrite (setdefault_append_spec v item grouped Hd).
      destruct (existsb (fun g0 => db.py_eq v (fst g0)) grouped).
      * exists (if db.py_eq v (fst g)
                then (fst g, (snd g ++ [item])%list) else g).
        split.
        -- apply (in_map (fun g0 => if db.py_eq v (fst g0)
                                    then (fst g0, (snd g0 ++ [item])%list)
                                    else g0) _ _ Hin).
        -- destruct (db.py_eq v (fst g)); exact Hrg.
      * exists g. split; [apply in_or_app; left; exact Hin | exact Hrg].
    + constructor; [| constructor]. fold v.
      rewrite (setdefault_append_spec v item grouped Hd).
      destruct (existsb (fun g0 => db.py_eq v (fst g0)) grouped) eqn:He.
      * apply existsb_exists in He. destruct He as [g [Hin Hvg]].
        exists (if db.py_eq v (fst g)
                then (fst g, (snd g ++ [item])%list) else g).
        split.
        -- apply (in_map (fun g0 => if db.py_eq v (fst g0)
                                    then (fst g0, (snd g0 ++ [item])%list)
                                    else g0) _ _ Hin).
        -- rewrite Hvg. exact Hvg.
      * exists (v, [item]). split; [apply in_or_app; right; left; reflexivity |].
        exact Hvv.
Qed.

Lemma group_rows_spec (x_field : string) :
  forall rest seen grouped out,
    ForallOrdPairs (fun a b => db.py_eq a b = false) (map fst grouped) ->
    Forall (fun g => snd g <> [] /\
                     snd g = db.items_at x_field (fst g) seen) grouped ->
    Forall (fun r => exists g, In g grouped /\
                               db.py_eq (db.x_of x_field r) (fst g) = true)
           seen ->
    List.length (concat (map snd grouped)) = List.length seen ->
    db.group_rows x_field rest grouped = inr out ->
    ForallOrdPairs (fun a b => db.py_eq a b = false) (map fst out) /\
    Forall (fun g => snd g <> [] /\
                     snd g = db.items_at x_field (fst g) (seen ++ rest)) out /\
    Forall (fun r => exists g, In g out /\
                               db.py_eq (db.x_of x_field r) (fst g) = true)
           (seen ++ rest) /\
    List.length (concat (map snd out)) = List.length (seen ++ rest).
Proof.
  induction rest as [| row rest IH]; intros seen grouped out Hd Hg Hc Hn H.
  - cbn [db.group_rows] in H. inversion H. subst out. rewrite app_nil_r.
    auto.
  - cbn [db.group_rows] in H.
    destruct (Dict.get x_field row) as [x_value |] eqn:Hx; [| discriminate].
    destruct (Dict.get "key" row) as [key |] eqn:Hk; [| discriminate].
    destruct (Dict.get "count" row) as [count |] eqn:Hct; [| discriminate].
    destruct (db.hashable x_value) eqn:Hh; [| discriminate].
    assert (Ex : db.x_of x_field row = x_value)
      by (unfold db.x_of, Dict.get_default; rewrite Hx; reflexivity).
    assert (Ei : db.item_of row = db.chart_item key count)
      by (unfold db.item_of, Dict.get_default; rewrite Hk, Hct; reflexivity).
    rewrite <- Ex in Hh.
    destruct (setdefault_append_step x_field seen row grouped Hh Hd Hg Hc)
      as (Hd' & Hg' & Hc').
    rewrite Ex, Ei in Hd', Hg', Hc'.
    replace (seen ++ row :: rest)%list with ((seen ++ [row]) ++ rest)%list
      by (rewrite <- app_assoc; reflexivity).
    apply (IH (seen ++ [row])%list _ out Hd' Hg' Hc'); [| exact H].
    rewrite setdefault_append_count, length_app, Hn. simpl. lia.
Qed.

(** X17: [transform_for_chart] groups the rows by the value of the first
    column of the first row that is not named key or count.  Whenever it
    returns for rows with such a column, the x values of the groups are
    pairwise different, every group is not empty and holds exactly the
    key and count of the rows with its x value, in the order of the rows,
    every row is in a group, and no row is lost or counted twice: the
    groups hold as many items as there are rows. *)
Theorem transform_for_chart_groups_every_row (sample : Dict.t)
    (rest : list Dict.t) (x_field : string) (out : list json) :
  db.x_field_of sample = Some x_field -> x_field <> "" ->
  db.transform_for_chart (sample :: rest) = inr out ->
  exists grouped,
    out = map db.chart_group grouped /\
    ForallOrdPairs (fun a b => db.py_eq a b = false) (map fst grouped) /\
    Forall (fun g => snd g <> [] /\
                     snd g = db.items_at x_field (fst g) (sample :: rest))
           grouped /\
    Forall (fun r => exists g, In g grouped /\
                               db.py_eq (db.x_of x_field r) (fst g) = true)
           (sample :: rest) /\
    List.length (concat (map snd grouped)) = List.length (sample :: rest).
Proof.
  intros Hx Hne. unfold db.transform_for_chart. rewrite Hx.
  destruct (String.eqb_spec x_field "") as [E | _]; [contradiction |].
  destruct (db.group_rows x_field (sample :: rest) []) as [e | grouped] eqn:Hg;
    [discriminate |].
  intros H. inversion H. subst out. exists grouped. split; [reflexivity |].
  apply (group_rows_spec x_field (sample :: rest) [] [] grouped);
    try constructor.
  exact Hg.
Qed.

Lemma transform_for_chart_groups_every_row_witness :
  exists grouped,
    [JObj [("x", JStr "Low");
           ("y", JArr [db.chart_item (JStr "provider/model") (JInt 2);
                       db.chart_item (JStr "provider/other") (JInt 1)])];
     JObj [("x", JStr "High");
           ("y", JArr [db.chart_item (JStr "provider/model") (JInt 4)])]] =
      map db.chart_group grouped /\
    List.length (concat (map snd grouped)) = 3%nat.
Proof.
  destruct (transform_for_chart_groups_every_row
              (Sample.chart_row "Low" "provider/model" 2)
              [Sample.chart_row "Low" "provider/other" 1;
               Sample.chart_row "High" "provider/model" 4]
              "metric"
              [JObj [("x", JStr "Low");
                     ("y", JArr [db.chart_item (JStr "provider/model") (JInt 2);
                                 db.chart_item (JStr "provider/other") (JInt 1)])];
               JObj [("x", JStr "High");
                     ("y", JArr [db.chart_item (JStr "provider/model") (JInt 4)])]])
    as (grouped & Hout & _ & _ & _ & Hn).
  - reflexivity.
  - discriminate.
  - reflexivity.
  - exists grouped. split; [exact Hout | exact Hn].
Defined.

(** The loop raises nothing on rows that hold the column, a key and a
    count, the value of the column having a hash. *)
Lemma group_rows_returns (x_field : string) :
  forall rows grouped,
    Forall (fun row => exists x key count,
                Dict.get x_field row = Some x /\ db.hashable x = true /\
                Dict.get "key" row = Some key /\
                Dict.get "count" row = Some count) rows ->
    exists out, db.group_rows x_field rows grouped = inr out.
Proof.
  induction rows as [| row rows IH]; intros grouped H.
  - exists grouped. reflexivity.
  - inversion H as [| r l (x & key & count & Hx & Hh & Hk & Hc) Hrest]; subst.
    cbn [db.group_rows]. rewrite Hx, Hk, Hc, Hh. apply IH. exact Hrest.
Qed.

Lemma setdefault_append_nonempty (v item : json)
    (grouped : list (json * list json)) :
  db.setdefault_append v item grouped <> [].
Proof.
  destruct grouped as [| [x ys] r]; cbn [db.setdefault_append];
    [discriminate |].
  destruct (db.py_eq v x); discriminate.
Qed.

Lemma transform_for_chart_groups_nonempty (x_field : string) :
  forall rows (row : Dict.t) grouped out,
    db.group_rows x_field (row :: rows) grouped = inr out ->
    exists g rest, out = g :: rest.
Proof.
  assert (Hkeep : forall rows grouped out,
            grouped <> [] -> db.group_rows x_field rows grouped = inr out ->
            exists g rest, out = g :: rest).
  { induction rows as [| r rows IH]; intros grouped out Hne H.
    - cbn [db.group_rows] in H. inversion H. subst out.
      destruct grouped; [congruence | eauto].
    - cbn [db.group_rows] in H.
      destruct (Dict.get x_field r); [| discriminate].
      destruct (Dict.get "key" r); [| discriminate].
      destruct (Dict.get "count" r); [| discriminate].
      destruct (db.hashable _); [| discriminate].
      apply (IH _ _ (setdefault_append_nonempty _ _ _) H). }
  intros rows row grouped out H. cbn [db.group_rows] in H.
  destruct (Dict.get x_field row); [| discriminate].
  destruct (Dict.get "key" row); [| discriminate].
  destruct (Dict.get "count" row); [| discriminate].
  destruct (db.hashable _); [| discriminate].
  apply (Hkeep _ _ _ (setdefault_append_nonempty _ _ _) H).
Qed.

(** X18: on the rows of the chart query, which all hold the columns
    metric, key and count in this order, the metric being a text,
    [transform_for_chart] raises nothing; and for rows that hold no other
    column than key and count it returns the empty chart, however many
    rows there are. *)
Theorem transform_for_chart_on_query_rows (rows : list Dict.t) :
  (Forall (fun row => exists metric key count,
               row = [("metric", JStr metric); ("key", key); ("count", count)])
          rows ->
   exists out, db.transform_for_chart rows = inr out /\
               (rows <> [] -> out <> [])) /\
  (forall sample rest,
     rows = sample :: rest ->
     Forall (fun k => k = "key" \/ k = "count") (map fst sample) ->
     db.transform_for_chart rows = inr []).
Proof.
  split.
  - intros H. destruct rows as [| sample rest].
    + exists []. split; [reflexivity | congruence].
    + assert (Hall : Forall (fun row => exists x key count,
                         Dict.get "metric" row = Some x /\
                         db.hashable x = true /\
                         Dict.get "key" row = Some key /\
                         Dict.get "count" row = Some count) (sample :: rest)).
      { eapply Forall_impl; [| exact H].
        intros row (metric & key & count & E). subst row.
        exists (JStr metric), key, count. repeat split. }
      destruct (group_rows_returns "metric" (sample :: rest) [] Hall)
        as [grouped Hg].
      inversion H as [| r l (metric & key & count & E) Hrest]; subst.
      unfold db.transform_for_chart.
      change (db.x_field_of [("metric", JStr metric); ("key", key);
                             ("count", count)]) with (Some "metric").
      change (String.eqb "metric" "") with false. cbv iota.
      rewrite Hg. exists (map db.chart_group grouped).
      split; [reflexivity |]. intros _.
      destruct (transform_for_chart_groups_nonempty "metric" _ _ _ _ Hg)
        as [g [rest' E]].
      rewrite E. discriminate.
  - intros sample rest E Hk. subst rows. unfold db.transform_for_chart.
    assert (Hnone : db.x_field_of sample = None).
    { unfold db.x_field_of. induction (map fst sample) as [| k ks IH];
        [reflexivity |].
      inversion Hk; subst. cbn [find].
      match goal with H : _ \/ _ |- _ => destruct H; subst k end; simpl;
        apply IH; assumption. }
    rewrite Hnone. reflexivity.
Qed.

(** ** The historical statistics: rows, counters and fields (db.py) *)

Lemma record_row_unreadable (acc : db.fields * db.fields) (row : string) :
  Json.loads row = None \/
  (exists v, Json.loads row = Some v /\ forall d, v <> JObj d) ->
  db.record_row acc row = acc.
Proof.
  intros H. unfold db.record_row. destruct acc as [fv fa].
  destruct H as [H | [v [H Hnd]]]; rewrite H; [reflexivity |].
  destruct v; try reflexivity. exfalso. eapply Hnd. reflexivity.
Qed.

(** X19: a stored row that cannot be read leaves no trace in the
    statistics.  A row whose text is no JSON document, or a document that
    is no object, changes neither the tallies nor the statistics computed
    from them, wherever it stands among the rows. *)
Theorem unreadable_rows_are_skipped (round_pct : db.rounding)
    (before after : list string) (row : string) :
  Json.loads row = None \/
  (exists v, Json.loads row = Some v /\ forall d, v <> JObj d) ->
  db.tally (before ++ row :: after) = db.tally (before ++ after) /\
  db.raw_stats round_pct (before ++ row :: after) =
  db.raw_stats round_pct (before ++ after).
Proof.
  intros H.
  assert (Ht : db.tally (before ++ row :: after) = db.tally (before ++ after)).
  { unfold db.tally. rewrite !fold_left_app. cbn [fold_left].
    rewrite (record_row_unreadable _ row H). reflexivity. }
  split; [exact Ht |]. unfold db.raw_stats. rewrite Ht. reflexivity.
Qed.

Lemma unreadable_rows_are_skipped_witness :
  db.raw_stats db.ratio_pct
    [Sample.stored_row "High"; "not a result"; Sample.stored_row "Medium"] =
  db.raw_stats db.ratio_pct
    [Sample.stored_row "High"; Sample.stored_row "Medium"].
Proof.
  apply (unreadable_rows_are_skipped db.ratio_pct [Sample.stored_row "High"]
           [Sample.stored_row "Medium"] "not a result").
  left. reflexivity.
Defined.

(** The counter: one entry per answer that differs from the others. *)
Lemma counter_add_keys (k : json) :
  forall c,
    map fst (db.counter_add k c) =
    if existsb (fun e => db.py_eq k (fst e)) c
    then map fst c else (map fst c ++ [k])%list.
Proof.
  induction c as [| [k' n] r IH]; [reflexivity |].
  cbn [db.counter_add existsb map fst].
  destruct (db.py_eq k k'); [reflexivity |].
  cbn [orb map fst]. rewrite IH.
  destruct (existsb (fun e => db.py_eq k (fst e)) r); reflexivity.
Qed.

Lemma counter_add_sum (k : json) :
  forall c,
    fold_right Z.add 0%Z (map snd (db.counter_add k c)) =
    (fold_right Z.add 0%Z (map snd c) + 1)%Z.
Proof.
  induction c as [| [k' n] r IH]; [reflexivity |].
  cbn [db.counter_add]. destruct (db.py_eq k k'); cbn [map snd fold_right].
  - lia.
  - rewrite IH. lia.
Qed.

Lemma counter_add_positive (k : json) :
  forall c,
    Forall (fun e => (1 <= snd e)%Z) c ->
    Forall (fun e => (1 <= snd e)%Z) (db.counter_add k c).
Proof.
  induction c as [| [k' n] r IH]; intros H.
  - repeat constructor. simpl. lia.
  - inversion H; subst. cbn [db.counter_add]. destruct (db.py_eq k k').
    + constructor; [simpl in *; lia | assumption].
    + constructor; [assumption | apply IH; assumption].
Qed.

Lemma existsb_false_keys (k : json) (c : list (json * Z)) :
  existsb (fun e => db.py_eq k (fst e)) c = false ->
  Forall (fun k' => db.py_eq k k' = false) (map fst c).
Proof.
  induction c as [| e r IH]; intros H; [constructor |].
  cbn [existsb] in H. apply orb_false_iff in H. destruct H as [He Hr].
  constructor; [exact He | apply IH; exact Hr].
Qed.

Lemma counter_fold (items : list json) :
  forall c,
    ForallOrdPairs (fun a b => db.py_eq a b = false) (map fst c) ->
    Forall (fun e => (1 <= snd e)%Z) c ->
    let c' := fold_left (fun c k => db.counter_add k c) items c in
    ForallOrdPairs (fun a b => db.py_eq a b = false) (map fst c') /\
    Forall (fun e => (1 <= snd e)%Z) c' /\
    fold_right Z.add 0%Z (map snd c') =
    (fold_right Z.add 0%Z (map snd c) + Z.of_nat (List.length items))%Z.
Proof.
  induction items as [| k items IH]; intros c Hd Hp; cbv zeta.
  - cbn [fold_left List.length]. repeat split; try assumption. lia.
  - cbn [fold_left].
    assert (Hd' : ForallOrdPairs (fun a b => db.py_eq a b = false)
                    (map fst (db.counter_add k c))).
    { rewrite counter_add_keys.
      destruct (existsb (fun e => db.py_eq k (fst e)) c) eqn:He; [exact Hd |].
      apply ordpairs_snoc; [exact Hd | apply existsb_false_keys; exact He]. }
    destruct (IH _ Hd' (counter_add_positive k c Hp)) as (H1 & H2 & H3).
    repeat split; try assumption.
    rewrite H3, counter_add_sum. cbn [List.length]. lia.
Qed.

Lemma track_answers_keys (m : list (string * json)) :
  forall acc, map fst (db.track_answers m acc) = map fst acc.
Proof.
  unfold db.track_answers. induction m as [| [f v] m IH]; intros acc;
    cbn [fold_left]; [reflexivity |].
  rewrite IH. cbn [fst snd]. destruct v; try apply extend_keys. reflexivity.
Qed.

Lemma record_evaluations_keys (evs : list json) :
  forall fa, map fst (db.record_evaluations evs fa) = map fst fa.
Proof.
  induction evs as [| ev evs IH]; intros fa; cbn [db.record_evaluations];
    [reflexivity |].
  destruct (d <- db.py_get ev;; db.mapping_of d) as [m |]; [| reflexivity].
  rewrite IH. apply track_answers_keys.
Qed.

Lemma record_row_answer_keys (acc : db.fields * db.fields) (row : string) :
  map fst (snd (db.record_row acc row)) = map fst (snd acc).
Proof.
  unfold db.record_row. destruct acc as [fv fa].
  destruct (Json.loads row) as [data |]; [| reflexivity].
  destruct (d <- db.py_get data;; _) as [[d m] |]; [| reflexivity].
  destruct (db.py_iter _); cbn [snd]; [apply record_evaluations_keys |].
  reflexivity.
Qed.

Lemma tally_answer_keys (rows : list string) :
  map fst (snd (db.tally rows)) = db.CONSENSUS_FIELDS.
Proof.
  unfold db.tally.
  assert (H : forall acc, map fst (snd (fold_left db.record_row rows acc)) =
                          map fst (snd acc)).
  { induction rows as [| row rows IH]; intros acc; simpl; [reflexivity |].
    rewrite IH. apply record_row_answer_keys. }
  rewrite H. reflexivity.
Qed.

(** The answer table of a field, as the deterministic phase builds it. *)
Lemma compute_stats_answers (round_pct : db.rounding) (fa : db.fields) :
  forall fv stats field st,
    NoDup (map fst fv) ->
    db.compute_stats round_pct fv fa = Ok stats ->
    db.lookup field stats = Some st ->
    db.Counter (match db.lookup field fa with
                | Some l => l
                | None => []
                end) = Ok (db.answers st).
Proof.
  induction fv as [| [k values] r IH]; intros stats field st Hnd H Hl;
    simpl in H.
  - inversion H; subst. discriminate.
  - inversion Hnd as [| ? ? Hk Hr]; subst.
    destruct values as [| v vs]; [apply (IH stats field st Hr H Hl) |].
    destruct (db.Counter _) as [answers |] eqn:Hc; [| discriminate].
    cbn [Py.bind] in H.
    destruct (db.compute_stats round_pct r fa) as [rest |] eqn:Hrest;
      [| discriminate].
    cbn [Py.bind] in H. inversion H; subst. cbn [db.lookup] in Hl.
    destruct (String.eqb_spec field k) as [-> | Hne].
    + inversion Hl; subst. exact Hc.
    + apply (IH rest field st Hr eq_refl Hl).
Qed.

(** X20: in the statistics of the deterministic phase the answer table of
    a field lists pairwise different answers, each with a count of at
    least one, and the counts add up to the number of answers that the
    evaluations of the stored rows gave for the field: no answer is lost
    and none is counted twice. *)
Theorem answer_counts_add_up (round_pct : db.rounding) (rows : list string)
    (stats : db.stats_map) (field : string) (st : db.FieldStat) :
  db.raw_stats round_pct rows = Ok stats ->
  db.lookup field stats = Some st ->
  exists answers,
    db.lookup field (snd (db.tally rows)) = Some answers /\
    fold_right Z.add 0%Z (map snd (db.answers st)) =
      Z.of_nat (List.length answers) /\
    ForallOrdPairs (fun a b => db.py_eq a b = false)
                   (map fst (db.answers st)) /\
    Forall (fun e => (1 <= snd e)%Z) (db.answers st).
Proof.
  unfold db.raw_stats. pose proof (tally_keys rows) as Hk.
  pose proof (tally_answer_keys rows) as Hka.
  destruct (db.tally rows) as [fv fa]. cbn [fst snd] in *. intros H Hl.
  assert (Hnd : NoDup (map fst fv))
    by (rewrite Hk; apply consensus_fields_nodup).
  pose proof (compute_stats_answers round_pct fa fv stats field st Hnd H Hl)
    as Hc.
  assert (Hin : In field (map fst fa)).
  { rewrite Hka, <- Hk. apply (compute_stats_keys round_pct fa fv stats H).
    apply (lookup_in_keys _ _ _ Hl). }
  destruct (db.lookup field fa) as [answers |] eqn:Hfa.
  2:{ exfalso. clear - Hin Hfa. induction fa as [| [k l] r IH];
        [contradiction |].
      cbn [db.lookup] in Hfa. destruct (String.eqb_spec field k) as [-> | Hne];
        [discriminate |].
      destruct Hin as [E | Hin]; [simpl in E; congruence | auto]. }
  exists answers. split; [reflexivity |].
  unfold db.Counter in Hc. destruct (forallb db.hashable answers);
    [| discriminate].
  inversion Hc as [Hc']. 
  destruct (counter_fold answers [] ltac:(constructor) ltac:(constructor))
    as (H1 & H2 & H3).
  cbv zeta in H3. simpl in H3. auto.
Qed.

Lemma answer_counts_add_up_witness :
  exists answers,
    db.lookup "fairness" (snd (db.tally Sample.five_rows)) = Some answers /\
    fold_right Z.add 0%Z
      [5%Z; 5%Z] = Z.of_nat (List.length answers).
Proof.
  destruct (answer_counts_add_up db.ratio_pct Sample.five_rows
              Sample.five_rows_stats "fairness"
              {| db.no_consensus := 200; db.consensus := 800; db.total := 5;
                 db.answers := [(JStr "High", 5%Z); (JStr "Medium", 5%Z)] |})
    as (answers & Ha & Hsum & _).
  - vm_compute. reflexivity.
  - vm_compute. reflexivity.
  - exists answers. split; [exact Ha | exact Hsum].
Defined.

Lemma update_field_keys (field : string) (answers : list db.StatsAnswer.t)
    (stats : db.stats_map) :
  map fst (db.update_field field answers stats) = map fst stats.
Proof.
  induction stats as [| [k st] r IH]; [reflexivity |].
  cbn [db.update_field]. destruct (String.eqb field k); cbn [map fst];
    [reflexivity | rewrite IH; reflexivity].
Qed.

Lemma merge_keys (deduped : db.FieldStats.t) :
  forall stats, map fst (db.merge deduped stats) = map fst stats.
Proof.
  unfold db.merge. induction deduped as [| [f a] r IH]; intros stats;
    cbn [fold_left]; [reflexivity |].
  rewrite IH. apply update_field_keys.
Qed.

Lemma compute_stats_fields (round_pct : db.rounding) (fa : db.fields) :
  forall fv stats,
    db.compute_stats round_pct fv fa = Ok stats ->
    map fst stats =
    map fst (filter (fun kv => match snd kv with [] => false | _ => true end) fv).
Proof.
  induction fv as [| [k values] r IH]; intros stats H; simpl in H.
  - inversion H. reflexivity.
  - cbn [filter snd]. destruct values as [| v vs]; [apply IH; exact H |].
    destruct (db.Counter _) as [answers |]; [| discriminate].
    cbn [Py.bind] in H.
    destruct (db.compute_stats round_pct r fa) as [rest |]; [| discriminate].
    cbn [Py.bind] in H. inversion H. cbn [map fst]. rewrite (IH rest eq_refl).
    reflexivity.
Qed.

Lemma filter_by_lookup (p : list json -> bool) :
  forall fv : db.fields,
    NoDup (map fst fv) ->
    map fst (filter (fun kv => p (snd kv)) fv) =
    filter (fun f => match db.lookup f fv with
                     | Some l => p l
                     | None => false
                     end) (map fst fv).
Proof.
  induction fv as [| [k l] r IH]; intros Hnd; [reflexivity |].
  inversion Hnd as [| ? ? Hk Hr]; subst.
  cbn [filter map fst snd db.lookup]. rewrite String.eqb_refl.
  assert (Hext : filter (fun f => match (if String.eqb f k then Some l
                                         else db.lookup f r) with
                                  | Some l0 => p l0
                                  | None => false
                                  end) (map fst r) =
                 filter (fun f => match db.lookup f r with
                                  | Some l0 => p l0
                                  | None => false
                                  end) (map fst r)).
  { apply filter_ext_in. intros f Hf.
    destruct (String.eqb_spec f k) as [-> | _]; [contradiction | reflexivity]. }
  rewrite Hext, <- (IH Hr). destruct (p l); reflexivity.
Qed.

(** X21: the fields of the returned statistics are exactly the monitored
    fields for which the stored rows give at least one consensus value,
    in the order of CONSENSUS_FIELDS.  The answer of the canonicalization
    call cannot add a field, drop one or change their order, whatever it
    names. *)
Theorem returned_fields_are_the_observed_ones (round_pct : db.rounding)
    (rows : list string) (dedup : models.response) (url : string)
    (h : db.Stats) :
  db.get_consensus_stats_for_url round_pct rows dedup url = Ok h ->
  map fst (db.stats h) =
  filter (fun f => match db.lookup f (fst (db.tally rows)) with
                   | Some (_ :: _) => true
                   | _ => false
                   end) db.CONSENSUS_FIELDS.
Proof.
  intros H. destruct rows as [| row rows].
  - cbn [db.get_consensus_stats_for_url] in H. inversion H. reflexivity.
  - destruct (get_consensus_stats_returned round_pct (row :: rows) dedup url h)
      as (raw & model & text & rawj & parsed & Hraw & _ & _ & Hs);
      [discriminate | exact H |].
    rewrite Hs, merge_keys. unfold db.raw_stats in Hraw.
    pose proof (tally_keys (row :: rows)) as Hk.
    destruct (db.tally (row :: rows)) as [fv fa]. cbn [fst] in *.
    rewrite (compute_stats_fields round_pct fa fv raw Hraw).
    rewrite (filter_by_lookup
               (fun l => match l with [] => false | _ => true end) fv)
      by (rewrite Hk; apply consensus_fields_nodup).
    rewrite Hk. apply filter_ext. intros f.
    destruct (db.lookup f fv) as [[| v vs] |]; reflexivity.
Qed.

Lemma returned_fields_are_the_observed_ones_witness :
  exists h,
    db.get_consensus_stats_for_url db.ratio_pct Sample.five_rows
      (Sample.answer Sample.deduplicated) "u" = Ok h /\
    map fst (db.stats h) =
    filter (fun f => match db.lookup f (fst (db.tally Sample.five_rows)) with
                     | Some (_ :: _) => true
                     | _ => false
                     end) db.CONSENSUS_FIELDS.
Proof.
  destruct (db.get_consensus_stats_for_url db.ratio_pct Sample.five_rows
              (Sample.answer Sample.deduplicated) "u") as [h | e] eqn:H.
  - exists h. split; [reflexivity |].
    apply (returned_fields_are_the_observed_ones _ _ _ _ _ H).
  - exfalso. vm_compute in H. discriminate.
Defined.

(** ** The consensus that is returned (evaluate.py) *)

(** A model validates its own dump. *)
Lemma strs_dump (l : list string) : Field.strs (map JStr l) = Some l.
Proof.
  induction l as [| s l IH]; [reflexivity |].
  cbn [map Field.strs]. rewrite IH. reflexivity.
Qed.

Lemma opt_list_str_dump (o : option (list string)) :
  Field.opt_list_str (Some (Field.dump_opt_list_str o)) = Some o.
Proof.
  destruct o as [l |]; [| reflexivity].
  cbn [Field.dump_opt_list_str Field.opt_list_str]. rewrite strs_dump.
  reflexivity.
Qed.

Lemma opt_str_dump (o : option string) :
  Field.opt_str (Some (Field.dump_opt_str o)) = Some o.
Proof. destruct o; reflexivity. Qed.

Lemma article_validates_its_dump (a : Article.t) :
  Article.model_validate (Article.model_dump a) = Some a.
Proof.
  destruct a as [p tl f h n]. unfold Article.model_dump, Article.model_validate.
  cbn [Article.perspective Article.tone_language Article.fairness
       Article.headline_article Article.notes].
  change (Dict.get "perspective" _) with (Some (JStr p)).
  change (Dict.get "tone_language" _) with (Some (Field.dump_opt_list_str tl)).
  change (Dict.get "fairness" _) with (Some (JStr f)).
  change (Dict.get "headline_article" _) with (Some (JStr h)).
  change (Dict.get "notes" _) with (Some (Field.dump_opt_str n)).
  rewrite opt_list_str_dump, opt_str_dump. reflexivity.
Qed.

Lemma publication_validates_its_dump (p : Publication.t) :
  Publication.model_validate (Publication.model_dump p) = Some p.
Proof.
  destruct p as [f l o].
  unfold Publication.model_dump, Publication.model_validate.
  cbn [Publication.source_of_funding Publication.location
       Publication.ownership].
  change (Dict.get "source_of_funding" _)
    with (Some (Field.dump_opt_list_str f)).
  change (Dict.get "location" _) with (Some (Field.dump_opt_str l)).
  change (Dict.get "ownership" _) with (Some (Field.dump_opt_str o)).
  rewrite opt_list_str_dump, !opt_str_dump. reflexivity.
Qed.

Lemma models_dump {A} (validate : json -> option A) (dump : A -> json) :
  (forall a, validate (dump a) = Some a) ->
  forall l, Field.models validate (map dump l) = Some l.
Proof.
  intros H. induction l as [| a l IH]; [reflexivity |].
  cbn [map Field.models]. rewrite H, IH. reflexivity.
Qed.

Lemma evaluation_disagreement_validates_its_dump (e : EvaluationDisagreement.t) :
  EvaluationDisagreement.model_validate (EvaluationDisagreement.model_dump e)
  = Some e.
Proof.
  destruct e as [m v].
  unfold EvaluationDisagreement.model_dump, EvaluationDisagreement.model_validate.
  cbn [EvaluationDisagreement.model EvaluationDisagreement.value].
  change (Dict.get "model" _) with (Some (Field.dump_opt_str m)).
  change (Dict.get "value" _) with (Some v).
  rewrite opt_str_dump. reflexivity.
Qed.

Lemma disagreement_validates_its_dump (x : Disagreement.t) :
  Disagreement.model_validate (Disagreement.model_dump x) = Some x.
Proof.
  destruct x as [f e].
  unfold Disagreement.model_dump, Disagreement.model_validate.
  cbn [Disagreement.field Disagreement.evaluations].
  change (Dict.get "field" _) with (Some (Field.dump_opt_str f)).
  rewrite opt_str_dump.
  destruct e as [l |]; cbn; [| reflexivity].
  rewrite (models_dump _ _ evaluation_disagreement_validates_its_dump).
  reflexivity.
Qed.

Lemma disagreements_validate_their_dump (o : option (list Disagreement.t)) :
  Disagreement.validate_list (Some (Disagreement.dump_list o)) = Some o.
Proof.
  destruct o as [l |]; [| reflexivity].
  cbn [Disagreement.dump_list Disagreement.validate_list].
  rewrite (models_dump _ _ disagreement_validates_its_dump). reflexivity.
Qed.

(** The response built from a validated consensus and a model name. *)
Lemma consensus_response_of_dump (v : Consensus.t) (model : json) :
  ConsensusResponse.model_validate
    (JObj [("article",
            Dict.get_default "article" (JObj []) (Consensus.model_dump v));
           ("publication",
            Dict.get_default "publication" (JObj []) (Consensus.model_dump v));
           ("confidence",
            Dict.get_default "confidence" (JObj []) (Consensus.model_dump v));
           ("notes",
            Dict.get_default "notes" (JObj []) (Consensus.model_dump v));
           ("disagreements",
            Dict.get_default "disagreements" (JObj []) (Consensus.model_dump v));
           ("model", model)]) =
  match model with
  | JStr m =>
      Some {| ConsensusResponse.article := Consensus.article v;
              ConsensusResponse.publication := Consensus.publication v;
              ConsensusResponse.confidence := Consensus.confidence v;
              ConsensusResponse.disagreements := Consensus.disagreements v;
              ConsensusResponse.notes := Consensus.notes v;
              ConsensusResponse.model := m |}
  | _ => None
  end.
Proof.
  unfold ConsensusResponse.model_validate, Consensus.model_dump.
  change (Dict.get "article" _)
    with (Some (Article.model_dump (Consensus.article v))).
  change (Dict.get "publication" _)
    with (Some (Publication.model_dump (Consensus.publication v))).
  change (Dict.get "confidence" _) with (Some (JFloat (Consensus.confidence v))).
  change (Dict.get "disagreements" _)
    with (Some (Disagreement.dump_list (Consensus.disagreements v))).
  change (Dict.get "notes" _) with (Some (JStr (Consensus.notes v))).
  change (Dict.get "model" _) with (Some model). cbv beta iota.
  rewrite article_validates_its_dump, publication_validates_its_dump,
    disagreements_validate_their_dump.
  cbn [Field.float Field.str]. destruct model; reflexivity.
Qed.

(** X22: [aggregate_evaluations] returns exactly when the text of the
    aggregator's answer, cleaned, validates as a [Consensus] and the model
    named in the answer is a text; what it returns carries the article,
    the publication, the confidence, the disagreements and the notes of
    the validated consensus unchanged, and that model name.  The
    evaluations passed in play no part in the result. *)
Theorem aggregate_evaluations_returns_the_validated_consensus
    (resp : models.response) (evals : list json) (c : ConsensusResponse.t) :
  evaluate.aggregate_evaluations resp evals = Ok c <->
  exists model text raw cleaned v,
    resp = models.Answer (JStr model) text raw /\
    utils.clean_llm_json text = Ok cleaned /\
    Consensus.model_validate (evaluate.parsed_json_of cleaned) = Some v /\
    c = {| ConsensusResponse.article := Consensus.article v;
           ConsensusResponse.publication := Consensus.publication v;
           ConsensusResponse.confidence := Consensus.confidence v;
           ConsensusResponse.disagreements := Consensus.disagreements v;
           ConsensusResponse.notes := Consensus.notes v;
           ConsensusResponse.model := model |}.
Proof.
  unfold evaluate.aggregate_evaluations. split.
  - destruct resp as [model text raw | e]; [| discriminate].
    cbn [models.get models.getitem Py.bind String.eqb Ascii.eqb Bool.eqb].
    destruct (utils.clean_llm_json text) as [cleaned |] eqn:Hc; cbn [Py.bind];
      [| discriminate].
    destruct (Consensus.model_validate (evaluate.parsed_json_of cleaned))
      as [v |] eqn:Hv; [| discriminate].
    cbn [Py.bind]. rewrite consensus_response_of_dump.
    destruct model as [| | | | m | |]; try discriminate.
    intros H. inversion H. exists m, text, raw, cleaned, v. auto.
  - intros (model & text & raw & cleaned & v & Hr & Hc & Hv & E). subst resp c.
    cbn [models.get models.getitem Py.bind String.eqb Ascii.eqb Bool.eqb].
    rewrite Hc. cbn [Py.bind]. rewrite Hv. cbn [Py.bind].
    rewrite consensus_response_of_dump. reflexivity.
Qed.

(** ** The client errors of a request (analysis.py) *)

Lemma get_not_http (key : string) (resp : models.response) (e : exn) :
  models.get key resp = Raise e -> analysis.is_http e = false.
Proof. destruct resp; simpl; intros H; inversion H; reflexivity. Qed.

Lemma getitem_not_http (key : string) (resp : models.response) (e : exn) :
  models.getitem key resp = Raise e -> analysis.is_http e = false.
Proof. destruct resp; simpl; intros H; inversion H; reflexivity. Qed.

Lemma py_get_not_http (v : json) (e : exn) :
  db.py_get v = Raise e -> analysis.is_http e = false.
Proof. destruct v; simpl; intros H; inversion H; reflexivity. Qed.

Lemma clean_llm_json_text (s : string) :
  exists v, utils.clean_llm_json (JStr s) = Ok v.
Proof.
  unfold utils.clean_llm_json.
  destruct (negb (truthy (JStr s))); [eexists; reflexivity |].
  repeat match goal with
         | |- context [match ?x with _ => _ end] => destruct x
         end; eexists; reflexivity.
Qed.

Lemma clean_llm_json_not_http (text : json) (e : exn) :
  utils.clean_llm_json text = Raise e -> analysis.is_http e = false.
Proof.
  destruct text as [| | | | s | |];
    try (unfold utils.clean_llm_json;
         match goal with
         | |- context [negb ?b] => destruct (negb b)
         end; intros H; inversion H; reflexivity).
  destruct (clean_llm_json_text s) as [v Hv]. rewrite Hv. discriminate.
Qed.

Lemma evaluate_result_not_http (r : models.response) (e : exn) :
  analysis.evaluate_result r = Raise e -> analysis.is_http e = false.
Proof.
  unfold analysis.evaluate_result.
  destruct (models.get "text" r) as [text |] eqn:Ht; cbn [Py.bind].
  2:{ intros H. inversion H. subst. apply (get_not_http _ _ _ Ht). }
  destruct (models.get "model" r) as [model |] eqn:Hm; cbn [Py.bind].
  2:{ intros H. inversion H. subst. apply (get_not_http _ _ _ Hm). }
  destruct (db.py_get (analysis.parse_text text)) as [d |] eqn:Hd;
    cbn [Py.bind]; [discriminate |].
  intros H. inversion H. subst. apply (py_get_not_http _ _ Hd).
Qed.

Lemma collect_not_http (raw : list analysis.gathered) (e : exn) :
  forall acc, analysis.collect raw acc = Raise e -> analysis.is_http e = false.
Proof.
  induction raw as [| g rest IH]; intros acc; cbn [analysis.collect];
    [discriminate |].
  destruct g as [x | r]; [apply IH |].
  destruct (analysis.evaluate_result r) as [ev |] eqn:Hev; cbn [Py.bind];
    [apply IH |].
  intros H. inversion H. subst. apply (evaluate_result_not_http _ _ Hev).
Qed.

Lemma aggregate_evaluations_not_http (resp : models.response)
    (evals : list json) (e : exn) :
  evaluate.aggregate_evaluations resp evals = Raise e ->
  analysis.is_http e = false.
Proof.
  unfold evaluate.aggregate_evaluations.
  destruct (models.get "text" resp) as [text |] eqn:Ht; cbn [Py.bind].
  2:{ intros H. inversion H. subst. apply (get_not_http _ _ _ Ht). }
  destruct (utils.clean_llm_json text) as [cleaned |] eqn:Hc; cbn [Py.bind].
  2:{ intros H. inversion H. subst. apply (clean_llm_json_not_http _ _ Hc). }
  destruct (Consensus.model_validate (evaluate.parsed_json_of cleaned));
    cbn [Py.bind].
  2:{ rewrite fallback_input_invalid. cbn [Py.bind]. intros H. inversion H.
      reflexivity. }
  destruct (models.getitem "model" resp) as [model |] eqn:Hm; cbn [Py.bind].
  2:{ intros H. inversion H. subst. apply (getitem_not_http _ _ _ Hm). }
  destruct (ConsensusResponse.model_validate _); [discriminate |].
  intros H. inversion H. reflexivity.
Qed.

Lemma compute_stats_not_http (round_pct : db.rounding) (fa : db.fields)
    (e : exn) :
  forall fv, db.compute_stats round_pct fv fa = Raise e ->
             analysis.is_http e = false.
Proof.
  induction fv as [| [field values] r IH]; cbn [db.compute_stats];
    [discriminate |].
  destruct values as [| v vs]; [exact IH |].
  unfold db.Counter at 1.
  destruct (forallb db.hashable _); cbn [Py.bind].
  - destruct (db.compute_stats round_pct r fa) as [rest |]; cbn [Py.bind];
      [discriminate | exact IH].
  - intros H. inversion H. reflexivity.
Qed.

Lemma get_consensus_stats_not_http (round_pct : db.rounding)
    (rows : list string) (dedup : models.response) (url : string) (e : exn) :
  db.get_consensus_stats_for_url round_pct rows dedup url = Raise e ->
  analysis.is_http e = false.
Proof.
  unfold db.get_consensus_stats_for_url.
  destruct rows as [| row rows]; [discriminate |].
  destruct (db.raw_stats round_pct (row :: rows)) as [stats |] eqn:Hs;
    cbn [Py.bind].
  2:{ intros H. inversion H. subst. unfold db.raw_stats in Hs.
      destruct (db.tally (row :: rows)) as [fv fa].
      apply (compute_stats_not_http _ _ _ _ Hs). }
  destruct (models.getitem "text" dedup) as [text |] eqn:Ht; cbn [Py.bind].
  2:{ intros H. inversion H. subst. apply (getitem_not_http _ _ _ Ht). }
  destruct (db.Deduplication.model_validate_json text).
  2:{ intros H. inversion H. reflexivity. }
  destruct (models.getitem "model" dedup) as [model |] eqn:Hm; cbn [Py.bind];
    [discriminate |].
  intros H. inversion H. subst. apply (getitem_not_http _ _ _ Hm).
Qed.

Lemma conclude_not_http (w : analysis.World) (p : analysis.Prepared)
    (evaluations : list json) (c : ConsensusResponse.t) (e : exn) :
  analysis.conclude w p evaluations c = Raise e -> analysis.is_http e = false.
Proof.
  unfold analysis.conclude.
  destruct (db.get_consensus_stats_for_url _ _ _ _) as [h |] eqn:Hh;
    cbn [Py.bind].
  2:{ intros H. inversion H. subst.
      apply (get_consensus_stats_not_http _ _ _ _ _ Hh). }
  unfold analysis.final_result.
  destruct (Field.opt_str _); [| intros H; inversion H; reflexivity].
  destruct (Field.opt_list_str _); [| intros H; inversion H; reflexivity].
  destruct (Field.opt_str _); [| intros H; inversion H; reflexivity].
  destruct (Field.models _ _); [discriminate |].
  intros H. inversion H. reflexivity.
Qed.

Lemma run_to_completion_not_http (w : analysis.World) (p : analysis.Prepared)
    (e : exn) :
  analysis.run_to_completion w p = Raise e -> analysis.is_http e = false.
Proof.
  unfold analysis.run_to_completion.
  destruct (analysis.collect _ _) as [evs |] eqn:Hc; cbn [Py.bind].
  2:{ intros H. inversion H. subst. apply (collect_not_http _ _ _ Hc). }
  destruct (evaluate.aggregate_evaluations _ evs) as [c |] eqn:Ha;
    cbn [Py.bind].
  2:{ intros H. inversion H. subst.
      apply (aggregate_evaluations_not_http _ _ _ Ha). }
  apply conclude_not_http.
Qed.

Lemma len_strip_not_http (x : json) (e : exn) :
  analysis.len_strip x = Raise e -> analysis.is_http e = false.
Proof. destruct x; simpl; intros H; inversion H; reflexivity. Qed.

Lemma slice_to_not_http (n : option Z) (x : json) (e : exn) :
  analysis.slice_to n x = Raise e -> analysis.is_http e = false.
Proof. destruct x; simpl; intros H; inversion H; reflexivity. Qed.

(** The exceptions of the steps before the dispatch. *)
Lemma prepare_raises (w : analysis.World) (req : analysis.AnalyzeRequest)
    (e : exn) :
  analysis.prepare w req = Raise e ->
  analysis.is_http e = false \/
  e = HTTPException 400 "This link doesn't appear to be a news article URL." \/
  e = HTTPException 400
        "Extracted content is too short — likely not a full article." \/
  e = HTTPException 400
        "No valid title detected — likely not a news article." \/
  exists reason, e = HTTPException 400 ("Failed to scrape URL: " ++ reason).
Proof.
  unfold analysis.prepare.
  destruct (negb (utils.looks_like_article_url (analysis.url req))).
  { intros H. inversion H. auto. }
  destruct (snd (scraper.scrape_article _ _)) as [scraped | e0];
    cbn [try_except Py.bind].
  2:{ intros H. inversion H. right. right. right. right. eexists.
      reflexivity. }
  destruct (analysis.len_strip _) as [n |] eqn:Hn; cbn [Py.bind].
  2:{ intros H. inversion H. subst. left.
      apply (len_strip_not_http _ _ Hn). }
  destruct (n <? 500)%nat.
  { intros H. inversion H. auto. }
  match goal with
  | |- Py.bind ?m _ = _ -> _ => destruct m as [short_title |] eqn:Hst
  end; cbn [Py.bind].
  2:{ intros H. inversion H. subst. left.
      match type of Hst with
      | (if ?b then _ else _) = _ => destruct b
      end; [| discriminate].
      match type of Hst with
      | Py.bind ?m _ = _ => destruct m as [k |] eqn:Hk
      end; cbn [Py.bind] in Hst; [discriminate |].
      inversion Hst. subst. apply (len_strip_not_http _ _ Hk). }
  destruct short_title.
  { intros H. inversion H. auto. }
  destruct (analysis.slice_to _ _) as [content |] eqn:Hsl; cbn [Py.bind].
  2:{ intros H. inversion H. subst. left.
      apply (slice_to_not_http _ _ _ Hsl). }
  destruct (models.getitem "text" (analysis.summary_call w)) as [text |] eqn:Ht;
    cbn [Py.bind].
  2:{ intros H. inversion H. subst. left. apply (getitem_not_http _ _ _ Ht). }
  destruct (Summary.model_validate_json text).
  2:{ intros H. inversion H. auto. }
  destruct (models.getitem "model" (analysis.summary_call w)) as [model |]
    eqn:Hm; cbn [Py.bind].
  2:{ intros H. inversion H. subst. left. apply (getitem_not_http _ _ _ Hm). }
  destruct (SummaryResponse.model_validate _).
  2:{ intros H. inversion H. auto. }
  rewrite make_pairs_cases.
  destruct (analysis.model_list w) as [| a [| b [| c [| d [| x [| y l]]]]]];
    cbn [Py.bind]; intros H; inversion H; auto.
Qed.

(** X23: the only client errors of a request are four answers with status
    400, all raised before any evaluator is called: the URL does not pass
    the gate, the extractor raised, the extracted text is shorter than 500
    characters, or the title is missing or shorter than 5 characters.
    Every other failure of a run (a failed or invalid summary, evaluator,
    consensus or canonicalization answer, an odd pool) leaves
    [run_analysis] as an exception that is no [HTTPException]. *)
Theorem client_errors_are_four_400s (w : analysis.World)
    (req : analysis.AnalyzeRequest) (stream : bool) (e : exn) :
  analysis.run_analysis w req stream = Raise e ->
  analysis.is_http e = false \/
  e = HTTPException 400 "This link doesn't appear to be a news article URL." \/
  e = HTTPException 400
        "Extracted content is too short — likely not a full article." \/
  e = HTTPException 400
        "No valid title detected — likely not a news article." \/
  exists reason, e = HTTPException 400 ("Failed to scrape URL: " ++ reason).
Proof.
  unfold analysis.run_analysis.
  destruct (analysis.prepare w req) as [p |] eqn:Hp; cbn [Py.bind].
  2:{ intros H. inversion H. subst. apply (prepare_raises _ _ _ Hp). }
  destruct stream.
  - destruct (analysis.event_stream w p). discriminate.
  - destruct (analysis.run_to_completion w p) as [fin |] eqn:Hr;
      cbn [Py.bind]; [discriminate |].
    intros H. inversion H. subst. left.
    apply (run_to_completion_not_http _ _ _ Hr).
Qed.

Lemma client_errors_are_four_400s_witness :
  analysis.is_http
    (HTTPException 400
       "Extracted content is too short — likely not a full article.") = false \/
  HTTPException 400
    "Extracted content is too short — likely not a full article." =
  HTTPException 400 "This link doesn't appear to be a news article URL." \/
  HTTPException 400
    "Extracted content is too short — likely not a full article." =
  HTTPException 400
    "Extracted content is too short — likely not a full article." \/
  HTTPException 400
    "Extracted content is too short — likely not a full article." =
  HTTPException 400
    "No valid title detected — likely not a news article." \/
  exists reason,
    HTTPException 400
      "Extracted content is too short — likely not a full article." =
    HTTPException 400 ("Failed to scrape URL: " ++ reason).
Proof.
  apply (client_errors_are_four_400s
           (Sample.with_net Sample.site_stub Sample.world) Sample.request false).
  vm_compute. reflexivity.
Defined.

(** ** What [loads] makes of what [dumps] wrote *)

(** Induction on a value, with the items of a list and the members of a
    dict. *)
Lemma json_induction (P : json -> Prop) :
  P JNull -> (forall b, P (JBool b)) -> (forall z, P (JInt z)) ->
  (forall literal, P (JFloat literal)) -> (forall s, P (JStr s)) ->
  (forall items, Forall P items -> P (JArr items)) ->
  (forall members, Forall (fun kv => P (snd kv)) members -> P (JObj members)) ->
  forall v, P v.
Proof.
  intros Hnull Hbool Hint Hfloat Hstr Harr Hobj.
  fix IH 1. intros [| b | z | literal | s | items | members].
  - exact Hnull.
  - apply Hbool.
  - apply Hint.
  - apply Hfloat.
  - apply Hstr.
  - apply Harr. induction items as [| x items IHi]; constructor;
      [apply IH | exact IHi].
  - apply Hobj. induction members as [| [k x] members IHm]; constructor;
      [apply IH | exact IHm].
Qed.

Lemma length_append (a b : string) :
  String.length (a ++ b) = (String.length a + String.length b)%nat.
Proof. induction a as [| c a IH]; simpl; [reflexivity | rewrite IH; reflexivity]. Qed.

(** *** Texts *)

(** The escape of one character, and what the scanner makes of it. *)
Lemma escape_body_cons (c : ascii) (r : string) :
  Json.escape_body false (String c r) =
  Json.escape_body false (String c "") ++ Json.escape_body false r.
Proof.
  destruct c as [[] [] [] [] [] [] [] []]; reflexivity.
Qed.

Lemma scanstring_escaped_char (c : ascii) (fuel : nat) (tail : string) :
  Json.scanstring (S fuel) (Json.escape_body false (String c "") ++ tail) =
  match Json.scanstring fuel tail with
  | Json.Scanned str rest => Json.Scanned (String c str) rest
  | other => other
  end.
Proof.
  destruct c as [[] [] [] [] [] [] [] []]; reflexivity.
Qed.

Lemma scanstring_escape_body (rest : string) :
  forall s fuel,
    (String.length s < fuel)%nat ->
    Json.scanstring fuel (Json.escape_body false s ++ String "034" rest) =
    Json.Scanned s rest.
Proof.
  induction s as [| c s IH]; intros fuel Hf; cbn [String.length] in Hf.
  - destruct fuel; [lia |]. reflexivity.
  - destruct fuel as [| fuel]; [lia |].
    rewrite escape_body_cons, append_assoc, scanstring_escaped_char.
    rewrite IH by lia. reflexivity.
Qed.

Lemma escape_body_length (s : string) :
  (String.length s <= String.length (Json.escape_body false s))%nat.
Proof.
  induction s as [| c s IH]; [simpl; lia |].
  rewrite escape_body_cons, length_append.
  assert (1 <= String.length (Json.escape_body false (String c "")))%nat
    by (destruct c as [[] [] [] [] [] [] [] []]; simpl; lia).
  cbn [String.length]. lia.
Qed.

(** *** Numbers *)

Lemma digits_value_acc :
  forall d acc,
    Json.digits_value (Z.pos acc) (NilEmpty.string_of_uint d) =
    Z.pos (Pos.of_uint_acc d acc).
Proof.
  induction d as [| d IH | d IH | d IH | d IH | d IH | d IH | d IH | d IH
                  | d IH | d IH]; intros acc;
    cbn [NilEmpty.string_of_uint Json.digits_value Pos.of_uint_acc];
    [reflexivity | ..];
    rewrite <- IH; f_equal;
    match goal with
    | |- context [Z.of_nat ?n] =>
        let k := eval vm_compute in (Z.of_nat n) in
        change (Z.of_nat n) with k
    end; lia.
Qed.

Lemma digits_value_uint :
  forall d,
    Json.digits_value 0 (NilEmpty.string_of_uint d) = Z.of_N (Pos.of_uint d).
Proof.
  induction d as [| d IH | d IH | d IH | d IH | d IH | d IH | d IH | d IH
                  | d IH | d IH];
    cbn [NilEmpty.string_of_uint Json.digits_value Pos.of_uint];
    [reflexivity | exact IH | ..];
    match goal with
    | |- context [Z.of_nat ?n] =>
        let k := eval vm_compute in (Z.of_nat n) in
        change (Z.of_nat n) with k
    end; cbn [Z.mul Z.add Z.of_N]; apply digits_value_acc.
Qed.

(** The digits of a positive number: digits only, the first one not a
    zero. *)
Lemma span_digits_uint :
  forall d,
    Json.span_digits (NilEmpty.string_of_uint d) =
    (NilEmpty.string_of_uint d, "").
Proof.
  induction d as [| d IH | d IH | d IH | d IH | d IH | d IH | d IH | d IH
                  | d IH | d IH];
    cbn [NilEmpty.string_of_uint Json.span_digits]; [reflexivity | ..];
    match goal with
    | |- context [Str.isdigit ?c] => change (Str.isdigit c) with true
    end; cbv iota; rewrite IH; reflexivity.
Qed.

Lemma to_uint_leading (p : positive) :
  match Pos.to_uint p with
  | Decimal.Nil | Decimal.D0 _ => False
  | _ => True
  end.
Proof.
  pose proof (DecimalPos.Unsigned.to_uint_nonzero p) as Hnz.
  pose proof (DecimalPos.Unsigned.to_uint_nonnil p) as Hnn.
  pose proof (DecimalPos.Unsigned.to_of (Pos.to_uint p)) as Hn.
  rewrite DecimalPos.Unsigned.of_to in Hn.
  change (N.to_uint (N.pos p)) with (Pos.to_uint p) in Hn.
  destruct (Pos.to_uint p) as [| u | u | u | u | u | u | u | u | u | u];
    try exact I; try congruence.
  unfold Decimal.unorm in Hn. cbn [Decimal.nzhead] in Hn.
  pose proof (DecimalFacts.nzhead_nonzero u) as Hh.
  destruct (Decimal.nzhead u) eqn:E; try (inversion Hn; subst; congruence);
    try (exfalso; apply (Hh _ Hn)); try discriminate.
Qed.

Lemma match_number_digits (c : ascii) (r : string) (z : Z) :
  Ascii.eqb c "-" = false -> Ascii.eqb c "0" = false ->
  Json.span_digits (String c r) = (String c r, "") ->
  Json.digits_value 0 (String c r) = z ->
  Json.match_number (String c r) = Some (JInt z, "") /\
  Json.match_number (String "-" (String c r)) = Some (JInt (- z), "").
Proof.
  intros H1 H2 Hs Hv.
  assert (Hi : Json.match_integer (String c r) = Some (String c r, "")).
  { unfold Json.match_integer. cbn [Str.after_char]. rewrite H1.
    cbv beta iota zeta. cbn [Str.after_char]. rewrite H2, Hs. reflexivity. }
  assert (Hm : Json.match_integer (String "-" (String c r)) =
               Some (String "-" (String c r), "")).
  { unfold Json.match_integer. cbn [Str.after_char].
    change (Ascii.eqb "-" "-") with true. cbv beta iota zeta.
    cbn [Str.after_char]. rewrite H2, Hs. reflexivity. }
  unfold Json.match_number. rewrite Hi, Hm.
  change (Json.match_frac "") with ("", "").
  change (Json.match_exp "") with ("", ""). cbv beta iota zeta.
  unfold Json.int_of_literal. cbn [Str.after_char]. rewrite H1.
  change (Ascii.eqb "-" "-") with true. cbv iota. rewrite Hv.
  split; reflexivity.
Qed.

Lemma match_number_of_Z (z : Z) :
  Json.match_number (Str.of_Z z) = Some (JInt z, "").
Proof.
  assert (Hpos : forall p,
            Json.match_number (NilEmpty.string_of_uint (Pos.to_uint p)) =
              Some (JInt (Z.pos p), "") /\
            Json.match_number
              (String "-" (NilEmpty.string_of_uint (Pos.to_uint p))) =
              Some (JInt (Z.neg p), "")).
  { intros p.
    pose proof (to_uint_leading p) as Hl.
    pose proof (digits_value_uint (Pos.to_uint p)) as Hv.
    pose proof (span_digits_uint (Pos.to_uint p)) as Hs.
    rewrite DecimalPos.Unsigned.of_to in Hv.
    destruct (Pos.to_uint p) as [| u | u | u | u | u | u | u | u | u | u];
      try contradiction;
      cbn [NilEmpty.string_of_uint] in *;
      apply (match_number_digits _ _ (Z.pos p)); try reflexivity; assumption. }
  unfold Str.of_Z. destruct z as [| p | p].
  - reflexivity.
  - apply Hpos.
  - apply Hpos.
Qed.

(** What follows a value is no part of a number. *)
Lemma ends_value_char (c : ascii) (r : string) :
  Json.ends_value (String c r) = true ->
  Str.isdigit c = false /\ Ascii.eqb c "." = false /\
  Ascii.eqb c "e" = false /\ Ascii.eqb c "E" = false /\
  Ascii.eqb c "+" = false /\ Ascii.eqb c "-" = false /\
  Ascii.eqb c "0" = false.
Proof.
  unfold Json.ends_value, Json.is_ws, Str.is_char. intros H.
  repeat (apply orb_true_iff in H; destruct H as [H | H]);
    apply Ascii.eqb_eq in H; subst c; repeat split; reflexivity.
Qed.

Lemma after_char_app (c : ascii) (s r rest : string) :
  Str.after_char c s = Some r ->
  Str.after_char c (s ++ rest) = Some (r ++ rest).
Proof.
  destruct s as [| d s]; [discriminate |]. cbn [append Str.after_char].
  destruct (Ascii.eqb d c); [| discriminate].
  intros H. inversion H. reflexivity.
Qed.

Lemma after_char_none_app (c d : ascii) (s rest : string) :
  Str.after_char c (String d s) = None ->
  Str.after_char c (String d s ++ rest) = None.
Proof.
  cbn [append Str.after_char]. destruct (Ascii.eqb d c); [discriminate |].
  reflexivity.
Qed.

Lemma span_digits_app (rest : string) :
  Json.ends_value rest = true ->
  forall s ds r,
    Json.span_digits s = (ds, r) ->
    Json.span_digits (s ++ rest) = (ds, r ++ rest).
Proof.
  intros He. induction s as [| c s IH]; intros ds r H.
  - cbn [Json.span_digits] in H. inversion H. subst. cbn [append].
    destruct rest as [| c rest]; [reflexivity |].
    destruct (ends_value_char _ _ He) as (Hd & _).
    cbn [Json.span_digits]. rewrite Hd. reflexivity.
  - cbn [Json.span_digits append] in *.
    destruct (Str.isdigit c).
    + destruct (Json.span_digits s) as [ds' r'] eqn:Hs.
      inversion H. subst. rewrite (IH _ _ eq_refl). reflexivity.
    + inversion H. reflexivity.
Qed.

Lemma match_integer_app (rest : string) :
  Json.ends_value rest = true ->
  forall s integer r,
    Json.match_integer s = Some (integer, r) ->
    Json.match_integer (s ++ rest) = Some (integer, r ++ rest).
Proof.
  intros He s integer r. unfold Json.match_integer.
  assert (Hbody : forall body sign,
            match Str.after_char "0" body with
            | Some r0 => Some (sign ++ "0", r0)
            | None =>
                match Json.span_digits body with
                | ("", _) => None
                | (ds, rest0) => Some (sign ++ ds, rest0)
                end
            end = Some (integer, r) ->
            match Str.after_char "0" (body ++ rest) with
            | Some r0 => Some (sign ++ "0", r0)
            | None =>
                match Json.span_digits (body ++ rest) with
                | ("", _) => None
                | (ds, rest0) => Some (sign ++ ds, rest0)
                end
            end = Some (integer, r ++ rest)).
  { intros body sign.
    destruct (Str.after_char "0" body) as [r0 |] eqn:H0.
    - rewrite (after_char_app _ _ _ rest H0). intros H. inversion H.
      reflexivity.
    - destruct (Json.span_digits body) as [ds rest0] eqn:Hs.
      destruct ds as [| d ds]; [discriminate |].
      destruct body as [| b body]; [discriminate |].
      rewrite (after_char_none_app _ _ _ rest H0).
      rewrite (span_digits_app rest He _ _ _ Hs).
      intros H. inversion H. reflexivity. }
  destruct (Str.after_char "-" s) as [r0 |] eqn:Hm.
  - rewrite (after_char_app _ _ _ rest Hm). apply Hbody.
  - destruct s as [| c s]; [discriminate |].
    rewrite (after_char_none_app _ _ _ rest Hm). apply Hbody.
Qed.

Lemma match_frac_app (rest : string) :
  Json.ends_value rest = true ->
  forall s,
    Json.match_frac (s ++ rest) =
    (fst (Json.match_frac s), snd (Json.match_frac s) ++ rest).
Proof.
  intros He s. unfold Json.match_frac.
  destruct (Str.after_char "." s) as [r |] eqn:Hd.
  - rewrite (after_char_app _ _ _ rest Hd).
    destruct (Json.span_digits r) as [ds r'] eqn:Hs.
    rewrite (span_digits_app rest He _ _ _ Hs).
    destruct ds; reflexivity.
  - destruct s as [| c s].
    + cbn [append]. destruct rest as [| c rest]; [reflexivity |].
      destruct (ends_value_char _ _ He) as (_ & Hdot & _).
      cbn [Str.after_char]. rewrite Hdot. reflexivity.
    + rewrite (after_char_none_app _ _ _ rest Hd). reflexivity.
Qed.

Lemma match_exp_app (rest : string) :
  Json.ends_value rest = true ->
  forall s,
    Json.match_exp (s ++ rest) =
    (fst (Json.match_exp s), snd (Json.match_exp s) ++ rest).
Proof.
  intros He s. destruct s as [| e r].
  - cbn [append]. destruct rest as [| c rest]; [reflexivity |].
    destruct (ends_value_char _ _ He) as (_ & _ & H1 & H2 & _).
    unfold Json.match_exp, Str.is_char. rewrite H1, H2. reflexivity.
  - cbn [append]. unfold Json.match_exp.
    destruct (Str.is_char e "e" || Str.is_char e "E"); [| reflexivity].
    assert (Hsign : forall sign r1,
              match Json.span_digits (r1 ++ rest) with
              | ("", _) => ("", String e (r ++ rest))
              | (ds, rest0) => (String e (sign ++ ds), rest0)
              end =
              (fst match Json.span_digits r1 with
                   | ("", _) => ("", String e r)
                   | (ds, rest0) => (String e (sign ++ ds), rest0)
                   end,
               snd match Json.span_digits r1 with
                   | ("", _) => ("", String e r)
                   | (ds, rest0) => (String e (sign ++ ds), rest0)
                   end ++ rest)).
    { intros sign r1. destruct (Json.span_digits r1) as [ds r'] eqn:Hs.
      rewrite (span_digits_app rest He _ _ _ Hs). destruct ds; reflexivity. }
    destruct r as [| c r].
    + cbn [append Str.after_char].
      assert (Hn : Str.after_char "-" rest = None /\
                   Str.after_char "+" rest = None).
      { destruct rest as [| c rest]; [split; reflexivity |].
        destruct (ends_value_char _ _ He) as (_ & _ & _ & _ & Hp & Hm & _).
        cbn [Str.after_char]. rewrite Hp, Hm. split; reflexivity. }
      destruct Hn as [Hm Hp]. rewrite Hm, Hp.
      apply (Hsign "" "").
    + destruct (Str.after_char "-" (String c r)) as [r' |] eqn:Hm.
      * rewrite (after_char_app _ _ _ rest Hm). apply Hsign.
      * rewrite (after_char_none_app _ _ _ rest Hm).
        destruct (Str.after_char "+" (String c r)) as [r' |] eqn:Hp.
        -- rewrite (after_char_app _ _ _ rest Hp). apply Hsign.
        -- rewrite (after_char_none_app _ _ _ rest Hp).
           apply (Hsign "" (String c r)).
Qed.

(** A number is read the same with the rest of a text after it. *)
Lemma match_number_app (rest : string) :
  Json.ends_value rest = true ->
  forall s v,
    Json.match_number s = Some (v, "") ->
    Json.match_number (s ++ rest) = Some (v, rest).
Proof.
  intros He s v. unfold Json.match_number.
  destruct (Json.match_integer s) as [[integer r1] |] eqn:Hi; [| discriminate].
  rewrite (match_integer_app rest He _ _ _ Hi).
  rewrite (match_frac_app rest He r1).
  destruct (Json.match_frac r1) as [frac r2]. cbn [fst snd].
  rewrite (match_exp_app rest He r2).
  destruct (Json.match_exp r2) as [exp r3]. cbn [fst snd].
  destruct frac; [destruct exp |]; intros H; inversion H; subst; reflexivity.
Qed.

(** A text that starts like a number is read as one. *)
Lemma match_integer_start (s integer r : string) :
  Json.match_integer s = Some (integer, r) ->
  exists c t, s = String c t /\
              (Str.isdigit c = true \/ c = "-"%char).
Proof.
  unfold Json.match_integer. destruct s as [| c t].
  - discriminate.
  - intros H. exists c, t. split; [reflexivity |].
    cbn [Str.after_char] in H.
    destruct (Ascii.eqb_spec c "-") as [-> | Hne]; [right; reflexivity |].
    left. cbv beta iota zeta in H. cbn [Str.after_char] in H.
    destruct (Ascii.eqb_spec c "0") as [-> | Hn0]; [reflexivity |].
    cbn [Json.span_digits] in H. destruct (Str.isdigit c); [reflexivity |].
    discriminate.
Qed.

Lemma scan_once_number (fuel : nat) (c : ascii) (t : string) :
  Str.isdigit c = true \/ c = "-"%char ->
  Json.scan_once (S fuel) (String c t) =
  match Json.match_number (String c t) with
  | Some (v, rest) => Json.Scanned v rest
  | None =>
      if Str.startswith "-Infinity" (String c t)
      then Json.Scanned (JFloat "-Infinity") (Str.drop 9 (String c t))
      else Json.Malformed
  end.
Proof.
  intros H.
  assert (Hc : Str.is_char c "034" = false /\ Str.is_char c "{" = false /\
               Str.is_char c "[" = false /\ Ascii.eqb "n" c = false /\
               Ascii.eqb "t" c = false /\ Ascii.eqb "f" c = false /\
               Ascii.eqb "N" c = false /\ Ascii.eqb "I" c = false).
  { destruct H as [H | ->]; [| repeat split; reflexivity].
    destruct c as [[] [] [] [] [] [] [] []]; try discriminate;
      repeat split; reflexivity. }
  destruct Hc as (H1 & H2 & H3 & H4 & H5 & H6 & H7 & H8).
  cbn [Json.scan_once]. rewrite H1, H2, H3.
  cbn [Str.startswith]. rewrite H4, H5, H6, H7, H8. cbn [andb].
  reflexivity.
Qed.

(** *** Values *)

Lemma append_nil_r (s : string) : s ++ "" = s.
Proof. induction s as [| c s IH]; simpl; [reflexivity | rewrite IH; reflexivity]. Qed.

Lemma match_number_start (s : string) (v : json) (r : string) :
  Json.match_number s = Some (v, r) ->
  exists c t, s = String c t /\ (Str.isdigit c = true \/ c = "-"%char).
Proof.
  unfold Json.match_number.
  destruct (Json.match_integer s) as [[integer r1] |] eqn:Hi; [| discriminate].
  intros _. apply (match_integer_start _ _ _ Hi).
Qed.

Lemma number_literal (literal : string) :
  Json.is_number_literal literal = true ->
  Json.match_number literal = Some (JFloat literal, "").
Proof.
  unfold Json.is_number_literal.
  destruct (Json.match_number literal) as [[v r] |]; [| discriminate].
  destruct v; try discriminate. destruct r; [| discriminate].
  intros H. apply String.eqb_eq in H. subst. reflexivity.
Qed.

Lemma number_char_starts (c : ascii) (t : string) :
  Str.isdigit c = true \/ c = "-"%char ->
  Json.starts_value (String c t) = true.
Proof.
  intros [H | ->]; [| reflexivity].
  destruct c as [[] [] [] [] [] [] [] []]; try discriminate; reflexivity.
Qed.

Lemma starts_value_app (s rest : string) :
  Json.starts_value s = true -> Json.starts_value (s ++ rest) = true.
Proof. destruct s; [discriminate | exact (fun H => H)]. Qed.

Lemma starts_value_skip_ws (s : string) :
  Json.starts_value s = true -> Json.skip_ws s = s.
Proof.
  destruct s as [| c s]; [discriminate |]. cbn [Json.starts_value].
  intros H. apply andb_true_iff in H. destruct H as [H _].
  apply negb_true_iff in H. unfold Json.skip_ws. cbn [Str.lstrip_by].
  rewrite H. reflexivity.
Qed.

Lemma starts_value_no_bracket (s : string) :
  Json.starts_value s = true -> Str.after_char "]" s = None.
Proof.
  destruct s as [| c s]; [discriminate |]. cbn [Json.starts_value].
  intros H. apply andb_true_iff in H. destruct H as [_ H].
  apply negb_true_iff in H. cbn [Str.after_char]. unfold Str.is_char in H.
  rewrite H. reflexivity.
Qed.

(** The text of a well-formed value starts as a value does. *)
Lemma encode_starts (isep ksep : string) (v : json) :
  Json.well_formed v = true ->
  Json.starts_value (Json.encode isep ksep false v) = true.
Proof.
  destruct v as [| b | z | literal | s | items | members]; intros Hw;
    try reflexivity.
  - destruct b; reflexivity.
  - cbn [Json.encode].
    destruct (match_number_start _ _ _ (match_number_of_Z z))
      as (c & t & E & Hc).
    rewrite E. apply (number_char_starts _ _ Hc).
  - cbn [Json.encode Json.well_formed] in *.
    destruct (match_number_start _ _ _ (number_literal _ Hw))
      as (c & t & E & Hc).
    rewrite E. apply (number_char_starts _ _ Hc).
Qed.

(** A dict built from pairs with different keys is the list of pairs. *)
Lemma distinct_NoDup (keys : list string) :
  Json.distinct keys = true -> NoDup keys.
Proof.
  induction keys as [| k keys IH]; intros H; [constructor |].
  cbn [Json.distinct] in H. apply andb_true_iff in H. destruct H as [Hk Hr].
  constructor; [| apply IH; exact Hr].
  intros Hin. apply negb_true_iff in Hk.
  assert (existsb (String.eqb k) keys = true).
  { apply existsb_exists. exists k. split; [exact Hin | apply String.eqb_refl]. }
  congruence.
Qed.

Lemma set_fresh (k : string) (v : json) :
  forall d, ~ In k (map fst d) -> Dict.set k v d = (d ++ [(k, v)])%list.
Proof.
  induction d as [| [k' v'] d IH]; intros H; [reflexivity |].
  cbn [Dict.set]. destruct (String.eqb_spec k k') as [-> | Hne].
  - exfalso. apply H. left. reflexivity.
  - cbn [app]. rewrite IH; [reflexivity |]. intros Hin. apply H. right.
    exact Hin.
Qed.

Lemma of_pairs_distinct (ps : list (string * json)) :
  NoDup (map fst ps) -> Dict.of_pairs ps = ps.
Proof.
  unfold Dict.of_pairs.
  assert (H : forall ps d,
            NoDup (map fst d ++ map fst ps) ->
            fold_left (fun d kv => Dict.set (fst kv) (snd kv) d) ps d =
            (d ++ ps)%list).
  { clear ps. induction ps as [| [k v] ps IH]; intros d Hnd.
    - cbn [fold_left]. rewrite app_nil_r. reflexivity.
    - cbn [fold_left fst snd map] in *.
      rewrite set_fresh.
      + rewrite IH.
        * rewrite <- app_assoc. reflexivity.
        * rewrite map_app. cbn [map fst]. rewrite <- app_assoc. exact Hnd.
      + intros Hin. apply NoDup_remove_2 in Hnd. apply Hnd.
        apply in_or_app. left. exact Hin. }
  intros Hnd. apply (H ps []). exact Hnd.
Qed.

Lemma join_starts (isep : string) (x : string) (l : list string) (rest : string) :
  Json.starts_value x = true ->
  Json.starts_value (Json.join isep (x :: l) ++ rest) = true.
Proof.
  intros H. destruct l as [| y l]; cbn [Json.join].
  - apply starts_value_app. exact H.
  - rewrite !append_assoc. apply starts_value_app. exact H.
Qed.

Lemma separator_ends (c : ascii) (sep rest : string) :
  Json.separator c sep -> c = ","%char ->
  Json.ends_value (sep ++ rest) = true.
Proof. intros [-> | ->] ->; reflexivity. Qed.

Lemma separator_length (c : ascii) (sep : string) :
  Json.separator c sep -> (1 <= String.length sep)%nat.
Proof. intros [-> | ->]; simpl; lia. Qed.

(** After a separator and the blank that may follow it comes the next
    value. *)
Lemma separator_after (c : ascii) (sep next : string) :
  Json.separator c sep -> Json.starts_value next = true ->
  exists mid, sep ++ next = String c mid /\ Json.skip_ws mid = next.
Proof.
  intros Hsep Hn. pose proof (starts_value_skip_ws _ Hn) as Hs.
  destruct Hsep as [-> | ->]; cbn [append].
  - exists next. split; [reflexivity | exact Hs].
  - exists (String " " next). split; [reflexivity |].
    unfold Json.skip_ws in *. cbn [Str.lstrip_by].
    change (Json.is_ws " ") with true. cbv iota. exact Hs.
Qed.

Lemma array_items_encoded (isep ksep : string) :
  Json.separator "," isep ->
  forall items x acc fuel rest,
    Forall (fun x =>
              Json.starts_value (Json.encode isep ksep false x) = true /\
              forall fuel rest,
                Json.ends_value rest = true ->
                (2 * String.length (Json.encode isep ksep false x ++ rest) + 1
                 <= fuel)%nat ->
                Json.scan_once fuel (Json.encode isep ksep false x ++ rest) =
                Json.Scanned x rest) (x :: items) ->
    Json.ends_value rest = true ->
    (2 * String.length
           (Json.join isep (map (Json.encode isep ksep false) (x :: items))
            ++ String "]" rest) + 2 <= fuel)%nat ->
    Json.array_items fuel acc
      (Json.join isep (map (Json.encode isep ksep false) (x :: items))
       ++ String "]" rest) =
    Json.Scanned (JArr (rev acc ++ x :: items)) rest.
Proof.
  intros Hsep. induction items as [| y items IH];
    intros x acc fuel rest HF He Hfuel;
    inversion HF as [| ? ? [Hsx Hx] HF']; subst.
  - cbn [map Json.join] in *.
    destruct fuel as [| f]; [lia |]. cbn [Json.array_items].
    rewrite (Hx f (String "]" rest)); [| reflexivity | lia].
    change (Json.skip_ws (String "]" rest)) with (String "]" rest).
    change (Str.after_char "]" (String "]" rest)) with (Some rest).
    reflexivity.
  - inversion HF' as [| ? ? [Hsy Hy] _]; subst.
    remember (Json.join isep (map (Json.encode isep ksep false) (y :: items))
              ++ String "]" rest) as next eqn:Enext.
    assert (Hnext : Json.starts_value next = true).
    { subst next. cbn [map]. apply join_starts. exact Hsy. }
    assert (Ejoin : Json.join isep
                      (map (Json.encode isep ksep false) (x :: y :: items))
                    ++ String "]" rest =
                    Json.encode isep ksep false x ++ isep ++ next).
    { subst next. cbn [map Json.join]. rewrite !append_assoc. reflexivity. }
    rewrite Ejoin in *. clear Ejoin.
    pose proof (separator_length _ _ Hsep) as Hlen.
    destruct (separator_after _ _ next Hsep Hnext) as (mid & Emid & Hmid).
    assert (Hl : String.length (isep ++ next) = S (String.length mid))
      by (rewrite Emid; reflexivity).
    pose proof (skip_ws_length mid) as Hws. rewrite Hmid in Hws.
    rewrite length_append in Hfuel.
    destruct fuel as [| f]; [lia |]. cbn [Json.array_items].
    rewrite (Hx f (isep ++ next));
      [| apply (separator_ends _ _ _ Hsep eq_refl)
       | rewrite length_append; lia].
    rewrite Emid.
    change (Json.skip_ws (String "," mid)) with (String "," mid).
    change (Str.after_char "]" (String "," mid)) with (@None string).
    change (Str.after_char "," (String "," mid)) with (Some mid).
    cbv iota. rewrite Hmid. rewrite Enext.
    rewrite (IH y (x :: acc) f rest HF' He).
    + cbn [rev]. rewrite <- app_assoc. reflexivity.
    + rewrite <- Enext. lia.
Qed.

Lemma member_text (k ksep e tail : string) :
  (Json.encode_basestring false k ++ ksep ++ e) ++ tail =
  String "034" (Json.escape_body false k ++ String "034" (ksep ++ e ++ tail)).
Proof.
  unfold Json.encode_basestring. cbn [append]. rewrite !append_assoc.
  reflexivity.
Qed.

Lemma object_pairs_encoded (isep ksep : string) :
  Json.separator "," isep -> Json.separator ":" ksep ->
  forall members m acc fuel rest,
    Forall (fun kv =>
              Json.starts_value (Json.encode isep ksep false (snd kv)) = true /\
              forall fuel rest,
                Json.ends_value rest = true ->
                (2 * String.length
                       (Json.encode isep ksep false (snd kv) ++ rest) + 1
                 <= fuel)%nat ->
                Json.scan_once fuel
                  (Json.encode isep ksep false (snd kv) ++ rest) =
                Json.Scanned (snd kv) rest) (m :: members) ->
    Json.ends_value rest = true ->
    (2 * String.length
           (Json.join isep
              (map (fun kv => Json.encode_basestring false (fst kv) ++ ksep ++
                              Json.encode isep ksep false (snd kv))
                   (m :: members))
            ++ String "}" rest) + 1 <= fuel)%nat ->
    Json.object_pairs fuel acc
      (Json.join isep
         (map (fun kv => Json.encode_basestring false (fst kv) ++ ksep ++
                         Json.encode isep ksep false (snd kv))
              (m :: members))
       ++ String "}" rest) =
    Json.Scanned (JObj (Dict.of_pairs (rev acc ++ m :: members))) rest.
Proof.
  intros Hsep Hksep. induction members as [| m' members IH];
    intros [k v] acc fuel rest HF He Hfuel;
    inversion HF as [| ? ? [Hsx Hx] HF']; subst; cbn [fst snd] in *.
  - cbn [map Json.join fst snd] in *. rewrite member_text in *.
    destruct (separator_after _ _ (Json.encode isep ksep false v
                                   ++ String "}" rest) Hksep
                (starts_value_app _ _ Hsx)) as (mid & Emid & Hmid).
    rewrite Emid in *.
    pose proof (escape_body_length k) as Hk.
    pose proof (skip_ws_length mid) as Hws. rewrite Hmid in Hws.
    cbn [String.length] in Hfuel. rewrite length_append in Hfuel.
    cbn [String.length] in Hfuel.
    destruct fuel as [| f]; [lia |]. cbn [Json.object_pairs].
    cbn [Str.after_char]. change (Ascii.eqb "034" "034") with true. cbv iota.
    rewrite scanstring_escape_body
      by (cbn [String.length]; rewrite length_append; cbn [String.length]; lia).
    change (Json.skip_ws (String ":" mid)) with (String ":" mid).
    change (Str.after_char ":" (String ":" mid)) with (Some mid). cbv iota.
    rewrite Hmid.
    rewrite (Hx f (String "}" rest)); [| reflexivity | lia].
    change (Json.skip_ws (String "}" rest)) with (String "}" rest).
    change (Str.after_char "}" (String "}" rest)) with (Some rest).
    reflexivity.
  - inversion HF' as [| ? ? [Hsy Hy] _]; subst.
    remember (Json.join isep
                (map (fun kv => Json.encode_basestring false (fst kv) ++ ksep ++
                                Json.encode isep ksep false (snd kv))
                     (m' :: members))
              ++ String "}" rest) as next eqn:Enext.
    assert (Hnext : Json.starts_value next = true).
    { subst next. cbn [map]. apply join_starts. reflexivity. }
    assert (Ejoin :
              Json.join isep
                (map (fun kv => Json.encode_basestring false (fst kv) ++ ksep ++
                                Json.encode isep ksep false (snd kv))
                     ((k, v) :: m' :: members))
              ++ String "}" rest =
              String "034"
                (Json.escape_body false k ++
                 String "034" (ksep ++ Json.encode isep ksep false v ++
                               isep ++ next))).
    { subst next. cbn [map Json.join fst snd]. rewrite append_assoc.
      rewrite (append_assoc isep). rewrite member_text. reflexivity. }
    rewrite Ejoin in *. clear Ejoin.
    destruct (separator_after _ _ (Json.encode isep ksep false v
                                   ++ isep ++ next) Hksep
                (starts_value_app _ _ Hsx)) as (mid & Emid & Hmid).
    destruct (separator_after _ _ next Hsep Hnext) as (mid2 & Emid2 & Hmid2).
    rewrite Emid in *.
    pose proof (escape_body_length k) as Hk.
    pose proof (skip_ws_length mid) as Hws. rewrite Hmid in Hws.
    pose proof (skip_ws_length mid2) as Hws2. rewrite Hmid2 in Hws2.
    assert (Hl2 : String.length (isep ++ next) = S (String.length mid2))
      by (rewrite Emid2; reflexivity).
    rewrite length_append in Hws.
    cbn [String.length] in Hfuel. rewrite length_append in Hfuel.
    cbn [String.length] in Hfuel.
    destruct fuel as [| f]; [lia |]. cbn [Json.object_pairs].
    cbn [Str.after_char]. change (Ascii.eqb "034" "034") with true. cbv iota.
    rewrite scanstring_escape_body
      by (cbn [String.length]; rewrite length_append; cbn [String.length]; lia).
    change (Json.skip_ws (String ":" mid)) with (String ":" mid).
    change (Str.after_char ":" (String ":" mid)) with (Some mid). cbv iota.
    rewrite Hmid.
    rewrite (Hx f (isep ++ next));
      [| apply (separator_ends _ _ _ Hsep eq_refl)
       | rewrite length_append; lia].
    rewrite Emid2.
    change (Json.skip_ws (String "," mid2)) with (String "," mid2).
    change (Str.after_char "}" (String "," mid2)) with (@None string).
    change (Str.after_char "," (String "," mid2)) with (Some mid2).
    cbv iota. rewrite Hmid2. rewrite Enext.
    rewrite (IH m' ((k, v) :: acc) f rest HF' He).
    + cbn [rev]. rewrite <- app_assoc. reflexivity.
    + rewrite <- Enext. lia.
Qed.

Lemma forall_well_formed {A} (f : A -> json) (P : json -> Prop) (l : list A) :
  Forall (fun a => Json.well_formed (f a) = true -> P (f a)) l ->
  forallb (fun a => Json.well_formed (f a)) l = true ->
  Forall (fun a => P (f a)) l.
Proof.
  induction l as [| a l IH]; intros HF Hb; [constructor |].
  inversion HF; subst. cbn [forallb] in Hb. apply andb_true_iff in Hb.
  destruct Hb as [Ha Hl]. constructor; auto.
Qed.

(** The scanner reads the text of a well-formed value back, whatever
    follows the value in the text. *)
Lemma scan_once_encoded (isep ksep : string) :
  Json.separator "," isep -> Json.separator ":" ksep ->
  forall v,
    Json.well_formed v = true ->
    forall fuel rest,
      Json.ends_value rest = true ->
      (2 * String.length (Json.encode isep ksep false v ++ rest) + 1
       <= fuel)%nat ->
      Json.scan_once fuel (Json.encode isep ksep false v ++ rest) =
      Json.Scanned v rest.
Proof.
  intros Hsep Hksep. apply (json_induction (fun v =>
    Json.well_formed v = true ->
    forall fuel rest,
      Json.ends_value rest = true ->
      (2 * String.length (Json.encode isep ksep false v ++ rest) + 1
       <= fuel)%nat ->
      Json.scan_once fuel (Json.encode isep ksep false v ++ rest) =
      Json.Scanned v rest)).
  - intros _ fuel rest _ Hf. destruct fuel; [lia | reflexivity].
  - intros b _ fuel rest _ Hf. destruct fuel; [lia |].
    destruct b; reflexivity.
  - intros z _ fuel rest He Hf. cbn [Json.encode] in *.
    pose proof (match_number_app rest He _ _ (match_number_of_Z z)) as Hm.
    destruct (match_number_start _ _ _ (match_number_of_Z z))
      as (c & t & E & Hc).
    rewrite E in *. cbn [append] in *.
    destruct fuel; [lia |]. rewrite (scan_once_number _ _ _ Hc), Hm.
    reflexivity.
  - intros literal Hw fuel rest He Hf. cbn [Json.encode Json.well_formed] in *.
    pose proof (match_number_app rest He _ _ (number_literal _ Hw)) as Hm.
    destruct (match_number_start _ _ _ (number_literal _ Hw))
      as (c & t & E & Hc).
    rewrite E in *. cbn [append] in *.
    destruct fuel; [lia |]. rewrite (scan_once_number _ _ _ Hc), Hm.
    reflexivity.
  - intros s _ fuel rest He Hf. cbn [Json.encode] in *.
    unfold Json.encode_basestring in *. cbn [append] in *.
    rewrite append_assoc in *. cbn [append] in *.
    destruct fuel; [lia |]. cbn [Json.scan_once].
    change (Str.is_char "034" "034") with true. cbv iota.
    pose proof (escape_body_length s) as Hl.
    rewrite scanstring_escape_body
      by (cbn [String.length]; rewrite length_append; cbn [String.length]; lia).
    reflexivity.
  - intros items HF Hw fuel rest He Hf. cbn [Json.well_formed] in Hw.
    pose proof (forall_well_formed (fun x => x)
                (fun v =>
                  forall fuel rest,
                    Json.ends_value rest = true ->
                    (2 * String.length (Json.encode isep ksep false v ++ rest)
                     + 1 <= fuel)%nat ->
                    Json.scan_once fuel (Json.encode isep ksep false v ++ rest)
                    = Json.Scanned v rest)
                items HF Hw) as HP.
    destruct items as [| x items].
    + destruct fuel; [lia | reflexivity].
    + cbn [Json.encode] in *.
      assert (HQ : Forall (fun x =>
                    Json.starts_value (Json.encode isep ksep false x) = true /\
                    forall fuel rest,
                      Json.ends_value rest = true ->
                      (2 * String.length
                             (Json.encode isep ksep false x ++ rest) + 1
                       <= fuel)%nat ->
                      Json.scan_once fuel
                        (Json.encode isep ksep false x ++ rest) =
                      Json.Scanned x rest) (x :: items)).
      { rewrite Forall_forall in HP |- *. intros y Hy. split.
        - apply encode_starts. rewrite forallb_forall in Hw. apply Hw.
          exact Hy.
        - apply HP. exact Hy. }
      cbn [append] in *. rewrite append_assoc in *. cbn [append] in *.
      assert (Hst : Json.starts_value
                      (Json.join isep
                         (map (Json.encode isep ksep false) (x :: items))
                       ++ String "]" rest) = true).
      { cbn [map]. apply join_starts. inversion HQ as [| ? ? [Hs _] _].
        exact Hs. }
      cbn [String.length] in Hf.
      destruct fuel; [lia |]. cbn [Json.scan_once].
      change (Str.is_char "[" "034") with false.
      change (Str.is_char "[" "{") with false.
      change (Str.is_char "[" "[") with true. cbv iota.
      rewrite (starts_value_skip_ws _ Hst), (starts_value_no_bracket _ Hst).
      rewrite (array_items_encoded isep ksep Hsep items x [] fuel rest HQ He);
        [reflexivity | lia].
  - intros members HF Hw fuel rest He Hf. cbn [Json.well_formed] in Hw.
    apply andb_true_iff in Hw. destruct Hw as [Hd Hw].
    pose proof (forall_well_formed snd
                (fun v =>
                  forall fuel rest,
                    Json.ends_value rest = true ->
                    (2 * String.length (Json.encode isep ksep false v ++ rest)
                     + 1 <= fuel)%nat ->
                    Json.scan_once fuel (Json.encode isep ksep false v ++ rest)
                    = Json.Scanned v rest)
                members HF Hw) as HP.
    destruct members as [| m members].
    + destruct fuel; [lia | reflexivity].
    + cbn [Json.encode] in *.
      assert (HQ : Forall (fun kv =>
                    Json.starts_value
                      (Json.encode isep ksep false (snd kv)) = true /\
                    forall fuel rest,
                      Json.ends_value rest = true ->
                      (2 * String.length
                             (Json.encode isep ksep false (snd kv) ++ rest) + 1
                       <= fuel)%nat ->
                      Json.scan_once fuel
                        (Json.encode isep ksep false (snd kv) ++ rest) =
                      Json.Scanned (snd kv) rest) (m :: members)).
      { rewrite Forall_forall in HP |- *. intros y Hy. split.
        - apply encode_starts. rewrite forallb_forall in Hw. apply Hw.
          exact Hy.
        - apply HP. exact Hy. }
      cbn [append] in *. rewrite append_assoc in *. cbn [append] in *.
      assert (Hst : Json.starts_value
                      (Json.join isep
                         (map (fun kv =>
                                 Json.encode_basestring false (fst kv) ++ ksep
                                 ++ Json.encode isep ksep false (snd kv))
                              (m :: members))
                       ++ String "}" rest) = true).
      { cbn [map]. apply join_starts. reflexivity. }
      assert (Hnb : Str.after_char "}"
                      (Json.join isep
                         (map (fun kv =>
                                 Json.encode_basestring false (fst kv) ++ ksep
                                 ++ Json.encode isep ksep false (snd kv))
                              (m :: members))
                       ++ String "}" rest) = None).
      { cbn [map]. destruct members; cbn [map Json.join];
          rewrite ?append_assoc; reflexivity. }
      cbn [String.length] in Hf.
      destruct fuel; [lia |]. cbn [Json.scan_once].
      change (Str.is_char "{" "034") with false.
      change (Str.is_char "{" "{") with true. cbv iota.
      rewrite (starts_value_skip_ws _ Hst), Hnb.
      rewrite (object_pairs_encoded isep ksep Hsep Hksep members m [] fuel rest
                 HQ He); [| lia].
      cbn [rev app]. rewrite of_pairs_distinct; [reflexivity |].
      apply distinct_NoDup. exact Hd.
Qed.

(** [loads] gives back every well-formed value that [dumps], or the
    compact encoder, wrote. *)
Lemma loads_encoded (isep ksep : string) (v : json) :
  Json.separator "," isep -> Json.separator ":" ksep ->
  Json.well_formed v = true ->
  Json.loads (Json.encode isep ksep false v) = Some v.
Proof.
  intros Hsep Hksep Hw. unfold Json.loads.
  rewrite (starts_value_skip_ws _ (encode_starts isep ksep v Hw)).
  pose proof (scan_once_encoded isep ksep Hsep Hksep v Hw
                (Json.budget (Json.encode isep ksep false v)) "" eq_refl) as H.
  rewrite append_nil_r in H. rewrite H; [reflexivity |].
  unfold Json.budget. lia.
Qed.

Lemma loads_dumps (v : json) :
  Json.well_formed v = true ->
  Json.loads (Json.dumps false v) = Some v /\
  Json.loads (Json.dumps_compact v) = Some v.
Proof.
  intros Hw. split; apply loads_encoded; try exact Hw;
    solve [left; reflexivity | right; reflexivity].
Qed.

(** ** The normalizer on clean and on fenced JSON text (utils.py) *)

(** The text of a dict or of a list: an opening character, the inside,
    and the closing character. *)
Lemma container_text (isep ksep : string) (v : json) :
  (exists members, v = JObj members) \/ (exists items, v = JArr items) ->
  exists o mid cl,
    Json.encode isep ksep false v = String o (mid ++ String cl "") /\
    ((o = "{"%char /\ cl = "}"%char) \/ (o = "["%char /\ cl = "]"%char)).
Proof.
  intros [[members ->] | [items ->]]; cbn [Json.encode append];
    eexists; eexists; eexists; split; try reflexivity; auto.
Qed.

Lemma strip_by_inner (p : ascii -> bool) (o cl : ascii) (mid : string) :
  p o = false -> p cl = false ->
  Str.strip_by p (String o (mid ++ String cl "")) =
  String o (mid ++ String cl "").
Proof.
  intros Ho Hc. unfold Str.strip_by. cbn [Str.lstrip_by]. rewrite Ho.
  change (String o (mid ++ String cl "")) with (String o mid ++ String cl "").
  rewrite (rstrip_by_app p cl "" Hc). reflexivity.
Qed.

Lemma take_app (pre post : string) :
  Str.take (String.length (pre ++ post) - String.length post) (pre ++ post)
  = pre.
Proof.
  rewrite length_append.
  replace (String.length pre + String.length post - String.length post)%nat
    with (String.length pre) by lia.
  induction pre as [| c pre IH]; cbn [String.length append Str.take].
  - destruct post; reflexivity.
  - rewrite IH. reflexivity.
Qed.

(** What the normalizer does once the wrappers are off. *)
Lemma clean_llm_json_of_text (raw t : string) (v : json) :
  raw <> "" ->
  Str.strip_char "'"
    (Str.strip_char "034"
       (Str.strip
          (utils.sub_trailing_fence
             (utils.sub_leading_fence (Str.strip raw))))) = t ->
  Json.loads t = Some v ->
  utils.clean_llm_json (JStr raw) = Ok v.
Proof.
  intros Hne Ht Hl. unfold utils.clean_llm_json.
  assert (Htruthy : negb (truthy (JStr raw)) = false).
  { cbn [truthy]. rewrite negb_involutive.
    destruct (String.eqb_spec raw ""); [contradiction | reflexivity]. }
  rewrite Htruthy. cbv zeta. rewrite Ht, Hl. reflexivity.
Qed.

Lemma container_unwrapped (o cl : ascii) (mid : string) :
  (o = "{"%char /\ cl = "}"%char) \/ (o = "["%char /\ cl = "]"%char) ->
  let t := String o (mid ++ String cl "") in
  Str.strip t = t /\ utils.sub_leading_fence t = t /\
  utils.sub_trailing_fence t = t /\
  Str.strip_char "034" t = t /\ Str.strip_char "'" t = t.
Proof.
  intros H t. subst t.
  assert (Hfence : utils.sub_trailing_fence (String o (mid ++ String cl "")) =
                   String o (mid ++ String cl "")).
  { unfold utils.sub_trailing_fence.
    change (String o (mid ++ String cl "")) with (String o mid ++ String cl "").
    change "```" with ("``" ++ String "`" "") at 1.
    rewrite (endswith_last_neq cl "`" "``" (String o mid))
      by (destruct H as [[_ ->] | [_ ->]]; discriminate).
    change ("```" ++ String (Str.chr 10) "")
      with ("```" ++ String (Str.chr 10) "").
    rewrite (endswith_last_neq cl (Str.chr 10) "```" (String o mid))
      by (destruct H as [[_ ->] | [_ ->]]; discriminate).
    reflexivity. }
  split; [| split; [| split; [exact Hfence | split]]].
  - apply strip_by_inner; destruct H as [[-> ->] | [-> ->]]; reflexivity.
  - destruct H as [[-> ->] | [-> ->]]; reflexivity.
  - apply strip_by_inner; destruct H as [[-> ->] | [-> ->]]; reflexivity.
  - apply strip_by_inner; destruct H as [[-> ->] | [-> ->]]; reflexivity.
Qed.

Lemma strip_between_breaks (o cl : ascii) (mid : string) :
  Str.isspace o = false -> Str.isspace cl = false ->
  Str.strip (String (Str.chr 10) (String o (mid ++ String cl ""))
             ++ String (Str.chr 10) "") =
  String o (mid ++ String cl "").
Proof.
  intros Ho Hcl.
  replace (String (Str.chr 10) (String o (mid ++ String cl ""))
           ++ String (Str.chr 10) "")
    with (String (Str.chr 10)
            (String o mid ++ String cl (String (Str.chr 10) "")))
    by (cbn [append]; rewrite append_assoc; reflexivity).
  unfold Str.strip, Str.strip_by.
  assert (Hl : forall s, Str.lstrip_by Str.isspace (String (Str.chr 10) s) =
                         Str.lstrip_by Str.isspace s) by reflexivity.
  rewrite Hl.
  assert (Hk : Str.lstrip_by Str.isspace
                 (String o mid ++ String cl (String (Str.chr 10) "")) =
               String o mid ++ String cl (String (Str.chr 10) "")).
  { cbn [append Str.lstrip_by]. rewrite Ho. reflexivity. }
  rewrite Hk. rewrite (rstrip_by_app Str.isspace cl _ Hcl). reflexivity.
Qed.

Lemma fenced_unwrapped (o cl : ascii) (mid : string) :
  (o = "{"%char /\ cl = "}"%char) \/ (o = "["%char /\ cl = "]"%char) ->
  let t := String o (mid ++ String cl "") in
  Str.strip
    (utils.sub_trailing_fence
       (utils.sub_leading_fence (Str.strip (Sample.fenced t)))) = t.
Proof.
  intros H t.
  assert (Hshape : Sample.fenced t =
                   String "`" (("``json" ++ String (Str.chr 10) t
                                ++ String (Str.chr 10) "``") ++ String "`" "")).
  { unfold Sample.fenced. cbn [append]. rewrite !append_assoc. reflexivity. }
  assert (Hstrip : Str.strip (Sample.fenced t) = Sample.fenced t).
  { rewrite Hshape. apply strip_by_inner; reflexivity. }
  rewrite Hstrip.
  assert (Hlead : utils.sub_leading_fence (Sample.fenced t) =
                  (String (Str.chr 10) t ++ String (Str.chr 10) "") ++ "```").
  { unfold Sample.fenced. cbn [append]. rewrite !append_assoc. reflexivity. }
  rewrite Hlead. unfold utils.sub_trailing_fence.
  rewrite endswith_app.
  change 3%nat with (String.length "```"). rewrite take_app.
  subst t. apply strip_between_breaks;
    destruct H as [[-> ->] | [-> ->]]; reflexivity.
Qed.

(** X24: the normalizer gives back every well-formed dict and every
    well-formed list from its JSON text, plain or between code fences
    (three backticks and json, a line break, the text, a line break, three
    backticks): the claim of the docstring holds for JSON text that is
    not encoded twice. *)
Theorem clean_llm_json_reads_plain_and_fenced_json (v : json) :
  Json.well_formed v = true ->
  (exists members, v = JObj members) \/ (exists items, v = JArr items) ->
  utils.clean_llm_json (JStr (Json.dumps false v)) = Ok v /\
  utils.clean_llm_json (JStr (Sample.fenced (Json.dumps false v))) = Ok v.
Proof.
  intros Hw Hc.
  destruct (container_text ", " ": " v Hc) as (o & mid & cl & Et & Hocl).
  destruct (loads_dumps v Hw) as [Hl _]. unfold Json.dumps in *.
  rewrite Et in *.
  destruct (container_unwrapped o cl mid Hocl) as (H1 & H2 & H3 & H4 & H5).
  split.
  - apply (clean_llm_json_of_text _ (String o (mid ++ String cl "")));
      [discriminate | | exact Hl].
    rewrite H1, H2, H3, H1, H4, H5. reflexivity.
  - apply (clean_llm_json_of_text _ (String o (mid ++ String cl "")));
      [discriminate | | exact Hl].
    rewrite (fenced_unwrapped o cl mid Hocl), H4, H5. reflexivity.
Qed.

Lemma clean_llm_json_reads_plain_and_fenced_json_witness :
  utils.clean_llm_json (JStr (Json.dumps false Sample.consensus)) =
    Ok Sample.consensus /\
  utils.clean_llm_json (JStr (Sample.fenced (Json.dumps false Sample.consensus)))
    = Ok Sample.consensus.
Proof.
  apply clean_llm_json_reads_plain_and_fenced_json.
  - reflexivity.
  - left. eexists. reflexivity.
Defined.

(** ** From the stored text of a response to the tallies (app.py, db.py) *)

Lemma record_evaluations_dumped (evs : list ModelEvaluation.t) :
  forall fa,
    db.record_evaluations (map ModelEvaluation.model_dump evs) fa =
    fold_left
      (fun acc e =>
         db.track_answers
           [("perspective",
             JStr (Article.perspective (ModelEvaluation.article e)));
            ("tone_language",
             Field.dump_opt_list_str
               (Article.tone_language (ModelEvaluation.article e)));
            ("fairness", JStr (Article.fairness (ModelEvaluation.article e)));
            ("headline_article",
             JStr (Article.headline_article (ModelEvaluation.article e)));
            ("source_of_funding",
             Field.dump_opt_list_str
               (Publication.source_of_funding (ModelEvaluation.publication e)));
            ("ownership",
             Field.dump_opt_str
               (Publication.ownership (ModelEvaluation.publication e)));
            ("location",
             Field.dump_opt_str
               (Publication.location (ModelEvaluation.publication e)))]
           acc)
      evs fa.
Proof.
  induction evs as [| e evs IH]; intros fa; [reflexivity |].
  cbn [map db.record_evaluations fold_left]. rewrite <- IH. reflexivity.
Qed.

(** X25: what the application stores is what the statistics read.  The
    text that [model_dump_json] writes for a response is decoded by the
    row loop of [get_consensus_stats_for_url], which then tracks the seven
    consensus values of the response and the seven answers of each of its
    evaluations, in their order; no stored response is skipped and no
    evaluation of it ends the loop early. *)
Theorem stored_response_is_counted (r : AnalyzeResponse.t)
    (field_values field_answers : db.fields) :
  let values := fun (a : Article.t) (p : Publication.t) =>
    [("perspective", JStr (Article.perspective a));
     ("tone_language", Field.dump_opt_list_str (Article.tone_language a));
     ("fairness", JStr (Article.fairness a));
     ("headline_article", JStr (Article.headline_article a));
     ("source_of_funding",
      Field.dump_opt_list_str (Publication.source_of_funding p));
     ("ownership", Field.dump_opt_str (Publication.ownership p));
     ("location", Field.dump_opt_str (Publication.location p))] in
  Json.well_formed (AnalyzeResponse.model_dump r) = true ->
  db.record_row (field_values, field_answers)
                (AnalyzeResponse.model_dump_json r) =
  (db.track_values
     (values (ConsensusResponse.article (AnalyzeResponse.consensus r))
             (ConsensusResponse.publication (AnalyzeResponse.consensus r)))
     field_values,
   fold_left
     (fun acc e =>
        db.track_answers
          (values (ModelEvaluation.article e) (ModelEvaluation.publication e))
          acc)
     (AnalyzeResponse.evaluations r) field_answers).
Proof.
  intros values Hw. unfold db.record_row, AnalyzeResponse.model_dump_json.
  destruct (loads_dumps _ Hw) as [_ Hl]. rewrite Hl.
  unfold AnalyzeResponse.model_dump.
  cbn [db.py_get Py.bind].
  match goal with
  | |- context [Dict.get_default "consensus" (JObj []) ?d] =>
      change (Dict.get_default "consensus" (JObj []) d)
        with (ConsensusResponse.model_dump (AnalyzeResponse.consensus r))
  end.
  unfold ConsensusResponse.model_dump. cbn [db.py_get Py.bind].
  unfold db.mapping_of.
  match goal with
  | |- context [Dict.get_default "article" (JObj []) ?d] =>
      change (Dict.get_default "article" (JObj []) d)
        with (Article.model_dump
            (ConsensusResponse.article (AnalyzeResponse.consensus r)))
  end.
  match goal with
  | |- context [Dict.get_default "publication" (JObj []) ?d] =>
      change (Dict.get_default "publication" (JObj []) d)
        with (Publication.model_dump
            (ConsensusResponse.publication (AnalyzeResponse.consensus r)))
  end.
  unfold Article.model_dump, Publication.model_dump.
  cbn [db.py_get Py.bind]. cbv beta iota.
  match goal with
  | |- context [Dict.get_default "evaluations" (JArr []) ?d] =>
      change (Dict.get_default "evaluations" (JArr []) d)
        with (JArr (map ModelEvaluation.model_dump
                        (AnalyzeResponse.evaluations r)))
  end.
  cbn [db.py_iter]. rewrite record_evaluations_dumped. reflexivity.
Qed.

Lemma stored_response_is_counted_witness :
  db.lookup "fairness"
    (fst (db.record_row (db.empty_fields, db.empty_fields)
            (AnalyzeResponse.model_dump_json (Sample.stored_response "High"))))
  = Some [JStr "High"] /\
  db.lookup "fairness"
    (snd (db.record_row (db.empty_fields, db.empty_fields)
            (AnalyzeResponse.model_dump_json (Sample.stored_response "High"))))
  = Some [JStr "High"; JStr "Medium"].
Proof.
  rewrite (stored_response_is_counted (Sample.stored_response "High")
             db.empty_fields db.empty_fields eq_refl).
  split; reflexivity.
Defined.

(** ** A dict inside other text (utils.py) *)

Lemma upto_last_closing (post : string) :
  Str.has_char "}" post = false ->
  forall mid, utils.upto_last "}" (mid ++ String "}" post) =
              Some (mid ++ String "}" "").
Proof.
  intros Hp. induction mid as [| c mid IH]; cbn [append utils.upto_last].
  - rewrite (upto_last_absent _ _ Hp). reflexivity.
  - rewrite IH. reflexivity.
Qed.

Lemma search_brace_span_skip (rest : string) :
  forall pre, Str.has_char "{" pre = false ->
              utils.search_brace_span (pre ++ rest) =
              utils.search_brace_span rest.
Proof.
  induction pre as [| c pre IH]; intros H; [reflexivity |].
  cbn [Str.has_char] in H. apply orb_false_iff in H. destruct H as [Hc Hp].
  cbn [append utils.search_brace_span]. unfold Str.is_char.
  rewrite Ascii.eqb_sym, Hc. apply IH. exact Hp.
Qed.

(** X26: [extract_json_from_text] finds a dict inside other text.  When
    the text before the JSON text of a well-formed dict holds no opening
    brace and the text after it no closing brace, the function returns
    that dict. *)
Theorem extract_json_from_text_finds_the_dict (pre post : string)
    (members : Dict.t) :
  Json.well_formed (JObj members) = true ->
  Str.has_char "{" pre = false ->
  Str.has_char "}" post = false ->
  utils.extract_json_from_text
    (pre ++ Json.dumps false (JObj members) ++ post) = Some (JObj members).
Proof.
  intros Hw Hpre Hpost. unfold utils.extract_json_from_text.
  rewrite (search_brace_span_skip _ pre Hpre).
  destruct (loads_dumps _ Hw) as [Hl _].
  destruct (container_text ", " ": " (JObj members))
    as (o & mid & cl & Et & Hocl); [left; eexists; reflexivity |].
  unfold Json.dumps in *.
  destruct Hocl as [[-> ->] | [-> ->]];
    [| cbn [Json.encode append] in Et; discriminate Et].
  rewrite Et in *.
  cbn [append utils.search_brace_span].
  change (Str.is_char "{" "{") with true. cbv iota.
  rewrite append_assoc. cbn [append]. rewrite (upto_last_closing post Hpost).
  rewrite Hl. reflexivity.
Qed.

Lemma extract_json_from_text_finds_the_dict_witness :
  utils.extract_json_from_text
    ("Here is the evaluation: " ++ Json.dumps false Sample.consensus
     ++ " I hope it helps.") = Some Sample.consensus.
Proof.
  apply (extract_json_from_text_finds_the_dict
           "Here is the evaluation: " " I hope it helps.");
    reflexivity.
Defined.

(** ** An evaluator's answer that is JSON but no object (analysis.py) *)

Lemma match_number_kind (s : string) (v : json) (r : string) :
  Json.match_number s = Some (v, r) -> forall d, v <> JObj d.
Proof.
  unfold Json.match_number.
  destruct (Json.match_integer s) as [[integer r1] |]; [| discriminate].
  destruct (Json.match_frac r1) as [frac r2].
  destruct (Json.match_exp r2) as [exp r3].
  destruct frac; destruct exp; intros H; inversion H; discriminate.
Qed.

Lemma array_items_kind :
  forall fuel acc s v rest,
    Json.array_items fuel acc s = Json.Scanned v rest ->
    exists items, v = JArr items.
Proof.
  induction fuel as [| fuel IH]; intros acc s v rest; cbn [Json.array_items];
    [discriminate |].
  destruct (Json.scan_once fuel s) as [x r1 | |]; try discriminate.
  destruct (Str.after_char "]" (Json.skip_ws r1)).
  - intros H. inversion H. eexists. reflexivity.
  - destruct (Str.after_char "," (Json.skip_ws r1)); [| discriminate].
    apply IH.
Qed.

Lemma span_digits_head (s : string) (d : ascii) (ds r : string) :
  Json.span_digits s = (String d ds, r) -> Str.isdigit d = true.
Proof.
  destruct s as [| c s]; cbn [Json.span_digits]; [discriminate |].
  destruct (Str.isdigit c) eqn:Hc; [| discriminate].
  destruct (Json.span_digits s). intros H. inversion H. subst. exact Hc.
Qed.

(** The integer part of a number starts with a digit or the minus sign. *)
Lemma match_integer_literal_start (s integer r : string) :
  Json.match_integer s = Some (integer, r) ->
  exists c t, integer = String c t /\
              (Str.isdigit c = true \/ c = "-"%char).
Proof.
  unfold Json.match_integer.
  destruct (Str.after_char "-" s) as [body |].
  - destruct (Str.after_char "0" body).
    + intros H. inversion H. exists "-"%char, "0". auto.
    + destruct (Json.span_digits body) as [ds rest].
      destruct ds as [| d ds]; [discriminate |].
      intros H. inversion H. exists "-"%char, (String d ds). auto.
  - destruct (Str.after_char "0" s).
    + intros H. inversion H. exists "0"%char, "". auto.
    + destruct (Json.span_digits s) as [ds rest] eqn:Hs.
      destruct ds as [| d ds]; [discriminate |].
      intros H. inversion H. exists d, ds. split; [reflexivity |].
      left. apply (span_digits_head _ _ _ _ Hs).
Qed.

Lemma float_literal_start (s literal r : string) :
  Json.match_number s = Some (JFloat literal, r) ->
  exists c t, literal = String c t /\
              (Str.isdigit c = true \/ c = "-"%char).
Proof.
  unfold Json.match_number.
  destruct (Json.match_integer s) as [[integer r1] |] eqn:Hi; [| discriminate].
  destruct (match_integer_literal_start _ _ _ Hi) as (c & t & -> & Hc).
  destruct (Json.match_frac r1) as [frac r2].
  destruct (Json.match_exp r2) as [exp r3].
  destruct frac; destruct exp; intros H; inversion H;
    eexists; eexists; (split; [reflexivity | exact Hc]).
Qed.

Lemma number_char_no_brace (c : ascii) :
  Str.isdigit c = true \/ c = "-"%char ->
  Json.is_ws c = false /\ c <> "{"%char.
Proof.
  intros [H | ->]; [| split; [reflexivity | discriminate]].
  destruct c as [[] [] [] [] [] [] [] []]; try discriminate;
    split; try reflexivity; discriminate.
Qed.

(** What [loads] can return at the top of a text: an object only for a
    text that starts, after its blanks, with an opening brace; and a
    number with a fraction or an exponent only with a literal that starts
    as a number, or one of the three names of the values that are no
    number. *)
Lemma loads_top (s : string) (v : json) :
  Json.loads s = Some v ->
  match v with
  | JObj _ => exists r, Json.skip_ws s = String "{" r
  | JFloat literal =>
      exists c t, literal = String c t /\
                  Json.is_ws c = false /\ c <> "{"%char
  | _ => True
  end.
Proof.
  unfold Json.loads, Json.budget. rewrite Nat.add_comm. cbn [Nat.add].
  destruct (Json.skip_ws s) as [| c r]; cbn [Json.scan_once]; [discriminate |].
  destruct (Str.is_char c "034").
  { destruct (Json.scanstring _ r); try discriminate.
    destruct (Json.skip_ws _); [| discriminate].
    intros H. inversion H. exact I. }
  destruct (Str.is_char c "{") eqn:Hc.
  { apply Ascii.eqb_eq in Hc. subst c. intros H.
    destruct v; try exact I; [| exists r; reflexivity].
    exfalso.
    destruct (Str.after_char "}" (Json.skip_ws r)).
    - destruct (Json.skip_ws _); discriminate.
    - destruct (Json.object_pairs _ _ _) as [x rest | |] eqn:Ho;
        try discriminate.
      destruct (object_pairs_dict _ _ _ _ _ Ho) as [members ->].
      destruct (Json.skip_ws rest); discriminate. }
  destruct (Str.is_char c "[").
  { destruct (Str.after_char "]" (Json.skip_ws r)).
    - destruct (Json.skip_ws _); [| discriminate].
      intros H. inversion H. exact I.
    - destruct (Json.array_items _ _ _) as [x rest | |] eqn:Ha;
        try discriminate.
      destruct (array_items_kind _ _ _ _ _ Ha) as [items ->].
      destruct (Json.skip_ws rest); [| discriminate].
      intros H. inversion H. exact I. }
  destruct (Str.startswith "null" (String c r)).
  { destruct (Json.skip_ws _); [| discriminate].
    intros H. inversion H. exact I. }
  destruct (Str.startswith "true" (String c r)).
  { destruct (Json.skip_ws _); [| discriminate].
    intros H. inversion H. exact I. }
  destruct (Str.startswith "false" (String c r)).
  { destruct (Json.skip_ws _); [| discriminate].
    intros H. inversion H. exact I. }
  destruct (Json.match_number (String c r)) as [[x rest] |] eqn:Hn.
  { destruct (Json.skip_ws rest); [| discriminate].
    intros H. inversion H. subst x.
    destruct v; try exact I.
    - destruct (float_literal_start _ _ _ Hn) as (d & t & -> & Hd).
      exists d, t. split; [reflexivity |]. apply number_char_no_brace. exact Hd.
    - exfalso. apply (match_number_kind _ _ _ Hn members). reflexivity. }
  destruct (Str.startswith "NaN" (String c r)).
  { destruct (Json.skip_ws _); [| discriminate].
    intros H. inversion H. eexists; eexists.
    split; [reflexivity |]. split; [reflexivity | discriminate]. }
  destruct (Str.startswith "Infinity" (String c r)).
  { destruct (Json.skip_ws _); [| discriminate].
    intros H. inversion H. eexists; eexists.
    split; [reflexivity |]. split; [reflexivity | discriminate]. }
  destruct (Str.startswith "-Infinity" (String c r)).
  { destruct (Json.skip_ws _); [| discriminate].
    intros H. inversion H. eexists; eexists.
    split; [reflexivity |]. split; [reflexivity | discriminate]. }
  discriminate.
Qed.

(** The first character of the text [json.dumps] writes for a decoded
    value that is no object. *)
Lemma dumps_first_of_loaded (ensure_ascii : bool) (s : string) (v : json) :
  Json.loads s = Some v ->
  (forall d, v <> JObj d) ->
  exists c t, Json.dumps ensure_ascii v = String c t /\
              Json.is_ws c = false /\ c <> "{"%char.
Proof.
  intros Hl Hd. pose proof (loads_top s v Hl) as Htop. unfold Json.dumps.
  destruct v as [| b | z | literal | x | items | members].
  - exists "n"%char, "ull". repeat split. discriminate.
  - destruct b; eexists; eexists; (split; [reflexivity |]);
      split; [reflexivity | discriminate | reflexivity | discriminate].
  - cbn [Json.encode].
    destruct (match_number_start _ _ _ (match_number_of_Z z))
      as (c & t & E & Hc).
    exists c, t. split; [exact E | apply number_char_no_brace; exact Hc].
  - cbn [Json.encode]. exact Htop.
  - cbn [Json.encode]. unfold Json.encode_basestring.
    eexists; eexists. split; [reflexivity |].
    split; [reflexivity | discriminate].
  - cbn [Json.encode append]. eexists; eexists. split; [reflexivity |].
    split; [reflexivity | discriminate].
  - exfalso. apply (Hd members). reflexivity.
Qed.

(** The record of an answer whose text decodes to a value that is no
    object cannot be built, in either branch. *)
Lemma non_object_answer_record (model raw : json) (s : string) (v : json) :
  Json.loads s = Some v ->
  (forall d, v <> JObj d) ->
  analysis.evaluate_result (models.Answer model (JStr s) raw) =
    Raise (AttributeError "object has no attribute 'get'") /\
  exists e,
    analysis.evaluate_result_stream (models.Answer model (JStr s) raw) =
    Raise e.
Proof.
  intros Hl Hd.
  unfold analysis.evaluate_result, analysis.evaluate_result_stream.
  cbn [models.get Py.bind].
  change (String.eqb "text" "model") with false.
  change (String.eqb "text" "text") with true.
  change (String.eqb "model" "model") with true. cbv iota.
  cbn [analysis.parse_text Py.bind]. rewrite Hl. split.
  - destruct v as [| ? | ? | ? | ? | ? | members]; try reflexivity.
    exfalso. apply (Hd members). reflexivity.
  - assert (Hno : forall d, Json.loads (Json.dumps true v) <> Some (JObj d)).
    { intros d Hj. pose proof (loads_top _ _ Hj) as [r Hr].
      destruct (dumps_first_of_loaded true s v Hl Hd) as (c & t & E & Hws & Hc).
      rewrite E in Hr. unfold Json.skip_ws in Hr. cbn [Str.lstrip_by] in Hr.
      rewrite Hws in Hr. inversion Hr. congruence. }
    destruct (Json.loads (Json.dumps true v)) as [w |] eqn:Hj.
    + destruct w as [| | | | | | d];
        [.. | exfalso; apply (Hno d); reflexivity];
        (destruct v as [| ? | ? | ? | ? | ? | members];
         [.. | exfalso; apply (Hd members); reflexivity];
         eexists; reflexivity).
    + destruct v as [| ? | ? | ? | ? | ? | members];
        [.. | exfalso; apply (Hd members); reflexivity];
        eexists; reflexivity.
Qed.

Lemma collect_raises (raw : list analysis.gathered) (r : models.response)
    (e : exn) :
  In (analysis.Result r) raw ->
  analysis.evaluate_result r = Raise e ->
  (forall x, ~ In (analysis.Raised x) raw) ->
  forall acc, exists ex, analysis.collect raw acc = Raise ex.
Proof.
  intros Hin He. revert Hin.
  induction raw as [| g rest IH]; intros Hin Hno acc; [contradiction |].
  destruct g as [x | r']; [exfalso; apply (Hno x); left; reflexivity |].
  cbn [analysis.collect].
  destruct (analysis.evaluate_result r') as [ev |] eqn:Hev; cbn [Py.bind];
    [| eexists; reflexivity].
  destruct Hin as [Hin | Hin].
  - inversion Hin. subst r'. congruence.
  - apply IH; [exact Hin |]. intros x Hx. apply (Hno x). right. exact Hx.
Qed.

Lemma stream_loop_raises (raw : list analysis.gathered) (r : models.response)
    (e : exn) :
  In (analysis.Result r) raw ->
  analysis.evaluate_result_stream r = Raise e ->
  (forall x, ~ In (analysis.Raised x) raw) ->
  forall acc bound,
    exists ex, snd (analysis.stream_loop raw acc bound) = Raise ex.
Proof.
  intros Hin He. revert Hin.
  induction raw as [| g rest IH]; intros Hin Hno acc bound; [contradiction |].
  destruct g as [x | r']; [exfalso; apply (Hno x); left; reflexivity |].
  cbn [analysis.stream_loop].
  destruct (analysis.evaluate_result_stream r') as [ev |] eqn:Hev;
    [| eexists; reflexivity].
  destruct Hin as [Hin | Hin].
  - inversion Hin. subst r'. congruence.
  - destruct (IH Hin (fun x Hx => Hno x (or_intror Hx))
                 (acc ++ [ev])%list (Some ev)) as [ex Hex].
    destruct (analysis.stream_loop rest (acc ++ [ev]) (Some ev)) as [fs out].
    exists ex. exact Hex.
Qed.

(** X27: an evaluator whose answer text is JSON but no object (a list, a
    text, a number, a truth value or null, however it is written) ends
    the run.  The record of such an answer cannot be built: the
    non-streaming branch raises AttributeError where it reads the record,
    and the pass of the streaming branch through [json.dumps] and
    [json.loads] never turns the value into a dict.  Whenever one of the
    dispatched calls was answered so, neither the non-streaming nor the
    streaming run returns a response, and the stream carries status and
    evaluation frames only, no done event. *)
Theorem non_object_answer_ends_the_run (w : analysis.World)
    (p : analysis.Prepared) (model raw : json) (s : string) (v : json) :
  In (analysis.Result (models.Answer model (JStr s) raw))
     (analysis.raw_results w p) ->
  Json.loads s = Some v ->
  (forall d, v <> JObj d) ->
  analysis.evaluate_result (models.Answer model (JStr s) raw) =
    Raise (AttributeError "object has no attribute 'get'") /\
  is_ok (analysis.run_to_completion w p) = false /\
  is_ok (snd (analysis.event_stream w p)) = false /\
  Forall (utils.is_frame ["status"; "evaluation"])
         (fst (analysis.event_stream w p)).
Proof.
  intros Hin Hl Hd.
  destruct (non_object_answer_record model raw s v Hl Hd) as [Hrec [e Hstr]].
  split; [exact Hrec |].
  assert (Hboth : is_ok (analysis.run_to_completion w p) = false /\
                  is_ok (snd (analysis.event_stream w p)) = false).
  { destruct (raised_or_not (analysis.raw_results w p)) as [[x Hx] | Hno].
    - split; [| apply (event_stream_fails_after_raised w p x Hx)].
      apply In_nth_error in Hx. destruct Hx as [i Hi].
      apply (run_to_completion_fails_after_raised w p i x Hi).
    - split.
      + unfold analysis.run_to_completion.
        destruct (collect_raises _ _ _ Hin Hrec Hno []) as [ex Hex].
        rewrite Hex. reflexivity.
      + unfold analysis.event_stream.
        destruct (stream_loop_raises _ _ _ Hin Hstr Hno [] None) as [ex Hex].
        destruct (analysis.stream_loop (analysis.raw_results w p) [] None)
          as [f1 looped].
        simpl in Hex. subst looped. reflexivity. }
  destruct Hboth as [Hrun Hstream]. split; [exact Hrun |].
  split; [exact Hstream |].
  destruct (event_stream_frames w p) as (_ & _ & Hraise).
  destruct (snd (analysis.event_stream w p)) as [fin | ex] eqn:Hs;
    [discriminate |].
  apply (Hraise ex). reflexivity.
Qed.

Lemma non_object_answer_ends_the_run_witness :
  is_ok (analysis.run_to_completion
           (Sample.with_evaluators Sample.second_call_answers_a_list
                                   Sample.world)
           Sample.prepared) = false /\
  is_ok (snd (analysis.event_stream
                (Sample.with_evaluators Sample.second_call_answers_a_list
                                        Sample.world)
                Sample.prepared)) = false.
Proof.
  destruct (non_object_answer_ends_the_run
              (Sample.with_evaluators Sample.second_call_answers_a_list
                                      Sample.world)
              Sample.prepared (JStr "provider/model")
              (Sample.answer_body "[1,2]") "[1,2]"
              (JArr [JInt 1; JInt 2]))
    as (_ & Hrun & Hstream & _).
  - vm_compute. right. left. reflexivity.
  - vm_compute. reflexivity.
  - discriminate.
  - split; [exact Hrun | exact Hstream].
Defined.

(** ** No control character in JSON text; the lines of a frame *)

Lemma low_neq (c d : ascii) :
  (Str.ord c < 32)%nat -> (32 <= Str.ord d)%nat -> Ascii.eqb c d = false.
Proof.
  intros Hc Hd. destruct (Ascii.eqb_spec c d) as [-> | _];
    [lia | reflexivity].
Qed.

Lemma has_char_app (c : ascii) (b : string) :
  forall a, Str.has_char c (a ++ b) = Str.has_char c a || Str.has_char c b.
Proof.
  induction a as [| d a IH]; cbn [append Str.has_char]; [reflexivity |].
  rewrite IH. apply orb_assoc.
Qed.

Lemma hex_digit_high (n : N) :
  (32 <= Str.ord (Json.hex_digit (n mod 16)))%nat.
Proof.
  assert (Hlt : (n mod 16 < 16)%N) by (apply N.mod_lt; discriminate).
  assert (Hall : forallb (fun k => (32 <=? Str.ord (Json.hex_digit (N.of_nat k)))%nat)
                         (seq 0 16) = true) by (vm_compute; reflexivity).
  rewrite forallb_forall in Hall.
  generalize dependent (n mod 16)%N. intros k Hlt.
  assert (E : k = N.of_nat (N.to_nat k)) by lia.
  rewrite E. apply Nat.leb_le. apply Hall. apply in_seq. lia.
Qed.

Ltac low_chars Hc :=
  cbn [append Str.has_char];
  repeat (rewrite (low_neq _ _ Hc)
            by (first [apply hex_digit_high | vm_compute; lia]));
  cbn [orb].

Lemma escape_u_clean (c : ascii) (n : N) :
  (Str.ord c < 32)%nat -> Str.has_char c (Json.escape_u n) = false.
Proof.
  intros Hc. unfold Json.escape_u. low_chars Hc. reflexivity.
Qed.

Lemma escape_named_clean (c d : ascii) (e : string) :
  (Str.ord c < 32)%nat ->
  Json.escape_named d = Some e -> Str.has_char c e = false.
Proof.
  intros Hc. unfold Json.escape_named.
  repeat match goal with
         | |- context [if Str.is_char d ?x then _ else _] =>
             destruct (Str.is_char d x)
         end;
    intros H; inversion H; subst; low_chars Hc; reflexivity.
Qed.

Lemma escape_body_clean (c : ascii) (ensure_ascii : bool) :
  (Str.ord c < 32)%nat ->
  forall s, Str.has_char c (Json.escape_body ensure_ascii s) = false.
Proof.
  intros Hc. induction s as [| d s IH]; [reflexivity |].
  cbn [Json.escape_body].
  destruct (Json.escape_named d) as [e |] eqn:He.
  { rewrite has_char_app, (escape_named_clean c d e Hc He), IH. reflexivity. }
  destruct (Str.ord d <? 32)%nat eqn:Hd.
  { rewrite has_char_app, (escape_u_clean c _ Hc), IH. reflexivity. }
  apply Nat.ltb_ge in Hd.
  destruct (negb ensure_ascii || Str.between 32 126 d).
  { cbn [Str.has_char]. rewrite (low_neq c d Hc Hd), IH. reflexivity. }
  destruct (Str.between 128 191 d); [exact IH |].
  cbv zeta. rewrite has_char_app, IH.
  destruct (N.ltb _ 65536);
    rewrite ?has_char_app, !(escape_u_clean c _ Hc); reflexivity.
Qed.

Lemma encode_basestring_clean (c : ascii) (ensure_ascii : bool) (s : string) :
  (Str.ord c < 32)%nat ->
  Str.has_char c (Json.encode_basestring ensure_ascii s) = false.
Proof.
  intros Hc. unfold Json.encode_basestring. cbn [Str.has_char].
  rewrite has_char_app, (escape_body_clean c _ Hc).
  low_chars Hc. reflexivity.
Qed.

Lemma isdigit_high (d : ascii) :
  Str.isdigit d = true -> (32 <= Str.ord d)%nat.
Proof.
  unfold Str.isdigit, Str.between. intros H.
  apply andb_true_iff in H. destruct H as [H _]. apply Nat.leb_le in H. lia.
Qed.

Lemma span_digits_clean (c : ascii) :
  (Str.ord c < 32)%nat ->
  forall s ds r, Json.span_digits s = (ds, r) -> Str.has_char c ds = false.
Proof.
  intros Hc. induction s as [| d s IH]; intros ds r; cbn [Json.span_digits].
  - intros H. inversion H. reflexivity.
  - destruct (Str.isdigit d) eqn:Hd.
    + destruct (Json.span_digits s) as [ds' rest] eqn:Hs.
      intros H. inversion H. subst. cbn [Str.has_char].
      rewrite (low_neq c d Hc (isdigit_high d Hd)). apply (IH _ _ eq_refl).
    + intros H. inversion H. reflexivity.
Qed.

Lemma match_integer_clean (c : ascii) (s integer r : string) :
  (Str.ord c < 32)%nat ->
  Json.match_integer s = Some (integer, r) -> Str.has_char c integer = false.
Proof.
  intros Hc. unfold Json.match_integer.
  assert (Hbody : forall body sign,
            Str.has_char c sign = false ->
            match Str.after_char "0" body with
            | Some r0 => Some (sign ++ "0", r0)
            | None =>
                match Json.span_digits body with
                | ("", _) => None
                | (ds, rest) => Some (sign ++ ds, rest)
                end
            end = Some (integer, r) -> Str.has_char c integer = false).
  { intros body sign Hsign.
    destruct (Str.after_char "0" body).
    - intros H. inversion H. rewrite has_char_app, Hsign.
      low_chars Hc. reflexivity.
    - destruct (Json.span_digits body) as [ds rest] eqn:Hs.
      pose proof (span_digits_clean c Hc _ _ _ Hs) as Hds.
      destruct ds; [discriminate |].
      intros H. inversion H. rewrite has_char_app, Hsign, Hds. reflexivity. }
  destruct (Str.after_char "-" s); apply Hbody;
    [low_chars Hc; reflexivity | reflexivity].
Qed.

Lemma match_frac_clean (c : ascii) (s : string) :
  (Str.ord c < 32)%nat -> Str.has_char c (fst (Json.match_frac s)) = false.
Proof.
  intros Hc. unfold Json.match_frac.
  destruct (Str.after_char "." s) as [r |]; [| reflexivity].
  destruct (Json.span_digits r) as [ds rest] eqn:Hs.
  pose proof (span_digits_clean c Hc _ _ _ Hs) as Hds.
  destruct ds; [reflexivity |]. cbn [fst].
  cbn [Str.has_char] in *. rewrite Hds.
  rewrite (low_neq c "." Hc) by (vm_compute; lia). reflexivity.
Qed.

Lemma match_exp_clean (c : ascii) (s : string) :
  (Str.ord c < 32)%nat -> Str.has_char c (fst (Json.match_exp s)) = false.
Proof.
  intros Hc. unfold Json.match_exp. destruct s as [| e r]; [reflexivity |].
  destruct (Str.is_char e "e" || Str.is_char e "E") eqn:He; [| reflexivity].
  assert (Hhigh : (32 <= Str.ord e)%nat).
  { apply orb_true_iff in He. unfold Str.is_char in He.
    destruct He as [He | He]; apply Ascii.eqb_eq in He; subst e;
      vm_compute; lia. }
  assert (Hsign : forall sign r1,
            Str.has_char c sign = false ->
            Str.has_char c
              (fst match Json.span_digits r1 with
                   | ("", _) => ("", String e r)
                   | (ds, rest) => (String e (sign ++ ds), rest)
                   end) = false).
  { intros sign r1 Hs.
    destruct (Json.span_digits r1) as [ds rest] eqn:Hd.
    pose proof (span_digits_clean c Hc _ _ _ Hd) as Hds.
    destruct ds; [reflexivity |]. cbn [fst Str.has_char].
    rewrite (low_neq c e Hc Hhigh), has_char_app, Hs.
    cbn [orb]. exact Hds. }
  destruct (Str.after_char "-" r);
    [apply Hsign; low_chars Hc; reflexivity |].
  destruct (Str.after_char "+" r); apply Hsign;
    [low_chars Hc; reflexivity | reflexivity].
Qed.

Lemma number_literal_clean (c : ascii) (literal : string) :
  (Str.ord c < 32)%nat ->
  Json.is_number_literal literal = true -> Str.has_char c literal = false.
Proof.
  intros Hc Hw. pose proof (number_literal _ Hw) as H.
  unfold Json.match_number in H.
  destruct (Json.match_integer literal) as [[integer r1] |] eqn:Hi;
    [| discriminate].
  pose proof (match_integer_clean c _ _ _ Hc Hi) as H1.
  pose proof (match_frac_clean c r1 Hc) as H2.
  destruct (Json.match_frac r1) as [frac r2].
  pose proof (match_exp_clean c r2 Hc) as H3.
  destruct (Json.match_exp r2) as [exp r3]. cbn [fst] in *.
  assert (E : literal = integer ++ frac ++ exp).
  { destruct frac; destruct exp; inversion H; reflexivity. }
  rewrite E, !has_char_app, H1, H2, H3. reflexivity.
Qed.

Lemma string_of_uint_clean (c : ascii) :
  (Str.ord c < 32)%nat ->
  forall d, Str.has_char c (NilEmpty.string_of_uint d) = false.
Proof.
  intros Hc.
  induction d as [| d IH | d IH | d IH | d IH | d IH | d IH | d IH | d IH
                  | d IH | d IH];
    cbn [NilEmpty.string_of_uint Str.has_char]; [reflexivity | ..];
    rewrite IH; rewrite (low_neq _ _ Hc) by (vm_compute; lia); reflexivity.
Qed.

Lemma of_Z_clean (c : ascii) (z : Z) :
  (Str.ord c < 32)%nat -> Str.has_char c (Str.of_Z z) = false.
Proof.
  intros Hc. unfold Str.of_Z, NilEmpty.string_of_int.
  destruct (Z.to_int z); [apply (string_of_uint_clean c Hc) |].
  cbn [Str.has_char]. rewrite (string_of_uint_clean c Hc).
  rewrite (low_neq _ _ Hc) by (vm_compute; lia). reflexivity.
Qed.

Lemma join_clean (c : ascii) (sep : string) :
  Str.has_char c sep = false ->
  forall l, Forall (fun s => Str.has_char c s = false) l ->
            Str.has_char c (Json.join sep l) = false.
Proof.
  intros Hsep. induction l as [| x l IH]; intros H; [reflexivity |].
  inversion H as [| ? ? Hx Hl]; subst. cbn [Json.join].
  destruct l as [| y l]; [exact Hx |].
  rewrite !has_char_app, Hx, Hsep, (IH Hl). reflexivity.
Qed.

Lemma encode_clean (c : ascii) (isep ksep : string) (ensure_ascii : bool) :
  (Str.ord c < 32)%nat ->
  Str.has_char c isep = false -> Str.has_char c ksep = false ->
  forall v, Json.well_formed v = true ->
            Str.has_char c (Json.encode isep ksep ensure_ascii v) = false.
Proof.
  intros Hc Hisep Hksep.
  apply (json_induction (fun v =>
    Json.well_formed v = true ->
    Str.has_char c (Json.encode isep ksep ensure_ascii v) = false)).
  - intros _. cbn [Json.encode]. low_chars Hc. reflexivity.
  - intros [] _; cbn [Json.encode]; low_chars Hc; reflexivity.
  - intros z _. apply (of_Z_clean c z Hc).
  - intros literal Hw. apply (number_literal_clean c literal Hc Hw).
  - intros s _. apply (encode_basestring_clean c _ s Hc).
  - intros items IH Hw. cbn [Json.encode Json.well_formed] in *.
    rewrite !has_char_app. rewrite join_clean; [low_chars Hc; reflexivity
                                                | exact Hisep |].
    rewrite forallb_forall in Hw. rewrite Forall_forall in *.
    intros s Hs. apply in_map_iff in Hs. destruct Hs as (x & <- & Hx).
    apply (IH x Hx). apply (Hw x Hx).
  - intros members IH Hw. cbn [Json.encode Json.well_formed] in *.
    apply andb_true_iff in Hw. destruct Hw as [_ Hw].
    rewrite !has_char_app. rewrite join_clean; [low_chars Hc; reflexivity
                                                | exact Hisep |].
    rewrite forallb_forall in Hw. rewrite Forall_forall in *.
    intros s Hs. apply in_map_iff in Hs. destruct Hs as (kv & <- & Hkv).
    rewrite !has_char_app, (encode_basestring_clean c _ _ Hc), Hksep.
    cbn [orb]. apply (IH kv Hkv). apply (Hw kv Hkv).
Qed.

(** [json.dumps] writes no control character.  Whatever the texts inside
    a well-formed value hold, its JSON text, with either setting of
    [ensure_ascii], and the compact text of [model_dump_json] hold no
    character below the blank: no line break, no carriage return, no
    tab. *)
Lemma dumps_writes_no_control_character (ensure_ascii : bool) (v : json)
    (c : ascii) :
  Json.well_formed v = true ->
  (Str.ord c < 32)%nat ->
  Str.has_char c (Json.dumps ensure_ascii v) = false /\
  Str.has_char c (Json.dumps_compact v) = false.
Proof.
  intros Hw Hc. split.
  - apply (encode_clean c ", " ": " ensure_ascii Hc); [| | exact Hw];
      low_chars Hc; reflexivity.
  - apply (encode_clean c "," ":" false Hc); [| | exact Hw];
      low_chars Hc; reflexivity.
Qed.

Lemma split_char_first (sep : ascii) (b : string) :
  forall a, Str.has_char sep a = false ->
            Str.split_char sep (a ++ String sep b) = a :: Str.split_char sep b.
Proof.
  induction a as [| c a IH]; intros H; cbn [append Str.split_char].
  - rewrite Ascii.eqb_refl. reflexivity.
  - cbn [Str.has_char] in H. apply orb_false_iff in H. destruct H as [Hc Ha].
    rewrite Ascii.eqb_sym, Hc. rewrite (IH Ha). reflexivity.
Qed.

(** X28: a payload that is no text never breaks its frame.  For an event
    name without a line break and a well-formed payload other than a
    [str], the frame of [sse_event] splits at the line breaks into exactly
    the line of the event, the line of the data, and two empty pieces for
    the blank line that ends it; the payload is read back from its line
    by [json.loads]. *)
Theorem sse_event_is_two_lines_and_a_blank (event : string) (data : json) :
  Str.has_char (Str.chr 10) event = false ->
  Json.well_formed data = true ->
  (forall s, data <> JStr s) ->
  Str.split_char (Str.chr 10) (utils.sse_event event data) =
    ["event: " ++ event; "data: " ++ Json.dumps false data; ""; ""] /\
  Json.loads (Json.dumps false data) = Some data.
Proof.
  intros Hev Hw Hd. split; [| apply (loads_dumps data Hw)].
  assert (E : utils.sse_event event data =
              ("event: " ++ event) ++
              String (Str.chr 10)
                (("data: " ++ Json.dumps false data) ++
                 String (Str.chr 10) (String (Str.chr 10) ""))).
  { unfold utils.sse_event.
    destruct data as [| b | z | literal | s | items | members];
      try (rewrite !append_assoc; reflexivity).
    exfalso. apply (Hd s). reflexivity. }
  rewrite E. clear E.
  assert (Hnl : (Str.ord (Str.chr 10) < 32)%nat) by (vm_compute; lia).
  rewrite split_char_first.
  - rewrite split_char_first; [reflexivity |].
    rewrite has_char_app. unfold Json.dumps.
    rewrite (encode_clean (Str.chr 10) ", " ": " false Hnl eq_refl eq_refl
               data Hw).
    reflexivity.
  - rewrite has_char_app, Hev. reflexivity.
Qed.

Lemma sse_event_is_two_lines_and_a_blank_witness :
  Str.split_char (Str.chr 10) (utils.sse_event "consensus" Sample.consensus) =
    ["event: consensus"; "data: " ++ Json.dumps false Sample.consensus; "";
     ""] /\
  Json.loads (Json.dumps false Sample.consensus) = Some Sample.consensus.
Proof.
  apply (sse_event_is_two_lines_and_a_blank "consensus" Sample.consensus);
    [reflexivity | reflexivity | discriminate].
Defined.
